(** * ST-series servo controller: the control engine of [backend/app.py]

    A shallow embedding of [ServoController] (connection handling, ID
    change, pattern creation, pause, the per-servo movement worker, the
    group sync writer) together with the properties its specification
    states about them.

    Conventions of the embedding.
    - Python dictionaries are finite maps from strings to dynamically
      typed values ([val]); [pattern.get(k, d)] is a lookup with a default,
      [pattern[k]] a lookup that raises when the key is missing.
    - A pattern dictionary is a heap object: [movement_patterns] maps a
      servo id to a location, and the worker receives that location, so
      that the facade and the worker see each other's writes.
    - Everything the controller does to the outside (SDK calls, thread
      operations, sleeps, lock operations, writes to pattern objects) is
      recorded in a chronological trace.  The replies of the outside world
      come from a function [bus] of the trace so far and of the call; the
      properties below hold for every such function.
    - Python exceptions are the result [Exn]; a thread that blocks for ever
      on a lock it already holds is the result [Hang].
    - Numbers are integers; [True] and [False] count as 1 and 0, as they do
      in Python.  The clock and the sine term of the wave pattern are
      supplied by the outside world.  A floating-point number in a request
      or in a pattern has no counterpart among the values: what is stated
      for every pattern is stated for the patterns that hold none.
    - A string is its sequence of code points, each below 256.
    - Servo ids are integers: they are the keys of [movement_patterns] and
      of [continuous_movement_threads] and the addresses of the SDK calls.
    - One thread runs at a time: a worker iteration is not interleaved
      with a facade call, except in the schedule that is written out for
      a pause that meets a worker in the middle of its turn. *)

From stdpp Require Import gmap strings list fin_maps.
From Stdlib Require Import ZArith Lia.

Local Open Scope Z_scope.

(** ** Python values *)

#[warnings="-register-all"]
Inductive val :=
  | VNone
  | VBool (b : bool)
  | VInt (z : Z)
  | VStr (s : string)
  | VDict (d : gmap string val).

Abbreviation pydict := (gmap string val).

(** [isinstance(v, (int, float))]: the numeric reading of a value. *)
Definition num (v : val) : option Z :=
  match v with
  | VInt z => Some z
  | VBool b => Some (Z.b2z b)
  | _ => None
  end.

Definition is_number (v : val) : bool :=
  match num v with Some _ => true | None => false end.

(** [isinstance(v, int)] *)
Definition is_int (v : val) : bool := is_number v.

(** Truth value of [v] in a condition. *)
Definition truthy (v : val) : bool :=
  match v with
  | VNone => false
  | VBool b => b
  | VInt z => negb (z =? 0)
  | VStr s => negb (String.eqb s EmptyString)
  | VDict d => negb (Nat.eqb (size d) 0)
  end.

Definition is_none (v : val) : bool :=
  match v with VNone => true | _ => false end.

(** [v == "s"] for a string literal. *)
Definition eq_str (v : val) (s : string) : bool :=
  match v with VStr t => String.eqb t s | _ => false end.

(** [v == z] for an integer literal. *)
Definition eq_int (v : val) (z : Z) : bool :=
  match num v with Some n => n =? z | None => false end.

(** [a < b]; [None] is a [TypeError]. *)
Definition py_lt (a b : val) : option bool :=
  match num a, num b with
  | Some x, Some y => Some (x <? y)
  | _, _ =>
      match a, b with
      | VStr s, VStr t => Some (String.ltb s t)
      | _, _ => None
      end
  end.

Definition py_gt (a b : val) : option bool := py_lt b a.

(** [a <= b] *)
Definition py_le (a b : val) : option bool :=
  match num a, num b with
  | Some x, Some y => Some (x <=? y)
  | _, _ =>
      match a, b with
      | VStr s, VStr t => Some (String.leb s t)
      | _, _ => None
      end
  end.

Definition py_ge (a b : val) : option bool := py_le b a.

(** [v + 1] as used by [+= 1] on a counter. *)
Definition py_incr (v : val) : option val :=
  match num v with Some n => Some (VInt (n + 1)) | None => None end.

(** [v * -1] as used by [*= -1]: a string repeated a negative number of
    times is the empty string. *)
Definition py_negate (v : val) : option val :=
  match v with
  | VStr _ => Some (VStr EmptyString)
  | _ => match num v with Some n => Some (VInt (- n)) | None => None end
  end.

(** The characters [int()] skips around a number: tab to carriage
    return, space, and the two whitespace characters above 127 that a
    string of code points below 256 can hold. *)
Definition is_space (a : Ascii.ascii) : bool :=
  let n := Ascii.nat_of_ascii a in
  ((9 <=? n)%nat && (n <=? 13)%nat) || (n =? 32)%nat || (n =? 133)%nat
  || (n =? 160)%nat.

Definition digit_of (a : Ascii.ascii) : option Z :=
  let n := Z.of_nat (Ascii.nat_of_ascii a) in
  if (48 <=? n) && (n <=? 57) then Some (n - 48) else None.

Fixpoint skip_spaces (s : string) : string :=
  match s with
  | String a rest => if is_space a then skip_spaces rest else s
  | EmptyString => s
  end.

(** The digits of a decimal literal, with single underscores (code 95)
    between digits, up to trailing whitespace; [had_digit] tells whether
    the character before was a digit. *)
Fixpoint scan_digits (had_digit : bool) (acc : Z) (s : string) : option Z :=
  match s with
  | EmptyString => if had_digit then Some acc else None
  | String a rest =>
      match digit_of a with
      | Some d => scan_digits true (10 * acc + d) rest
      | None =>
          if negb had_digit then None
          else if (Ascii.nat_of_ascii a =? 95)%nat then scan_digits false acc rest
          else match skip_spaces s with EmptyString => Some acc | _ => None end
      end
  end.

(** [int(s)] on a string, read as its sequence of code points: optional
    whitespace, an optional sign (codes 45 and 43), decimal digits;
    [None] is a [ValueError].  The bound that recent interpreters put on
    the number of digits is not modelled. *)
Definition int_of_string (s : string) : option Z :=
  match skip_spaces s with
  | String a rest =>
      if (Ascii.nat_of_ascii a =? 45)%nat then
        option_map Z.opp (scan_digits false 0 rest)
      else if (Ascii.nat_of_ascii a =? 43)%nat then scan_digits false 0 rest
      else scan_digits false 0 (String a rest)
  | EmptyString => None
  end.

(** [int(v)]: a number is itself, a string is parsed, [None] and a
    dictionary are a [TypeError]. *)
Definition py_int (v : val) : option Z :=
  match v with
  | VStr s => int_of_string s
  | _ => num v
  end.

(** [max(lo, min(hi, v))] *)
Definition clamp (lo hi : Z) (v : val) : option Z :=
  match num v with
  | Some n => Some (Z.max lo (Z.min hi n))
  | None => None
  end.

Definition dict_get (d : pydict) (k : string) (dflt : val) : val :=
  default dflt (d !! k).

(** ** The outside world *)

(** Modelled from the spec: the transport results of the servo SDK
    ([Success | TxFail | RxTimeout | RxCorrupt | Busy]); the SDK module
    that declares them is not part of the source file.  [COMM_TX_ERROR]
    is the constant [app.py] returns itself. *)
Inductive comm_result :=
  | COMM_SUCCESS
  | COMM_TX_FAIL
  | COMM_RX_TIMEOUT
  | COMM_RX_CORRUPT
  | COMM_PORT_BUSY
  | COMM_TX_ERROR.

Definition comm_ok (c : comm_result) : bool :=
  match c with COMM_SUCCESS => true | _ => false end.

(** Modelled from the spec: the symbolic register map of the servo control
    table (section 4.C); only the names used by the embedded functions. *)
Inductive register :=
  | STS_ID
  | STS_BAUD_RATE
  | STS_MIN_ANGLE_LIMIT_L
  | STS_MAX_ANGLE_LIMIT_L
  | STS_MODE
  | STS_TORQUE_ENABLE
  | STS_PRESENT_VOLTAGE.

Definition loc := nat.
Definition tid := nat.

(** Calls that leave the controller: the packet handler, the port handler,
    the group sync writer, the thread library and the sampled sine term. *)
Inductive call :=
  | ClosePort
  | Ping (id : Z)
  | ReadPos (id : Z)
  | WritePosEx (id pos speed acc : Z)
  | WriteSpec (id speed acc : Z)
  | Write1ByteTxRx (id : Z) (reg : register) (v : Z)
  | Write2ByteTxRx (id : Z) (reg : register) (v : Z)
  | UnLockEprom (id : Z)
  | LockEprom (id : Z)
  | SyncWritePosEx (id pos speed acc : Z)
  | ClearParam
  | TxPacket
  | ThreadStart (t : tid) (id : Z) (l : loc)
  | ThreadIsAlive (t : tid)
  | ThreadJoin (t : tid) (timeout_ms : Z)
  | MonitorIsAlive
  | MonitorStart
  | WaveSample (amplitude frequency : Z).

(** A call either raises or returns a value and a transport result (calls
    that return only one of the two ignore the other). *)
Inductive reply :=
  | Raised
  | Reply (v : Z) (c : comm_result).

Inductive lock_id := pause_lock | group_sync_write_lock.

(** Lines printed by the group sync writer. *)
Inductive message :=
  | MsgAdded (id : Z)
  | MsgAddFailed (id : Z)
  | MsgNoneAdded
  | MsgExecuted (added : list Z)
  | MsgNotAdded (failed : list Z).

Inductive event :=
  | EvCall (c : call) (r : reply)
  | EvSleep (ms : Z)
  | EvAcquire (k : lock_id)
  | EvRelease (k : lock_id)
  | EvSet (l : loc) (key : string) (v : val)
  | EvPrint (m : message).

Definition world := list event -> call -> reply.

(** ** Controller state *)

Record cstate := mk_cstate {
  port_handler : bool;
  packet_handler : bool;
  is_connected : bool;
  discovered_servos : gmap Z Z;
  continuous_movement_threads : gmap Z tid;
  movement_patterns : gmap Z loc;
  heap : gmap loc pydict;
  next_loc : loc;
  next_tid : tid;
  group_sync_speed_writer : bool;
  group_sync_position_writer : bool;
  monitoring_active : bool;
  monitoring_thread : bool;
  held : list lock_id;
  trace : list event
}.

Definition with_trace (t : list event) (s : cstate) : cstate :=
  mk_cstate (port_handler s) (packet_handler s) (is_connected s) (discovered_servos s) (continuous_movement_threads s) (movement_patterns s) (heap s) (next_loc s) (next_tid s) (group_sync_speed_writer s) (group_sync_position_writer s) (monitoring_active s) (monitoring_thread s) (held s) t.

Definition with_heap (h : gmap loc pydict) (s : cstate) : cstate :=
  mk_cstate (port_handler s) (packet_handler s) (is_connected s) (discovered_servos s) (continuous_movement_threads s) (movement_patterns s) h (next_loc s) (next_tid s) (group_sync_speed_writer s) (group_sync_position_writer s) (monitoring_active s) (monitoring_thread s) (held s) (trace s).

Definition with_held (k : list lock_id) (s : cstate) : cstate :=
  mk_cstate (port_handler s) (packet_handler s) (is_connected s) (discovered_servos s) (continuous_movement_threads s) (movement_patterns s) (heap s) (next_loc s) (next_tid s) (group_sync_speed_writer s) (group_sync_position_writer s) (monitoring_active s) (monitoring_thread s) k (trace s).

Definition with_patterns (m : gmap Z loc) (s : cstate) : cstate :=
  mk_cstate (port_handler s) (packet_handler s) (is_connected s) (discovered_servos s) (continuous_movement_threads s) m (heap s) (next_loc s) (next_tid s) (group_sync_speed_writer s) (group_sync_position_writer s) (monitoring_active s) (monitoring_thread s) (held s) (trace s).

Definition with_threads (m : gmap Z tid) (s : cstate) : cstate :=
  mk_cstate (port_handler s) (packet_handler s) (is_connected s) (discovered_servos s) m (movement_patterns s) (heap s) (next_loc s) (next_tid s) (group_sync_speed_writer s) (group_sync_position_writer s) (monitoring_active s) (monitoring_thread s) (held s) (trace s).

Definition with_next_loc (n : loc) (s : cstate) : cstate :=
  mk_cstate (port_handler s) (packet_handler s) (is_connected s) (discovered_servos s) (continuous_movement_threads s) (movement_patterns s) (heap s) n (next_tid s) (group_sync_speed_writer s) (group_sync_position_writer s) (monitoring_active s) (monitoring_thread s) (held s) (trace s).

Definition with_next_tid (n : tid) (s : cstate) : cstate :=
  mk_cstate (port_handler s) (packet_handler s) (is_connected s) (discovered_servos s) (continuous_movement_threads s) (movement_patterns s) (heap s) (next_loc s) n (group_sync_speed_writer s) (group_sync_position_writer s) (monitoring_active s) (monitoring_thread s) (held s) (trace s).

Definition with_monitoring (a t : bool) (s : cstate) : cstate :=
  mk_cstate (port_handler s) (packet_handler s) (is_connected s) (discovered_servos s) (continuous_movement_threads s) (movement_patterns s) (heap s) (next_loc s) (next_tid s) (group_sync_speed_writer s) (group_sync_position_writer s) a t (held s) (trace s).

Definition with_connected (b : bool) (s : cstate) : cstate :=
  mk_cstate (port_handler s) (packet_handler s) b (discovered_servos s) (continuous_movement_threads s) (movement_patterns s) (heap s) (next_loc s) (next_tid s) (group_sync_speed_writer s) (group_sync_position_writer s) (monitoring_active s) (monitoring_thread s) (held s) (trace s).

Definition with_discovered (m : gmap Z Z) (s : cstate) : cstate :=
  mk_cstate (port_handler s) (packet_handler s) (is_connected s) m (continuous_movement_threads s) (movement_patterns s) (heap s) (next_loc s) (next_tid s) (group_sync_speed_writer s) (group_sync_position_writer s) (monitoring_active s) (monitoring_thread s) (held s) (trace s).

Definition with_writers (sw pw : bool) (s : cstate) : cstate :=
  mk_cstate (port_handler s) (packet_handler s) (is_connected s) (discovered_servos s) (continuous_movement_threads s) (movement_patterns s) (heap s) (next_loc s) (next_tid s) sw pw (monitoring_active s) (monitoring_thread s) (held s) (trace s).

(** ** The monad of controller code *)

Inductive res (A : Type) :=
  | Ret (a : A)
  | Exn
  | Hang.
Arguments Ret {A} a.
Arguments Exn {A}.
Arguments Hang {A}.

Definition M (S A : Type) : Type := S -> res A * S.

Definition ret {S A} (a : A) : M S A := fun s => (Ret a, s).

Definition bind {S A B} (m : M S A) (f : A -> M S B) : M S B :=
  fun s =>
    match m s with
    | (Ret a, s') => f a s'
    | (Exn, s') => (Exn, s')
    | (Hang, s') => (Hang, s')
    end.

Definition raise {S A} : M S A := fun s => (Exn, s).

(** [try: m  except Exception: h] *)
Definition try_except {S A} (m : M S A) (h : M S A) : M S A :=
  fun s =>
    match m s with
    | (Exn, s') => h s'
    | r => r
    end.

(** [try: m  finally: f] *)
Definition try_finally {S A} (m : M S A) (f : M S unit) : M S A :=
  fun s =>
    match m s with
    | (Hang, s') => (Hang, s')
    | (r, s') =>
        match f s' with
        | (Ret _, s'') => (r, s'')
        | (Exn, s'') => (Exn, s'')
        | (Hang, s'') => (Hang, s'')
        end
    end.

Declare Scope py_scope.
Delimit Scope py_scope with py.
Notation "x <- m ;; k" := (bind m (fun x => k))
  (at level 100, m at next level, right associativity) : py_scope.
Notation "m ;; k" := (bind m (fun _ => k))
  (at level 100, right associativity) : py_scope.
Local Open Scope py_scope.

(** A value that may be a [TypeError]. *)
Definition of_option {S A} (o : option A) : M S A :=
  match o with Some a => ret a | None => raise end.

Definition gets {S A} (f : S -> A) : M S A := fun s => (Ret (f s), s).
Definition modify {S} (f : S -> S) : M S unit := fun s => (Ret tt, f s).

Definition log (e : event) : M cstate unit :=
  modify (fun s => with_trace (trace s ++ [e]) s).

(** [time.sleep(ms / 1000)] *)
Definition sleep (ms : Z) : M cstate unit := log (EvSleep ms).

Definition print (m : message) : M cstate unit := log (EvPrint m).

Definition lock_eqb (a b : lock_id) : bool :=
  match a, b with
  | pause_lock, pause_lock => true
  | group_sync_write_lock, group_sync_write_lock => true
  | _, _ => false
  end.

Definition is_held (k : lock_id) (s : cstate) : bool :=
  existsb (lock_eqb k) (held s).

(** [threading.Lock] is not re-entrant: acquiring a lock that is held
    blocks. *)
Definition acquire (k : lock_id) : M cstate unit :=
  fun s =>
    if is_held k s then (Hang, s)
    else (Ret tt, with_held (k :: held s) (with_trace (trace s ++ [EvAcquire k]) s)).

Definition release (k : lock_id) : M cstate unit :=
  modify (fun s =>
    with_held (filter (fun x => negb (lock_eqb k x)) (held s))
      (with_trace (trace s ++ [EvRelease k]) s)).

(** [with lock: m] *)
Definition with_lock {A} (k : lock_id) (m : M cstate A) : M cstate A :=
  acquire k ;; try_finally m (release k).

(** Pattern objects. *)
Definition pattern_at (l : loc) (s : cstate) : pydict :=
  default ∅ (heap s !! l).

(** [key in pattern] *)
Definition has_key (l : loc) (k : string) : M cstate bool :=
  gets (fun s => match pattern_at l s !! k with Some _ => true | None => false end).

(** [pattern.get(key, dflt)] *)
Definition pget (l : loc) (k : string) (dflt : val) : M cstate val :=
  gets (fun s => dict_get (pattern_at l s) k dflt).

(** [pattern[key]], a [KeyError] when the key is missing *)
Definition pidx (l : loc) (k : string) : M cstate val :=
  o <- gets (fun s => pattern_at l s !! k) ;; of_option o.

(** [pattern[key] = v] *)
Definition pset (l : loc) (k : string) (v : val) : M cstate unit :=
  modify (fun s =>
    with_heap (<[l := <[k := v]> (pattern_at l s)]> (heap s))
      (with_trace (trace s ++ [EvSet l k v]) s)).

(** Allocation of a fresh dictionary object. *)
Definition alloc (d : pydict) : M cstate loc :=
  fun s =>
    (Ret (next_loc s),
     with_next_loc (S (next_loc s)) (with_heap (<[next_loc s := d]> (heap s)) s)).

(** What a facade operation answers: [{"success": True}] or
    [{"success": False, "error": ...}]. *)
Inductive error :=
  | NotConnected
  | InvalidFormat
  | InvalidRange
  | SameId
  | ServoNotFound
  | IdInUse
  | UnlockFailed
  | WriteFailed
  | LockFailed
  | VerifyFailed
  | Unexpected
  | InvalidServoIds
  | InvalidServoId
  | MissingServoId
  | ConstraintsFailed
  | HoldFailed
  | TorqueFailed
  | NoRunningMovement.

Inductive response :=
  | Success
  | Failure (e : error).

Definition is_success (r : response) : bool :=
  match r with Success => true | Failure _ => false end.

(** * The controller *)

Section Controller.

Variable bus : world.

(** A call to the outside: the reply is recorded with the call. *)
Definition ask (c : call) : M cstate (Z * comm_result) :=
  fun s =>
    let r := bus (trace s) c in
    let s' := with_trace (trace s ++ [EvCall c r]) s in
    match r with
    | Raised => (Exn, s')
    | Reply v cr => (Ret (v, cr), s')
    end.

(** [self.packet_handler.<method>(...)]: an [AttributeError] when the
    handler is [None]. *)
Definition sdk (c : call) : M cstate (Z * comm_result) :=
  h <- gets packet_handler ;;
  if h then ask c else raise.

(** ** [disconnect] (lines 92-106) *)
Definition disconnect : M cstate response :=
  h <- gets port_handler ;;
  (if h then (_ <- ask ClosePort ;; ret tt) else ret tt) ;;
  modify (with_connected false) ;;
  modify (with_discovered ∅) ;;
  modify (with_writers false false) ;;
  ret Success.

(** ** [change_servo_id] (lines 561-648) *)
Definition change_servo_id (old_id new_id : val) : M cstate response :=
  c <- gets is_connected ;;
  if negb c then ret (Failure NotConnected) else
  match (if is_int old_id then num old_id else None),
        (if is_int new_id then num new_id else None) with
  | Some old, Some new =>
      if (old <? 0) || (253 <? old) || (new <? 0) || (253 <? new)
      then ret (Failure InvalidRange)
      else if old =? new then ret (Failure SameId)
      else
        try_except
          (p <- sdk (Ping old) ;;
           if negb (comm_ok (snd p)) then ret (Failure ServoNotFound) else
           in_use <- try_except
                       (q <- sdk (Ping new) ;; ret (comm_ok (snd q)))
                       (ret false) ;;
           if in_use then ret (Failure IdInUse) else
           u <- sdk (UnLockEprom old) ;;
           if negb (comm_ok (snd u)) then ret (Failure UnlockFailed) else
           sleep 100 ;;
           w <- sdk (Write1ByteTxRx old STS_ID new) ;;
           if negb (comm_ok (snd w)) then
             try_except (_ <- sdk (LockEprom old) ;; ret tt) (ret tt) ;;
             ret (Failure WriteFailed)
           else
           sleep 150 ;;
           k <- sdk (LockEprom new) ;;
           if negb (comm_ok (snd k)) then ret (Failure LockFailed) else
           sleep 200 ;;
           try_except
             (v <- sdk (Ping new) ;;
              if comm_ok (snd v) then ret Success else ret (Failure VerifyFailed))
             (ret (Failure VerifyFailed)))
          (ret (Failure Unexpected))
  | _, _ => ret (Failure InvalidFormat)
  end.

(** ** [set_angle_limits] (lines 3357-3392) *)
Definition set_angle_limits (servo_id : Z) (min_angle max_angle : val)
    : M cstate response :=
  c <- gets is_connected ;;
  if negb c then ret (Failure NotConnected) else
  try_except
    (u <- sdk (UnLockEprom servo_id) ;;
     if negb (comm_ok (snd u)) then ret (Failure UnlockFailed) else
     sleep 100 ;;
     lo <- of_option (num min_angle) ;;
     a <- sdk (Write2ByteTxRx servo_id STS_MIN_ANGLE_LIMIT_L lo) ;;
     if negb (comm_ok (snd a)) then ret (Failure WriteFailed) else
     sleep 50 ;;
     hi <- of_option (num max_angle) ;;
     b <- sdk (Write2ByteTxRx servo_id STS_MAX_ANGLE_LIMIT_L hi) ;;
     if negb (comm_ok (snd b)) then ret (Failure WriteFailed) else
     sleep 100 ;;
     k <- sdk (LockEprom servo_id) ;;
     if negb (comm_ok (snd k)) then ret (Failure LockFailed) else
     ret Success)
    (ret (Failure Unexpected)).

(** ** [start_periodic_monitoring] (lines 3482-3492) *)
Definition start_periodic_monitoring : M cstate unit :=
  t <- gets monitoring_thread ;;
  alive <- (if t then (r <- ask MonitorIsAlive ;; ret (negb (fst r =? 0)))
            else ret false) ;;
  if alive then ret tt
  else
    modify (with_monitoring true true) ;;
    _ <- ask MonitorStart ;;
    ret tt.

(** ** [start_continuous_movement] (lines 664-761) *)

(** The dictionary built at lines 697-730. *)
Definition new_pattern (config : pydict) (pattern_type speed acceleration
    enable_constraints min_angle max_angle : val) : pydict :=
  let pattern : pydict :=
    <["angle_constraints" :=
        VDict (<["max_angle" := max_angle]>
               (<["min_angle" := min_angle]>
                (<["enabled" := enable_constraints]> ∅)))]>
    (<["current_position" := VInt 0]>
     (<["emergency_stop" := VBool false]>
      (<["immediate_stop" := VBool false]>
       (<["paused" := VBool false]>
        (<["running" := VBool true]>
         (<["acceleration" := acceleration]>
          (<["speed" := speed]>
           (<["type" := pattern_type]> ∅)))))))) in
  if eq_str pattern_type "sweep" then
    <["direction" := VInt 1]>
    (<["max_position" := dict_get config "max_position" (VInt 4095)]>
     (<["min_position" := dict_get config "min_position" (VInt 0)]> pattern))
  else if eq_str pattern_type "wave" then
    <["phase" := VInt 0]>
    (<["center_position" := dict_get config "center_position" (VInt 2048)]>
     (<["frequency" := dict_get config "frequency" (VInt 1)]>
      (<["amplitude" := dict_get config "amplitude" (VInt 1000)]> pattern)))
  else if eq_str pattern_type "rotation" then
    <["direction" := dict_get config "direction" (VInt 1)]> pattern
  else pattern.

(** [d.get(k, dflt)] on a value that should be a dictionary: an
    [AttributeError] otherwise. *)
Definition val_get {S} (d : val) (k : string) (dflt : val) : M S val :=
  match d with
  | VDict m => ret (dict_get m k dflt)
  | _ => raise
  end.

(** One turn of the loop over [movement_configs]: the per-servo result.
    The tables are keyed by integers, so this is the code for a request
    whose [servo_id] is falsy or an integer.  A truthy id of another type
    (a string) has no key here: the code would register the pattern under
    it; the embedding raises instead, and nothing below is stated about
    such a request. *)
Definition start_one (config : pydict) : M cstate (val * response) :=
  let servo_id := dict_get config "servo_id" VNone in
  let pattern_type := dict_get config "type" (VStr "sweep") in
  let speed := dict_get config "speed" (VInt 100) in
  let acceleration := dict_get config "acceleration" (VInt 50) in
  let angle_constraints := dict_get config "angle_constraints" (VDict ∅) in
  min_angle <- val_get angle_constraints "min_angle" VNone ;;
  max_angle <- val_get angle_constraints "max_angle" VNone ;;
  enable_constraints <- val_get angle_constraints "enabled" (VBool false) ;;
  if negb (truthy servo_id) then ret (VNone, Failure MissingServoId) else
  id <- of_option (num servo_id) ;;
  constrained <-
    (if truthy enable_constraints && negb (is_none min_angle) && negb (is_none max_angle)
     then set_angle_limits id min_angle max_angle
     else ret Success) ;;
  if negb (is_success constrained) then ret (servo_id, Failure ConstraintsFailed) else
  l <- alloc (new_pattern config pattern_type speed acceleration
                enable_constraints min_angle max_angle) ;;
  modify (fun s => with_patterns (<[id := l]> (movement_patterns s)) s) ;;
  old <- gets (fun s => continuous_movement_threads s !! id) ;;
  match old with
  | Some t =>
      cur <- gets (fun s => movement_patterns s !! id) ;;
      match cur with Some l' => pset l' "running" (VBool false) | None => raise end ;;
      a <- ask (ThreadIsAlive t) ;;
      if negb (fst a =? 0) then (_ <- ask (ThreadJoin t 1000) ;; ret tt) else ret tt
  | None => ret tt
  end ;;
  t <- gets next_tid ;;
  modify (with_next_tid (S t)) ;;
  modify (fun s => with_threads (<[id := t]> (continuous_movement_threads s)) s) ;;
  _ <- ask (ThreadStart t id l) ;;
  ret (servo_id, Success).

Fixpoint start_each (configs : list pydict) : M cstate (list (val * response)) :=
  match configs with
  | [] => ret []
  | config :: rest =>
      r <- start_one config ;;
      rs <- start_each rest ;;
      ret (r :: rs)
  end.

Definition start_continuous_movement (movement_configs : list pydict)
    : M cstate (response * list (val * response)) :=
  c <- gets is_connected ;;
  if negb c then ret (Failure NotConnected, []) else
  try_except
    (results <- start_each movement_configs ;;
     a <- gets monitoring_active ;;
     (if negb a then start_periodic_monitoring else ret tt) ;;
     ret (Success, results))
    (ret (Failure Unexpected, [])).

(** ** [pause_continuous_movement] (lines 856-996) *)

(** The three assignments that undo the pause flags (lines 910-912,
    919-921, 960-962, 967-969). *)
Definition clear_pause_flags (l : loc) : M cstate unit :=
  pset l "paused" (VBool false) ;;
  pset l "immediate_stop" (VBool false) ;;
  pset l "emergency_stop" (VBool false).

(** Lines 972-980: the end of a successful pause. *)
Definition finish_pause (l : loc) : M cstate (response * bool * bool) :=
  sleep 50 ;;
  pset l "emergency_stop" (VBool false) ;;
  ret (Success, true, true).

(** Lines 884-898: the stop flags are set under the pause lock, the
    worker is given 100 ms to see them, and they are set again should
    [immediate_stop] have been cleared meanwhile. *)
Definition raise_pause_flags (l : loc) : M cstate unit :=
  with_lock pause_lock
    (pset l "immediate_stop" (VBool true) ;;
     pset l "emergency_stop" (VBool true) ;;
     pset l "paused" (VBool true)) ;;
  sleep 100 ;;
  i <- pget l "immediate_stop" (VBool false) ;;
  if negb (truthy i) then
    pset l "immediate_stop" (VBool true) ;;
    pset l "emergency_stop" (VBool true) ;;
    sleep 50
  else ret tt.

(** Lines 902-930 and 972-980: the hold of a rotation. *)
Definition hold_rotation (id : Z) (l : loc) : M cstate (response * bool * bool) :=
  ok <- try_except
          (w <- sdk (WriteSpec id 0 50) ;; ret (comm_ok (snd w)))
          (ret false) ;;
  if negb ok then
    clear_pause_flags l ;;
    ret (Failure HoldFailed, true, false)
  else
    try_except
      (_ <- sdk (Write1ByteTxRx id STS_TORQUE_ENABLE 1) ;; ret tt)
      (ret tt) ;;
    finish_pause l.

(** Lines 932-980: the hold of a positional pattern. *)
Definition hold_positional (id : Z) (l : loc) : M cstate (response * bool * bool) :=
  rd <- try_except (p <- sdk (ReadPos id) ;; ret (Some p)) (ret None) ;;
  let current_pos :=
    match rd with
    | Some (pos, c) => if comm_ok c then pos else 2048
    | None => 2048
    end in
  try_except
    (_ <- sdk (WritePosEx id current_pos 0 0) ;; ret tt)
    (ret tt) ;;
  ok <- try_except
          (w <- sdk (Write1ByteTxRx id STS_TORQUE_ENABLE 1) ;;
           ret (comm_ok (snd w)))
          (ret false) ;;
  if negb ok then
    clear_pause_flags l ;;
    ret (Failure TorqueFailed, true, false)
  else finish_pause l.

(** One turn of the loop over [servo_ids].  The result is the entry
    appended to [results], whether [overall_success] survives, and whether
    [paused_count] is incremented.  [l] is the object
    [self.movement_patterns[servo_id]]. *)
Definition pause_one (servo_id : val) : M cstate (response * bool * bool) :=
  match (if is_int servo_id then num servo_id else None) with
  | None => ret (Failure InvalidServoId, false, false)
  | Some id =>
      if (id <? 0) || (253 <? id) then ret (Failure InvalidServoId, false, false) else
      ol <- gets (fun s => movement_patterns s !! id) ;;
      match ol with
      | None => ret (Failure NoRunningMovement, true, false)
      | Some l =>
          r <- pget l "running" (VBool false) ;;
          if negb (truthy r) then ret (Failure NoRunningMovement, true, false) else
          try_except
            (raise_pause_flags l ;;
             pattern_type <- pget l "type" (VStr "unknown") ;;
             if eq_str pattern_type "rotation" then hold_rotation id l
             else hold_positional id l)
            (ret (Failure Unexpected, false, false))
      end
  end.

(** The two halves of a pause of the object at [l], as another thread
    sees them: the three flags raised under the pause lock (lines
    884-888), and what follows from the wait at line 891 on. *)
Definition pause_flags_up (l : loc) : M cstate unit :=
  with_lock pause_lock
    (pset l "immediate_stop" (VBool true) ;;
     pset l "emergency_stop" (VBool true) ;;
     pset l "paused" (VBool true)).

Definition pause_after_flags (id : Z) (l : loc) : M cstate (response * bool * bool) :=
  (sleep 100 ;;
   i <- pget l "immediate_stop" (VBool false) ;;
   if negb (truthy i) then
     pset l "immediate_stop" (VBool true) ;;
     pset l "emergency_stop" (VBool true) ;;
     sleep 50
   else ret tt) ;;
  pattern_type <- pget l "type" (VStr "unknown") ;;
  if eq_str pattern_type "rotation" then hold_rotation id l
  else hold_positional id l.

Record pause_result := mk_pause_result {
  pr_success : bool;
  pr_results : list (val * response);
  paused_count : Z;
  total_servos : Z
}.

Fixpoint pause_each (servo_ids : list val) (acc : pause_result)
    : M cstate pause_result :=
  match servo_ids with
  | [] => ret acc
  | servo_id :: rest =>
      r <- pause_one servo_id ;;
      pause_each rest
        (mk_pause_result
           (pr_success acc && snd (fst r))
           (pr_results acc ++ [(servo_id, fst (fst r))])
           (if snd r then paused_count acc + 1 else paused_count acc)
           (total_servos acc))
  end.

Definition pause_continuous_movement (servo_ids : list val)
    : M cstate (response + pause_result) :=
  match servo_ids with
  | [] => ret (inl (Failure InvalidServoIds))
  | _ =>
      c <- gets is_connected ;;
      if negb c then ret (inl (Failure NotConnected)) else
      r <- pause_each servo_ids
             (mk_pause_result true [] 0 (Z.of_nat (length servo_ids))) ;;
      ret (inr r)
  end.

(** ** Recovery and health check used by the worker *)

(** [_attempt_servo_recovery(servo_id, pattern)] (lines 1865-1906; this
    second definition replaces the one at line 1472). *)
Definition _attempt_servo_recovery (servo_id : Z) (l : loc) : M cstate bool :=
  try_except
    (p <- try_except
            (r <- sdk (Ping servo_id) ;; ret (comm_ok (snd r)))
            (ret false) ;;
     if negb p then ret false else
     t <- try_except
            (r <- sdk (Write1ByteTxRx servo_id STS_TORQUE_ENABLE 1) ;;
             ret (comm_ok (snd r)))
            (ret false) ;;
     if negb t then ret false else
     try_except
       (r <- sdk (ReadPos servo_id) ;;
        if comm_ok (snd r) then
          pset l "current_position" (VInt (fst r)) ;; ret true
        else ret false)
       (ret false))
    (ret false).

(** The [while recovery_attempts < max_recovery_attempts] loop of the
    health check (lines 2912-2926); [n] attempts remain. *)
Fixpoint health_recovery (n : nat) (servo_id : Z) (l : loc) : M cstate bool :=
  match n with
  | O => ret true
  | S n' =>
      ok <- _attempt_servo_recovery servo_id l ;;
      if ok then ret true
      else
        (match n' with O => ret tt | S _ => sleep 100 end) ;;
        health_recovery n' servo_id l
  end.

(** [_check_communication_health_during_movement] (lines 2900-2936) *)
Definition _check_communication_health_during_movement (servo_id : Z) (l : loc)
    : M cstate bool :=
  try_except
    (r <- sdk (ReadPos servo_id) ;;
     if negb (comm_ok (snd r)) then health_recovery 3 servo_id l
     else
       pset l "current_position" (VInt (fst r)) ;;
       ret true)
    (ret true).

(** ** Setpoint rules *)

(** A position read from the dictionary, replaced by [dflt] when it is
    not a number in [0, 4095]. *)
Definition valid_position (v : val) (dflt : Z) : Z :=
  match num v with
  | Some n => if (n <? 0) || (4095 <? n) then dflt else n
  | None => dflt
  end.

(** [pattern["cycle_count"] = pattern.get("cycle_count", 0) + 1] *)
Definition count_cycle (l : loc) : M cstate unit :=
  c <- pget l "cycle_count" (VInt 0) ;;
  c' <- of_option (py_incr c) ;;
  pset l "cycle_count" c'.

(** [_calculate_sweep_position] (lines 2320-2366) *)
Definition _calculate_sweep_position (servo_id : Z) (l : loc) (current_pos : Z)
    : M cstate Z :=
  try_except
    (start0 <- pget l "start_position" (VInt 0) ;;
     end0 <- pget l "end_position" (VInt 4095) ;;
     speed0 <- pget l "speed" (VInt 100) ;;
     direction0 <- pget l "direction" (VInt 1) ;;
     let start1 := valid_position start0 0 in
     let end1 := valid_position end0 4095 in
     let speed :=
       match num speed0 with
       | Some n => if n <? 0 then 100 else n
       | None => 100
       end in
     let direction := if eq_int direction0 (-1) then -1 else 1 in
     let start_pos := if end1 <? start1 then end1 else start1 in
     let end_pos := if end1 <? start1 then start1 else end1 in
     target_pos <-
       (if direction =? 1 then
          if end_pos <=? current_pos then
            pset l "direction" (VInt (-1)) ;;
            count_cycle l ;;
            ret end_pos
          else ret (Z.min end_pos (current_pos + speed))
        else
          if current_pos <=? start_pos then
            pset l "direction" (VInt 1) ;;
            count_cycle l ;;
            ret start_pos
          else ret (Z.max start_pos (current_pos - speed))) ;;
     ret (Z.max 0 (Z.min 4095 target_pos)))
    (ret current_pos).

(** [_calculate_wave_position] (lines 2386-2402).  The term
    [int(amplitude * math.sin(2 * math.pi * frequency * elapsed_time))]
    is sampled from the outside world. *)
Definition _calculate_wave_position (servo_id : Z) (l : loc) (current_pos : Z)
    : M cstate Z :=
  center_pos <- pget l "center_position" (VInt 2048) ;;
  amplitude <- pget l "amplitude" (VInt 500) ;;
  frequency <- pget l "frequency" (VInt 1) ;;
  f <- of_option (num frequency) ;;
  a <- of_option (num amplitude) ;;
  r <- ask (WaveSample a f) ;;
  c <- of_option (num center_pos) ;;
  ret (Z.max 0 (Z.min 4095 (c + fst r))).

(** [_calculate_next_position] (lines 2287-2318) *)
Definition _calculate_next_position (servo_id : Z) (l : loc) : M cstate val :=
  try_except
    (cp <- pget l "current_position" (VInt 2048) ;;
     let current_pos := valid_position cp 2048 in
     pattern_type <- pget l "type" (VStr "sweep") ;;
     if eq_str pattern_type "sweep" then
       z <- _calculate_sweep_position servo_id l current_pos ;; ret (VInt z)
     else if eq_str pattern_type "rotation" then ret (VInt current_pos)
     else if eq_str pattern_type "wave" then
       z <- _calculate_wave_position servo_id l current_pos ;; ret (VInt z)
     else ret (VInt current_pos))
    (pget l "current_position" (VInt 2048)).

(** ** Step execution *)

(** Lines 2090-2092 and 2148-2150: an invalid setpoint is replaced by the
    stored position. *)
Definition checked_setpoint (l : loc) (next_position : val) : M cstate val :=
  match num next_position with
  | Some n =>
      if (n <? 0) || (4095 <? n) then pget l "current_position" (VInt 2048)
      else ret next_position
  | None => pget l "current_position" (VInt 2048)
  end.

(** [_execute_sweep_step] (lines 2085-2111) *)
Definition _execute_sweep_step (servo_id : Z) (l : loc) (next_position : val)
    : M cstate unit :=
  try_except
    (np <- checked_setpoint l next_position ;;
     speed0 <- pget l "speed" (VInt 100) ;;
     acceleration0 <- pget l "acceleration" (VInt 50) ;;
     speed <- of_option (clamp 0 1023 speed0) ;;
     acceleration <- of_option (clamp 0 254 acceleration0) ;;
     pos <- of_option (py_int np) ;;
     r <- sdk (WritePosEx servo_id pos speed acceleration) ;;
     if negb (comm_ok (snd r)) then ret tt
     else pset l "current_position" np)
    (ret tt).

(** [_execute_wave_step] (lines 2143-2169) *)
Definition _execute_wave_step (servo_id : Z) (l : loc) (next_position : val)
    : M cstate unit :=
  try_except
    (np <- checked_setpoint l next_position ;;
     speed0 <- pget l "speed" (VInt 100) ;;
     acceleration0 <- pget l "acceleration" (VInt 50) ;;
     speed <- of_option (clamp 0 1023 speed0) ;;
     acceleration <- of_option (clamp 0 254 acceleration0) ;;
     pos <- of_option (py_int np) ;;
     r <- sdk (WritePosEx servo_id pos speed acceleration) ;;
     if negb (comm_ok (snd r)) then ret tt
     else pset l "current_position" np)
    (ret tt).

(** [_execute_rotation_step] (lines 2113-2141): the acceleration is
    clamped outside the [try], so a non-numeric acceleration raises. *)
Definition _execute_rotation_step (servo_id : Z) (l : loc) : M cstate unit :=
  speed0 <- pget l "speed" (VInt 100) ;;
  let speed := match num speed0 with Some n => n | None => 100 end in
  let effective_speed := Z.abs speed + (if speed <? 0 then 1024 else 0) in
  let effective_speed := Z.max 0 (Z.min 2047 effective_speed) in
  acceleration0 <- pget l "acceleration" (VInt 50) ;;
  acceleration <- of_option (clamp 0 254 acceleration0) ;;
  try_except
    (_ <- sdk (WriteSpec servo_id effective_speed acceleration) ;; ret tt)
    (ret tt).

(** ** [_continuous_movement_worker] (lines 1668-1863) *)

(** The worker's local variables live next to the controller state, so
    that an assignment made before an exception is still there in the
    handler. *)
Record wstate := mk_wstate {
  wc : cstate;
  consecutive_failures : Z;
  last_successful_position : option val;
  step_count : Z
}.

Definition lift {A} (m : M cstate A) : M wstate A :=
  fun w =>
    let (r, c) := m (wc w) in
    (r, mk_wstate c (consecutive_failures w) (last_successful_position w)
          (step_count w)).

Definition set_failures (n : Z) : M wstate unit :=
  modify (fun w =>
    mk_wstate (wc w) n (last_successful_position w) (step_count w)).

Definition set_last (v : val) : M wstate unit :=
  modify (fun w =>
    mk_wstate (wc w) (consecutive_failures w) (Some v) (step_count w)).

Definition set_steps (n : Z) : M wstate unit :=
  modify (fun w =>
    mk_wstate (wc w) (consecutive_failures w) (last_successful_position w) n).

Definition max_consecutive_failures : Z := 5.
Definition health_check_interval : Z := 20.

(** [if "key" not in pattern: pattern["key"] = v] *)
Definition set_default (l : loc) (k : string) (v : val) : M cstate unit :=
  h <- has_key l k ;;
  if h then ret tt else pset l k v.

(** Lines 1679-1713: the result is [false] when the worker returns before
    its loop. *)
Definition worker_init (servo_id : Z) (l : loc) : M cstate bool :=
  try_except
    (h <- has_key l "current_position" ;;
     (if h then ret tt
      else
        try_except
          (r <- sdk (ReadPos servo_id) ;;
           if comm_ok (snd r) then pset l "current_position" (VInt (fst r))
           else pset l "current_position" (VInt 2048))
          (pset l "current_position" (VInt 2048))) ;;
     set_default l "direction" (VInt 1) ;;
     set_default l "cycle_count" (VInt 0) ;;
     set_default l "start_position" (VInt 0) ;;
     set_default l "end_position" (VInt 4095) ;;
     set_default l "center_position" (VInt 2048) ;;
     ret true)
    (pset l "running" (VBool false) ;; ret false).

(** [pattern.get("immediate_stop", False) or pattern.get("emergency_stop", False)] *)
Definition stop_requested (l : loc) : M cstate bool :=
  i <- pget l "immediate_stop" (VBool false) ;;
  e <- pget l "emergency_stop" (VBool false) ;;
  ret (truthy i || truthy e).

(** [if pattern["type"] == "sweep": pattern["direction"] *= -1] *)
Definition reverse_sweep (l : loc) : M cstate unit :=
  ty <- pidx l "type" ;;
  if eq_str ty "sweep" then
    d <- pidx l "direction" ;;
    d' <- of_option (py_negate d) ;;
    pset l "direction" d'
  else ret tt.

(** Lines 1743-1762 *)
Definition apply_angle_constraints (l : loc) (next_position : val) : M cstate val :=
  angle_constraints <- pget l "angle_constraints" (VDict ∅) ;;
  enabled <- val_get angle_constraints "enabled" (VBool false) ;;
  if truthy enabled then
    min_angle <- val_get angle_constraints "min_angle" VNone ;;
    max_angle <- val_get angle_constraints "max_angle" VNone ;;
    if negb (is_none min_angle) && negb (is_none max_angle) then
      below <- of_option (py_lt next_position min_angle) ;;
      if below then reverse_sweep l ;; ret min_angle
      else
        above <- of_option (py_gt next_position max_angle) ;;
        if above then reverse_sweep l ;; ret max_angle
        else ret next_position
    else ret next_position
  else ret next_position.

(** Lines 1777-1783 *)
Definition execute_step (servo_id : Z) (l : loc) (next_position : val) : M cstate unit :=
  ty <- pidx l "type" ;;
  if eq_str ty "sweep" then _execute_sweep_step servo_id l next_position
  else if eq_str ty "rotation" then _execute_rotation_step servo_id l
  else if eq_str ty "wave" then _execute_wave_step servo_id l next_position
  else ret tt.

(** Lines 1770-1790: [for attempt in range(3)], with [n] attempts left;
    the result is [movement_success]. *)
Fixpoint movement_attempts (n : nat) (attempt : Z) (servo_id : Z) (l : loc)
    (next_position : val) : M cstate bool :=
  match n with
  | O => ret false
  | S n' =>
      stop <- stop_requested l ;;
      if stop then ret false else
      ok <- try_except
              (execute_step servo_id l next_position ;; ret true)
              ((if attempt <? 2 then sleep 20 else ret tt) ;; ret false) ;;
      if ok then ret true
      else movement_attempts n' (attempt + 1) servo_id l next_position
  end.

(** Lines 1798-1803: the worker's own cycle count. *)
Definition count_boundary (l : loc) (next_position : val) : M cstate unit :=
  ty <- pidx l "type" ;;
  if eq_str ty "sweep" then
    d <- pidx l "direction" ;;
    at_end <-
      (if eq_int d 1 then
         e <- pidx l "end_position" ;; of_option (py_ge next_position e)
       else ret false) ;;
    at_boundary <-
      (if at_end then ret true
       else
         d2 <- pidx l "direction" ;;
         if eq_int d2 (-1) then
           s <- pidx l "start_position" ;; of_option (py_le next_position s)
         else ret false) ;;
    if at_boundary then
      c <- pidx l "cycle_count" ;;
      c' <- of_option (py_incr c) ;;
      pset l "cycle_count" c'
    else ret tt
  else ret tt.

(** Lines 1792-1803 *)
Definition on_movement_success (l : loc) (next_position : val) : M wstate unit :=
  lift (pset l "current_position" next_position) ;;
  set_last next_position ;;
  set_failures 0 ;;
  lift (count_boundary l next_position).

(** Lines 1814-1822: [for recovery_attempt in range(3)], with [n] attempts
    left; the result is [recovery_success]. *)
Fixpoint recovery_attempts (n : nat) (servo_id : Z) (l : loc) : M wstate bool :=
  match n with
  | O => ret false
  | S n' =>
      ok <- lift (_attempt_servo_recovery servo_id l) ;;
      if ok then set_failures 0 ;; ret true
      else lift (sleep 100) ;; recovery_attempts n' servo_id l
  end.

(** Lines 1804-1828 *)
Definition on_movement_failure (servo_id : Z) (l : loc) : M wstate unit :=
  f <- gets consecutive_failures ;;
  set_failures (f + 1) ;;
  if max_consecutive_failures <=? f + 1 then
    recovery_success <- recovery_attempts 3 servo_id l ;;
    if recovery_success then ret tt else set_failures 0
  else ret tt.

(** Lines 1845-1855: the handler of the loop body. *)
Definition on_iteration_error : M wstate unit :=
  f <- gets consecutive_failures ;;
  set_failures (f + 1) ;;
  (if max_consecutive_failures <=? f + 1 then set_failures 0 else ret tt) ;;
  lift (sleep 100).

Inductive ctl := Continue | Break.

(** Lines 1730-1843: the body of the inner [try]. *)
Definition iteration_body (servo_id : Z) (l : loc) : M wstate ctl :=
  stop1 <- lift (stop_requested l) ;;
  if stop1 then ret Break else
  next0 <- lift (_calculate_next_position servo_id l) ;;
  stop2 <- lift (stop_requested l) ;;
  if stop2 then ret Break else
  next_position <- lift (apply_angle_constraints l next0) ;;
  stop3 <- lift (stop_requested l) ;;
  if stop3 then ret Break else
  movement_success <- lift (movement_attempts 3 0 servo_id l next_position) ;;
  (if movement_success then on_movement_success l next_position
   else on_movement_failure servo_id l) ;;
  n <- gets step_count ;;
  set_steps (n + 1) ;;
  (if (n + 1) mod health_check_interval =? 0 then
     _ <- lift (_check_communication_health_during_movement servo_id l) ;; ret tt
   else ret tt) ;;
  ty <- lift (pidx l "type") ;;
  (if eq_str ty "rotation" then lift (sleep 50) else lift (sleep 100)) ;;
  ret Continue.

(** Lines 1717-1855: one turn of the [while] loop. *)
Definition worker_iteration (servo_id : Z) (l : loc) : M wstate ctl :=
  stop <- lift (stop_requested l) ;;
  if stop then lift (sleep 100) ;; ret Continue else
  paused <- lift (with_lock pause_lock
                    (p <- pget l "paused" (VBool false) ;;
                     if truthy p then sleep 100 ;; ret true else ret false)) ;;
  if paused then ret Continue else
  try_except
    (iteration_body servo_id l)
    (on_iteration_error ;; ret Continue).

Inductive loop_end := Exited | StillLooping.

(** [while pattern.get("running", False)], run for at most [fuel] turns:
    [Exited] when the loop was left, [StillLooping] when [fuel] turns
    were made and the condition still holds. *)
Fixpoint worker_loop (fuel : nat) (servo_id : Z) (l : loc) : M wstate loop_end :=
  r <- lift (pget l "running" (VBool false)) ;;
  if negb (truthy r) then ret Exited else
  match fuel with
  | O => ret StillLooping
  | S n =>
      c <- worker_iteration servo_id l ;;
      match c with
      | Break => ret Exited
      | Continue => worker_loop n servo_id l
      end
  end.

(** The whole worker, observed for [fuel] turns of its loop.  When the
    loop is left, [finally] marks the pattern as not running. *)
Definition _continuous_movement_worker (fuel : nat) (servo_id : Z) (l : loc)
    : M wstate loop_end :=
  ok <- lift (worker_init servo_id l) ;;
  if negb ok then ret Exited else
  e <- try_except
         (worker_loop fuel servo_id l)
         (lift (pset l "running" (VBool false)) ;; ret Exited) ;;
  match e with
  | Exited => lift (pset l "running" (VBool false)) ;; ret Exited
  | StillLooping => ret StillLooping
  end.

(** A worker thread starts with fresh local variables. *)
Definition new_worker (s : cstate) : wstate := mk_wstate s 0 None 0.

(** *** The worker, cut at line 1729

    The parts of the worker before and after the point where it has made
    the checks that open a turn (lines 1717-1727) and is about to enter
    the inner [try]: what another thread does between the two is seen by
    the second. *)

(** Lines 1717-1727: [None] when the turn goes on. *)
Definition turn_checks (l : loc) : M wstate (option ctl) :=
  stop <- lift (stop_requested l) ;;
  if stop then lift (sleep 100) ;; ret (Some Continue) else
  paused <- lift (with_lock pause_lock
                    (p <- pget l "paused" (VBool false) ;;
                     if truthy p then sleep 100 ;; ret true else ret false)) ;;
  if paused then ret (Some Continue) else ret None.

(** Lines 1729-1855: the turn from the inner [try] on. *)
Definition rest_of_turn (servo_id : Z) (l : loc) : M wstate ctl :=
  try_except
    (iteration_body servo_id l)
    (on_iteration_error ;; ret Continue).

(** The loop from the inner [try] of the turn under way. *)
Definition loop_from_turn (fuel : nat) (servo_id : Z) (l : loc)
    : M wstate loop_end :=
  c <- rest_of_turn servo_id l ;;
  match c with
  | Break => ret Exited
  | Continue => worker_loop fuel servo_id l
  end.

(** Lines 1857-1863: the handler and the [finally] around the loop. *)
Definition worker_end (l : loc) (loop : M wstate loop_end) : M wstate loop_end :=
  e <- try_except loop (lift (pset l "running" (VBool false)) ;; ret Exited) ;;
  match e with
  | Exited => lift (pset l "running" (VBool false)) ;; ret Exited
  | StillLooping => ret StillLooping
  end.

(** The worker's locals on another state of the controller. *)
Definition with_wc (c : cstate) (w : wstate) : wstate :=
  mk_wstate c (consecutive_failures w) (last_successful_position w)
    (step_count w).

(** A schedule of two threads on the pattern object at [l]: the worker
    of servo [id] makes the checks of its turn; [pause_continuous_movement]
    raises the flags; the worker goes on from line 1729 to its end; the
    pause goes on from line 891.  The results of the four parts and the
    state at the end. *)
Definition pause_in_mid_turn (fuel : nat) (id : Z) (l : loc) (w : wstate)
    : res (option ctl) * res unit * res loop_end
      * res (response * bool * bool) * cstate :=
  let (r0, w0) := turn_checks l w in
  let (r1, s1) := pause_flags_up l (wc w0) in
  let (r2, w2) := worker_end l (loop_from_turn fuel id l) (with_wc s1 w0) in
  let (r3, s3) :=
    try_except (pause_after_flags id l) (ret (Failure Unexpected, false, false))
      (wc w2) in
  (r0, r1, r2, r3, s3).

(** ** The group sync position writer *)

(** [_initialize_group_sync_writers] (lines 141-156) *)
Definition _initialize_group_sync_writers : M cstate unit :=
  try_except
    (with_lock group_sync_write_lock
       (h <- gets packet_handler ;;
        if h then modify (with_writers true true) else ret tt))
    (ret tt).

(** [_get_group_sync_position_writer] (lines 158-163): whether a writer
    is returned.  The initialisation is called with the lock held. *)
Definition _get_group_sync_position_writer : M cstate bool :=
  with_lock group_sync_write_lock
    (w <- gets group_sync_position_writer ;;
     h <- gets packet_handler ;;
     (if negb w && h then _initialize_group_sync_writers else ret tt) ;;
     gets group_sync_position_writer).

(** Lines 2188-2196: the loop that adds the entries
    [(servo_id, position, speed, acceleration)] to the batch, with the
    lists [added_servos] and [failed_servos]. *)
Fixpoint add_each (servo_data : list (Z * Z * Z * Z)) (added failed : list Z)
    : M cstate (list Z * list Z) :=
  match servo_data with
  | [] => ret (added, failed)
  | (servo_id, position, speed, acceleration) :: rest =>
      r <- sdk (SyncWritePosEx servo_id position speed acceleration) ;;
      if negb (fst r =? 0) then
        print (MsgAdded servo_id) ;;
        add_each rest (added ++ [servo_id]) failed
      else
        print (MsgAddFailed servo_id) ;;
        add_each rest added (failed ++ [servo_id])
  end.

Definition max_retries : Z := 2.

(** Lines 2205-2219: [for attempt in range(max_retries)], with [n]
    attempts left; [result] is the result of the previous attempt. *)
Fixpoint transmit (n : nat) (attempt : Z) (added failed : list Z)
    (result : comm_result) : M cstate comm_result :=
  match n with
  | O => ret result
  | S n' =>
      r <- ask TxPacket ;;
      if comm_ok (snd r) then
        print (MsgExecuted added) ;;
        (match failed with [] => ret tt | _ => print (MsgNotAdded failed) end) ;;
        ret (snd r)
      else
        (if attempt <? max_retries - 1 then sleep 50 else ret tt) ;;
        transmit n' (attempt + 1) added failed (snd r)
  end.

(** [syncWrite] (lines 2171-2223) *)
Definition syncWrite (servo_data : list (Z * Z * Z * Z)) : M cstate comm_result :=
  try_except
    (w <- _get_group_sync_position_writer ;;
     if negb w then ret COMM_TX_ERROR else
     _ <- ask ClearParam ;;
     af <- add_each servo_data [] [] ;;
     match fst af with
     | [] => print MsgNoneAdded ;; ret COMM_TX_ERROR
     | _ => transmit 2 0 (fst af) (snd af) COMM_TX_ERROR
     end)
    (ret COMM_TX_ERROR).

End Controller.

(** * Observations *)

Local Open Scope py_scope.

(** ** Results and frames of monadic code *)

(** [calm R m]: [m] never blocks and takes every state to one related
    to it by [R]. *)
Definition calm {S A} (R : S -> S -> Prop) (m : M S A) : Prop :=
  forall s, fst (m s) <> Hang /\ R s (snd (m s)).

(** [yields Q m]: the result of [m] satisfies [Q] from every state. *)
Definition yields {S A} (Q : res A -> Prop) (m : M S A) : Prop :=
  forall s, Q (fst (m s)).

(** ** What the worker's loop body never writes *)

(** The control flags of a pattern, the fields that select and
    parametrise its motion, and the locks held. *)
Definition frame (l : loc) (s : cstate) :=
  (map (fun k => pattern_at l s !! k)
     ["running"; "paused"; "immediate_stop"; "emergency_stop";
      "type"; "speed"; "acceleration"; "angle_constraints"],
   held s).

Definition stop_flag (l : loc) (s : cstate) : bool :=
  truthy (dict_get (pattern_at l s) "immediate_stop" (VBool false))
  || truthy (dict_get (pattern_at l s) "emergency_stop" (VBool false)).

Definition paused_flag (l : loc) (s : cstate) : bool :=
  truthy (dict_get (pattern_at l s) "paused" (VBool false)).

Definition running_flag (l : loc) (s : cstate) : bool :=
  truthy (dict_get (pattern_at l s) "running" (VBool false)).

(** The motion commands on a trace: every [WritePosEx] and [WriteSpec]
    that reached the packet handler, whatever it answered. *)
Definition is_motion (e : event) : bool :=
  match e with
  | EvCall (WritePosEx _ _ _ _) _ => true
  | EvCall (WriteSpec _ _ _) _ => true
  | _ => false
  end.

Fixpoint motions (t : list event) : nat :=
  match t with
  | [] => O
  | e :: t' => ((if is_motion e then 1 else 0) + motions t')%nat
  end.

(** What a step of the worker leaves alone, and what it can only add to:
    the frame of its pattern, the packet handler, and the motion commands
    sent so far. *)
Definition steady (l : loc) (s s' : cstate) : Prop :=
  frame l s' = frame l s
  /\ packet_handler s' = packet_handler s
  /\ (motions (trace s) <= motions (trace s'))%nat.

Definition steady_w (l : loc) (w w' : wstate) : Prop :=
  steady l (wc w) (wc w').

Definition frame_key (k : string) : bool :=
  existsb (String.eqb k)
    ["running"; "paused"; "immediate_stop"; "emergency_stop";
     "type"; "speed"; "acceleration"; "angle_constraints"].


(** ** Patterns whose steps reach the bus *)

Definition numeric_or_absent (o : option val) : bool :=
  match o with None => true | Some v => is_number v end.

Definition constraints_off (o : option val) : bool :=
  match o with
  | None => true
  | Some (VDict d) => negb (truthy (dict_get d "enabled" (VBool false)))
  | Some _ => false
  end.

(** A sweep or rotation pattern with numeric speed and acceleration and
    without angle constraints, on a controller that has a packet handler:
    nothing in such a pattern makes a step raise before the SDK call. *)
Definition drivable (l : loc) (s : cstate) : bool :=
  packet_handler s
  && constraints_off (pattern_at l s !! "angle_constraints")
  && numeric_or_absent (pattern_at l s !! "acceleration")
  && match pattern_at l s !! "type" with
     | Some (VStr t) =>
         String.eqb t "rotation"
         || (String.eqb t "sweep" && numeric_or_absent (pattern_at l s !! "speed"))
     | _ => false
     end.

(** Angle constraints that let the constraint step (lines 1743-1762)
    return: absent, or a dictionary that is switched off, lacks a limit,
    or has two numbers as limits. *)
Definition constraints_fit (o : option val) : bool :=
  match o with
  | None => true
  | Some (VDict d) =>
      negb (truthy (dict_get d "enabled" (VBool false)))
      || is_none (dict_get d "min_angle" VNone)
      || is_none (dict_get d "max_angle" VNone)
      || (is_number (dict_get d "min_angle" VNone)
          && is_number (dict_get d "max_angle" VNone))
  | Some _ => false
  end.

(** The two fields the worker writes and reads back: a position that is
    a number (or absent, for the default), and a direction that is one. *)
Definition position_fit (l : loc) (s : cstate) : bool :=
  numeric_or_absent (pattern_at l s !! "current_position").

Definition direction_fit (l : loc) (s : cstate) : bool :=
  match pattern_at l s !! "direction" with
  | Some v => is_number v
  | None => false
  end.

Definition is_sweep (l : loc) (s : cstate) : bool :=
  match pattern_at l s !! "type" with
  | Some (VStr t) => String.eqb t "sweep"
  | _ => false
  end.

(** A sweep, rotation or wave pattern, with or without angle constraints,
    whose speed, acceleration, limits, stored position and (for a sweep)
    direction are numbers or, where the code has a default, absent, on a
    controller that has a packet handler.  The patterns that
    [start_continuous_movement] builds for the requests of the examples
    are of this kind, and a turn of the worker leaves a pattern so. *)
Definition movable (l : loc) (s : cstate) : bool :=
  packet_handler s
  && constraints_fit (pattern_at l s !! "angle_constraints")
  && numeric_or_absent (pattern_at l s !! "acceleration")
  && position_fit l s
  && match pattern_at l s !! "type" with
     | Some (VStr t) =>
         String.eqb t "rotation"
         || ((String.eqb t "wave" || (String.eqb t "sweep" && direction_fit l s))
             && numeric_or_absent (pattern_at l s !! "speed"))
     | _ => false
     end.

(** [tidy b l s]: the position of the pattern at [l] is fit, and so is
    its direction when [b] asks for it. *)
Definition tidy (b : bool) (l : loc) (s : cstate) : Prop :=
  position_fit l s = true /\ (b = true -> direction_fit l s = true).

Definition stays_tidy (b : bool) (l : loc) (s s' : cstate) : Prop :=
  tidy b l s -> tidy b l s'.

Definition stays_tidy_w (b : bool) (l : loc) (w w' : wstate) : Prop :=
  stays_tidy b l (wc w) (wc w').

(** [keeps R m]: whatever [m] does, and however it ends, the state it
    leaves is related by [R] to the state it started from. *)
Definition keeps {S A} (R : S -> S -> Prop) (m : M S A) : Prop :=
  forall s, R s (snd (m s)).

(** ** Observations on traces *)

(** The positions sent with [WritePosEx], in order. *)
Definition setpoints (t : list event) : list Z :=
  omap (fun e =>
          match e with
          | EvCall (WritePosEx _ p _ _) _ => Some p
          | _ => None
          end) t.

Definition is_read_pos (e : event) : bool :=
  match e with EvCall (ReadPos _) _ => true | _ => false end.

Definition is_call (e : event) : bool :=
  match e with EvCall _ _ => true | _ => false end.

(** Calls of the EEPROM-protected sequence: unlock, register write, lock. *)
Definition touches_eeprom (e : event) : bool :=
  match e with
  | EvCall (UnLockEprom _) _ => true
  | EvCall (LockEprom _) _ => true
  | EvCall (Write1ByteTxRx _ _ _) _ => true
  | EvCall (Write2ByteTxRx _ _ _) _ => true
  | _ => false
  end.

Definition reply_ok (r : reply) : bool :=
  match r with Reply _ c => comm_ok c | Raised => false end.

(** ** Example worlds and states *)

(** Every call is answered with success; a position read answers [pos]. *)
Definition ok_bus (pos : Z) : world :=
  fun _ c =>
    match c with
    | ReadPos _ => Reply pos COMM_SUCCESS
    | _ => Reply 1 COMM_SUCCESS
    end.

(** Nothing answers: every call times out. *)
Definition dead_bus : world := fun _ _ => Reply 0 COMM_RX_TIMEOUT.

(** A servo that is where it was last told to go. *)
Definition last_setpoint (t : list event) (initial : Z) : Z :=
  fold_left (fun acc e =>
               match e with
               | EvCall (WritePosEx _ p _ _) _ => p
               | _ => acc
               end) t initial.

Definition following_bus (initial : Z) : world :=
  fun t c =>
    match c with
    | ReadPos _ => Reply (last_setpoint t initial) COMM_SUCCESS
    | _ => Reply 1 COMM_SUCCESS
    end.

(** The controller after a successful [connect], nothing moving. *)
Definition connected0 : cstate :=
  mk_cstate true true true ∅ ∅ ∅ ∅ 0%nat 0%nat true true false false [] [].

(** Scenario 2 of the specification as a request to
    [start_continuous_movement]: a sweep of servo 1 between 1000 and 3000
    at speed 200, for two cycles. *)
Definition sweep_request : pydict :=
  <["servo_id" := VInt 1]>
  (<["type" := VStr "sweep"]>
   (<["min_position" := VInt 1000]>
    (<["max_position" := VInt 3000]>
     (<["speed" := VInt 200]>
      (<["acceleration" := VInt 50]>
       (<["cycles" := VInt 2]> ∅)))))).

(** A sweep over the whole range at speed 1000. *)
Definition fast_sweep_request : pydict :=
  <["servo_id" := VInt 1]>
  (<["type" := VStr "sweep"]>
   (<["speed" := VInt 1000]>
    (<["acceleration" := VInt 50]> ∅))).

(** A rotation whose acceleration is JSON [null]. *)
Definition bad_rotation_request : pydict :=
  <["servo_id" := VInt 1]>
  (<["type" := VStr "rotation"]>
   (<["speed" := VInt 300]>
    (<["acceleration" := VNone]> ∅))).

Definition rotation_request : pydict :=
  <["servo_id" := VInt 2]>
  (<["type" := VStr "rotation"]>
   (<["speed" := VInt 300]>
    (<["acceleration" := VInt 50]> ∅))).

(** A wave of servo 3 around 2048 with angle limits 1500..2500 enabled. *)
Definition limited_wave_request : pydict :=
  <["servo_id" := VInt 3]>
  (<["type" := VStr "wave"]>
   (<["speed" := VInt 150]>
    (<["amplitude" := VInt 800]>
     (<["angle_constraints" :=
          VDict (<["max_angle" := VInt 2500]>
                 (<["min_angle" := VInt 1500]>
                  (<["enabled" := VBool true]> ∅)))]> ∅)))).

(** The controller after [start_continuous_movement] on one request, the
    trace emptied; the pattern object is at location 0. *)
Definition started_with (config : pydict) : cstate :=
  with_trace [] (snd (start_continuous_movement (ok_bus 0) [config] connected0)).

Definition started : cstate := started_with sweep_request.

(** The worker of servo [servo_id] on the object at [l], observed for
    [fuel] turns from state [s]. *)
Definition run_worker (bus : world) (fuel : nat) (servo_id : Z) (l : loc)
    (s : cstate) : res loop_end * wstate :=
  _continuous_movement_worker bus fuel servo_id l (new_worker s).

Definition field_after (r : res loop_end * wstate) (l : loc) (k : string)
    : option val :=
  pattern_at l (wc (snd r)) !! k.

(** ** The seed of the worker's position *)

(** What a live position read at state [s] gives the worker: the position
    answered, or 2048 when the read fails or raises. *)
Definition live_seed (bus : world) (servo_id : Z) (s : cstate) : Z :=
  match bus (trace s) (ReadPos servo_id) with
  | Reply p c => if comm_ok c then p else 2048
  | Raised => 2048
  end.

Definition quiet (e : event) : bool := negb (is_call e).

(** ** Workers at rest *)

(** The condition the stop path establishes for every pattern it is
    given: no pattern object reachable from [movement_patterns] is still
    marked running. *)
Definition workers_stopped (s : cstate) : Prop :=
  forall id l, movement_patterns s !! id = Some l -> running_flag l s = false.

(** The controller state proper, without the record of what happened. *)
Definition forget_trace (s : cstate) : cstate := with_trace [] s.

(** The state after the worker of scenario 2 has run for three turns. *)
Definition sweeping : cstate :=
  wc (snd (run_worker (following_bus 0) 3 1 0%nat started)).

(** The worker itself at that point, between two turns. *)
Definition sweeping_worker : wstate :=
  snd (run_worker (following_bus 0) 3 1 0%nat started).

(** ** The ID change sequence *)

(** The events of a complete ID change from [old] to [new], given what
    the bus answered to each call: ping of [old], ping of [new], unlock on
    [old], write of the ID register on [old], lock on [new], and the
    verification ping of [new] after 200 ms. *)
Definition id_change_events (old new : Z) (r_old r_new r_unlock r_write r_lock
    r_verify : reply) : list event :=
  [EvCall (Ping old) r_old;
   EvCall (Ping new) r_new;
   EvCall (UnLockEprom old) r_unlock;
   EvSleep 100;
   EvCall (Write1ByteTxRx old STS_ID new) r_write;
   EvSleep 150;
   EvCall (LockEprom new) r_lock;
   EvSleep 200;
   EvCall (Ping new) r_verify].

(** A bus with one servo, answering pings at [old] until a write to its ID
    register has succeeded and at [new] afterwards. *)
Definition id_written (old new : Z) (t : list event) : bool :=
  existsb (fun e =>
             match e with
             | EvCall (Write1ByteTxRx i STS_ID v) (Reply _ COMM_SUCCESS) =>
                 (i =? old) && (v =? new)
             | _ => false
             end) t.

Definition renaming_bus (old new : Z) : world :=
  fun t c =>
    match c with
    | Ping i =>
        if i =? (if id_written old new t then new else old)
        then Reply 777 COMM_SUCCESS
        else Reply 0 COMM_RX_TIMEOUT
    | _ => Reply 0 COMM_SUCCESS
    end.

(** ** States reached by single steps *)

(** The state after an event has been recorded. *)
Definition logged (e : event) (s : cstate) : cstate :=
  with_trace (trace s ++ [e]) s.

(** The state after [pattern[k] = v] on the object at [l]. *)
Definition after_set (l : loc) (k : string) (v : val) (s : cstate) : cstate :=
  snd (pset l k v s).

(** The states after a free lock has been taken, and after it has been
    given back. *)
Definition locked (k : lock_id) (s : cstate) : cstate :=
  with_held (k :: held s) (logged (EvAcquire k) s).

Definition unlocked (k : lock_id) (s : cstate) : cstate :=
  snd (release k s).

(** ** The pause handshake *)

(** The flags raised under the pause lock and the wait that follows
    (lines 884-891). *)
Definition pause_flag_events (l : loc) : list event :=
  [EvAcquire pause_lock;
   EvSet l "immediate_stop" (VBool true);
   EvSet l "emergency_stop" (VBool true);
   EvSet l "paused" (VBool true);
   EvRelease pause_lock;
   EvSleep 100].

(** The hold command and the torque re-assertion, with the replies of the
    bus: for a rotation the zero-speed write, otherwise the position read
    and the write of position [pos] with zero speed and acceleration. *)
Definition hold_events (rotation : bool) (id pos : Z)
    (r_read r_hold r_torque : reply) : list event :=
  if rotation then
    [EvCall (WriteSpec id 0 50) r_hold;
     EvCall (Write1ByteTxRx id STS_TORQUE_ENABLE 1) r_torque]
  else
    [EvCall (ReadPos id) r_read;
     EvCall (WritePosEx id pos 0 0) r_hold;
     EvCall (Write1ByteTxRx id STS_TORQUE_ENABLE 1) r_torque].

(** The sequence of a successful pause as the specification states it. *)
Definition stated_pause_events (l : loc) (hold : list event) : list event :=
  pause_flag_events l ++ hold ++ [EvSet l "emergency_stop" (VBool false)].

(** The sequence of a successful pause as the code performs it: a further
    wait of 50 ms comes before [emergency_stop] is cleared. *)
Definition pause_events (l : loc) (hold : list event) : list event :=
  pause_flag_events l ++ hold
  ++ [EvSleep 50; EvSet l "emergency_stop" (VBool false)].

(** The three assignments of a rolled-back pause. *)
Definition rollback_events (l : loc) : list event :=
  [EvSet l "paused" (VBool false);
   EvSet l "immediate_stop" (VBool false);
   EvSet l "emergency_stop" (VBool false)].

Definition is_rotation (l : loc) (s : cstate) : bool :=
  eq_str (dict_get (pattern_at l s) "type" (VStr "unknown")) "rotation".

(** The position a pause holds: the one read, or 2048 when the read
    fails or raises. *)
Definition hold_position (r_read : reply) : Z :=
  match r_read with
  | Reply p c => if comm_ok c then p else 2048
  | Raised => 2048
  end.

(** The three pause flags of the object at [l]. *)
Definition pause_flags (l : loc) (s : cstate) : list (option val) :=
  map (fun k => pattern_at l s !! k) ["immediate_stop"; "emergency_stop"; "paused"].

(** A running pattern for servo [id] on a connected controller, with the
    pause lock free. *)
Definition pausable (id : Z) (l : loc) (s : cstate) : Prop :=
  is_connected s = true
  /\ packet_handler s = true
  /\ 0 <= id <= 253
  /\ movement_patterns s !! id = Some l
  /\ running_flag l s = true
  /\ is_held pause_lock s = false.

(** The state in which a pause sends its hold command: the flags raised
    under the lock, then the wait of 100 ms. *)
Definition flagged (l : loc) (s : cstate) : cstate :=
  logged (EvSleep 100)
    (unlocked pause_lock
       (after_set l "paused" (VBool true)
          (after_set l "emergency_stop" (VBool true)
             (after_set l "immediate_stop" (VBool true)
                (locked pause_lock s))))).

(** The state after the three assignments of a rolled-back pause. *)
Definition rolled_back (l : loc) (s : cstate) : cstate :=
  after_set l "emergency_stop" (VBool false)
    (after_set l "immediate_stop" (VBool false)
       (after_set l "paused" (VBool false) s)).

(** The state after the end of a successful pause. *)
Definition settled (l : loc) (s : cstate) : cstate :=
  after_set l "emergency_stop" (VBool false) (logged (EvSleep 50) s).

Definition torque_on (id : Z) : call := Write1ByteTxRx id STS_TORQUE_ENABLE 1.

(** A bus on which everything succeeds but the torque write. *)
Definition no_torque_bus : world :=
  fun _ c =>
    match c with
    | Write1ByteTxRx _ STS_TORQUE_ENABLE _ => Reply 0 COMM_RX_TIMEOUT
    | ReadPos _ => Reply 1500 COMM_SUCCESS
    | _ => Reply 1 COMM_SUCCESS
    end.

(** The controller with a rotation of servo 2 under way. *)
Definition rotating : cstate :=
  wc (snd (run_worker (ok_bus 0) 2 2 0%nat (started_with rotation_request))).

(** The events a call to [f] adds to the trace of [s]. *)
Definition new_events {A} (f : M cstate A) (s : cstate) : list event :=
  drop (length (trace s)) (trace (snd (f s))).

(** ** Observations on a group sync write *)

(** The ids whose entry the SDK accepted into the batch. *)
Definition added_ids (t : list event) : list Z :=
  omap (fun e =>
          match e with
          | EvCall (SyncWritePosEx id _ _ _) (Reply v _) =>
              if v =? 0 then None else Some id
          | _ => None
          end) t.

(** The entries the SDK was offered and answered, accepted or refused,
    in order. *)
Definition offered (t : list event) : list (Z * Z * Z * Z) :=
  omap (fun e =>
          match e with
          | EvCall (SyncWritePosEx id p v a) (Reply _ _) => Some (id, p, v, a)
          | _ => None
          end) t.

(** The ids reported as added, one line each. *)
Definition reported_ids (t : list event) : list Z :=
  omap (fun e => match e with EvPrint (MsgAdded id) => Some id | _ => None end) t.

(** The transmissions of the frame and the waits between them. *)
Definition transmission (t : list event) : list event :=
  List.filter (fun e =>
                 match e with
                 | EvCall TxPacket _ => true
                 | EvSleep _ => true
                 | _ => false
                 end) t.

Definition tx_replies (t : list event) : list reply :=
  omap (fun e => match e with EvCall TxPacket r => Some r | _ => None end) t.

(** Whether some call on the trace raised. *)
Definition raised (t : list event) : bool :=
  existsb (fun e => match e with EvCall _ Raised => true | _ => false end) t.

(** A bus on which the SDK refuses the entry of servo 99 and the first
    transmission of a frame fails. *)
Definition flaky_bus : world :=
  fun t c =>
    match c with
    | SyncWritePosEx 99 _ _ _ => Reply 0 COMM_SUCCESS
    | TxPacket =>
        match tx_replies t with
        | [] => Reply 0 COMM_TX_FAIL
        | _ => Reply 0 COMM_SUCCESS
        end
    | _ => Reply 1 COMM_SUCCESS
    end.

(** A batch of three entries [(servo_id, position, speed, acceleration)],
    the second one for servo 99. *)
Definition mixed_batch : list (Z * Z * Z * Z) :=
  [(1, 1000, 200, 50); (99, 1500, 200, 50); (2, 2000, 200, 50)].

(** ** The sweeps of the examples, observed *)

(** Scenario 2 on a servo that follows its commands from position 0,
    after [n] turns of the worker's loop. *)
Definition sweep_run (n : nat) : res loop_end * wstate :=
  run_worker (following_bus 0) n 1 0%nat started.

(** The same for the sweep over the whole range at speed 1000. *)
Definition fast_run (n : nat) : res loop_end * wstate :=
  run_worker (following_bus 0) n 1 0%nat (started_with fast_sweep_request).

(** The state of scenario 2 when the worker enters its loop. *)
Definition ready : cstate := snd (worker_init (ok_bus 0) 1 0%nat started).

(** The state of scenario 2 when the worker enters its loop with the
    servo standing at 1234. *)
Definition ready_at_1234 : cstate :=
  snd (worker_init (ok_bus 1234) 1 0%nat started).


(** * Further operations of the controller *)

(** As for the operations above, the trace records calls, waits, locks
    and writes to pattern objects; of the console output only the lines
    of the group sync writer are recorded. *)

(** What the operations below answer: [{"success": True, ...}], one of
    the fixed error texts of [error], the text the SDK gives for a
    transport result ([getTxRxResult(comm_result)]), or one of the two
    error texts that are their own. *)
Inductive answer :=
  | Done
  | Online (model : Z)
  | Refused (e : error)
  | CommError (c : comm_result)
  | ReadPositionFailed
  | NothingToResume.

Section Facade.

Variable bus : world.

(** ** Single commands (lines 453-465, 515-559, 650-662) *)

(** [ping_servo] *)
Definition ping_servo (servo_id : Z) : M cstate answer :=
  c <- gets is_connected ;;
  if negb c then ret (Refused NotConnected) else
  try_except
    (r <- sdk bus (Ping servo_id) ;;
     if comm_ok (snd r) then ret (Online (fst r)) else ret (CommError (snd r)))
    (ret (Refused Unexpected)).

(** [set_servo_position] *)
Definition set_servo_position (servo_id position speed acceleration : Z)
    : M cstate answer :=
  c <- gets is_connected ;;
  if negb c then ret (Refused NotConnected) else
  try_except
    (r <- sdk bus (WritePosEx servo_id position speed acceleration) ;;
     if comm_ok (snd r) then ret Done else ret (CommError (snd r)))
    (ret (Refused Unexpected)).

(** [set_servo_speed_and_acceleration]: the position is read and written
    back with the new speed and acceleration. *)
Definition set_servo_speed_and_acceleration (servo_id speed acceleration : Z)
    : M cstate answer :=
  c <- gets is_connected ;;
  if negb c then ret (Refused NotConnected) else
  try_except
    (p <- sdk bus (ReadPos servo_id) ;;
     if negb (comm_ok (snd p)) then ret ReadPositionFailed else
     r <- sdk bus (WritePosEx servo_id (fst p) speed acceleration) ;;
     if comm_ok (snd r) then ret Done else ret (CommError (snd r)))
    (ret (Refused Unexpected)).

(** [enable_torque] *)
Definition enable_torque (servo_id : Z) : M cstate answer :=
  c <- gets is_connected ;;
  if negb c then ret (Refused NotConnected) else
  try_except
    (r <- sdk bus (Write1ByteTxRx servo_id STS_TORQUE_ENABLE 1) ;;
     if comm_ok (snd r) then ret Done else ret (CommError (snd r)))
    (ret (Refused Unexpected)).

(** [disable_torque] *)
Definition disable_torque (servo_id : Z) : M cstate answer :=
  c <- gets is_connected ;;
  if negb c then ret (Refused NotConnected) else
  try_except
    (r <- sdk bus (Write1ByteTxRx servo_id STS_TORQUE_ENABLE 0) ;;
     if comm_ok (snd r) then ret Done else ret (CommError (snd r)))
    (ret (Refused Unexpected)).

(** ** [discover_servos] (lines 108-139) *)

(** [for servo_id in range(start_id, end_id + 1)] with [n] ids left;
    [discovered] maps the ids found so far to their model numbers. *)
Fixpoint discover_each (n : nat) (servo_id : Z) (discovered : gmap Z Z)
    : M cstate (gmap Z Z) :=
  match n with
  | O => ret discovered
  | S n' =>
      d <- try_except
             (r <- sdk bus (Ping servo_id) ;;
              if comm_ok (snd r) then
                sleep 50 ;; ret (<[servo_id := fst r]> discovered)
              else ret discovered)
             (ret discovered) ;;
      sleep 10 ;;
      discover_each n' (servo_id + 1) d
  end.

Definition discover_servos (start_id end_id : Z)
    : M cstate (answer * gmap Z Z) :=
  c <- gets is_connected ;;
  if negb c then ret (Refused NotConnected, ∅) else
  d <- discover_each (Z.to_nat (end_id + 1 - start_id)) start_id ∅ ;;
  modify (with_discovered d) ;;
  ret (Done, d).

(** ** [stop_continuous_movement] (lines 763-854) *)

(** Lines 777-781: the worker thread is given two seconds to end. *)
Definition join_worker (servo_id : Z) : M cstate unit :=
  ot <- gets (fun s => continuous_movement_threads s !! servo_id) ;;
  match ot with
  | Some t =>
      a <- ask bus (ThreadIsAlive t) ;;
      if negb (fst a =? 0) then
        _ <- ask bus (ThreadJoin t 2000) ;;
        _ <- ask bus (ThreadIsAlive t) ;;
        ret tt
      else ret tt
  | None => ret tt
  end.

(** Lines 785-807: a rotation is stopped and the servo put back into
    joint mode. *)
Definition stop_rotation (servo_id : Z) : M cstate unit :=
  try_except
    (_ <- sdk bus (WriteSpec servo_id 0 50) ;;
     sleep 50 ;;
     _ <- sdk bus (Write1ByteTxRx servo_id STS_MODE 0) ;;
     _ <- sdk bus (Write1ByteTxRx servo_id STS_TORQUE_ENABLE 1) ;;
     ret tt)
    (ret tt).

(** Lines 809-841: a positional pattern is held where the servo is. *)
Definition stop_positional (servo_id : Z) : M cstate unit :=
  rd <- try_except (p <- sdk bus (ReadPos servo_id) ;; ret (Some p)) (ret None) ;;
  let current_pos :=
    match rd with
    | Some (pos, c) => if comm_ok c then pos else 2048
    | None => 2048
    end in
  try_except
    (_ <- sdk bus (WritePosEx servo_id current_pos 0 0) ;; ret tt)
    (ret tt) ;;
  try_except
    (_ <- sdk bus (Write1ByteTxRx servo_id STS_TORQUE_ENABLE 1) ;; ret tt)
    (ret tt).

(** Lines 843-849: the thread is forgotten, and the pattern too when it
    is a non-empty dictionary that is not running. *)
Definition forget_movement (servo_id : Z) : M cstate unit :=
  modify (fun s => with_threads (delete servo_id (continuous_movement_threads s)) s) ;;
  cur <- gets (fun s => movement_patterns s !! servo_id) ;;
  match cur with
  | Some l =>
      d <- gets (pattern_at l) ;;
      if truthy (VDict d) && negb (truthy (dict_get d "running" (VBool false)))
      then modify (fun s => with_patterns (delete servo_id (movement_patterns s)) s)
      else ret tt
  | None => ret tt
  end.

(** One turn of the loop over [servo_ids]. *)
Definition stop_one (servo_id : Z) : M cstate answer :=
  c <- gets is_connected ;;
  if negb c then ret (Refused NotConnected) else
  ol <- gets (fun s => movement_patterns s !! servo_id) ;;
  match ol with
  | None => ret (Refused NoRunningMovement)
  | Some l =>
      r <- pget l "running" (VBool false) ;;
      (if truthy r then pset l "running" (VBool false) else ret tt) ;;
      join_worker servo_id ;;
      pattern_type <- pget l "type" (VStr "unknown") ;;
      (if eq_str pattern_type "rotation" then stop_rotation servo_id
       else stop_positional servo_id) ;;
      forget_movement servo_id ;;
      ret Done
  end.

Fixpoint stop_each (servo_ids : list Z) : M cstate (list (Z * answer)) :=
  match servo_ids with
  | [] => ret []
  | servo_id :: rest =>
      r <- stop_one servo_id ;;
      rs <- stop_each rest ;;
      ret ((servo_id, r) :: rs)
  end.

Definition stop_continuous_movement (servo_ids : list Z)
    : M cstate (answer * list (Z * answer)) :=
  results <- stop_each servo_ids ;;
  ret (Done, results).

(** ** [resume_continuous_movement] (lines 998-1027) *)

Definition resume_one (servo_id : Z) : M cstate answer :=
  c <- gets is_connected ;;
  if negb c then ret (Refused NotConnected) else
  ol <- gets (fun s => movement_patterns s !! servo_id) ;;
  match ol with
  | None => ret NothingToResume
  | Some l =>
      r <- pget l "running" (VBool false) ;;
      p <- pget l "paused" (VBool false) ;;
      if truthy r && truthy p then
        with_lock pause_lock
          (pset l "paused" (VBool false) ;;
           pset l "immediate_stop" (VBool false)) ;;
        try_except
          (_ <- sdk bus (Write1ByteTxRx servo_id STS_TORQUE_ENABLE 1) ;; ret tt)
          (ret tt) ;;
        ret Done
      else ret NothingToResume
  end.

Fixpoint resume_each (servo_ids : list Z) : M cstate (list (Z * answer)) :=
  match servo_ids with
  | [] => ret []
  | servo_id :: rest =>
      r <- resume_one servo_id ;;
      rs <- resume_each rest ;;
      ret ((servo_id, r) :: rs)
  end.

Definition resume_continuous_movement (servo_ids : list Z)
    : M cstate (answer * list (Z * answer)) :=
  results <- resume_each servo_ids ;;
  ret (Done, results).

End Facade.

(** * Further observations *)

(** ** The sweep as the calculator sees it *)

(** The bounds a sweep turns at: [start_position] and [end_position] as
    lines 2324-2341 validate and order them. *)
Definition sweep_bounds (l : loc) (s : cstate) : Z * Z :=
  let start1 :=
    valid_position (dict_get (pattern_at l s) "start_position" (VInt 0)) 0 in
  let end1 :=
    valid_position (dict_get (pattern_at l s) "end_position" (VInt 4095)) 4095 in
  if end1 <? start1 then (end1, start1) else (start1, end1).

(** The step of a sweep: [speed] as line 2334 validates it. *)
Definition sweep_speed (l : loc) (s : cstate) : Z :=
  match num (dict_get (pattern_at l s) "speed" (VInt 100)) with
  | Some n => if n <? 0 then 100 else n
  | None => 100
  end.

(** A controller whose only pattern object is a rotation with a text
    where the position should be. *)
Definition odd_rotation : cstate :=
  with_heap
    {[ 0%nat := <["type" := VStr "rotation"]>
                  (<["current_position" := VStr "home"]> ∅) ]}
    connected0.

(** Scenario 2 with angle limits 1000..3000 enabled. *)
Definition limited_sweep_request : pydict :=
  <["angle_constraints" :=
      VDict (<["max_angle" := VInt 3000]>
             (<["min_angle" := VInt 1000]>
              (<["enabled" := VBool true]> ∅)))]> sweep_request.

Definition limited : cstate := started_with limited_sweep_request.

(** ** Waiting *)

(** The waits on a trace, in milliseconds. *)
Definition waits (t : list event) : list Z :=
  omap (fun e => match e with EvSleep ms => Some ms | _ => None end) t.

(** The worker's state with more events on the trace and nothing else
    changed. *)
Definition later (t : list event) (w : wstate) : wstate :=
  mk_wstate (with_trace (trace (wc w) ++ t) (wc w)) (consecutive_failures w)
    (last_successful_position w) (step_count w).

(** The controller after the sweep of servo 1 has been paused, the servo
    standing at 1500. *)
Definition paused_sweep : cstate :=
  snd (pause_continuous_movement (ok_bus 1500) [VInt 1] sweeping).

(** The controller after the sweep of servo 1 has been stopped. *)
Definition stopped_sweep : cstate :=
  snd (stop_continuous_movement (ok_bus 1500) [1] sweeping).

(** ** Code that only talks *)

(** [grown s s']: the trace has grown and nothing else has changed. *)
Definition grown (s s' : cstate) : Prop :=
  exists t, s' = with_trace (trace s ++ t) s.

(** Calls to the thread library. *)
Definition thread_call (c : call) : bool :=
  match c with
  | ThreadStart _ _ _ | ThreadIsAlive _ | ThreadJoin _ _ => true
  | MonitorIsAlive | MonitorStart => true
  | _ => false
  end.

(** The calls on a trace that go to the servo bus, in order. *)
Definition bus_calls (t : list event) : list call :=
  omap (fun e =>
          match e with
          | EvCall c _ => if thread_call c then None else Some c
          | _ => None
          end) t.

(** The thread library does not raise. *)
Definition threads_behave (bus : world) : Prop :=
  forall t c, thread_call c = true -> bus t c <> Raised.

(** The events on a trace that are calls to the servo bus. *)
Definition bus_events (t : list event) : list event :=
  List.filter (fun e =>
                 match e with
                 | EvCall c _ => negb (thread_call c)
                 | _ => false
                 end) t.

(** The controller once servo [servo_id] has been forgotten: its entries
    in the two tables are gone. *)
Definition forgotten (servo_id : Z) (s : cstate) : cstate :=
  with_patterns (delete servo_id (movement_patterns s))
    (with_threads (delete servo_id (continuous_movement_threads s)) s).

(** ** Starting a movement *)

(** The pattern object [start_continuous_movement] builds for a request
    without angle constraints. *)
Definition requested_pattern (config : pydict) : pydict :=
  new_pattern config
    (dict_get config "type" (VStr "sweep"))
    (dict_get config "speed" (VInt 100))
    (dict_get config "acceleration" (VInt 50))
    (VBool false) VNone VNone.

(** The controller once a pattern object for [config] has been allocated
    and registered for servo [id], with the worker thread [next_tid s]. *)
Definition registered (id : Z) (config : pydict) (s : cstate) : cstate :=
  with_threads (<[id := next_tid s]> (continuous_movement_threads s))
    (with_next_tid (S (next_tid s))
       (with_patterns (<[id := next_loc s]> (movement_patterns s))
          (with_next_loc (S (next_loc s))
             (with_heap (<[next_loc s := requested_pattern config]> (heap s)) s)))).

(** The defaults the worker fills in before its loop (lines 1697-1706). *)
Definition worker_defaults : pydict :=
  <["direction" := VInt 1]>
  (<["cycle_count" := VInt 0]>
   (<["start_position" := VInt 0]>
    (<["end_position" := VInt 4095]>
     (<["center_position" := VInt 2048]> ∅)))).

(** A request for servo 0. *)
Definition servo_zero_request : pydict :=
  <["servo_id" := VInt 0]> sweep_request.

(** The same request with ["angle_constraints": null]. *)
Definition null_constraints_request : pydict :=
  <["angle_constraints" := VNone]> servo_zero_request.

(** ** The EEPROM *)

Definition is_lock (e : event) : bool :=
  match e with EvCall (LockEprom _) _ => true | _ => false end.

(** A bus on which the EEPROM unlocks but the write of the lower angle
    limit is refused. *)
Definition stubborn_bus : world :=
  fun _ c =>
    match c with
    | Write2ByteTxRx _ STS_MIN_ANGLE_LIMIT_L _ => Reply 0 COMM_RX_CORRUPT
    | _ => Reply 1 COMM_SUCCESS
    end.

(** The controller after [disconnect]. *)
Definition disconnected : cstate := snd (disconnect (ok_bus 0) connected0).

(** ** Discovery *)

(** The ids pinged on a trace, in order. *)
Definition pinged (t : list event) : list Z :=
  omap (fun e => match e with EvCall (Ping i) _ => Some i | _ => None end) t.

(** The servos that answered a ping on a trace, with the model number
    each one gave, added to [d] in the order of the trace. *)
Definition found (t : list event) (d : gmap Z Z) : gmap Z Z :=
  fold_left (fun d e =>
               match e with
               | EvCall (Ping i) (Reply model COMM_SUCCESS) => <[i := model]> d
               | _ => d
               end) t d.

(** A bus on which only the servos 1 and 2 answer, with model number
    777. *)
Definition two_servo_bus : world :=
  fun _ c =>
    match c with
    | Ping 1 | Ping 2 => Reply 777 COMM_SUCCESS
    | Ping _ => Reply 0 COMM_RX_TIMEOUT
    | _ => Reply 1 COMM_SUCCESS
    end.

(** ** What a worker may do *)

(** The calls of the worker of servo [servo_id]: pings, position reads,
    torque-enable and motion commands addressed to that servo, with speed
    and acceleration within the ranges of the command, and the sample of
    the sine term. *)
Definition own_call (servo_id : Z) (c : call) : bool :=
  match c with
  | Ping i | ReadPos i => i =? servo_id
  | WritePosEx i _ speed acc =>
      (i =? servo_id) && (0 <=? speed) && (speed <=? 1023)
      && (0 <=? acc) && (acc <=? 254)
  | WriteSpec i speed acc =>
      (i =? servo_id) && (0 <=? speed) && (speed <=? 2047)
      && (0 <=? acc) && (acc <=? 254)
  | Write1ByteTxRx i STS_TORQUE_ENABLE 1 => i =? servo_id
  | WaveSample _ _ => true
  | _ => false
  end.

(** The events of that worker: its calls, writes to its own pattern
    object at [l], the pause lock, and waits. *)
Definition own_event (servo_id : Z) (l : loc) (e : event) : bool :=
  match e with
  | EvCall c _ => own_call servo_id c
  | EvSet l' _ _ => Nat.eqb l' l
  | EvAcquire k | EvRelease k => lock_eqb k pause_lock
  | EvSleep _ => true
  | EvPrint _ => false
  end.

(** The controller's tables and handles: everything but the pattern
    objects, the locks held and the trace. *)
Definition tables (s : cstate) :=
  (port_handler s, packet_handler s, is_connected s, discovered_servos s,
   continuous_movement_threads s, movement_patterns s, next_loc s, next_tid s,
   (group_sync_speed_writer s, group_sync_position_writer s),
   (monitoring_active s, monitoring_thread s)).

(** [own servo_id l s s']: from [s] to [s'] only events of the worker of
    [servo_id] have happened, no other pattern object has changed, and the
    tables are as they were. *)
Definition own (servo_id : Z) (l : loc) (s s' : cstate) : Prop :=
  (exists t, trace s' = trace s ++ t /\ forallb (own_event servo_id l) t = true)
  /\ (forall l', l' <> l -> heap s' !! l' = heap s !! l')
  /\ tables s' = tables s.

Definition own_w (servo_id : Z) (l : loc) (w w' : wstate) : Prop :=
  own servo_id l (wc w) (wc w').

(** ** Angle limits *)

(** A position command within [lo, hi]; every other event passes. *)
Definition within (lo hi : Z) (e : event) : bool :=
  match e with
  | EvCall (WritePosEx _ p _ _) _ => (lo <=? p) && (p <=? hi)
  | _ => true
  end.

(** The pattern object at [l] carries the angle constraints [d]. *)
Definition limited_to (l : loc) (d : pydict) (s : cstate) : Prop :=
  pattern_at l s !! "angle_constraints" = Some (VDict d).

(** [bounded l d lo hi s s']: if the pattern carried the constraints [d]
    in [s] it still does in [s'], and every position command sent in
    between is within [lo, hi]. *)
Definition bounded (l : loc) (d : pydict) (lo hi : Z) (s s' : cstate) : Prop :=
  limited_to l d s ->
  limited_to l d s'
  /\ exists t, trace s' = trace s ++ t /\ forallb (within lo hi) t = true.

Definition bounded_w (l : loc) (d : pydict) (lo hi : Z) (w w' : wstate) : Prop :=
  bounded l d lo hi (wc w) (wc w').

(** A setpoint that is a number within [lo, hi]. *)
Definition setpoint_within (lo hi : Z) (v : val) : Prop :=
  exists z, num v = Some z /\ lo <= z <= hi.

(** ** Single commands *)

(** An answer with ["success": True]. *)
Definition succeeded (a : answer) : bool :=
  match a with Done | Online _ => true | _ => false end.

(** [one_call bus c m s]: from [s] the command [m] returns an answer,
    having sent nothing or the one call [c] and changed nothing else;
    the answer is a success exactly when [c] was sent and answered with
    success; and nothing is sent while disconnected. *)
Definition one_call (bus : world) (c : call) (m : M cstate answer) (s : cstate)
    : Prop :=
  exists a t,
    m s = (Ret a, with_trace (trace s ++ t) s)
    /\ (t = [] \/ t = [EvCall c (bus (trace s) c)])
    /\ (succeeded a = true <-> t <> [] /\ reply_ok (bus (trace s) c) = true)
    /\ (is_connected s = false -> t = []).
(** * Reasoning principles *)

Section Frames.

Context {S : Type} (R : S -> S -> Prop) `{!PreOrder R}.

Lemma calm_ret {A} (a : A) : calm R (ret a).
Proof. intros s. split; [discriminate | reflexivity]. Qed.

Lemma calm_raise {A} : calm R (@raise S A).
Proof. intros s. split; [discriminate | reflexivity]. Qed.

Lemma calm_gets {A} (f : S -> A) : calm R (gets f).
Proof. intros s. split; [discriminate | reflexivity]. Qed.

Lemma calm_of_option {A} (o : option A) : calm R (@of_option S A o).
Proof. destruct o; [apply calm_ret | apply calm_raise]. Qed.

Lemma calm_modify (f : S -> S) :
  (forall s, R s (f s)) -> calm R (modify f).
Proof. intros H s. split; [discriminate | apply H]. Qed.

Lemma calm_bind {A B} (m : M S A) (f : A -> M S B) :
  calm R m -> (forall a, calm R (f a)) -> calm R (bind m f).
Proof.
  intros Hm Hf s. unfold bind.
  destruct (Hm s) as [Hh Hv]. destruct (m s) as [[a| |] s1]; simpl in *.
  - destruct (Hf a s1) as [Hh1 Hv1]. split; [assumption | by etrans].
  - split; [discriminate | assumption].
  - contradiction.
Qed.

Lemma calm_try_except {A} (m h : M S A) :
  calm R m -> calm R h -> calm R (try_except m h).
Proof.
  intros Hm Hh s. unfold try_except.
  destruct (Hm s) as [Hn Hv]. destruct (m s) as [[a| |] s1]; simpl in *.
  - split; [discriminate | assumption].
  - destruct (Hh s1) as [Hn1 Hv1]. split; [assumption | by etrans].
  - contradiction.
Qed.

Lemma calm_val_get (d : val) (k : string) (dflt : val) :
  calm R (@val_get S d k dflt).
Proof. destruct d; simpl; first [apply calm_ret | apply calm_raise]. Qed.

(** A handler that returns makes the whole [try] return. *)
Lemma try_except_returns {A} (m : M S A) (a0 : A) :
  calm R m -> forall s, exists a, fst (try_except m (ret a0) s) = Ret a.
Proof.
  intros Hm s. unfold try_except. destruct (Hm s) as [Hn _].
  destruct (m s) as [[a| |] s1]; simpl in *; eauto. contradiction.
Qed.

Lemma yields_bind {A B} (Q : res B -> Prop) (m : M S A) (f : A -> M S B) :
  Q Exn -> Q Hang -> (forall a, yields Q (f a)) -> yields Q (bind m f).
Proof.
  intros He Hh Hf s. unfold bind.
  destruct (m s) as [[a| |] s1]; simpl; auto. apply Hf.
Qed.

End Frames.

(** The same for code that may block. *)

Section Keeps.

Context {S : Type} (R : S -> S -> Prop) `{!PreOrder R}.

Lemma keeps_ret {A} (a : A) : keeps R (ret a).
Proof. intros s. reflexivity. Qed.

Lemma keeps_raise {A} : keeps R (@raise S A).
Proof. intros s. reflexivity. Qed.

Lemma keeps_gets {A} (f : S -> A) : keeps R (gets f).
Proof. intros s. reflexivity. Qed.

Lemma keeps_of_option {A} (o : option A) : keeps R (@of_option S A o).
Proof. destruct o; [apply keeps_ret | apply keeps_raise]. Qed.

Lemma keeps_modify (f : S -> S) : (forall s, R s (f s)) -> keeps R (modify f).
Proof. intros H s. apply H. Qed.

Lemma keeps_bind {A B} (m : M S A) (f : A -> M S B) :
  keeps R m -> (forall a, keeps R (f a)) -> keeps R (bind m f).
Proof.
  intros Hm Hf s. unfold bind. specialize (Hm s).
  destruct (m s) as [[a| |] s1]; cbn [snd] in *; try assumption.
  etrans; [exact Hm | apply Hf].
Qed.

(** The continuation of a value that may be a [TypeError] is only run on
    a value. *)
Lemma keeps_bind_of_option {A B} (o : option A) (f : A -> M S B) :
  (forall a, o = Some a -> keeps R (f a)) -> keeps R (bind (of_option o) f).
Proof.
  intros Hf s. destruct o as [a|]; [| reflexivity].
  apply (Hf a eq_refl).
Qed.

Lemma keeps_try_except {A} (m h : M S A) :
  keeps R m -> keeps R h -> keeps R (try_except m h).
Proof.
  intros Hm Hh s. unfold try_except. specialize (Hm s).
  destruct (m s) as [[a| |] s1]; cbn [snd] in *; try assumption.
  etrans; [exact Hm | apply Hh].
Qed.

Lemma keeps_try_finally {A} (m : M S A) (f : M S unit) :
  keeps R m -> keeps R f -> keeps R (try_finally m f).
Proof.
  intros Hm Hf s. unfold try_finally. specialize (Hm s).
  destruct (m s) as [[a| |] s1]; cbn [snd] in *; try assumption.
  all: specialize (Hf s1); destruct (f s1) as [[[]| |] s2]; cbn [snd] in *;
    by etrans.
Qed.

Lemma keeps_val_get (d : val) (k : string) (dflt : val) :
  keeps R (@val_get S d k dflt).
Proof. destruct d; cbn [val_get]; first [apply keeps_ret | apply keeps_raise]. Qed.

End Keeps.

Lemma motions_app t1 t2 : motions (t1 ++ t2) = (motions t1 + motions t2)%nat.
Proof. induction t1 as [|e t1 IH]; cbn [motions app]; [reflexivity | lia]. Qed.

#[local] Instance steady_preorder l : PreOrder (steady l).
Proof.
  split.
  - intros s. unfold steady. auto.
  - intros s1 s2 s3 (Hf1 & Hp1 & Hm1) (Hf2 & Hp2 & Hm2).
    unfold steady. repeat split; [congruence | congruence | lia].
Qed.

#[local] Instance steady_w_preorder l : PreOrder (steady_w l).
Proof.
  split.
  - intros w. unfold steady_w. reflexivity.
  - intros w1 w2 w3. unfold steady_w. apply transitivity.
Qed.

Lemma calm_lift {A} l (m : M cstate A) :
  calm (steady l) m -> calm (steady_w l) (lift m).
Proof.
  intros Hm w. unfold lift. destruct (Hm (wc w)) as [Hn Hv].
  destruct (m (wc w)) as [r c]. simpl in *. auto.
Qed.

Lemma frame_with_trace l t s : frame l (with_trace t s) = frame l s.
Proof. reflexivity. Qed.

Lemma pattern_at_with_heap l h s :
  pattern_at l (with_heap h s) = default ∅ (h !! l).
Proof. reflexivity. Qed.

(** The dictionary at [l] after [pattern[k] = v] on the object at [l']. *)
Lemma pattern_at_pset l l' k v s :
  pattern_at l (snd (pset l' k v s))
  = if decide (l' = l) then <[k := v]> (pattern_at l s) else pattern_at l s.
Proof.
  unfold pset, modify. cbn [snd]. rewrite pattern_at_with_heap.
  destruct (decide (l' = l)) as [->|Hne].
  - by rewrite lookup_insert_eq.
  - by rewrite lookup_insert_ne.
Qed.

Lemma held_pset l k v s : held (snd (pset l k v s)) = held s.
Proof. reflexivity. Qed.

Lemma trace_pset l k v s : trace (snd (pset l k v s)) = trace s ++ [EvSet l k v].
Proof. reflexivity. Qed.

Section WorkerFrames.

Variable bus : world.
Variable l : loc.

Lemma steady_log e s : steady l s (with_trace (trace s ++ [e]) s).
Proof.
  unfold steady. cbn [trace with_trace packet_handler]. rewrite motions_app.
  repeat split. lia.
Qed.

Lemma calm_log e : calm (steady l) (log e).
Proof. apply calm_modify. intros s. apply steady_log. Qed.

Lemma calm_sleep ms : calm (steady l) (sleep ms).
Proof. apply calm_log. Qed.

Lemma calm_print m : calm (steady l) (print m).
Proof. apply calm_log. Qed.

Lemma calm_ask c : calm (steady l) (ask bus c).
Proof.
  intros s. unfold ask. destruct (bus (trace s) c); cbn [fst snd]; split;
    first [discriminate | apply steady_log].
Qed.

Lemma calm_sdk c : calm (steady l) (sdk bus c).
Proof.
  unfold sdk. apply (calm_bind (steady l)); [apply (calm_gets (steady l)) |].
  intros [|]; [apply calm_ask | apply (calm_raise (steady l))].
Qed.

Lemma calm_pget l' k d : calm (steady l) (pget l' k d).
Proof. apply (calm_gets (steady l)). Qed.

Lemma calm_has_key l' k : calm (steady l) (has_key l' k).
Proof. apply (calm_gets (steady l)). Qed.

Lemma calm_pidx l' k : calm (steady l) (pidx l' k).
Proof.
  unfold pidx. apply (calm_bind (steady l)); [apply (calm_gets (steady l)) |].
  intros; apply (calm_of_option (steady l)).
Qed.

Lemma calm_pset l' k v : frame_key k = false -> calm (steady l) (pset l' k v).
Proof.
  intros Hk s. split; [discriminate |].
  unfold steady. rewrite trace_pset, motions_app.
  split; [| split; [reflexivity | lia]].
  unfold frame. rewrite held_pset, pattern_at_pset.
  destruct (decide (l' = l)) as [->|]; [| reflexivity].
  unfold frame_key in Hk. cbn [existsb] in Hk.
  repeat (apply orb_false_elim in Hk; destruct Hk as [? Hk]).
  repeat match goal with
         | H : String.eqb _ _ = false |- _ => apply String.eqb_neq in H
         end.
  cbn [map]. by rewrite !lookup_insert_ne.
Qed.

Lemma calm_set_failures n : calm (steady_w l) (set_failures n).
Proof. apply calm_modify. intros w. unfold steady_w. reflexivity. Qed.

Lemma calm_set_last v : calm (steady_w l) (set_last v).
Proof. apply calm_modify. intros w. unfold steady_w. reflexivity. Qed.

Lemma calm_set_steps n : calm (steady_w l) (set_steps n).
Proof. apply calm_modify. intros w. unfold steady_w. reflexivity. Qed.

Create HintDb calm.

#[local] Hint Resolve calm_set_failures calm_set_last calm_set_steps : calm.

(** One syntax-directed step of a frame proof; lemmas about the
    functions already treated are taken from the hint database. *)
Ltac calm_step :=
  match goal with
  | |- calm ?R (bind _ _) => apply (calm_bind R); [| intros ?]
  | |- calm ?R (ret _) => apply (calm_ret R)
  | |- calm ?R raise => apply (calm_raise R)
  | |- calm ?R (gets _) => apply (calm_gets R)
  | |- calm ?R (of_option _) => apply (calm_of_option R)
  | |- calm ?R (try_except _ _) => apply (calm_try_except R)
  | |- calm ?R (val_get _ _ _) => apply (calm_val_get R)
  | |- calm _ (sleep _) => apply calm_sleep
  | |- calm _ (print _) => apply calm_print
  | |- calm _ (ask _ _) => apply calm_ask
  | |- calm _ (sdk _ _) => apply calm_sdk
  | |- calm _ (pget _ _ _) => apply calm_pget
  | |- calm _ (pidx _ _) => apply calm_pidx
  | |- calm _ (has_key _ _) => apply calm_has_key
  | |- calm _ (pset _ _ _) => apply calm_pset; reflexivity
  | |- calm _ (lift _) => apply calm_lift
  | |- calm _ _ => solve [eauto with calm]
  | |- calm _ (match ?x with _ => _ end) => destruct x
  end.

Ltac calm_tac := cbv zeta; repeat calm_step.

Lemma calm_attempt_servo_recovery servo_id :
  calm (steady l) (_attempt_servo_recovery bus servo_id l).
Proof. unfold _attempt_servo_recovery. calm_tac. Qed.
#[local] Hint Resolve calm_attempt_servo_recovery : calm.

Lemma calm_health_recovery n servo_id :
  calm (steady l) (health_recovery bus n servo_id l).
Proof. induction n as [|n IH]; cbn [health_recovery]; calm_tac. Qed.
#[local] Hint Resolve calm_health_recovery : calm.

Lemma calm_check_health servo_id :
  calm (steady l) (_check_communication_health_during_movement bus servo_id l).
Proof. unfold _check_communication_health_during_movement. calm_tac. Qed.
#[local] Hint Resolve calm_check_health : calm.

Lemma calm_count_cycle : calm (steady l) (count_cycle l).
Proof. unfold count_cycle. calm_tac. Qed.
#[local] Hint Resolve calm_count_cycle : calm.

Lemma calm_calculate_sweep_position servo_id current_pos :
  calm (steady l) (_calculate_sweep_position servo_id l current_pos).
Proof. unfold _calculate_sweep_position. calm_tac. Qed.
#[local] Hint Resolve calm_calculate_sweep_position : calm.

Lemma calm_calculate_wave_position servo_id current_pos :
  calm (steady l) (_calculate_wave_position bus servo_id l current_pos).
Proof. unfold _calculate_wave_position. calm_tac. Qed.
#[local] Hint Resolve calm_calculate_wave_position : calm.

Lemma calm_calculate_next_position servo_id :
  calm (steady l) (_calculate_next_position bus servo_id l).
Proof. unfold _calculate_next_position. calm_tac. Qed.
#[local] Hint Resolve calm_calculate_next_position : calm.

Lemma calm_checked_setpoint next_position :
  calm (steady l) (checked_setpoint l next_position).
Proof. unfold checked_setpoint. calm_tac. Qed.
#[local] Hint Resolve calm_checked_setpoint : calm.

Lemma calm_execute_sweep_step servo_id next_position :
  calm (steady l) (_execute_sweep_step bus servo_id l next_position).
Proof. unfold _execute_sweep_step. calm_tac. Qed.

Lemma calm_execute_wave_step servo_id next_position :
  calm (steady l) (_execute_wave_step bus servo_id l next_position).
Proof. unfold _execute_wave_step. calm_tac. Qed.

Lemma calm_execute_rotation_step servo_id :
  calm (steady l) (_execute_rotation_step bus servo_id l).
Proof. unfold _execute_rotation_step. calm_tac. Qed.
#[local] Hint Resolve calm_execute_sweep_step calm_execute_wave_step
  calm_execute_rotation_step : calm.

Lemma calm_stop_requested : calm (steady l) (stop_requested l).
Proof. unfold stop_requested. calm_tac. Qed.
#[local] Hint Resolve calm_stop_requested : calm.

Lemma calm_reverse_sweep : calm (steady l) (reverse_sweep l).
Proof. unfold reverse_sweep. calm_tac. Qed.
#[local] Hint Resolve calm_reverse_sweep : calm.

Lemma calm_apply_angle_constraints next_position :
  calm (steady l) (apply_angle_constraints l next_position).
Proof. unfold apply_angle_constraints. calm_tac. Qed.
#[local] Hint Resolve calm_apply_angle_constraints : calm.

Lemma calm_execute_step servo_id next_position :
  calm (steady l) (execute_step bus servo_id l next_position).
Proof. unfold execute_step. calm_tac. Qed.
#[local] Hint Resolve calm_execute_step : calm.

Lemma calm_movement_attempts n attempt servo_id next_position :
  calm (steady l) (movement_attempts bus n attempt servo_id l next_position).
Proof.
  revert attempt. induction n as [|n IH]; intros attempt;
    cbn [movement_attempts]; calm_tac.
Qed.
#[local] Hint Resolve calm_movement_attempts : calm.

Lemma calm_count_boundary next_position :
  calm (steady l) (count_boundary l next_position).
Proof. unfold count_boundary. calm_tac. Qed.
#[local] Hint Resolve calm_count_boundary : calm.

Lemma calm_on_movement_success next_position :
  calm (steady_w l) (on_movement_success l next_position).
Proof. unfold on_movement_success. calm_tac. Qed.

Lemma calm_recovery_attempts n servo_id :
  calm (steady_w l) (recovery_attempts bus n servo_id l).
Proof. induction n as [|n IH]; cbn [recovery_attempts]; calm_tac. Qed.
#[local] Hint Resolve calm_on_movement_success calm_recovery_attempts : calm.

Lemma calm_on_movement_failure servo_id :
  calm (steady_w l) (on_movement_failure bus servo_id l).
Proof. unfold on_movement_failure. calm_tac. Qed.

Lemma calm_on_iteration_error :
  calm (steady_w l) on_iteration_error.
Proof. unfold on_iteration_error. calm_tac. Qed.
#[local] Hint Resolve calm_on_movement_failure calm_on_iteration_error : calm.


(** *** The flags are read off the frame *)

Lemma frame_flags s s' :
  frame l s' = frame l s ->
  running_flag l s' = running_flag l s /\ paused_flag l s' = paused_flag l s
  /\ stop_flag l s' = stop_flag l s /\ held s' = held s.
Proof.
  unfold frame. cbn [map]. intros H. injection H as Hr Hp Hi He _ _ _ _ Hh.
  unfold running_flag, paused_flag, stop_flag, dict_get.
  rewrite Hr, Hp, Hi, He. auto.
Qed.

Lemma steady_flags s s' :
  steady l s s' ->
  running_flag l s' = running_flag l s /\ paused_flag l s' = paused_flag l s
  /\ stop_flag l s' = stop_flag l s /\ held s' = held s.
Proof. intros (Hf & _ & _). by apply frame_flags. Qed.

Lemma lift_eq {A} (m : M cstate A) w :
  lift m w =
  (fst (m (wc w)),
   mk_wstate (snd (m (wc w))) (consecutive_failures w)
     (last_successful_position w) (step_count w)).
Proof. unfold lift. destruct (m (wc w)). reflexivity. Qed.

Lemma bind_stop_requested {A} (f : bool -> M wstate A) w :
  bind (lift (stop_requested l)) f w = f (stop_flag l (wc w)) w.
Proof. destruct w. reflexivity. Qed.

(** *** The loop body *)

Lemma calm_iteration_body servo_id :
  calm (steady_w l) (iteration_body bus servo_id l).
Proof. unfold iteration_body. calm_tac. Qed.

(** With the stop flags clear the body does not leave the loop: it ends
    normally or with an exception. *)
Lemma iteration_body_no_break servo_id w :
  stop_flag l (wc w) = false ->
  fst (iteration_body bus servo_id l w) <> Ret Break.
Proof.
  intros Hstop. unfold iteration_body.
  rewrite bind_stop_requested, Hstop.
  unfold bind at 1.
  destruct (calm_lift l _ (calm_calculate_next_position servo_id) w)
    as [_ Hf1].
  destruct (lift (_calculate_next_position bus servo_id l) w)
    as [[next0| |] w1]; cbn [fst snd] in *; try discriminate.
  apply steady_flags in Hf1. destruct Hf1 as (_ & _ & Hs1 & _).
  rewrite bind_stop_requested, Hs1, Hstop.
  unfold bind at 1.
  destruct (calm_lift l _ (calm_apply_angle_constraints next0) w1)
    as [_ Hf2].
  destruct (lift (apply_angle_constraints l next0) w1)
    as [[next_position| |] w2]; cbn [fst snd] in *; try discriminate.
  apply steady_flags in Hf2. destruct Hf2 as (_ & _ & Hs2 & _).
  rewrite bind_stop_requested, Hs2, Hs1, Hstop.
  match goal with
  | |- fst (?m w2) <> Ret Break =>
      assert (Hy : yields (fun r => r <> Ret Break) m); [| exact (Hy w2)]
  end.
  repeat (apply yields_bind; [discriminate | discriminate | intros ?]).
  intros w3. discriminate.
Qed.

Lemma on_iteration_error_returns w :
  fst (on_iteration_error w) = Ret tt.
Proof.
  unfold on_iteration_error, bind, gets, set_failures, modify, ret.
  cbn. destruct (max_consecutive_failures <=? consecutive_failures w + 1);
    reflexivity.
Qed.

Lemma filter_not_held k h :
  existsb (lock_eqb k) h = false ->
  filter (fun x => negb (lock_eqb k x)) h = h.
Proof.
  induction h as [|x h IH]; [reflexivity |]. cbn [existsb]. intros H.
  apply orb_false_elim in H. destruct H as [Hx Hh].
  rewrite filter_cons. rewrite Hx. cbn. rewrite decide_True by done.
  by rewrite IH.
Qed.

(** *** One turn of the loop *)

(** The check of [paused] under the pause lock. *)
Lemma paused_check s :
  is_held pause_lock s = false ->
  exists t,
    with_lock pause_lock
      (p <- pget l "paused" (VBool false) ;;
       if truthy p then sleep 100 ;; ret true else ret false) s
    = (Ret (paused_flag l s), with_trace (trace s ++ t) s).
Proof.
  intros Hfree. pose proof (filter_not_held pause_lock (held s) Hfree) as Hflt.
  unfold paused_flag, with_lock, acquire, bind at 1. rewrite Hfree.
  unfold try_finally, bind, pget, gets. cbn [fst snd].
  unfold pattern_at at 1. cbn [heap with_held with_trace].
  fold (pattern_at l s).
  destruct s as [ph pk ic ds th mp hp nl nt sw pw ma mt hd tr].
  cbn [held] in Hflt.
  destruct (truthy (dict_get _ "paused" (VBool false)));
    cbn -[filter lock_eqb]; rewrite filter_cons;
    rewrite decide_False by (cbn; auto); rewrite Hflt;
    rewrite <- ?app_assoc; eexists; reflexivity.
Qed.

Lemma worker_iteration_continues servo_id w :
  is_held pause_lock (wc w) = false ->
  exists w',
    worker_iteration bus servo_id l w = (Ret Continue, w')
    /\ steady_w l w w'.
Proof.
  intros Hfree. unfold worker_iteration.
  rewrite bind_stop_requested.
  destruct (stop_flag l (wc w)) eqn:Hstop.
  { destruct w. eexists. split; [reflexivity |]. apply steady_log. }
  unfold bind at 1. rewrite lift_eq.
  destruct (paused_check (wc w) Hfree) as [t Hr].
  rewrite Hr. cbn [fst snd].
  set (w1 := mk_wstate _ _ _ _).
  assert (Hf1 : steady_w l w w1).
  { unfold steady_w, steady. cbn [wc w1 trace with_trace packet_handler].
    rewrite motions_app. repeat split. lia. }
  destruct (paused_flag l (wc w)); [eexists; split; [reflexivity | exact Hf1] |].
  assert (Hs1 : stop_flag l (wc w1) = false).
  { apply steady_flags in Hf1. destruct Hf1 as (_ & _ & -> & _). exact Hstop. }
  pose proof (iteration_body_no_break servo_id w1 Hs1) as Hnb.
  destruct (calm_iteration_body servo_id w1) as [Hnh Hfb].
  unfold try_except.
  destruct (iteration_body bus servo_id l w1) as [[[|]| |] w2];
    cbn [fst snd] in *; try congruence.
  - eexists. split; [reflexivity | by etrans].
  - unfold bind. pose proof (on_iteration_error_returns w2) as He.
    destruct (calm_on_iteration_error w2) as [_ Hfe].
    destruct (on_iteration_error w2) as [r w3]. cbn [fst snd] in *. subst r.
    eexists. split; [reflexivity |]. etrans; [exact Hf1 |]. by etrans.
Qed.

(** *** The loop *)

(** Left to itself the worker does not leave its loop: as long as
    [running] is set and nobody else holds the pause lock, every turn ends
    in another turn, whatever the bus answers. *)
Lemma worker_loop_keeps_going fuel servo_id : forall w,
  running_flag l (wc w) = true ->
  is_held pause_lock (wc w) = false ->
  exists w',
    worker_loop bus fuel servo_id l w = (Ret StillLooping, w')
    /\ steady_w l w w'.
Proof.
  induction fuel as [|fuel IH]; intros w Hrun Hfree.
  - cbn [worker_loop]. unfold bind. rewrite lift_eq.
    unfold pget, gets. cbn [fst snd]. fold (running_flag l (wc w)).
    rewrite Hrun. destruct w. eexists. split; reflexivity.
  - cbn [worker_loop]. unfold bind at 1. rewrite lift_eq.
    unfold pget, gets. cbn [fst snd]. fold (running_flag l (wc w)).
    rewrite Hrun. cbn [negb].
    assert (Hw : mk_wstate (wc w) (consecutive_failures w)
                   (last_successful_position w) (step_count w) = w)
      by (destruct w; reflexivity).
    rewrite Hw. unfold bind.
    destruct (worker_iteration_continues servo_id w Hfree) as (w1 & Hr & Hf).
    rewrite Hr.
    destruct (steady_flags _ _ Hf) as (Hrun1 & _ & _ & Hheld1).
    destruct (IH w1) as (w2 & Hr2 & Hf2).
    + congruence.
    + unfold is_held in *. congruence.
    + exists w2. split; [exact Hr2 | by etrans].
Qed.

(** *** The failure path *)

Lemma attempt_servo_recovery_returns servo_id s :
  exists b s', _attempt_servo_recovery bus servo_id l s = (Ret b, s').
Proof.
  assert (H : exists b, fst (_attempt_servo_recovery bus servo_id l s) = Ret b).
  { unfold _attempt_servo_recovery.
    apply (try_except_returns (steady l)). calm_tac. }
  destruct H as [b Hb].
  destruct (_attempt_servo_recovery bus servo_id l s) as [r s'].
  cbn [fst] in Hb. subst r. eauto.
Qed.

Lemma recovery_attempts_counter n servo_id : forall w,
  exists b w',
    recovery_attempts bus n servo_id l w = (Ret b, w')
    /\ consecutive_failures w' = if b then 0 else consecutive_failures w.
Proof.
  induction n as [|n IH]; intros w.
  - exists false, w. split; reflexivity.
  - cbn [recovery_attempts]. unfold bind at 1. rewrite lift_eq.
    destruct (attempt_servo_recovery_returns servo_id (wc w)) as (b & s' & Hb).
    rewrite Hb. cbn [fst snd]. destruct b.
    + eexists true, _. split; reflexivity.
    + unfold bind at 1. rewrite lift_eq. cbn [fst snd sleep log modify].
      match goal with |- context [recovery_attempts bus n servo_id l ?w'] =>
        destruct (IH w') as (b & w2 & Hr & Hc)
      end.
      exists b, w2. split; [exact Hr | exact Hc].
Qed.

(** A failed step (lines 1804-1828) ends normally; once the count of
    consecutive failures reaches [max_consecutive_failures] the recovery
    attempts are made and the count is zero afterwards, whether or not a
    recovery succeeded. *)
Lemma on_movement_failure_counter servo_id w :
  exists w',
    on_movement_failure bus servo_id l w = (Ret tt, w')
    /\ consecutive_failures w'
       = if max_consecutive_failures <=? consecutive_failures w + 1 then 0
         else consecutive_failures w + 1.
Proof.
  unfold on_movement_failure, bind at 1, gets. cbn [fst snd].
  unfold bind at 1, set_failures, modify. cbn [fst snd wc].
  destruct (max_consecutive_failures <=? consecutive_failures w + 1);
    [| eexists; split; reflexivity].
  unfold bind.
  match goal with |- context [recovery_attempts bus 3 servo_id l ?w'] =>
    destruct (recovery_attempts_counter 3 servo_id w') as (b & w2 & Hr & Hc)
  end.
  rewrite Hr. destruct b; eexists; (split; [reflexivity |]);
    [exact Hc | reflexivity].
Qed.

(** The in-band health check always answers [True]. *)
Lemma check_health_returns_true servo_id s :
  exists s',
    _check_communication_health_during_movement bus servo_id l s = (Ret true, s').
Proof.
  assert (Hrec : forall n s,
            exists s', health_recovery bus n servo_id l s = (Ret true, s')).
  { induction n as [|n IH]; intros s0; [eexists; reflexivity |].
    cbn [health_recovery]. unfold bind at 1.
    destruct (attempt_servo_recovery_returns servo_id s0) as (b & s1 & Hb).
    rewrite Hb. destruct b; [eexists; reflexivity |].
    destruct n; cbn; apply IH. }
  unfold _check_communication_health_during_movement, sdk, try_except, bind, gets.
  destruct (packet_handler s); [| eexists; reflexivity].
  unfold ask.
  destruct (bus (trace s) (ReadPos servo_id)) as [|v c]; [eexists; reflexivity |].
  destruct (comm_ok c) eqn:Hc; cbn [snd negb]; rewrite ?Hc; cbn [negb].
  - eexists; reflexivity.
  - match goal with |- context [health_recovery bus 3 servo_id l ?s'] =>
      destruct (Hrec 3%nat s') as [s2 H]
    end.
    rewrite H. eexists; reflexivity.
Qed.


(** *** Every turn of a drivable pattern sends a motion command *)

Lemma steady_drivable s s' : steady l s s' -> drivable l s' = drivable l s.
Proof.
  intros (Hf & Hp & _). unfold frame in Hf. cbn [map] in Hf.
  injection Hf as _ _ _ _ Ht Hs Ha Hc _.
  unfold drivable. by rewrite Hp, Ht, Hs, Ha, Hc.
Qed.

Lemma valid_position_range v d :
  0 <= d <= 4095 -> 0 <= valid_position v d <= 4095.
Proof.
  intros Hd. unfold valid_position. destruct (num v) as [n|]; [| exact Hd].
  destruct (n <? 0) eqn:H1; [exact Hd |].
  destruct (4095 <? n) eqn:H2; [exact Hd |]. cbn. lia.
Qed.

Lemma calculate_sweep_position_range servo_id current_pos s :
  0 <= current_pos <= 4095 ->
  exists z s',
    _calculate_sweep_position servo_id l current_pos s = (Ret z, s')
    /\ 0 <= z <= 4095.
Proof.
  intros Hc. unfold _calculate_sweep_position, try_except.
  match goal with |- context [bind ?m ?f s] =>
    assert (Hy : yields (fun r => match r with
                                  | Ret z => 0 <= z <= 4095
                                  | _ => True
                                  end) (bind m f));
    [| assert (Hn : calm (steady l) (bind m f)) by calm_tac;
       specialize (Hy s); destruct (Hn s) as [Hn' _];
       destruct (bind m f s) as [[z| |] s1]; cbn [fst] in *;
       [eauto | eexists _, _; split; [reflexivity | exact Hc] | contradiction]]
  end.
  repeat (apply yields_bind; [exact I | exact I | intros ?]).
  intros s0. cbn. lia.
Qed.

(** The next setpoint of a sweep is an integer in [[0, 4095]]. *)
Lemma calculate_next_position_sweep servo_id s :
  eq_str (dict_get (pattern_at l s) "type" (VStr "sweep")) "sweep" = true ->
  exists z s',
    _calculate_next_position bus servo_id l s = (Ret (VInt z), s')
    /\ 0 <= z <= 4095.
Proof.
  intros Ht. unfold _calculate_next_position, try_except.
  unfold bind at 1, pget at 1, gets. cbn [fst snd].
  unfold bind at 1, pget at 1, gets. cbn [fst snd]. rewrite Ht.
  unfold bind.
  match goal with |- context [_calculate_sweep_position servo_id l ?c s] =>
    destruct (calculate_sweep_position_range servo_id c s) as (z & s' & Hr & Hz);
    [apply valid_position_range; lia |]
  end.
  rewrite Hr. eauto.
Qed.

(** With the constraints off the setpoint is left as computed. *)
Lemma apply_angle_constraints_off next_position s :
  constraints_off (pattern_at l s !! "angle_constraints") = true ->
  apply_angle_constraints l next_position s = (Ret next_position, s).
Proof.
  intros Hoff. unfold apply_angle_constraints, bind, pget, gets, dict_get.
  cbn [fst snd].
  destruct (pattern_at l s !! "angle_constraints") as [[| | | |d]|];
    cbn in Hoff; try discriminate.
  - apply negb_true_iff in Hoff. cbn -[truthy]. unfold ret at 1.
    unfold dict_get in *. cbn -[truthy] in Hoff. rewrite Hoff. reflexivity.
  - reflexivity.
Qed.

Lemma clamp_numeric (o : option val) (d : val) lo hi :
  numeric_or_absent o = true -> is_number d = true ->
  exists z, clamp lo hi (default d o) = Some z.
Proof.
  unfold numeric_or_absent, is_number, clamp.
  destruct o as [v|]; cbn; intros H1 H2.
  - destruct (num v); [eauto | discriminate].
  - destruct (num d); [eauto | discriminate].
Qed.

(** A call through the packet handler is recorded whatever it answers. *)
Lemma sdk_recorded c s :
  packet_handler s = true ->
  exists r,
    sdk bus c s =
    (match r with Raised => Exn | Reply v cr => Ret (v, cr) end,
     with_trace (trace s ++ [EvCall c r]) s).
Proof.
  intros Hp. unfold sdk, bind, gets. rewrite Hp. unfold ask.
  exists (bus (trace s) c). destruct (bus (trace s) c); reflexivity.
Qed.

Lemma steady_motion c r s :
  is_motion (EvCall c r) = true ->
  steady l s (with_trace (trace s ++ [EvCall c r]) s)
  /\ (motions (trace s) + 1 <= motions (trace s ++ [EvCall c r]))%nat.
Proof.
  intros Hm. split; [apply steady_log |].
  rewrite motions_app. cbn [motions]. rewrite Hm. lia.
Qed.

Lemma execute_rotation_step_emits servo_id s :
  packet_handler s = true ->
  numeric_or_absent (pattern_at l s !! "acceleration") = true ->
  exists s',
    _execute_rotation_step bus servo_id l s = (Ret tt, s')
    /\ steady l s s'
    /\ (motions (trace s) + 1 <= motions (trace s'))%nat.
Proof.
  intros Hp Ha. unfold _execute_rotation_step.
  unfold bind at 1, pget at 1, gets. cbn [fst snd]. cbv zeta.
  unfold bind at 1, pget at 1, gets. cbn [fst snd].
  destruct (clamp_numeric _ (VInt 50) 0 254 Ha eq_refl) as [acc Hacc].
  unfold dict_get. rewrite Hacc. unfold bind at 1, of_option, ret at 1.
  unfold try_except, bind.
  match goal with |- context [sdk bus ?c s] =>
    destruct (sdk_recorded c s Hp) as [r Hr];
    destruct (steady_motion c r s eq_refl) as [Hs Hm]
  end.
  rewrite Hr. destruct r; eexists; (split; [reflexivity |]); split; assumption.
Qed.

Lemma execute_sweep_step_emits servo_id z s :
  packet_handler s = true ->
  numeric_or_absent (pattern_at l s !! "acceleration") = true ->
  numeric_or_absent (pattern_at l s !! "speed") = true ->
  0 <= z <= 4095 ->
  exists s',
    _execute_sweep_step bus servo_id l (VInt z) s = (Ret tt, s')
    /\ steady l s s'
    /\ (motions (trace s) + 1 <= motions (trace s'))%nat.
Proof.
  intros Hp Ha Hsp Hz. unfold _execute_sweep_step, try_except.
  unfold bind at 1, checked_setpoint. cbn [num].
  replace ((z <? 0) || (4095 <? z)) with false by lia.
  unfold ret at 1.
  unfold bind at 1, pget at 1, gets. cbn [fst snd].
  unfold bind at 1, pget at 1, gets. cbn [fst snd].
  destruct (clamp_numeric _ (VInt 100) 0 1023 Hsp eq_refl) as [sp Hsp'].
  destruct (clamp_numeric _ (VInt 50) 0 254 Ha eq_refl) as [acc Hacc].
  unfold dict_get. rewrite Hsp', Hacc. cbn [of_option py_int num].
  unfold bind at 1, ret at 1. unfold bind at 1, ret at 1.
  unfold bind at 1, ret at 1. unfold bind.
  match goal with |- context [sdk bus ?c s] =>
    destruct (sdk_recorded c s Hp) as [r Hr];
    destruct (steady_motion c r s eq_refl) as [Hs Hm]
  end.
  rewrite Hr.
  destruct r as [|v cr]; [eexists; split; [reflexivity |]; split; assumption |].
  cbn [snd]. destruct (comm_ok cr); cbn [negb].
  - match goal with |- context [pset l ?k ?v ?s0] =>
      destruct (calm_pset l k v eq_refl s0) as [_ (Hf & Hq & Hn)]
    end.
    eexists. split; [reflexivity |]. split.
    + etrans; [exact Hs |]. repeat split; assumption.
    + rewrite trace_pset in Hn. cbn [trace with_trace with_heap] in *. lia.
  - eexists. split; [reflexivity |]. split; assumption.
Qed.

Lemma stop_requested_eq s : stop_requested l s = (Ret (stop_flag l s), s).
Proof. reflexivity. Qed.

Lemma bind_lift_ret {A B} (m : M cstate A) (f : A -> M wstate B) w a c :
  m (wc w) = (Ret a, c) ->
  bind (lift m) f w
  = f a (mk_wstate c (consecutive_failures w) (last_successful_position w)
           (step_count w)).
Proof. intros H. unfold bind. rewrite lift_eq, H. reflexivity. Qed.

(** The parts of [drivable]. *)
Lemma drivable_parts s :
  drivable l s = true ->
  packet_handler s = true
  /\ constraints_off (pattern_at l s !! "angle_constraints") = true
  /\ numeric_or_absent (pattern_at l s !! "acceleration") = true
  /\ (pattern_at l s !! "type" = Some (VStr "rotation")
      \/ (pattern_at l s !! "type" = Some (VStr "sweep")
          /\ numeric_or_absent (pattern_at l s !! "speed") = true)).
Proof.
  unfold drivable. intros H.
  apply andb_prop in H. destruct H as [H Ht].
  apply andb_prop in H. destruct H as [H Ha].
  apply andb_prop in H. destruct H as [Hp Hc].
  repeat split; try assumption.
  destruct (pattern_at l s !! "type") as [[| | |t|]|]; try discriminate.
  apply orb_prop in Ht. destruct Ht as [Ht|Ht].
  - left. apply String.eqb_eq in Ht. by subst.
  - right. apply andb_prop in Ht. destruct Ht as [Ht Hs].
    apply String.eqb_eq in Ht. by subst.
Qed.

Lemma execute_step_emits servo_id next_position s :
  drivable l s = true ->
  (pattern_at l s !! "type" = Some (VStr "sweep") ->
   exists z, next_position = VInt z /\ 0 <= z <= 4095) ->
  exists s',
    execute_step bus servo_id l next_position s = (Ret tt, s')
    /\ steady l s s'
    /\ (motions (trace s) + 1 <= motions (trace s'))%nat.
Proof.
  intros Hd Hnext. destruct (drivable_parts s Hd) as (Hp & _ & Ha & Ht).
  unfold execute_step, pidx. unfold bind at 1. unfold bind at 1, gets.
  cbn [fst snd].
  destruct Ht as [Ht | [Ht Hs]]; rewrite Ht; cbn [of_option]; unfold ret at 1.
  - change (eq_str (VStr "rotation") "sweep") with false.
    change (eq_str (VStr "rotation") "rotation") with true. cbv iota.
    by apply execute_rotation_step_emits.
  - destruct (Hnext Ht) as (z & -> & Hz).
    change (eq_str (VStr "sweep") "sweep") with true. cbv iota.
    by apply execute_sweep_step_emits.
Qed.

Lemma movement_attempts_emits servo_id next_position s :
  drivable l s = true ->
  stop_flag l s = false ->
  (pattern_at l s !! "type" = Some (VStr "sweep") ->
   exists z, next_position = VInt z /\ 0 <= z <= 4095) ->
  exists s',
    movement_attempts bus 3 0 servo_id l next_position s = (Ret true, s')
    /\ steady l s s'
    /\ (motions (trace s) + 1 <= motions (trace s'))%nat.
Proof.
  intros Hd Hstop Hnext. cbn [movement_attempts].
  unfold bind at 1. rewrite stop_requested_eq, Hstop.
  destruct (execute_step_emits servo_id next_position s Hd Hnext)
    as (s' & He & Hs & Hm).
  unfold bind at 1, try_except, bind at 1. rewrite He. cbn.
  eexists. split; [reflexivity |]. split; assumption.
Qed.

(** The setpoint computed for a drivable pattern. *)
Lemma calculate_next_position_drivable servo_id s :
  drivable l s = true ->
  exists v s',
    _calculate_next_position bus servo_id l s = (Ret v, s')
    /\ (pattern_at l s !! "type" = Some (VStr "sweep") ->
        exists z, v = VInt z /\ 0 <= z <= 4095).
Proof.
  intros Hd. destruct (drivable_parts s Hd) as (_ & _ & _ & Ht).
  destruct Ht as [Ht | [Ht _]].
  - unfold _calculate_next_position, try_except, bind, pget, gets, dict_get.
    cbn [fst snd]. rewrite Ht. cbn. eexists _, _. split; [reflexivity |].
    intros Hc. congruence.
  - destruct (calculate_next_position_sweep servo_id s) as (z & s' & Hr & Hz).
    { unfold dict_get. by rewrite Ht. }
    rewrite Hr. eauto 10.
Qed.

Lemma iteration_body_emits servo_id w :
  drivable l (wc w) = true ->
  stop_flag l (wc w) = false ->
  (motions (trace (wc w)) + 1
   <= motions (trace (wc (snd (iteration_body bus servo_id l w)))))%nat.
Proof.
  intros Hd Hstop. unfold iteration_body.
  rewrite bind_stop_requested, Hstop.
  destruct (calculate_next_position_drivable servo_id (wc w) Hd)
    as (next0 & s1 & Hcalc & Hnext).
  destruct (calm_calculate_next_position servo_id (wc w)) as [_ Hs1].
  rewrite Hcalc in Hs1. cbn [snd] in Hs1.
  rewrite (bind_lift_ret _ _ w _ _ Hcalc).
  set (w1 := mk_wstate s1 _ _ _).
  destruct (steady_flags _ _ Hs1) as (_ & _ & Hstop1 & _).
  pose proof (steady_drivable _ _ Hs1) as Hd1.
  assert (Hstop1' : stop_flag l (wc w1) = false) by (cbn [wc w1]; congruence).
  rewrite bind_stop_requested, Hstop1'.
  destruct (drivable_parts s1) as (_ & Hoff & _ & _); [congruence |].
  rewrite (bind_lift_ret (apply_angle_constraints l next0) _ w1 next0 s1
             (apply_angle_constraints_off next0 s1 Hoff)).
  change (mk_wstate s1 (consecutive_failures w1) (last_successful_position w1)
            (step_count w1)) with w1.
  rewrite bind_stop_requested, Hstop1'.
  destruct (movement_attempts_emits servo_id next0 s1) as (s2 & Hma & Hs2 & Hm2).
  { congruence. }
  { congruence. }
  { intros Hty. apply Hnext. destruct Hs1 as (Hf & _ & _).
    unfold frame in Hf. cbn [map] in Hf. injection Hf as _ _ _ _ Ht _ _ _ _.
    congruence. }
  rewrite (bind_lift_ret _ _ w1 _ _ Hma).
  set (w2 := mk_wstate s2 _ _ _).
  match goal with |- context [snd (?k w2)] =>
    assert (Hk : calm (steady_w l) k) by calm_tac;
    destruct (Hk w2) as [_ (_ & _ & Hm3)]
  end.
  destruct Hs1 as (_ & _ & Hm1). cbn [wc w2] in Hm3. lia.
Qed.

Lemma worker_iteration_emits servo_id w :
  drivable l (wc w) = true ->
  stop_flag l (wc w) = false ->
  paused_flag l (wc w) = false ->
  is_held pause_lock (wc w) = false ->
  (motions (trace (wc w)) + 1
   <= motions (trace (wc (snd (worker_iteration bus servo_id l w)))))%nat.
Proof.
  intros Hd Hstop Hpaused Hfree. unfold worker_iteration.
  rewrite bind_stop_requested, Hstop.
  unfold bind at 1. rewrite lift_eq.
  destruct (paused_check (wc w) Hfree) as [t Hr].
  rewrite Hr, Hpaused. cbn [fst snd].
  set (w1 := mk_wstate _ _ _ _).
  assert (Hm1 : (motions (trace (wc w)) <= motions (trace (wc w1)))%nat).
  { cbn [wc w1 trace with_trace]. rewrite motions_app. lia. }
  pose proof (iteration_body_emits servo_id w1) as Hb.
  unfold try_except.
  destruct (iteration_body bus servo_id l w1) as [[c| |] w2];
    cbn [fst snd] in *.
  - etrans; [| apply Hb; reflexivity || assumption]. lia.
  - match goal with |- context [snd (?h w2)] =>
      assert (Hh : calm (steady_w l) h) by calm_tac;
      destruct (Hh w2) as [_ (_ & _ & Hm3)]
    end.
    assert ((motions (trace (wc w1)) + 1 <= motions (trace (wc w2)))%nat)
      by (apply Hb; reflexivity || assumption).
    lia.
  - etrans; [| apply Hb; reflexivity || assumption]. lia.
Qed.

(** A drivable pattern that is neither paused nor stopped sends at least
    one motion command in each turn of the loop: after [fuel] turns the
    worker is still looping and has sent at least [fuel] commands more. *)
Lemma worker_loop_emits fuel servo_id : forall w,
  running_flag l (wc w) = true ->
  is_held pause_lock (wc w) = false ->
  drivable l (wc w) = true ->
  stop_flag l (wc w) = false ->
  paused_flag l (wc w) = false ->
  exists w',
    worker_loop bus fuel servo_id l w = (Ret StillLooping, w')
    /\ steady_w l w w'
    /\ (motions (trace (wc w)) + fuel <= motions (trace (wc w')))%nat.
Proof.
  induction fuel as [|fuel IH]; intros w Hrun Hfree Hd Hstop Hpaused.
  - destruct (worker_loop_keeps_going 0 servo_id w Hrun Hfree) as (w' & Hr & Hs).
    exists w'. split; [exact Hr |]. split; [exact Hs |].
    destruct Hs as (_ & _ & Hm). lia.
  - cbn [worker_loop]. unfold bind at 1. rewrite lift_eq.
    unfold pget, gets. cbn [fst snd]. fold (running_flag l (wc w)).
    rewrite Hrun. cbn [negb].
    assert (Hw : mk_wstate (wc w) (consecutive_failures w)
                   (last_successful_position w) (step_count w) = w)
      by (destruct w; reflexivity).
    rewrite Hw. unfold bind.
    pose proof (worker_iteration_emits servo_id w Hd Hstop Hpaused Hfree) as Hm.
    destruct (worker_iteration_continues servo_id w Hfree) as (w1 & Hr & Hf).
    rewrite Hr in Hm |- *. cbn [snd] in Hm.
    destruct (steady_flags _ _ Hf) as (Hrun1 & Hp1 & Hs1 & Hheld1).
    pose proof (steady_drivable _ _ Hf) as Hd1.
    destruct (IH w1) as (w2 & Hr2 & Hf2 & Hm2); try congruence.
    { unfold is_held in *. congruence. }
    exists w2. split; [exact Hr2 |]. split; [by etrans | lia].
Qed.

End WorkerFrames.

(** * The seed of the worker *)

Section WorkerInit.

Variable bus : world.

Lemma set_default_spec l k v s :
  exists s' t,
    set_default l k v s = (Ret tt, s')
    /\ trace s' = trace s ++ t
    /\ forallb quiet t = true
    /\ (forall k', k' <> k -> pattern_at l s' !! k' = pattern_at l s !! k').
Proof.
  unfold set_default, bind, has_key, gets. cbn [fst snd].
  destruct (pattern_at l s !! k).
  - exists s, []. rewrite app_nil_r. repeat split.
  - exists (snd (pset l k v s)), [EvSet l k v].
    split; [reflexivity |]. split; [apply trace_pset |].
    split; [reflexivity |]. intros k' Hk.
    rewrite pattern_at_pset, decide_True by done. by rewrite lookup_insert_ne.
Qed.

(** The defaults set after the seed (lines 1697-1706) leave
    [current_position] alone and call nothing. *)
Lemma worker_defaults_spec l s :
  exists s' t,
    (set_default l "direction" (VInt 1) ;;
     set_default l "cycle_count" (VInt 0) ;;
     set_default l "start_position" (VInt 0) ;;
     set_default l "end_position" (VInt 4095) ;;
     set_default l "center_position" (VInt 2048) ;;
     ret true) s = (Ret true, s')
    /\ trace s' = trace s ++ t
    /\ forallb quiet t = true
    /\ pattern_at l s' !! "current_position" = pattern_at l s !! "current_position".
Proof.
  destruct (set_default_spec l "direction" (VInt 1) s)
    as (s1 & t1 & E1 & T1 & Q1 & P1).
  destruct (set_default_spec l "cycle_count" (VInt 0) s1)
    as (s2 & t2 & E2 & T2 & Q2 & P2).
  destruct (set_default_spec l "start_position" (VInt 0) s2)
    as (s3 & t3 & E3 & T3 & Q3 & P3).
  destruct (set_default_spec l "end_position" (VInt 4095) s3)
    as (s4 & t4 & E4 & T4 & Q4 & P4).
  destruct (set_default_spec l "center_position" (VInt 2048) s4)
    as (s5 & t5 & E5 & T5 & Q5 & P5).
  exists s5, (t1 ++ t2 ++ t3 ++ t4 ++ t5).
  unfold bind. rewrite E1, E2, E3, E4, E5. split; [reflexivity |].
  split; [rewrite T5, T4, T3, T2, T1; by rewrite <- !app_assoc |].
  split; [by rewrite !forallb_app, Q1, Q2, Q3, Q4, Q5 |].
  rewrite P5, P4, P3, P2, P1 by done. reflexivity.
Qed.

End WorkerInit.

(** C6, as the code has it.  The worker seeds [current_position] from a
    live read only when the pattern object has no such field: then the
    read is the first thing the worker does, and the field becomes the
    position read, or 2048 when the read fails or raises.  When the field
    is there (every object built by [start_continuous_movement] has it)
    the worker keeps it and calls nothing before its loop. *)
Theorem worker_seed_only_when_missing
    (bus : world) (servo_id : Z) (l : loc) (s : cstate) :
  packet_handler s = true ->
  (pattern_at l s !! "current_position" = None ->
   exists s' t,
     worker_init bus servo_id l s = (Ret true, s')
     /\ trace s' = trace s
                   ++ EvCall (ReadPos servo_id) (bus (trace s) (ReadPos servo_id))
                   :: t
     /\ forallb quiet t = true
     /\ pattern_at l s' !! "current_position"
        = Some (VInt (live_seed bus servo_id s)))
  /\ (forall v,
        pattern_at l s !! "current_position" = Some v ->
        exists s' t,
          worker_init bus servo_id l s = (Ret true, s')
          /\ trace s' = trace s ++ t
          /\ forallb quiet t = true
          /\ pattern_at l s' !! "current_position" = Some v).
Proof.
  intros Hp. split.
  - intros Hnone. unfold worker_init. unfold try_except at 1.
    unfold bind at 1, has_key, gets. cbn [fst snd]. rewrite Hnone.
    unfold bind at 1.
    assert (Hseed : exists s1 t1,
      try_except
        (r <- sdk bus (ReadPos servo_id) ;;
         if comm_ok (snd r) then pset l "current_position" (VInt (fst r))
         else pset l "current_position" (VInt 2048))
        (pset l "current_position" (VInt 2048)) s = (Ret tt, s1)
      /\ trace s1 = trace s
                    ++ EvCall (ReadPos servo_id) (bus (trace s) (ReadPos servo_id))
                    :: t1
      /\ forallb quiet t1 = true
      /\ pattern_at l s1 !! "current_position"
         = Some (VInt (live_seed bus servo_id s))).
    { unfold sdk, try_except, bind, gets, live_seed. rewrite Hp. unfold ask.
      set (r := bus (trace s) (ReadPos servo_id)).
      set (s0 := with_trace (trace s ++ [EvCall (ReadPos servo_id) r]) s).
      assert (Hset : forall z,
        pset l "current_position" (VInt z) s0
        = (Ret tt, snd (pset l "current_position" (VInt z) s0))
        /\ trace (snd (pset l "current_position" (VInt z) s0))
           = trace s ++ EvCall (ReadPos servo_id) r
                        :: [EvSet l "current_position" (VInt z)]
        /\ pattern_at l (snd (pset l "current_position" (VInt z) s0))
             !! "current_position" = Some (VInt z)).
      { intros z. split; [reflexivity |].
        split; [rewrite trace_pset; unfold s0; cbn [trace with_trace];
                by rewrite <- app_assoc |].
        rewrite pattern_at_pset, decide_True by done. by rewrite lookup_insert_eq. }
      destruct r as [|p c]; cbn [fst snd].
      - destruct (Hset 2048) as (E & T & P). rewrite E.
        eexists _, [_]. split; [reflexivity |]. split; [exact T |].
        split; [reflexivity | exact P].
      - destruct (comm_ok c).
        + destruct (Hset p) as (E & T & P). rewrite E.
          eexists _, [_]. split; [reflexivity |]. split; [exact T |].
          split; [reflexivity | exact P].
        + destruct (Hset 2048) as (E & T & P). rewrite E.
          eexists _, [_]. split; [reflexivity |]. split; [exact T |].
          split; [reflexivity | exact P]. }
    destruct Hseed as (s1 & t1 & E1 & T1 & Q1 & P1). rewrite E1.
    destruct (worker_defaults_spec l s1) as (s2 & t2 & E2 & T2 & Q2 & P2).
    rewrite E2. exists s2, (t1 ++ t2). split; [reflexivity |].
    split; [rewrite T2, T1; by rewrite <- app_assoc |].
    split; [by rewrite forallb_app, Q1, Q2 |]. by rewrite P2.
  - intros v Hv. unfold worker_init, try_except.
    unfold bind at 1, has_key, gets. cbn [fst snd]. rewrite Hv.
    unfold bind at 1, ret at 1.
    destruct (worker_defaults_spec l s) as (s2 & t2 & E2 & T2 & Q2 & P2).
    rewrite E2. exists s2, t2. split; [reflexivity |].
    split; [exact T2 |]. split; [exact Q2 |]. by rewrite P2.
Qed.

(** An object without the field, on the state of [connected0]: the worker
    reads 1234 from the servo and starts from there. *)
Lemma worker_seed_only_when_missing_witness :
  packet_handler (with_heap {[ 0%nat := {[ "type" := VStr "sweep" ]} ]} connected0)
  = true
  /\ exists s' t,
       worker_init (ok_bus 1234) 1 0%nat
         (with_heap {[ 0%nat := {[ "type" := VStr "sweep" ]} ]} connected0)
       = (Ret true, s')
       /\ trace s' = [] ++ EvCall (ReadPos 1) (Reply 1234 COMM_SUCCESS) :: t
       /\ pattern_at 0%nat s' !! "current_position" = Some (VInt 1234).
Proof.
  split; [reflexivity |].
  destruct (worker_seed_only_when_missing (ok_bus 1234) 1 0%nat
              (with_heap {[ 0%nat := {[ "type" := VStr "sweep" ]} ]} connected0)
              eq_refl) as [Hmissing _].
  destruct (Hmissing eq_refl) as (s' & t & Hr & Ht & _ & Hp).
  exists s', t. split; [exact Hr |]. split; [exact Ht | exact Hp].
Defined.

(** C6 as stated fails on every pattern that [start_continuous_movement]
    builds: with the servo standing at 1234, the worker of scenario 2
    issues no position read, keeps the 0 written at line 705, and computes
    its first setpoint, 200, from that 0. *)
Lemma worker_seed_counterexample :
  live_seed (ok_bus 1234) 1 started = 1234
  /\ fst (worker_init (ok_bus 1234) 1 0%nat started) = Ret true
  /\ existsb is_read_pos (trace ready_at_1234) = false
  /\ pattern_at 0%nat ready_at_1234 !! "current_position" = Some (VInt 0)
  /\ pattern_at 0%nat ready_at_1234 !! "current_position"
     <> Some (VInt (live_seed (ok_bus 1234) 1 started))
  /\ fst (_calculate_next_position (ok_bus 1234) 1 0%nat ready_at_1234)
     = Ret (VInt 200).
Proof.
  split; [reflexivity |]. split; [vm_compute; reflexivity |].
  split; [vm_compute; reflexivity |].
  split; [vm_compute; reflexivity |]. split; [vm_compute; discriminate |].
  vm_compute; reflexivity.
Qed.

(** * Disconnecting *)

(** What [disconnect] computes when [closePort] does not raise. *)
Lemma disconnect_eq (bus : world) (s : cstate) :
  bus (trace s) ClosePort <> Raised ->
  disconnect bus s =
  (Ret Success,
   with_writers false false
     (with_discovered ∅
        (with_connected false
           (if port_handler s
            then with_trace (trace s ++ [EvCall ClosePort (bus (trace s) ClosePort)]) s
            else s)))).
Proof.
  intros Hclose. unfold disconnect, bind, gets, modify, ret, ask.
  cbn [fst snd]. destruct (port_handler s); [| reflexivity].
  destruct (bus (trace s) ClosePort); [congruence | reflexivity].
Qed.

(** C9, as the code has it.  [disconnect] closes the port when there is
    a port handler, marks the controller as disconnected, empties the map
    of discovered servos and drops the group sync writers; it neither
    touches the movement patterns and worker threads nor calls anything
    but [closePort].  It is idempotent: a second call succeeds and leaves
    the controller state as the first call left it. *)
Theorem disconnect_releases_port_only (bus : world) (s : cstate) :
  (forall t, bus t ClosePort <> Raised) ->
  exists s1 s2,
    disconnect bus s = (Ret Success, s1)
    /\ is_connected s1 = false
    /\ discovered_servos s1 = ∅
    /\ group_sync_speed_writer s1 = false
    /\ group_sync_position_writer s1 = false
    /\ movement_patterns s1 = movement_patterns s
    /\ continuous_movement_threads s1 = continuous_movement_threads s
    /\ heap s1 = heap s
    /\ trace s1
       = trace s ++ (if port_handler s
                     then [EvCall ClosePort (bus (trace s) ClosePort)]
                     else [])
    /\ disconnect bus s1 = (Ret Success, s2)
    /\ forget_trace s2 = forget_trace s1.
Proof.
  intros Hclose. eexists _, _.
  split; [apply disconnect_eq, Hclose |].
  repeat (split; [destruct (port_handler s); reflexivity |]).
  split; [destruct (port_handler s); cbn; by rewrite ?app_nil_r |].
  split; [apply disconnect_eq, Hclose |].
  destruct (port_handler s) eqn:Hp;
    cbn [port_handler with_writers with_discovered with_connected with_trace];
    rewrite Hp; reflexivity.
Qed.

(** Disconnecting while servo 1 sweeps. *)
Lemma disconnect_releases_port_only_witness :
  (forall t, ok_bus 0 t ClosePort <> Raised)
  /\ exists s1,
       disconnect (ok_bus 0) sweeping = (Ret Success, s1)
       /\ is_connected s1 = false
       /\ movement_patterns s1 = movement_patterns sweeping
       /\ heap s1 = heap sweeping.
Proof.
  assert (H : forall t, ok_bus 0 t ClosePort <> Raised) by (intros t; discriminate).
  split; [exact H |].
  destruct (disconnect_releases_port_only (ok_bus 0) sweeping H)
    as (s1 & s2 & Hr & Hc & _ & _ & _ & Hm & _ & Hh & _).
  exists s1. repeat split; assumption.
Defined.

(** C9 as stated fails: after [disconnect] the pattern of servo 1 is
    still marked running and its thread is still registered; the only
    call made is [closePort], so no worker was joined and nothing was
    sent to hold the servo. *)
Lemma disconnect_counterexample :
  fst (disconnect (ok_bus 0) sweeping) = Ret Success
  /\ movement_patterns (snd (disconnect (ok_bus 0) sweeping)) !! 1 = Some 0%nat
  /\ running_flag 0%nat (snd (disconnect (ok_bus 0) sweeping)) = true
  /\ continuous_movement_threads (snd (disconnect (ok_bus 0) sweeping)) !! 1
     = Some 0%nat
  /\ new_events (disconnect (ok_bus 0)) sweeping
     = [EvCall ClosePort (Reply 1 COMM_SUCCESS)]
  /\ ~ workers_stopped (snd (disconnect (ok_bus 0) sweeping)).
Proof.
  split; [vm_compute; reflexivity |]. split; [vm_compute; reflexivity |].
  split; [vm_compute; reflexivity |]. split; [vm_compute; reflexivity |].
  split; [vm_compute; reflexivity |].
  intros H. specialize (H 1 0%nat). 
  assert (Hr : running_flag 0%nat (snd (disconnect (ok_bus 0) sweeping)) = true)
    by (vm_compute; reflexivity).
  rewrite H in Hr; [discriminate | vm_compute; reflexivity].
Qed.

(** * Changing a servo's ID *)

(** A call through the packet handler, as an equation. *)
Lemma sdk_eq (bus : world) (c : call) (s : cstate) :
  packet_handler s = true ->
  sdk bus c s =
  (match bus (trace s) c with Raised => Exn | Reply v cr => Ret (v, cr) end,
   with_trace (trace s ++ [EvCall c (bus (trace s) c)]) s).
Proof.
  intros Hp. unfold sdk, bind, gets. rewrite Hp. unfold ask.
  destruct (bus (trace s) c); reflexivity.
Qed.

(** Runs the next SDK call of the goal; [Hr] names its reply. *)
Ltac run_sdk Hp Hr :=
  match goal with
  | |- context [sdk ?bus ?c ?st] =>
      rewrite (sdk_eq bus c st Hp);
      cbn [trace with_trace]; rewrite <- ?app_assoc; cbn [app];
      rewrite <- Hr
  end.

(** Closes a branch of [change_servo_id] whose result is known. *)
Ltac id_change_done :=
  eexists _, _, _;
  split; [reflexivity |];
  split; [cbn [trace with_trace]; rewrite <- ?app_assoc; reflexivity |];
  unfold id_change_events; cbn [reply_ok is_success] in *;
  repeat split; intros;
  repeat match goal with
         | H : _ \/ _ |- _ => destruct H
         | H : _ /\ _ |- _ => destruct H
         end;
  cbn [reply_ok existsb touches_eeprom orb] in *;
  try congruence; try lia; try reflexivity; try (eexists; reflexivity).

(** C8. [change_servo_id(old, new)] on a connected controller, with the
    replies of the bus named in the order of the calls.  It answers an
    error and sends nothing that touches the EEPROM when an ID is outside
    [[0, 253]], when the IDs are equal, when the ping of [old] does not
    succeed, or when the ping of [new] succeeds.  Past these checks it
    unlocks the EEPROM on [old]; when the unlock, the write of [new] to
    the ID register on [old] and the lock addressed to [new] all succeed,
    it has performed exactly the sequence [id_change_events], and it
    reports success exactly when the verification ping succeeds.  A
    reported success always comes with the complete sequence, every step
    of which succeeded. *)
Theorem change_servo_id_contract (bus : world) (old new : Z) (s : cstate) :
  is_connected s = true ->
  packet_handler s = true ->
  let r_old := bus (trace s) (Ping old) in
  let r_new := bus (trace s ++ [EvCall (Ping old) r_old]) (Ping new) in
  let r_unlock :=
    bus (trace s ++ [EvCall (Ping old) r_old; EvCall (Ping new) r_new])
      (UnLockEprom old) in
  let r_write :=
    bus (trace s ++ [EvCall (Ping old) r_old; EvCall (Ping new) r_new;
                     EvCall (UnLockEprom old) r_unlock; EvSleep 100])
      (Write1ByteTxRx old STS_ID new) in
  let r_lock :=
    bus (trace s ++ [EvCall (Ping old) r_old; EvCall (Ping new) r_new;
                     EvCall (UnLockEprom old) r_unlock; EvSleep 100;
                     EvCall (Write1ByteTxRx old STS_ID new) r_write; EvSleep 150])
      (LockEprom new) in
  let r_verify :=
    bus (trace s ++ [EvCall (Ping old) r_old; EvCall (Ping new) r_new;
                     EvCall (UnLockEprom old) r_unlock; EvSleep 100;
                     EvCall (Write1ByteTxRx old STS_ID new) r_write; EvSleep 150;
                     EvCall (LockEprom new) r_lock; EvSleep 200])
      (Ping new) in
  exists out s' t,
    change_servo_id bus (VInt old) (VInt new) s = (Ret out, s')
    /\ trace s' = trace s ++ t
    /\ (old < 0 \/ 253 < old \/ new < 0 \/ 253 < new \/ old = new
        \/ reply_ok r_old = false \/ reply_ok r_new = true ->
        is_success out = false /\ existsb touches_eeprom t = false)
    /\ (0 <= old <= 253 -> 0 <= new <= 253 -> old <> new ->
        reply_ok r_old = true -> reply_ok r_new = false ->
        exists rest,
          t = [EvCall (Ping old) r_old; EvCall (Ping new) r_new;
               EvCall (UnLockEprom old) r_unlock] ++ rest)
    /\ (0 <= old <= 253 -> 0 <= new <= 253 -> old <> new ->
        reply_ok r_old = true -> reply_ok r_new = false ->
        reply_ok r_unlock = true -> reply_ok r_write = true ->
        reply_ok r_lock = true ->
        t = id_change_events old new r_old r_new r_unlock r_write r_lock r_verify
        /\ (out = Success <-> reply_ok r_verify = true))
    /\ (out = Success ->
        t = id_change_events old new r_old r_new r_unlock r_write r_lock r_verify
        /\ reply_ok r_old = true /\ reply_ok r_new = false
        /\ reply_ok r_unlock = true /\ reply_ok r_write = true
        /\ reply_ok r_lock = true /\ reply_ok r_verify = true).
Proof.
  intros Hc Hp r_old r_new r_unlock r_write r_lock r_verify.
  pose proof (eq_refl r_verify) as Hverify. unfold r_verify at 2 in Hverify. clearbody r_verify.
  pose proof (eq_refl r_lock) as Hlock. unfold r_lock at 2 in Hlock. clearbody r_lock.
  pose proof (eq_refl r_write) as Hwrite. unfold r_write at 2 in Hwrite. clearbody r_write.
  pose proof (eq_refl r_unlock) as Hunlock. unfold r_unlock at 2 in Hunlock. clearbody r_unlock.
  pose proof (eq_refl r_new) as Hnew. unfold r_new at 2 in Hnew. clearbody r_new.
  pose proof (eq_refl r_old) as Hold. unfold r_old at 2 in Hold. clearbody r_old.
  unfold change_servo_id, sleep, log, try_except, bind, gets, modify, ret.
  cbn [fst snd is_int is_number num]. rewrite Hc. cbn [negb].
  assert (Hguard : forall e,
    old < 0 \/ 253 < old \/ new < 0 \/ 253 < new \/ old = new ->
    exists out s' t,
      (Ret (Failure e), s) = (Ret out, s') /\ trace s' = trace s ++ t
      /\ (old < 0 \/ 253 < old \/ new < 0 \/ 253 < new \/ old = new
          \/ reply_ok r_old = false \/ reply_ok r_new = true ->
          is_success out = false /\ existsb touches_eeprom t = false)
      /\ (0 <= old <= 253 -> 0 <= new <= 253 -> old <> new ->
          reply_ok r_old = true -> reply_ok r_new = false ->
          exists rest,
            t = [EvCall (Ping old) r_old; EvCall (Ping new) r_new;
                 EvCall (UnLockEprom old) r_unlock] ++ rest)
      /\ (0 <= old <= 253 -> 0 <= new <= 253 -> old <> new ->
          reply_ok r_old = true -> reply_ok r_new = false ->
          reply_ok r_unlock = true -> reply_ok r_write = true ->
          reply_ok r_lock = true ->
          t = id_change_events old new r_old r_new r_unlock r_write r_lock r_verify
          /\ (out = Success <-> reply_ok r_verify = true))
      /\ (out = Success ->
          t = id_change_events old new r_old r_new r_unlock r_write r_lock r_verify
          /\ reply_ok r_old = true /\ reply_ok r_new = false
          /\ reply_ok r_unlock = true /\ reply_ok r_write = true
          /\ reply_ok r_lock = true /\ reply_ok r_verify = true)).
  { intros e Hg. exists (Failure e), s, []. rewrite app_nil_r.
    split; [reflexivity |]. split; [reflexivity |].
    split; [intros _; split; reflexivity |].
    split; [intros; lia |]. split; [intros; lia |]. discriminate. }
  destruct (old <? 0) eqn:G1; cbn [orb]; [apply Hguard; lia |].
  destruct (253 <? old) eqn:G2; cbn [orb]; [apply Hguard; lia |].
  destruct (new <? 0) eqn:G3; cbn [orb]; [apply Hguard; lia |].
  destruct (253 <? new) eqn:G4; cbn [orb]; [apply Hguard; lia |].
  destruct (old =? new) eqn:G5; [apply Hguard; lia |].
  clear Hguard.
  run_sdk Hp Hold.
  destruct r_old as [|m c_old]; cbn [fst snd negb]; [id_change_done |].
  destruct (comm_ok c_old) eqn:Cold; cbn [negb]; [| id_change_done].
  run_sdk Hp Hnew.
  destruct r_new as [|m2 c_new]; cbn [fst snd negb];
    [| destruct (comm_ok c_new) eqn:Cnew; cbn [negb]; [id_change_done |]].
  all: run_sdk Hp Hunlock.
  all: destruct r_unlock as [|v1 c_unlock]; cbn [fst snd negb]; [id_change_done |].
  all: destruct (comm_ok c_unlock) eqn:Cunlock; cbn [negb]; [| id_change_done].
  all: run_sdk Hp Hwrite.
  all: destruct r_write as [|v2 c_write]; cbn [fst snd negb]; [id_change_done |].
  all: destruct (comm_ok c_write) eqn:Cwrite; cbn [negb].
  all: try (run_sdk Hp Hlock;
            destruct r_lock as [|v3 c_lock]; cbn [fst snd negb]; [id_change_done |];
            destruct (comm_ok c_lock) eqn:Clock; cbn [negb]; [| id_change_done];
            run_sdk Hp Hverify;
            destruct r_verify as [|m3 c_verify]; cbn [fst snd negb];
            [id_change_done |];
            destruct (comm_ok c_verify) eqn:Cverify; id_change_done).
  all: match goal with
       | Hp : packet_handler _ = true |- context [sdk ?b (LockEprom ?o) ?st] =>
           rewrite (sdk_eq b (LockEprom o) st Hp);
           cbn [trace with_trace]; rewrite <- ?app_assoc; cbn [app];
           destruct (b _ (LockEprom o)); cbn [fst snd]; id_change_done
       end.
Qed.

(** Scenario 4 of the specification: the servo answering at ID 1 is moved
    to ID 5. *)
Lemma change_servo_id_contract_witness :
  is_connected connected0 = true
  /\ packet_handler connected0 = true
  /\ exists s',
       change_servo_id (renaming_bus 1 5) (VInt 1) (VInt 5) connected0
       = (Ret Success, s')
       /\ trace s'
          = id_change_events 1 5 (Reply 777 COMM_SUCCESS) (Reply 0 COMM_RX_TIMEOUT)
              (Reply 0 COMM_SUCCESS) (Reply 0 COMM_SUCCESS) (Reply 0 COMM_SUCCESS)
              (Reply 777 COMM_SUCCESS).
Proof.
  split; [reflexivity |]. split; [reflexivity |].
  destruct (change_servo_id_contract (renaming_bus 1 5) 1 5 connected0
              eq_refl eq_refl)
    as (out & s' & t & Hr & Ht & _ & _ & Hseq & _).
  destruct Hseq as [Hevents Hout]; try (vm_compute; intuition congruence).
  exists s'. split.
  - rewrite Hr. f_equal. f_equal. apply Hout. vm_compute. reflexivity.
  - rewrite Ht, Hevents. vm_compute. reflexivity.
Defined.

(** * Symbolic execution of facade code *)

Section Execution.

Variable bus : world.

Lemma run_ret {S A B} (a : A) (f : A -> M S B) s : bind (ret a) f s = f a s.
Proof. reflexivity. Qed.

Lemma run_gets {S A B} (g : S -> A) (f : A -> M S B) s :
  bind (gets g) f s = f (g s) s.
Proof. reflexivity. Qed.

Lemma run_log {B} e (f : unit -> M cstate B) s :
  bind (log e) f s = f tt (logged e s).
Proof. reflexivity. Qed.

Lemma run_sleep {B} ms (f : unit -> M cstate B) s :
  bind (sleep ms) f s = f tt (logged (EvSleep ms) s).
Proof. reflexivity. Qed.

Lemma run_print {B} m (f : unit -> M cstate B) s :
  bind (print m) f s = f tt (logged (EvPrint m) s).
Proof. reflexivity. Qed.

Lemma run_pset {B} l k v (f : unit -> M cstate B) s :
  bind (pset l k v) f s = f tt (after_set l k v s).
Proof. reflexivity. Qed.

Lemma run_pget {B} l k d (f : val -> M cstate B) s :
  bind (pget l k d) f s = f (dict_get (pattern_at l s) k d) s.
Proof. reflexivity. Qed.

(** [pattern[key]] in a sequence. *)
Lemma run_pidx {B} l k (f : val -> M cstate B) s :
  bind (pidx l k) f s
  = match pattern_at l s !! k with
    | Some v => f v s
    | None => (Exn, s)
    end.
Proof.
  unfold pidx, bind, gets. destruct (pattern_at l s !! k); reflexivity.
Qed.

Lemma run_raise {A B} (f : A -> M cstate B) s : bind raise f s = (Exn, s).
Proof. reflexivity. Qed.

Lemma run_sdk {B} c (f : Z * comm_result -> M cstate B) s :
  packet_handler s = true ->
  bind (sdk bus c) f s =
  match bus (trace s) c with
  | Raised => (Exn, logged (EvCall c Raised) s)
  | Reply v cr => f (v, cr) (logged (EvCall c (Reply v cr)) s)
  end.
Proof.
  intros Hp. unfold bind at 1. rewrite (sdk_eq bus c s Hp).
  destruct (bus (trace s) c); reflexivity.
Qed.

(** A guarded call whose result is only tested: [try: r = call; ok = r ==
    COMM_SUCCESS  except: ok = False]. *)
Lemma run_guarded_call c s :
  packet_handler s = true ->
  try_except (w <- sdk bus c ;; ret (comm_ok (snd w))) (ret false) s
  = (Ret (reply_ok (bus (trace s) c)), logged (EvCall c (bus (trace s) c)) s).
Proof.
  intros Hp. unfold try_except. rewrite (run_sdk _ _ _ Hp).
  destruct (bus (trace s) c); reflexivity.
Qed.

(** A guarded call whose result is ignored. *)
Lemma run_ignored_call c s :
  packet_handler s = true ->
  try_except (_ <- sdk bus c ;; ret tt) (ret tt) s
  = (Ret tt, logged (EvCall c (bus (trace s) c)) s).
Proof.
  intros Hp. unfold try_except. rewrite (run_sdk _ _ _ Hp).
  destruct (bus (trace s) c); reflexivity.
Qed.

(** *** Projections of the states reached *)

Lemma trace_logged e s : trace (logged e s) = trace s ++ [e].
Proof. reflexivity. Qed.

Lemma trace_after_set l k v s : trace (after_set l k v s) = trace s ++ [EvSet l k v].
Proof. reflexivity. Qed.

Lemma trace_locked k s : trace (locked k s) = trace s ++ [EvAcquire k].
Proof. reflexivity. Qed.

Lemma trace_unlocked k s : trace (unlocked k s) = trace s ++ [EvRelease k].
Proof. reflexivity. Qed.

Lemma pattern_at_logged l e s : pattern_at l (logged e s) = pattern_at l s.
Proof. reflexivity. Qed.

Lemma pattern_at_locked l k s : pattern_at l (locked k s) = pattern_at l s.
Proof. reflexivity. Qed.

Lemma pattern_at_unlocked l k s : pattern_at l (unlocked k s) = pattern_at l s.
Proof. reflexivity. Qed.

Lemma pattern_at_after_set l k v s :
  pattern_at l (after_set l k v s) = <[k := v]> (pattern_at l s).
Proof. unfold after_set. rewrite pattern_at_pset. by rewrite decide_True. Qed.

Lemma packet_handler_logged e s : packet_handler (logged e s) = packet_handler s.
Proof. reflexivity. Qed.

Lemma packet_handler_after_set l k v s :
  packet_handler (after_set l k v s) = packet_handler s.
Proof. reflexivity. Qed.

Lemma packet_handler_locked k s : packet_handler (locked k s) = packet_handler s.
Proof. reflexivity. Qed.

Lemma packet_handler_unlocked k s : packet_handler (unlocked k s) = packet_handler s.
Proof. reflexivity. Qed.

Lemma held_logged e s : held (logged e s) = held s.
Proof. reflexivity. Qed.

Lemma held_after_set l k v s : held (after_set l k v s) = held s.
Proof. reflexivity. Qed.

Lemma held_locked k s : held (locked k s) = k :: held s.
Proof. reflexivity. Qed.

Lemma held_unlocked k s :
  held (unlocked k s) = filter (fun x => negb (lock_eqb k x)) (held s).
Proof. reflexivity. Qed.

Lemma movement_patterns_logged e s :
  movement_patterns (logged e s) = movement_patterns s.
Proof. reflexivity. Qed.

Lemma movement_patterns_after_set l k v s :
  movement_patterns (after_set l k v s) = movement_patterns s.
Proof. reflexivity. Qed.

Lemma movement_patterns_locked k s :
  movement_patterns (locked k s) = movement_patterns s.
Proof. reflexivity. Qed.

Lemma movement_patterns_unlocked k s :
  movement_patterns (unlocked k s) = movement_patterns s.
Proof. reflexivity. Qed.

Lemma with_trace_logged t e s : with_trace t (logged e s) = with_trace t s.
Proof. reflexivity. Qed.

Lemma logged_as_with_trace e s : logged e s = with_trace (trace s ++ [e]) s.
Proof. reflexivity. Qed.

Lemma pset_eq l k v s : pset l k v s = (Ret tt, after_set l k v s).
Proof. reflexivity. Qed.

Lemma sleep_eq ms s : sleep ms s = (Ret tt, logged (EvSleep ms) s).
Proof. reflexivity. Qed.

Lemma position_writer_locked k s :
  group_sync_position_writer (locked k s) = group_sync_position_writer s.
Proof. reflexivity. Qed.

(** Taking a free lock around code that returns. *)
Lemma run_with_lock {A} k (m : M cstate A) s a s1 :
  is_held k s = false ->
  m (locked k s) = (Ret a, s1) ->
  with_lock k m s = (Ret a, unlocked k s1).
Proof.
  intros Hfree Hm. unfold with_lock, bind, acquire. rewrite Hfree.
  unfold try_finally. change (with_held _ _) with (locked k s). rewrite Hm.
  reflexivity.
Qed.

Lemma held_after_lock k h :
  existsb (lock_eqb k) h = false ->
  filter (fun x => negb (lock_eqb k x)) (k :: h) = h.
Proof.
  intros H. rewrite filter_cons.
  rewrite decide_False by (destruct k; cbn; auto).
  by apply filter_not_held.
Qed.

End Execution.

#[global] Opaque logged after_set locked unlocked.

Create Rewrite HintDb reached.
#[global] Hint Rewrite trace_logged trace_after_set trace_locked trace_unlocked
  pattern_at_logged pattern_at_locked pattern_at_unlocked pattern_at_after_set
  packet_handler_logged packet_handler_after_set packet_handler_locked
  packet_handler_unlocked held_logged held_after_set held_locked held_unlocked
  movement_patterns_logged movement_patterns_after_set movement_patterns_locked
  movement_patterns_unlocked : reached.


(** * Patterns whose every turn reaches the bus *)

#[local] Instance stays_tidy_preorder b l : PreOrder (stays_tidy b l).
Proof.
  split.
  - intros s H. exact H.
  - intros s1 s2 s3 H12 H23 H. apply H23, H12, H.
Qed.

#[local] Instance stays_tidy_w_preorder b l : PreOrder (stays_tidy_w b l).
Proof.
  split.
  - intros w. unfold stays_tidy_w. reflexivity.
  - intros w1 w2 w3. unfold stays_tidy_w. apply transitivity.
Qed.

Section Tidy.

Variable bus : world.
Variable l : loc.
Variable b : bool.

Lemma tidy_log e : keeps (stays_tidy b l) (log e).
Proof. apply keeps_modify. intros s H. exact H. Qed.

Lemma tidy_sleep ms : keeps (stays_tidy b l) (sleep ms).
Proof. apply tidy_log. Qed.

Lemma tidy_ask c : keeps (stays_tidy b l) (ask bus c).
Proof.
  intros s. unfold ask. destruct (bus (trace s) c); cbn [snd]; intros H; exact H.
Qed.

Lemma tidy_sdk c : keeps (stays_tidy b l) (sdk bus c).
Proof.
  unfold sdk.
  apply (keeps_bind (stays_tidy b l)); [apply (keeps_gets (stays_tidy b l)) |].
  intros [|]; [apply tidy_ask | apply (keeps_raise (stays_tidy b l))].
Qed.

Lemma tidy_pidx k : keeps (stays_tidy b l) (pidx l k).
Proof.
  unfold pidx.
  apply (keeps_bind (stays_tidy b l)); [apply (keeps_gets (stays_tidy b l)) |].
  intros; apply (keeps_of_option (stays_tidy b l)).
Qed.

(** A write to the pattern keeps it tidy when what it writes to the
    position or to the direction is a number. *)
Lemma tidy_pset k v :
  (k = "current_position" -> is_number v = true) ->
  (k = "direction" -> b = true -> is_number v = true) ->
  keeps (stays_tidy b l) (pset l k v).
Proof.
  intros Hp Hd s [Hpos Hdir]. unfold tidy, position_fit, direction_fit in *.
  rewrite pattern_at_pset, decide_True by done. split.
  - destruct (decide (k = "current_position")) as [->|Hk].
    + rewrite lookup_insert_eq. cbn [numeric_or_absent]. by apply Hp.
    + by rewrite lookup_insert_ne.
  - intros Hb. destruct (decide (k = "direction")) as [->|Hk].
    + rewrite lookup_insert_eq. by apply Hd.
    + rewrite lookup_insert_ne by done. by apply Hdir.
Qed.

Lemma tidy_with_pause_lock {A} (m : M cstate A) :
  keeps (stays_tidy b l) m -> keeps (stays_tidy b l) (with_lock pause_lock m).
Proof.
  intros Hm. unfold with_lock.
  apply (keeps_bind (stays_tidy b l)); [| intros _].
  - intros s. unfold acquire. destruct (is_held pause_lock s); cbn [snd];
      intros H; exact H.
  - apply (keeps_try_finally (stays_tidy b l)); [exact Hm |].
    apply keeps_modify. intros s H. exact H.
Qed.

Lemma tidy_lift {A} (m : M cstate A) :
  keeps (stays_tidy b l) m -> keeps (stays_tidy_w b l) (lift m).
Proof.
  intros Hm w. unfold lift, stays_tidy_w. specialize (Hm (wc w)).
  destruct (m (wc w)) as [r c]. exact Hm.
Qed.

Lemma tidy_modify_w (f : wstate -> wstate) :
  (forall w, wc (f w) = wc w) -> keeps (stays_tidy_w b l) (modify f).
Proof.
  intros Hf. apply keeps_modify. intros w. unfold stays_tidy_w. rewrite Hf.
  reflexivity.
Qed.

(** A continuation that is only run on what [m] returns from a tidy
    state. *)
Lemma tidy_bind_when {A B} (P : A -> Prop) (m : M cstate A) (f : A -> M cstate B) :
  keeps (stays_tidy b l) m ->
  (forall s a s1, tidy b l s -> m s = (Ret a, s1) -> P a) ->
  (forall a, P a -> keeps (stays_tidy b l) (f a)) ->
  keeps (stays_tidy b l) (bind m f).
Proof.
  intros Hm HP Hf s. unfold bind. pose proof (Hm s) as Hs.
  destruct (m s) as [[a| |] s1] eqn:E; cbn [snd] in *; try assumption.
  intros H. apply (Hf a (HP s a s1 H E) s1), Hs, H.
Qed.

Lemma tidy_bind_when_w {A B} (P : A -> Prop) (m : M wstate A)
    (f : A -> M wstate B) :
  keeps (stays_tidy_w b l) m ->
  (forall w a w1, tidy b l (wc w) -> m w = (Ret a, w1) -> P a) ->
  (forall a, P a -> keeps (stays_tidy_w b l) (f a)) ->
  keeps (stays_tidy_w b l) (bind m f).
Proof.
  intros Hm HP Hf w. unfold bind. pose proof (Hm w) as Hs.
  destruct (m w) as [[a| |] w1] eqn:E; cbn [snd] in *; try assumption.
  intros H. apply (Hf a (HP w a w1 H E) w1), Hs, H.
Qed.

End Tidy.

Create HintDb tidy.

(** One syntax-directed step of a proof that code keeps the pattern
    tidy; what is written to the position or to the direction is a
    literal number or a value known to be one. *)
Ltac tidy_step :=
  match goal with
  | |- keeps ?R (bind (of_option _) _) =>
      apply (keeps_bind_of_option R); intros ? ?
  | |- keeps ?R (bind _ _) => apply (keeps_bind R); [| intros ?]
  | |- keeps ?R (ret _) => apply (keeps_ret R)
  | |- keeps ?R raise => apply (keeps_raise R)
  | |- keeps ?R (gets _) => apply (keeps_gets R)
  | |- keeps ?R (pget _ _ _) => apply (keeps_gets R)
  | |- keeps ?R (has_key _ _) => apply (keeps_gets R)
  | |- keeps ?R (of_option _) => apply (keeps_of_option R)
  | |- keeps ?R (try_except _ _) => apply (keeps_try_except R)
  | |- keeps ?R (val_get _ _ _) => apply (keeps_val_get R)
  | |- keeps _ (sleep _) => apply tidy_sleep
  | |- keeps _ (ask _ _) => apply tidy_ask
  | |- keeps _ (sdk _ _) => apply tidy_sdk
  | |- keeps _ (pidx _ _) => apply tidy_pidx
  | |- keeps _ (pset _ _ _) =>
      apply tidy_pset; intros; first [discriminate | reflexivity | assumption]
  | |- keeps _ (with_lock pause_lock _) => apply tidy_with_pause_lock
  | |- keeps _ (lift _) => apply tidy_lift
  | |- keeps _ (set_failures _) => apply tidy_modify_w; reflexivity
  | |- keeps _ (set_last _) => apply tidy_modify_w; reflexivity
  | |- keeps _ (set_steps _) => apply tidy_modify_w; reflexivity
  | |- keeps _ _ => solve [eauto with tidy]
  | |- keeps _ (match ?x with _ => _ end) => destruct x
  end.

Ltac tidy_tac := cbv zeta; repeat tidy_step.

Section WorkerTidy.

Variable bus : world.
Variable servo_id : Z.
Variable l : loc.
Variable b : bool.

Lemma tidy_attempt_servo_recovery :
  keeps (stays_tidy b l) (_attempt_servo_recovery bus servo_id l).
Proof. unfold _attempt_servo_recovery. tidy_tac. Qed.
#[local] Hint Resolve tidy_attempt_servo_recovery : tidy.

Lemma tidy_health_recovery n :
  keeps (stays_tidy b l) (health_recovery bus n servo_id l).
Proof. induction n as [|n IH]; cbn [health_recovery]; tidy_tac. Qed.
#[local] Hint Resolve tidy_health_recovery : tidy.

Lemma tidy_check_health :
  keeps (stays_tidy b l)
    (_check_communication_health_during_movement bus servo_id l).
Proof. unfold _check_communication_health_during_movement. tidy_tac. Qed.
#[local] Hint Resolve tidy_check_health : tidy.

Lemma tidy_count_cycle : keeps (stays_tidy b l) (count_cycle l).
Proof. unfold count_cycle. tidy_tac. Qed.
#[local] Hint Resolve tidy_count_cycle : tidy.

Lemma tidy_calculate_sweep_position current_pos :
  keeps (stays_tidy b l) (_calculate_sweep_position servo_id l current_pos).
Proof. unfold _calculate_sweep_position. tidy_tac. Qed.
#[local] Hint Resolve tidy_calculate_sweep_position : tidy.

Lemma tidy_calculate_wave_position current_pos :
  keeps (stays_tidy b l) (_calculate_wave_position bus servo_id l current_pos).
Proof. unfold _calculate_wave_position. tidy_tac. Qed.
#[local] Hint Resolve tidy_calculate_wave_position : tidy.

Lemma tidy_calculate_next_position :
  keeps (stays_tidy b l) (_calculate_next_position bus servo_id l).
Proof. unfold _calculate_next_position. tidy_tac. Qed.
#[local] Hint Resolve tidy_calculate_next_position : tidy.

Lemma tidy_stop_requested : keeps (stays_tidy b l) (stop_requested l).
Proof. unfold stop_requested. tidy_tac. Qed.
#[local] Hint Resolve tidy_stop_requested : tidy.

Lemma is_number_num v : is_number v = true <-> exists z, num v = Some z.
Proof.
  unfold is_number. destruct (num v) as [z|]; split; try done; eauto.
  by intros [z Hz].
Qed.

Lemma negate_number v v' :
  is_number v = true -> py_negate v = Some v' -> is_number v' = true.
Proof.
  intros Hv. destruct v; cbn in *; try discriminate; by intros [= <-].
Qed.

(** Lines 1756-1757 and 1761-1762: the direction that is negated is the
    one that is there. *)
Lemma tidy_reverse_sweep : keeps (stays_tidy b l) (reverse_sweep l).
Proof.
  unfold reverse_sweep.
  apply (keeps_bind (stays_tidy b l)); [tidy_tac | intros ty].
  destruct (eq_str ty "sweep"); [| tidy_tac].
  apply (tidy_bind_when l b
           (fun d => b = true -> is_number d = true)); [tidy_tac | |].
  - intros s d s1 [_ Hdir] E Hb. specialize (Hdir Hb).
    unfold pidx, bind, gets, direction_fit in *. cbn [fst snd] in E.
    destruct (pattern_at l s !! "direction") as [v|]; [| discriminate].
    cbn in E. by injection E as <- _.
  - intros d Hd. apply (keeps_bind_of_option (stays_tidy b l)).
    intros d' Hneg. apply tidy_pset; [discriminate |].
    intros _ Hb. apply (negate_number d d'); [by apply Hd | exact Hneg].
Qed.
#[local] Hint Resolve tidy_reverse_sweep : tidy.

Lemma tidy_apply_angle_constraints next_position :
  keeps (stays_tidy b l) (apply_angle_constraints l next_position).
Proof. unfold apply_angle_constraints. tidy_tac. Qed.
#[local] Hint Resolve tidy_apply_angle_constraints : tidy.

(** The position a step falls back on is a number in a tidy pattern. *)
Lemma stored_position_number s :
  position_fit l s = true ->
  is_number (dict_get (pattern_at l s) "current_position" (VInt 2048)) = true.
Proof.
  unfold position_fit, dict_get.
  by destruct (pattern_at l s !! "current_position").
Qed.

Lemma checked_setpoint_number next_position s a s1 :
  tidy b l s ->
  checked_setpoint l next_position s = (Ret a, s1) ->
  is_number a = true.
Proof.
  intros [Hpos _]. unfold checked_setpoint, pget, gets.
  pose proof (stored_position_number s Hpos) as Hst.
  destruct (num next_position) as [n|] eqn:En.
  - destruct ((n <? 0) || (4095 <? n)); intros [= <- _]; [exact Hst |].
    apply is_number_num. eauto.
  - by intros [= <- _].
Qed.

Lemma tidy_execute_sweep_step next_position :
  keeps (stays_tidy b l) (_execute_sweep_step bus servo_id l next_position).
Proof.
  unfold _execute_sweep_step.
  apply (keeps_try_except (stays_tidy b l)); [| tidy_tac].
  apply (tidy_bind_when l b (fun np => is_number np = true)); [| |].
  - unfold checked_setpoint. tidy_tac.
  - intros s a s1. apply checked_setpoint_number.
  - intros np Hnp. tidy_tac.
Qed.

Lemma tidy_execute_wave_step next_position :
  keeps (stays_tidy b l) (_execute_wave_step bus servo_id l next_position).
Proof.
  unfold _execute_wave_step.
  apply (keeps_try_except (stays_tidy b l)); [| tidy_tac].
  apply (tidy_bind_when l b (fun np => is_number np = true)); [| |].
  - unfold checked_setpoint. tidy_tac.
  - intros s a s1. apply checked_setpoint_number.
  - intros np Hnp. tidy_tac.
Qed.

Lemma tidy_execute_rotation_step :
  keeps (stays_tidy b l) (_execute_rotation_step bus servo_id l).
Proof. unfold _execute_rotation_step. tidy_tac. Qed.
#[local] Hint Resolve tidy_execute_sweep_step tidy_execute_wave_step
  tidy_execute_rotation_step : tidy.

Lemma tidy_execute_step next_position :
  keeps (stays_tidy b l) (execute_step bus servo_id l next_position).
Proof. unfold execute_step. tidy_tac. Qed.
#[local] Hint Resolve tidy_execute_step : tidy.

Lemma tidy_movement_attempts n attempt next_position :
  keeps (stays_tidy b l)
    (movement_attempts bus n attempt servo_id l next_position).
Proof.
  revert attempt. induction n as [|n IH]; intros attempt;
    cbn [movement_attempts]; tidy_tac.
Qed.
#[local] Hint Resolve tidy_movement_attempts : tidy.

Lemma tidy_count_boundary next_position :
  keeps (stays_tidy b l) (count_boundary l next_position).
Proof. unfold count_boundary. tidy_tac. Qed.
#[local] Hint Resolve tidy_count_boundary : tidy.

Lemma tidy_on_movement_success next_position :
  is_number next_position = true ->
  keeps (stays_tidy_w b l) (on_movement_success l next_position).
Proof. intros Hn. unfold on_movement_success. tidy_tac. Qed.

Lemma tidy_recovery_attempts n :
  keeps (stays_tidy_w b l) (recovery_attempts bus n servo_id l).
Proof. induction n as [|n IH]; cbn [recovery_attempts]; tidy_tac. Qed.
#[local] Hint Resolve tidy_on_movement_success tidy_recovery_attempts : tidy.

Lemma tidy_on_movement_failure :
  keeps (stays_tidy_w b l) (on_movement_failure bus servo_id l).
Proof. unfold on_movement_failure. tidy_tac. Qed.

Lemma tidy_on_iteration_error : keeps (stays_tidy_w b l) on_iteration_error.
Proof. unfold on_iteration_error. tidy_tac. Qed.
#[local] Hint Resolve tidy_on_movement_failure tidy_on_iteration_error : tidy.

(** *** The setpoint of a tidy pattern is a number *)

Lemma bind_ret_int (m : M cstate Z) (s : cstate) (v : val) (s1 : cstate) :
  (z <- m ;; ret (VInt z)) s = (Ret v, s1) -> is_number v = true.
Proof.
  unfold bind, ret. destruct (m s) as [[z| |] s2]; [| discriminate..].
  by intros [= <- _].
Qed.

Lemma calculate_next_position_number s v s1 :
  tidy b l s ->
  _calculate_next_position bus servo_id l s = (Ret v, s1) ->
  is_number v = true.
Proof.
  intros Ht. unfold _calculate_next_position, try_except.
  match goal with |- context [bind ?m ?f s] =>
    pose proof (fun (H : keeps (stays_tidy b l) (bind m f)) => H s Ht) as Hk;
    destruct (bind m f s) as [[a| |] s2] eqn:E
  end.
  - intros [= <- <-]. rewrite !run_pget in E. cbv zeta in E.
    repeat match type of E with
           | (if ?c then _ else _) _ = _ => destruct c
           end;
      first [ by apply (bind_ret_int _ _ _ _ E)
            | by injection E as <- _ ].
  - intros E2. unfold pget, gets in E2. injection E2 as <- <-.
    apply stored_position_number. apply Hk. tidy_tac.
  - discriminate.
Qed.

Lemma constrained_number next_position s v s1 :
  is_number next_position = true ->
  apply_angle_constraints l next_position s = (Ret v, s1) ->
  is_number v = true.
Proof.
  intros Hn. apply is_number_num in Hn as [n Hn].
  unfold apply_angle_constraints. rewrite run_pget.
  destruct (dict_get (pattern_at l s) "angle_constraints" (VDict ∅))
    as [| | | |d]; cbn [val_get]; try (rewrite run_raise; discriminate).
  rewrite run_ret.
  destruct (truthy (dict_get d "enabled" (VBool false)));
    [| intros [= <- _]; apply is_number_num; eauto].
  rewrite !run_ret.
  destruct (negb (is_none (dict_get d "min_angle" VNone))
            && negb (is_none (dict_get d "max_angle" VNone)));
    [| intros [= <- _]; apply is_number_num; eauto].
  unfold py_gt, py_lt. rewrite Hn.
  destruct (num (dict_get d "min_angle" VNone)) as [lo|] eqn:Elo.
  - cbn [of_option]. rewrite run_ret. destruct (n <? lo).
    + unfold bind. destruct (reverse_sweep l s) as [[[]| |] s2];
        unfold ret; intros [= <- _]. apply is_number_num. eauto.
    + destruct (num (dict_get d "max_angle" VNone)) as [hi|] eqn:Ehi.
      * cbn [of_option]. rewrite run_ret. destruct (hi <? n).
        -- unfold bind. destruct (reverse_sweep l s) as [[[]| |] s2];
             unfold ret; intros [= <- _]. apply is_number_num. eauto.
        -- intros [= <- _]. apply is_number_num. eauto.
      * destruct (dict_get d "max_angle" VNone), next_position;
          cbn [of_option]; try discriminate Hn; try discriminate Ehi;
          rewrite run_raise; discriminate.
  - destruct next_position, (dict_get d "min_angle" VNone);
      try discriminate Hn; try discriminate Elo;
      cbn [of_option]; rewrite run_raise; discriminate.
Qed.

Lemma lift_returns {A} (m : M cstate A) w a w1 :
  lift m w = (Ret a, w1) -> m (wc w) = (Ret a, wc w1).
Proof.
  unfold lift. destruct (m (wc w)) as [r c]. by intros [= -> <-].
Qed.

Lemma tidy_iteration_body :
  keeps (stays_tidy_w b l) (iteration_body bus servo_id l).
Proof.
  unfold iteration_body.
  apply (keeps_bind (stays_tidy_w b l)); [tidy_tac | intros stop1].
  destruct stop1; [tidy_tac |].
  apply (tidy_bind_when_w l b (fun v => is_number v = true)); [tidy_tac | |].
  { intros w a w1 Ht E. apply lift_returns in E.
    by eapply calculate_next_position_number. }
  intros next0 Hnext0.
  apply (keeps_bind (stays_tidy_w b l)); [tidy_tac | intros stop2].
  destruct stop2; [tidy_tac |].
  apply (tidy_bind_when_w l b (fun v => is_number v = true)); [tidy_tac | |].
  { intros w a w1 Ht E. apply lift_returns in E.
    by eapply constrained_number. }
  intros next_position Hnext. tidy_tac.
Qed.
#[local] Hint Resolve tidy_iteration_body : tidy.

Lemma tidy_worker_iteration :
  keeps (stays_tidy_w b l) (worker_iteration bus servo_id l).
Proof. unfold worker_iteration. tidy_tac. Qed.

End WorkerTidy.

Section WorkerMoves.

Variable bus : world.
Variable servo_id : Z.
Variable l : loc.

(** The parts of [movable]. *)
Lemma movable_parts s :
  movable l s = true ->
  packet_handler s = true
  /\ constraints_fit (pattern_at l s !! "angle_constraints") = true
  /\ numeric_or_absent (pattern_at l s !! "acceleration") = true
  /\ position_fit l s = true
  /\ (pattern_at l s !! "type" = Some (VStr "rotation")
      \/ (pattern_at l s !! "type" = Some (VStr "wave")
          /\ numeric_or_absent (pattern_at l s !! "speed") = true)
      \/ (pattern_at l s !! "type" = Some (VStr "sweep")
          /\ direction_fit l s = true
          /\ numeric_or_absent (pattern_at l s !! "speed") = true)).
Proof.
  unfold movable. intros H.
  apply andb_prop in H as [H Ht]. apply andb_prop in H as [H Hpos].
  apply andb_prop in H as [H Ha]. apply andb_prop in H as [Hp Hc].
  repeat split; try assumption.
  destruct (pattern_at l s !! "type") as [[| | |t|]|]; try discriminate.
  apply orb_prop in Ht as [Ht|Ht].
  - left. apply String.eqb_eq in Ht. by subst.
  - right. apply andb_prop in Ht as [Ht Hs].
    apply orb_prop in Ht as [Ht|Ht].
    + left. apply String.eqb_eq in Ht. by subst.
    + right. apply andb_prop in Ht as [Ht Hd].
      apply String.eqb_eq in Ht. by subst.
Qed.

Lemma movable_tidy s : movable l s = true -> tidy (is_sweep l s) l s.
Proof.
  intros H. destruct (movable_parts s H) as (_ & _ & _ & Hpos & Ht).
  split; [exact Hpos |]. unfold is_sweep.
  destruct Ht as [Ht | [[Ht _] | (Ht & Hd & _)]]; rewrite Ht;
    [discriminate | discriminate | by intros _].
Qed.

(** What is steady and stays tidy stays movable. *)
Lemma movable_kept s s' :
  steady l s s' ->
  stays_tidy (is_sweep l s) l s s' ->
  movable l s = true -> movable l s' = true.
Proof.
  intros (Hf & Hp & _) Hk H. destruct (Hk (movable_tidy s H)) as [Hpos Hdir].
  destruct (movable_parts s H) as (Pp & Pc & Pa & _ & Pt).
  unfold frame in Hf. cbn [map] in Hf.
  injection Hf as _ _ _ _ Ht Hs Ha Hc _.
  unfold movable. rewrite Hp, Ht, Hs, Ha, Hc, Hpos, Pp, Pc, Pa. cbn [andb].
  destruct Pt as [Pt | [[Pt Ps] | (Pt & _ & Ps)]]; rewrite Pt.
  - reflexivity.
  - rewrite Ps. reflexivity.
  - rewrite Ps, Hdir; [reflexivity |]. unfold is_sweep. by rewrite Pt.
Qed.

Lemma is_sweep_steady s s' : steady l s s' -> is_sweep l s' = is_sweep l s.
Proof.
  intros (Hf & _ & _). unfold frame in Hf. cbn [map] in Hf.
  injection Hf as _ _ _ _ Ht _ _ _ _. unfold is_sweep. by rewrite Ht.
Qed.

(** The calculation of the setpoint always returns. *)
Lemma calculate_next_position_returns s :
  exists v s1, _calculate_next_position bus servo_id l s = (Ret v, s1).
Proof.
  destruct (calm_calculate_next_position bus l servo_id s) as [Hn _].
  revert Hn. unfold _calculate_next_position, try_except.
  match goal with |- context [bind ?m ?f s] =>
    destruct (bind m f s) as [[a| |] s2]
  end; cbn [fst]; intros Hn; [eauto | | done].
  unfold pget, gets. eauto.
Qed.

Lemma reverse_sweep_returns s :
  movable l s = true -> exists s', reverse_sweep l s = (Ret tt, s').
Proof.
  intros H. destruct (movable_parts s H) as (_ & _ & _ & _ & Ht).
  unfold reverse_sweep. rewrite run_pidx.
  destruct Ht as [Ht | [[Ht _] | (Ht & Hd & _)]]; rewrite Ht;
    [eexists; reflexivity | eexists; reflexivity |].
  change (eq_str (VStr "sweep") "sweep") with true. cbv iota.
  rewrite run_pidx. unfold direction_fit in Hd.
  destruct (pattern_at l s !! "direction") as [d|]; [| discriminate].
  apply is_number_num in Hd as [n Hn].
  assert (Hneg : py_negate d = Some (VInt (- n))).
  { destruct d; cbn in Hn |- *; try discriminate; by injection Hn as ->. }
  rewrite Hneg. cbn [of_option]. rewrite run_ret. eexists. reflexivity.
Qed.

(** The constraint step of a movable pattern returns. *)
Lemma apply_angle_constraints_returns next_position s :
  movable l s = true ->
  is_number next_position = true ->
  exists v s', apply_angle_constraints l next_position s = (Ret v, s').
Proof.
  intros H Hn. destruct (movable_parts s H) as (_ & Hc & _).
  destruct (reverse_sweep_returns s H) as [sr Hr].
  apply is_number_num in Hn as [n Hn].
  unfold apply_angle_constraints. rewrite run_pget.
  destruct (pattern_at l s !! "angle_constraints") as [[| | | |d]|] eqn:Eac;
    cbn in Hc; try discriminate.
  2: { assert (dict_get (pattern_at l s) "angle_constraints" (VDict ∅)
               = VDict ∅) as -> by (unfold dict_get; by rewrite Eac).
       cbn [val_get]. rewrite run_ret. cbn. eauto. }
  assert (dict_get (pattern_at l s) "angle_constraints" (VDict ∅) = VDict d)
    as -> by (unfold dict_get; by rewrite Eac).
  cbn [val_get]. rewrite run_ret.
  destruct (truthy (dict_get d "enabled" (VBool false))); [| eauto].
  rewrite !run_ret. cbn [negb orb] in Hc.
  destruct (is_none (dict_get d "min_angle" VNone)); [cbn; eauto |].
  destruct (is_none (dict_get d "max_angle" VNone)); [cbn; eauto |].
  cbn [negb andb orb] in *. apply andb_prop in Hc as [Hlo Hhi].
  apply is_number_num in Hlo as [lo Hlo]. apply is_number_num in Hhi as [hi Hhi].
  unfold py_gt, py_lt. rewrite Hn, Hlo, Hhi. cbn [of_option].
  rewrite run_ret. destruct (n <? lo).
  - unfold bind. rewrite Hr. eauto.
  - rewrite run_ret. destruct (hi <? n); [| eauto].
    unfold bind. rewrite Hr. eauto.
Qed.

Lemma py_int_number v : is_number v = true -> exists z, py_int v = Some z.
Proof. destruct v; cbn; try discriminate; eauto. Qed.

(** A positional step of a movable pattern sends its command, whatever
    number the setpoint is: one that is out of range is replaced by the
    stored position. *)
Lemma positional_step_moves next_position s :
  packet_handler s = true ->
  numeric_or_absent (pattern_at l s !! "acceleration") = true ->
  numeric_or_absent (pattern_at l s !! "speed") = true ->
  position_fit l s = true ->
  is_number next_position = true ->
  exists s',
    _execute_sweep_step bus servo_id l next_position s = (Ret tt, s')
    /\ steady l s s'
    /\ (motions (trace s) + 1 <= motions (trace s'))%nat.
Proof.
  intros Hp Ha Hsp Hpos Hn. unfold _execute_sweep_step, try_except.
  assert (Hchk : exists np, checked_setpoint l next_position s = (Ret np, s)
                            /\ is_number np = true).
  { unfold checked_setpoint, pget, gets.
    apply is_number_num in Hn as [n Hn']. rewrite Hn'.
    destruct ((n <? 0) || (4095 <? n)).
    - eexists. split; [reflexivity |]. by apply stored_position_number.
    - eexists. split; [reflexivity |]. apply is_number_num. eauto. }
  destruct Hchk as (np & Hchk & Hnp).
  unfold bind at 1. rewrite Hchk. rewrite !run_pget.
  destruct (clamp_numeric _ (VInt 100) 0 1023 Hsp eq_refl) as [sp Hsp'].
  destruct (clamp_numeric _ (VInt 50) 0 254 Ha eq_refl) as [acc Hacc].
  destruct (py_int_number np Hnp) as [pos Hpos'].
  unfold dict_get. rewrite Hsp', Hacc, Hpos'. cbn [of_option].
  rewrite !run_ret. unfold bind.
  match goal with |- context [sdk bus ?c s] =>
    destruct (sdk_recorded bus c s Hp) as [r Hr];
    destruct (steady_motion l c r s eq_refl) as [Hs Hm]
  end.
  rewrite Hr.
  destruct r as [|v cr]; [eexists; split; [reflexivity |]; split; assumption |].
  cbn [snd]. destruct (comm_ok cr); cbn [negb].
  - match goal with |- context [pset l ?k ?v ?s0] =>
      destruct (calm_pset l l k v eq_refl s0) as [_ (Hf & Hq & Hn0)]
    end.
    eexists. split; [reflexivity |]. split.
    + etrans; [exact Hs |]. repeat split; assumption.
    + rewrite trace_pset in Hn0. cbn [trace with_trace with_heap] in *. lia.
  - eexists. split; [reflexivity |]. split; assumption.
Qed.

Lemma execute_step_moves next_position s :
  movable l s = true ->
  is_number next_position = true ->
  exists s',
    execute_step bus servo_id l next_position s = (Ret tt, s')
    /\ steady l s s'
    /\ (motions (trace s) + 1 <= motions (trace s'))%nat.
Proof.
  intros H Hn. destruct (movable_parts s H) as (Hp & _ & Ha & Hpos & Ht).
  unfold execute_step. rewrite run_pidx.
  destruct Ht as [Ht | [[Ht Hs] | (Ht & _ & Hs)]]; rewrite Ht.
  - change (eq_str (VStr "rotation") "sweep") with false.
    change (eq_str (VStr "rotation") "rotation") with true. cbv iota.
    by apply execute_rotation_step_emits.
  - change (eq_str (VStr "wave") "sweep") with false.
    change (eq_str (VStr "wave") "rotation") with false.
    change (eq_str (VStr "wave") "wave") with true. cbv iota.
    change (_execute_wave_step bus servo_id l next_position)
      with (_execute_sweep_step bus servo_id l next_position).
    by apply positional_step_moves.
  - change (eq_str (VStr "sweep") "sweep") with true. cbv iota.
    by apply positional_step_moves.
Qed.

Lemma movement_attempts_moves next_position s :
  movable l s = true ->
  stop_flag l s = false ->
  is_number next_position = true ->
  exists s',
    movement_attempts bus 3 0 servo_id l next_position s = (Ret true, s')
    /\ steady l s s'
    /\ (motions (trace s) + 1 <= motions (trace s'))%nat.
Proof.
  intros H Hstop Hn. cbn [movement_attempts].
  unfold bind at 1. rewrite stop_requested_eq, Hstop.
  destruct (execute_step_moves next_position s H Hn) as (s' & He & Hs & Hm).
  unfold bind at 1, try_except, bind at 1. rewrite He. cbn.
  eexists. split; [reflexivity |]. split; assumption.
Qed.

(** What follows the attempts in a turn (lines 1792-1843) is steady. *)
Ltac turn_tail_step :=
  match goal with
  | |- calm ?R (bind _ _) => apply (calm_bind R); [| intros ?]
  | |- calm ?R (ret _) => apply (calm_ret R)
  | |- calm ?R (gets _) => apply (calm_gets R)
  | |- calm _ (lift _) => apply calm_lift
  | |- calm _ (set_steps _) => apply calm_set_steps
  | |- calm _ (sleep _) => apply calm_sleep
  | |- calm _ (pidx _ _) => apply calm_pidx
  | |- calm _ (on_movement_success _ _) => apply calm_on_movement_success
  | |- calm _ (on_movement_failure _ _ _) => apply calm_on_movement_failure
  | |- calm _ (_check_communication_health_during_movement _ _ _) =>
      apply calm_check_health
  | |- calm _ on_iteration_error => apply calm_on_iteration_error
  | |- calm _ (match ?x with _ => _ end) => destruct x
  end.

(** A turn of a movable pattern whose stop flags are clear sends a
    motion command. *)
Lemma iteration_body_moves w :
  movable l (wc w) = true ->
  stop_flag l (wc w) = false ->
  (motions (trace (wc w)) + 1
   <= motions (trace (wc (snd (iteration_body bus servo_id l w)))))%nat.
Proof.
  intros H Hstop. unfold iteration_body.
  rewrite bind_stop_requested, Hstop.
  destruct (calculate_next_position_returns (wc w)) as (next0 & s1 & Hcalc).
  pose proof (calculate_next_position_number bus servo_id l _ _ _ _
                (movable_tidy _ H) Hcalc) as Hn0.
  destruct (calm_calculate_next_position bus l servo_id (wc w)) as [_ Hs1].
  pose proof (tidy_calculate_next_position bus servo_id l
                (is_sweep l (wc w)) (wc w)) as Hk1.
  rewrite Hcalc in Hs1, Hk1. cbn [snd] in Hs1, Hk1.
  pose proof (movable_kept _ _ Hs1 Hk1 H) as H1.
  rewrite (bind_lift_ret _ _ w _ _ Hcalc).
  set (w1 := mk_wstate s1 _ _ _).
  destruct (steady_flags l _ _ Hs1) as (_ & _ & Hstop1 & _).
  assert (Hstop1' : stop_flag l (wc w1) = false) by (cbn [wc w1]; congruence).
  rewrite bind_stop_requested, Hstop1'.
  destruct (apply_angle_constraints_returns next0 s1 H1 Hn0)
    as (next_position & s2 & Hcon).
  pose proof (constrained_number l _ _ _ _ Hn0 Hcon) as Hn.
  destruct (calm_apply_angle_constraints l next0 s1) as [_ Hs2].
  pose proof (tidy_apply_angle_constraints l (is_sweep l s1) next0 s1) as Hk2.
  rewrite Hcon in Hs2, Hk2. cbn [snd] in Hs2, Hk2.
  pose proof (movable_kept _ _ Hs2 Hk2 H1) as H2.
  rewrite (bind_lift_ret (apply_angle_constraints l next0) _ w1 _ _ Hcon).
  set (w2 := mk_wstate s2 _ _ _).
  destruct (steady_flags l _ _ Hs2) as (_ & _ & Hstop2 & _).
  assert (Hstop2' : stop_flag l (wc w2) = false) by (cbn [wc w2]; congruence).
  rewrite bind_stop_requested, Hstop2'.
  destruct (movement_attempts_moves next_position s2 H2) as (s3 & Hma & Hs3 & Hm3);
    [congruence | exact Hn |].
  rewrite (bind_lift_ret _ _ w2 _ _ Hma).
  set (w3 := mk_wstate s3 _ _ _).
  match goal with |- context [snd (?k w3)] =>
    assert (Hk : calm (steady_w l) k) by (cbv zeta; repeat turn_tail_step);
    destruct (Hk w3) as [_ (_ & _ & Hm4)]
  end.
  destruct Hs1 as (_ & _ & Hm1). destruct Hs2 as (_ & _ & Hm2).
  cbn [wc w3] in Hm4. lia.
Qed.

Lemma worker_iteration_moves w :
  movable l (wc w) = true ->
  stop_flag l (wc w) = false ->
  paused_flag l (wc w) = false ->
  is_held pause_lock (wc w) = false ->
  (motions (trace (wc w)) + 1
   <= motions (trace (wc (snd (worker_iteration bus servo_id l w)))))%nat.
Proof.
  intros H Hstop Hpaused Hfree. unfold worker_iteration.
  rewrite bind_stop_requested, Hstop.
  unfold bind at 1. rewrite lift_eq.
  destruct (paused_check l (wc w) Hfree) as [t Hr].
  rewrite Hr, Hpaused. cbn [fst snd].
  set (w1 := mk_wstate _ _ _ _).
  assert (Hm1 : (motions (trace (wc w)) <= motions (trace (wc w1)))%nat).
  { cbn [wc w1 trace with_trace]. rewrite motions_app. lia. }
  assert (Hb : (motions (trace (wc w1)) + 1
                <= motions (trace (wc (snd (iteration_body bus servo_id l w1)))))%nat).
  { apply iteration_body_moves; [exact H | exact Hstop]. }
  unfold try_except.
  destruct (iteration_body bus servo_id l w1) as [[c| |] w2];
    cbn [fst snd] in *.
  - lia.
  - match goal with |- context [snd (?h w2)] =>
      assert (Hh : calm (steady_w l) h) by (cbv zeta; repeat turn_tail_step);
      destruct (Hh w2) as [_ (_ & _ & Hm3)]
    end.
    lia.
  - lia.
Qed.

(** A movable pattern that is neither paused nor stopped sends at least
    one motion command in each turn of the loop, and stays movable. *)
Lemma worker_loop_moves fuel : forall w,
  running_flag l (wc w) = true ->
  is_held pause_lock (wc w) = false ->
  movable l (wc w) = true ->
  stop_flag l (wc w) = false ->
  paused_flag l (wc w) = false ->
  exists w',
    worker_loop bus fuel servo_id l w = (Ret StillLooping, w')
    /\ steady_w l w w'
    /\ movable l (wc w') = true
    /\ (motions (trace (wc w)) + fuel <= motions (trace (wc w')))%nat.
Proof.
  induction fuel as [|fuel IH]; intros w Hrun Hfree H Hstop Hpaused.
  - destruct (worker_loop_keeps_going bus l 0 servo_id w Hrun Hfree)
      as (w' & Hr & Hs).
    exists w'. split; [exact Hr |]. split; [exact Hs |].
    cbn [worker_loop] in Hr. unfold bind in Hr. rewrite lift_eq in Hr.
    unfold pget, gets in Hr. cbn [fst snd] in Hr.
    fold (running_flag l (wc w)) in Hr. rewrite Hrun in Hr.
    injection Hr as <-. split; [exact H | cbn [wc]; lia].
  - cbn [worker_loop]. unfold bind at 1. rewrite lift_eq.
    unfold pget, gets. cbn [fst snd]. fold (running_flag l (wc w)).
    rewrite Hrun. cbn [negb].
    assert (Hw : mk_wstate (wc w) (consecutive_failures w)
                   (last_successful_position w) (step_count w) = w)
      by (destruct w; reflexivity).
    rewrite Hw. unfold bind.
    pose proof (worker_iteration_moves w H Hstop Hpaused Hfree) as Hm.
    pose proof (tidy_worker_iteration bus servo_id l (is_sweep l (wc w)) w)
      as Hk.
    destruct (worker_iteration_continues bus l servo_id w Hfree)
      as (w1 & Hr & Hf).
    rewrite Hr in Hm, Hk |- *. cbn [snd] in Hm, Hk.
    destruct (steady_flags l _ _ Hf) as (Hrun1 & Hp1 & Hs1 & Hheld1).
    pose proof (movable_kept _ _ Hf Hk H) as H1.
    destruct (IH w1) as (w2 & Hr2 & Hf2 & H2 & Hm2); try congruence.
    { unfold is_held in *. congruence. }
    exists w2. split; [exact Hr2 |]. split; [by etrans |].
    split; [exact H2 | lia].
Qed.

End WorkerMoves.

(** * The worker and communication failures *)

(** C2. Communication failure alone never ends the worker's loop.  For
    every bus, from every state in which the pattern is running and the
    pause lock is free: a failed step ends normally, leaves the pattern's
    flags as they were and, once the failure count reaches the threshold,
    leaves the count at zero whether or not a recovery succeeded; so does
    an exception in the step; the health check answers [True] and leaves
    the flags alone; the loop is still turning after any number of turns
    with [running] still set; and a sweep, rotation or wave pattern, with
    or without angle constraints, that is neither paused nor stopped has
    sent at least one motion command per turn, whatever the bus
    answered. *)
Theorem worker_survives_communication_failure
    (bus : world) (servo_id : Z) (l : loc) (w : wstate) :
  running_flag l (wc w) = true ->
  is_held pause_lock (wc w) = false ->
  (exists w',
     on_movement_failure bus servo_id l w = (Ret tt, w')
     /\ steady_w l w w'
     /\ consecutive_failures w'
        = if max_consecutive_failures <=? consecutive_failures w + 1 then 0
          else consecutive_failures w + 1)
  /\ (exists w',
        on_iteration_error w = (Ret tt, w')
        /\ steady_w l w w'
        /\ consecutive_failures w'
           = if max_consecutive_failures <=? consecutive_failures w + 1 then 0
             else consecutive_failures w + 1)
  /\ (exists s',
        _check_communication_health_during_movement bus servo_id l (wc w)
        = (Ret true, s')
        /\ steady l (wc w) s')
  /\ (forall fuel,
        exists w',
          worker_loop bus fuel servo_id l w = (Ret StillLooping, w')
          /\ running_flag l (wc w') = true
          /\ steady_w l w w'
          /\ (drivable l (wc w) || movable l (wc w) = true ->
              stop_flag l (wc w) = false ->
              paused_flag l (wc w) = false ->
              (motions (trace (wc w)) + fuel <= motions (trace (wc w')))%nat)).
Proof.
  intros Hrun Hfree. repeat split.
  - destruct (on_movement_failure_counter bus l servo_id w) as (w' & Hr & Hc).
    exists w'. split; [exact Hr |]. split; [| exact Hc].
    destruct (calm_on_movement_failure bus l servo_id w) as [_ Hs].
    by rewrite Hr in Hs.
  - destruct (calm_on_iteration_error l w) as [_ Hs].
    pose proof (on_iteration_error_returns w) as Hr.
    destruct (on_iteration_error w) as [r w'] eqn:He. cbn [fst snd] in *.
    subst r. exists w'. split; [reflexivity |]. split; [exact Hs |].
    unfold on_iteration_error, bind, gets, set_failures, modify, lift, sleep,
      log, modify, ret in He. cbn in He.
    destruct (max_consecutive_failures <=? consecutive_failures w + 1);
      cbn in He; injection He as <-; reflexivity.
  - destruct (check_health_returns_true bus l servo_id (wc w)) as [s' Hr].
    exists s'. split; [exact Hr |].
    destruct (calm_check_health bus l servo_id (wc w)) as [_ Hs].
    by rewrite Hr in Hs.
  - intros fuel.
    destruct (worker_loop_keeps_going bus l fuel servo_id w Hrun Hfree)
      as (w' & Hr & Hs).
    exists w'. split; [exact Hr |].
    destruct (steady_flags l _ _ Hs) as (Hrun' & _).
    split; [congruence |]. split; [exact Hs |].
    intros Hd Hstop Hpaused. apply orb_prop in Hd as [Hd|Hd].
    + destruct (worker_loop_emits bus l fuel servo_id w Hrun Hfree Hd Hstop
                  Hpaused) as (w2 & Hr2 & _ & Hm).
      rewrite Hr in Hr2. injection Hr2 as <-. exact Hm.
    + destruct (worker_loop_moves bus servo_id l fuel w Hrun Hfree Hd Hstop
                  Hpaused) as (w2 & Hr2 & _ & _ & Hm).
      rewrite Hr in Hr2. injection Hr2 as <-. exact Hm.
Qed.

(** On a bus where nothing answers, after 25 turns: the sweep of
    scenario 2, and a wave with angle limits enabled, are still looping
    and have each sent 25 motion commands. *)
Lemma worker_survives_communication_failure_witness :
  running_flag 0%nat started = true
  /\ is_held pause_lock started = false
  /\ (exists w',
        worker_loop dead_bus 25 1 0%nat (new_worker started)
        = (Ret StillLooping, w')
        /\ running_flag 0%nat (wc w') = true
        /\ (25 <= motions (trace (wc w')))%nat)
  /\ movable 0%nat (started_with limited_wave_request) = true
  /\ drivable 0%nat (started_with limited_wave_request) = false
  /\ (exists w',
        worker_loop dead_bus 25 3 0%nat
          (new_worker (started_with limited_wave_request))
        = (Ret StillLooping, w')
        /\ running_flag 0%nat (wc w') = true
        /\ (25 <= motions (trace (wc w')))%nat).
Proof.
  split; [vm_compute; reflexivity |]. split; [vm_compute; reflexivity |].
  split.
  - destruct (worker_survives_communication_failure dead_bus 1 0%nat
                (new_worker started) eq_refl eq_refl)
      as (_ & _ & _ & Hloop).
    destruct (Hloop 25%nat) as (w' & Hr & Hrun & _ & Hm).
    exists w'. split; [exact Hr |]. split; [exact Hrun |].
    apply (Hm eq_refl eq_refl eq_refl).
  - split; [vm_compute; reflexivity |]. split; [vm_compute; reflexivity |].
    destruct (worker_survives_communication_failure dead_bus 3 0%nat
                (new_worker (started_with limited_wave_request))
                ltac:(vm_compute; reflexivity) ltac:(vm_compute; reflexivity))
      as (_ & _ & _ & Hloop).
    destruct (Hloop 25%nat) as (w' & Hr & Hrun & _ & Hm).
    exists w'. split; [exact Hr |]. split; [exact Hrun |].
    apply Hm; vm_compute; reflexivity.
Defined.

(** * Pausing *)

Section Pause.

Variable bus : world.

Lemma trace_flagged l s : trace (flagged l s) = trace s ++ pause_flag_events l.
Proof.
  unfold flagged, pause_flag_events. autorewrite with reached.
  by rewrite <- !app_assoc.
Qed.

Lemma pattern_at_flagged l s :
  pattern_at l (flagged l s)
  = <["paused" := VBool true]>
      (<["emergency_stop" := VBool true]>
         (<["immediate_stop" := VBool true]> (pattern_at l s))).
Proof. unfold flagged. by autorewrite with reached. Qed.

Lemma held_flagged l s :
  is_held pause_lock s = false -> held (flagged l s) = held s.
Proof.
  intros Hfree. unfold flagged. autorewrite with reached.
  by apply held_after_lock.
Qed.

Lemma packet_handler_flagged l s : packet_handler (flagged l s) = packet_handler s.
Proof. unfold flagged. by autorewrite with reached. Qed.

Lemma is_rotation_flagged l s : is_rotation l (flagged l s) = is_rotation l s.
Proof.
  unfold is_rotation, dict_get. rewrite pattern_at_flagged.
  by rewrite !lookup_insert_ne.
Qed.

(** Lines 884-898 from a state in which the pause lock is free. *)
Lemma raise_pause_flags_eq l s :
  is_held pause_lock s = false ->
  raise_pause_flags l s = (Ret tt, flagged l s).
Proof.
  intros Hfree. unfold raise_pause_flags. unfold bind at 1.
  rewrite (run_with_lock pause_lock _ s tt
             (after_set l "paused" (VBool true)
                (after_set l "emergency_stop" (VBool true)
                   (after_set l "immediate_stop" (VBool true)
                      (locked pause_lock s)))) Hfree)
    by (rewrite !run_pset; apply pset_eq).
  rewrite run_sleep, run_pget. fold (flagged l s).
  rewrite pattern_at_flagged. unfold dict_get.
  rewrite lookup_insert_ne, lookup_insert_ne, lookup_insert_eq by done.
  reflexivity.
Qed.

Lemma clear_pause_flags_eq l s :
  clear_pause_flags l s = (Ret tt, rolled_back l s).
Proof. unfold clear_pause_flags. rewrite !run_pset. apply pset_eq. Qed.

Lemma finish_pause_eq l s :
  finish_pause l s = (Ret (Success, true, true), settled l s).
Proof. unfold finish_pause. rewrite run_sleep, run_pset. reflexivity. Qed.

(** The hold of a rotation, by the reply to the zero-speed write. *)
Lemma hold_rotation_eq id l s :
  packet_handler s = true ->
  hold_rotation bus id l s =
  let r_hold := bus (trace s) (WriteSpec id 0 50) in
  let s1 := logged (EvCall (WriteSpec id 0 50) r_hold) s in
  if reply_ok r_hold then
    (Ret (Success, true, true),
     settled l (logged (EvCall (torque_on id) (bus (trace s1) (torque_on id))) s1))
  else (Ret (Failure HoldFailed, true, false), rolled_back l s1).
Proof.
  intros Hp. cbv zeta. unfold hold_rotation, torque_on. unfold bind at 1.
  rewrite (run_guarded_call bus _ s Hp).
  destruct (reply_ok (bus (trace s) (WriteSpec id 0 50))); cbn [negb].
  - unfold bind at 1. rewrite run_ignored_call by exact Hp.
    apply finish_pause_eq.
  - unfold bind at 1. rewrite clear_pause_flags_eq. reflexivity.
Qed.

(** The hold of a positional pattern, by the reply to the torque write. *)
Lemma hold_positional_eq id l s :
  packet_handler s = true ->
  hold_positional bus id l s =
  let r_read := bus (trace s) (ReadPos id) in
  let s1 := logged (EvCall (ReadPos id) r_read) s in
  let hold := WritePosEx id (hold_position r_read) 0 0 in
  let s2 := logged (EvCall hold (bus (trace s1) hold)) s1 in
  let r_torque := bus (trace s2) (torque_on id) in
  let s3 := logged (EvCall (torque_on id) r_torque) s2 in
  if reply_ok r_torque then (Ret (Success, true, true), settled l s3)
  else (Ret (Failure TorqueFailed, true, false), rolled_back l s3).
Proof.
  intros Hp. cbv zeta. unfold hold_positional, torque_on. unfold bind at 1.
  assert (Hread :
    try_except (p <- sdk bus (ReadPos id) ;; ret (Some p)) (ret None) s
    = (Ret match bus (trace s) (ReadPos id) with
           | Reply v c => Some (v, c)
           | Raised => None
           end,
       logged (EvCall (ReadPos id) (bus (trace s) (ReadPos id))) s)).
  { unfold try_except. rewrite (run_sdk bus _ _ _ Hp).
    destruct (bus (trace s) (ReadPos id)); reflexivity. }
  rewrite Hread. clear Hread.
  assert (Hpos :
    match
      match bus (trace s) (ReadPos id) with
      | Reply v c => Some (v, c)
      | Raised => None
      end
    with
    | Some (pos, c) => if comm_ok c then pos else 2048
    | None => 2048
    end = hold_position (bus (trace s) (ReadPos id))).
  { unfold hold_position. destruct (bus (trace s) (ReadPos id)); reflexivity. }
  cbv zeta. rewrite Hpos. clear Hpos.
  unfold bind at 1. rewrite run_ignored_call by exact Hp.
  unfold bind at 1. rewrite run_guarded_call by exact Hp.
  match goal with |- context [reply_ok ?r] => destruct (reply_ok r) end;
    cbn [negb].
  - apply finish_pause_eq.
  - unfold bind at 1. rewrite clear_pause_flags_eq. reflexivity.
Qed.

(** One turn of the pause loop for a pausable servo. *)
Lemma pause_one_eq id l s :
  pausable id l s ->
  pause_one bus (VInt id) s =
  if is_rotation l s then hold_rotation bus id l (flagged l s)
  else hold_positional bus id l (flagged l s).
Proof.
  intros (Hc & Hp & Hid & Hl & Hrun & Hfree).
  unfold pause_one. cbn [is_int is_number num].
  replace ((id <? 0) || (253 <? id)) with false by lia.
  rewrite run_gets, Hl, run_pget. fold (running_flag l s). rewrite Hrun.
  cbn [negb]. unfold try_except. unfold bind at 1.
  rewrite (raise_pause_flags_eq l s Hfree). rewrite run_pget.
  fold (is_rotation l (flagged l s)). rewrite is_rotation_flagged.
  assert (Hpf : packet_handler (flagged l s) = true)
    by (rewrite packet_handler_flagged; exact Hp).
  destruct (is_rotation l s).
  - rewrite (hold_rotation_eq id l _ Hpf). cbv zeta.
    match goal with |- context [reply_ok ?r] => destruct (reply_ok r) end;
      reflexivity.
  - rewrite (hold_positional_eq id l _ Hpf). cbv zeta.
    match goal with |- context [reply_ok ?r] => destruct (reply_ok r) end;
      reflexivity.
Qed.

End Pause.

Section PauseOutcomes.

Variable bus : world.

Lemma pattern_at_rolled_back l s :
  pattern_at l (rolled_back l s)
  = <["emergency_stop" := VBool false]>
      (<["immediate_stop" := VBool false]>
         (<["paused" := VBool false]> (pattern_at l s))).
Proof. unfold rolled_back. by autorewrite with reached. Qed.

Lemma pattern_at_settled l s :
  pattern_at l (settled l s)
  = <["emergency_stop" := VBool false]> (pattern_at l s).
Proof. unfold settled. by autorewrite with reached. Qed.

Lemma trace_rolled_back l s :
  trace (rolled_back l s) = trace s ++ rollback_events l.
Proof.
  unfold rolled_back, rollback_events. autorewrite with reached.
  by rewrite <- !app_assoc.
Qed.

Lemma trace_settled l s :
  trace (settled l s)
  = trace s ++ [EvSleep 50; EvSet l "emergency_stop" (VBool false)].
Proof. unfold settled. autorewrite with reached. by rewrite <- !app_assoc. Qed.

(** A pause, failed or not, leaves the pattern drivable if it was. *)
Lemma drivable_by_fields l s s' :
  packet_handler s' = packet_handler s ->
  (forall k, frame_key k = true ->
             k <> "paused" -> k <> "immediate_stop" -> k <> "emergency_stop" ->
             pattern_at l s' !! k = pattern_at l s !! k) ->
  drivable l s' = drivable l s.
Proof.
  intros Hp Hk. unfold drivable.
  rewrite Hp, !Hk by (reflexivity || discriminate). reflexivity.
Qed.

End PauseOutcomes.

(** The rollback of a pause that runs on its own, the worker waiting
    between two turns.  For a pausable servo: if the pattern is a rotation
    and the zero-speed write is not answered with success (or raises), or
    the pattern is positional and the torque write is not answered with
    success (or raises), then the entry for that servo is a failure, the
    three flags are [False] again while [running] is still set and the
    pause lock is free, the trace ends with the three assignments of the
    rollback, and the worker's next turn is neither stopped nor paused;
    for a drivable pattern it sends a motion command. *)
Theorem pause_rolls_back_on_failed_hold
    (bus : world) (id : Z) (l : loc) (s : cstate) :
  pausable id l s ->
  let t0 := trace s ++ pause_flag_events l in
  let r_read := bus t0 (ReadPos id) in
  let hold := WritePosEx id (hold_position r_read) 0 0 in
  let r_hold := bus (t0 ++ [EvCall (ReadPos id) r_read]) hold in
  let r_torque :=
    bus (t0 ++ [EvCall (ReadPos id) r_read; EvCall hold r_hold]) (torque_on id) in
  (if is_rotation l s then reply_ok (bus t0 (WriteSpec id 0 50))
   else reply_ok r_torque) = false ->
  exists e s' t,
    pause_one bus (VInt id) s = (Ret (Failure e, true, false), s')
    /\ pause_continuous_movement bus [VInt id] s
       = (Ret (inr (mk_pause_result true [(VInt id, Failure e)] 0 1)), s')
    /\ trace s' = trace s ++ pause_flag_events l ++ t ++ rollback_events l
    /\ pause_flags l s' = [Some (VBool false); Some (VBool false); Some (VBool false)]
    /\ running_flag l s' = true
    /\ stop_flag l s' = false
    /\ paused_flag l s' = false
    /\ is_held pause_lock s' = false
    /\ (drivable l s = true ->
        forall w, wc w = s' ->
          (motions (trace s') + 1
           <= motions (trace (wc (snd (worker_iteration bus id l w)))))%nat).
Proof.
  intros Hpre t0 r_read hold r_hold r_torque Hfail.
  pose proof Hpre as (Hc & Hp & Hid & Hl & Hrun & Hfree).
  assert (Hone := pause_one_eq bus id l s Hpre).
  assert (Hpf : packet_handler (flagged l s) = true)
    by (rewrite packet_handler_flagged; exact Hp).
  assert (Hgoal : exists e t s1,
    pause_one bus (VInt id) s = (Ret (Failure e, true, false), rolled_back l s1)
    /\ trace s1 = trace s ++ pause_flag_events l ++ t
    /\ pattern_at l s1 = pattern_at l (flagged l s)
    /\ packet_handler s1 = true
    /\ held s1 = held s).
  { rewrite Hone. destruct (is_rotation l s).
    - rewrite (hold_rotation_eq bus id l _ Hpf). cbv zeta.
      rewrite trace_flagged. fold t0. rewrite Hfail.
      eexists _, [_], _. split; [reflexivity |].
      autorewrite with reached. rewrite trace_flagged.
      split; [by rewrite <- !app_assoc |]. split; [reflexivity |].
      split; [exact Hpf | by apply held_flagged].
    - rewrite (hold_positional_eq bus id l _ Hpf). cbv zeta.
      autorewrite with reached. rewrite trace_flagged. fold t0.
      fold r_read. fold hold. rewrite <- !app_assoc. cbn [app].
      fold r_hold. fold r_torque. rewrite Hfail.
      eexists _, [_; _; _], _. split; [reflexivity |].
      autorewrite with reached. rewrite trace_flagged.
      split; [by rewrite <- !app_assoc |]. split; [reflexivity |].
      split; [exact Hpf | by apply held_flagged]. }
  destruct Hgoal as (e & t & s1 & Hr & Ht & Hpat & Hp1 & Hheld).
  assert (Hflags : pattern_at l (rolled_back l s1)
    = <["emergency_stop" := VBool false]>
        (<["immediate_stop" := VBool false]>
           (<["paused" := VBool false]>
              (<["paused" := VBool true]>
                 (<["emergency_stop" := VBool true]>
                    (<["immediate_stop" := VBool true]> (pattern_at l s))))))).
  { rewrite pattern_at_rolled_back, Hpat, pattern_at_flagged. reflexivity. }
  assert (Hrun' : running_flag l (rolled_back l s1) = true).
  { unfold running_flag, dict_get in *. rewrite Hflags.
    by rewrite !lookup_insert_ne. }
  assert (Hstop' : stop_flag l (rolled_back l s1) = false).
  { unfold stop_flag, dict_get. rewrite Hflags. by simplify_map_eq. }
  assert (Hpaused' : paused_flag l (rolled_back l s1) = false).
  { unfold paused_flag, dict_get. rewrite Hflags. by simplify_map_eq. }
  assert (Hfree' : is_held pause_lock (rolled_back l s1) = false).
  { unfold is_held, rolled_back. autorewrite with reached. rewrite Hheld.
    exact Hfree. }
  exists e, (rolled_back l s1), t.
  split; [exact Hr |].
  split.
  { unfold pause_continuous_movement. rewrite run_gets, Hc. cbn [negb].
    unfold bind at 1. cbn [pause_each]. unfold bind at 1. rewrite Hr.
    reflexivity. }
  split; [rewrite trace_rolled_back, Ht; by rewrite <- !app_assoc |].
  split; [unfold pause_flags; cbn [map]; rewrite Hflags; by simplify_map_eq |].
  split; [exact Hrun' |]. split; [exact Hstop' |]. split; [exact Hpaused' |].
  split; [exact Hfree' |].
  intros Hd w Hw. rewrite <- Hw.
  apply worker_iteration_emits; rewrite Hw; try assumption.
  rewrite <- Hd. apply drivable_by_fields.
  - unfold rolled_back. autorewrite with reached. congruence.
  - intros k Hk H1 H2 H3. rewrite Hflags. by rewrite !lookup_insert_ne.
Qed.

(** Pausing the sweep of servo 1 on a bus where the torque write times
    out. *)
Lemma pause_rolls_back_on_failed_hold_witness :
  pausable 1 0%nat sweeping
  /\ reply_ok (no_torque_bus [] (torque_on 1)) = false
  /\ exists e s',
       pause_one no_torque_bus (VInt 1) sweeping = (Ret (Failure e, true, false), s')
       /\ pause_flags 0%nat s'
          = [Some (VBool false); Some (VBool false); Some (VBool false)]
       /\ running_flag 0%nat s' = true.
Proof.
  assert (Hpre : pausable 1 0%nat sweeping).
  { unfold pausable. repeat split; try (vm_compute; reflexivity);
      vm_compute; discriminate. }
  split; [exact Hpre |]. split; [reflexivity |].
  destruct (pause_rolls_back_on_failed_hold no_torque_bus 1 0%nat sweeping Hpre)
    as (e & s' & t & Hr & _ & _ & Hf & Hrun & _).
  { vm_compute. reflexivity. }
  exists e, s'. split; [exact Hr |]. split; [exact Hf | exact Hrun].
Defined.

(** * A pause that meets the worker in the middle of its turn *)

Section MidTurn.

Variable bus : world.

(** The turn is its checks followed by the rest. *)
Lemma worker_iteration_cut servo_id l w :
  worker_iteration bus servo_id l w
  = (o <- turn_checks l ;;
     match o with
     | Some c => ret c
     | None => rest_of_turn bus servo_id l
     end) w.
Proof.
  unfold worker_iteration, turn_checks, rest_of_turn. unfold bind.
  destruct (lift (stop_requested l) w) as [[stop| |] w1]; try reflexivity.
  destruct stop.
  - destruct (lift (sleep 100) w1) as [[[]| |] w2]; reflexivity.
  - match goal with |- context [lift ?m w1] =>
      destruct (lift m w1) as [[p| |] w2]; try reflexivity
    end.
    destruct p; reflexivity.
Qed.

(** The worker is its preparation followed by the loop inside
    [worker_end]. *)
Lemma worker_is_loop_in_worker_end fuel servo_id l w :
  _continuous_movement_worker bus fuel servo_id l w
  = (ok <- lift (worker_init bus servo_id l) ;;
     if negb ok then ret Exited
     else worker_end l (worker_loop bus fuel servo_id l)) w.
Proof. reflexivity. Qed.

(** A worker that finds [running] set and passes the checks of its turn
    goes on with [loop_from_turn]. *)
Lemma worker_resumes_from_turn fuel servo_id l w w0 :
  running_flag l (wc w) = true ->
  turn_checks l w = (Ret None, w0) ->
  worker_end l (worker_loop bus (S fuel) servo_id l) w
  = worker_end l (loop_from_turn bus fuel servo_id l) w0.
Proof.
  intros Hrun Hchk.
  assert (E : worker_loop bus (S fuel) servo_id l w
              = loop_from_turn bus fuel servo_id l w0).
  { cbn [worker_loop]. unfold bind at 1. rewrite lift_eq.
    unfold pget, gets. cbn [fst snd]. fold (running_flag l (wc w)).
    rewrite Hrun. cbn [negb].
    assert (Hw : mk_wstate (wc w) (consecutive_failures w)
                   (last_successful_position w) (step_count w) = w)
      by (destruct w; reflexivity).
    rewrite Hw. unfold bind at 1. rewrite worker_iteration_cut.
    unfold bind at 1. rewrite Hchk. reflexivity. }
  unfold worker_end, try_except, bind. by rewrite E.
Qed.

(** A pause of a running pattern is its two halves, one after the
    other. *)
Lemma pause_one_cut id l s :
  0 <= id <= 253 ->
  movement_patterns s !! id = Some l ->
  running_flag l s = true ->
  pause_one bus (VInt id) s
  = try_except
      (pause_flags_up l ;; pause_after_flags bus id l)
      (ret (Failure Unexpected, false, false)) s.
Proof.
  intros Hid Hl Hrun. unfold pause_one. cbn [is_int is_number num].
  replace ((id <? 0) || (253 <? id)) with false by lia.
  rewrite run_gets, Hl, run_pget. fold (running_flag l s). rewrite Hrun.
  cbn [negb]. unfold try_except, raise_pause_flags, pause_after_flags,
    pause_flags_up. unfold bind.
  match goal with |- context [with_lock pause_lock ?m s] =>
    destruct (with_lock pause_lock m s) as [[[]| |] s1]; reflexivity
  end.
Qed.

(** When the first half returns, the second goes on from its state. *)
Lemma try_except_after {A B} (m : M cstate A) (k : M cstate B) h s a s1 :
  m s = (Ret a, s1) ->
  try_except (m ;; k) h s = try_except k h s1.
Proof. intros E. unfold try_except, bind. by rewrite E. Qed.

(** The worker that goes on from line 1729 with a stop flag raised sends
    nothing: the first check of the body breaks out of the loop, and
    [finally] clears [running]. *)
Lemma raised_flags_end_worker fuel servo_id l w :
  stop_flag l (wc w) = true ->
  worker_end l (loop_from_turn bus fuel servo_id l) w
  = (Ret Exited, with_wc (snd (pset l "running" (VBool false) (wc w))) w).
Proof.
  intros Hstop. unfold worker_end, loop_from_turn, rest_of_turn, iteration_body.
  unfold try_except at 1. unfold bind at 1. unfold bind at 1.
  unfold try_except at 1. rewrite bind_stop_requested, Hstop.
  unfold ret at 1. cbv iota beta. unfold ret at 1. cbv iota beta.
  unfold bind. rewrite lift_eq. reflexivity.
Qed.

End MidTurn.

(** C10.  The rollback of a failed pause does not bring back a worker
    that the raised flags caught in the middle of its turn.  Servo 1
    sweeps; its worker has made the checks of its fourth turn when the
    pause raises the three flags; the worker goes on from line 1729, sees
    [immediate_stop] at line 1731, leaves its loop and clears [running];
    the pause goes on, its torque write times out, and it rolls the three
    flags back and reports the failure.  At the end the flags are [False],
    [running] is [False] and the worker has ended, whatever number of
    turns it had left: the only position command after the flags were
    raised is the hold of the pause, and a resume finds nothing to
    resume.  The same pause not interleaved with the turn leaves
    [running] set. *)
Theorem pause_in_mid_turn_ends_worker (fuel : nat) :
  exists s',
    pause_in_mid_turn no_torque_bus fuel 1 0%nat sweeping_worker
    = (Ret None, Ret tt, Ret Exited, Ret (Failure TorqueFailed, true, false), s')
    /\ pause_flags 0%nat s'
       = [Some (VBool false); Some (VBool false); Some (VBool false)]
    /\ running_flag 0%nat s' = false
    /\ setpoints (drop (length (trace sweeping)) (trace s')) = [1500]
    /\ fst (resume_continuous_movement no_torque_bus [1] s')
       = Ret (Done, [(1, NothingToResume)])
    /\ running_flag 0%nat (snd (pause_one no_torque_bus (VInt 1) sweeping)) = true.
Proof.
  eexists. split; [vm_compute; reflexivity |].
  repeat split; vm_compute; reflexivity.
Qed.

(** C5, as the code has it.  A successful pause of a pausable servo (for
    a rotation the zero-speed write succeeds, for a positional pattern the
    torque write succeeds) performs exactly this sequence: under the pause
    lock it sets [immediate_stop], [emergency_stop] and [paused]; waits
    100 ms; sends the hold command ([WriteSpec(id, 0, 50)] for a rotation,
    otherwise a position read followed by [WritePosEx(pos, 0, 0)] where
    [pos] is the position read, or 2048 when the read fails); writes
    torque-enable; waits a further 50 ms; and clears [emergency_stop].
    When it returns [immediate_stop] and [paused] are set,
    [emergency_stop] is not, and the servo is counted as paused. *)
Theorem successful_pause_sequence
    (bus : world) (id : Z) (l : loc) (s : cstate) :
  pausable id l s ->
  let t0 := trace s ++ pause_flag_events l in
  let r_read := bus t0 (ReadPos id) in
  let pos := hold_position r_read in
  let r_hold :=
    if is_rotation l s then bus t0 (WriteSpec id 0 50)
    else bus (t0 ++ [EvCall (ReadPos id) r_read]) (WritePosEx id pos 0 0) in
  let r_torque :=
    if is_rotation l s
    then bus (t0 ++ [EvCall (WriteSpec id 0 50) r_hold]) (torque_on id)
    else bus (t0 ++ [EvCall (ReadPos id) r_read;
                     EvCall (WritePosEx id pos 0 0) r_hold]) (torque_on id) in
  (if is_rotation l s then reply_ok r_hold else reply_ok r_torque) = true ->
  exists s',
    pause_continuous_movement bus [VInt id] s
    = (Ret (inr (mk_pause_result true [(VInt id, Success)] 1 1)), s')
    /\ trace s'
       = trace s
         ++ pause_events l
              (hold_events (is_rotation l s) id pos r_read r_hold r_torque)
    /\ pause_flags l s' = [Some (VBool true); Some (VBool false); Some (VBool true)]
    /\ running_flag l s' = true.
Proof.
  intros Hpre t0 r_read pos r_hold r_torque Hok.
  pose proof Hpre as (Hc & Hp & Hid & Hl & Hrun & Hfree).
  assert (Hone := pause_one_eq bus id l s Hpre).
  assert (Hpf : packet_handler (flagged l s) = true)
    by (rewrite packet_handler_flagged; exact Hp).
  assert (Hgoal : exists s1,
    pause_one bus (VInt id) s = (Ret (Success, true, true), settled l s1)
    /\ trace s1
       = trace s ++ pause_flag_events l
         ++ hold_events (is_rotation l s) id pos r_read r_hold r_torque
    /\ pattern_at l s1 = pattern_at l (flagged l s)).
  { rewrite Hone. subst r_hold r_torque. destruct (is_rotation l s).
    - rewrite (hold_rotation_eq bus id l _ Hpf). cbv zeta.
      autorewrite with reached. rewrite trace_flagged. fold t0. rewrite Hok.
      eexists. split; [reflexivity |].
      autorewrite with reached. rewrite trace_flagged.
      split; [by rewrite <- !app_assoc | reflexivity].
    - rewrite (hold_positional_eq bus id l _ Hpf). cbv zeta.
      autorewrite with reached. rewrite trace_flagged. fold t0.
      fold r_read. fold pos. rewrite <- !app_assoc. cbn [app]. rewrite Hok.
      eexists. split; [reflexivity |].
      autorewrite with reached. rewrite trace_flagged.
      split; [by rewrite <- !app_assoc | reflexivity]. }
  destruct Hgoal as (s1 & Hr & Ht & Hpat).
  assert (Hflags : pattern_at l (settled l s1)
    = <["emergency_stop" := VBool false]>
        (<["paused" := VBool true]>
           (<["emergency_stop" := VBool true]>
              (<["immediate_stop" := VBool true]> (pattern_at l s))))).
  { rewrite pattern_at_settled, Hpat, pattern_at_flagged. reflexivity. }
  exists (settled l s1). split.
  { unfold pause_continuous_movement. rewrite run_gets, Hc. cbn [negb].
    unfold bind at 1. cbn [pause_each]. unfold bind at 1. rewrite Hr.
    reflexivity. }
  split.
  { rewrite trace_settled, Ht. unfold pause_events. by rewrite <- !app_assoc. }
  split; [unfold pause_flags; cbn [map]; rewrite Hflags; by simplify_map_eq |].
  unfold running_flag, dict_get in *. rewrite Hflags.
  by rewrite !lookup_insert_ne.
Qed.

(** Pausing the rotation of servo 2 on a bus where everything succeeds. *)
Lemma successful_pause_sequence_witness :
  pausable 2 0%nat rotating
  /\ is_rotation 0%nat rotating = true
  /\ exists s',
       pause_continuous_movement (ok_bus 0) [VInt 2] rotating
       = (Ret (inr (mk_pause_result true [(VInt 2, Success)] 1 1)), s')
       /\ trace s'
          = trace rotating
            ++ pause_events 0%nat
                 [EvCall (WriteSpec 2 0 50) (Reply 1 COMM_SUCCESS);
                  EvCall (torque_on 2) (Reply 1 COMM_SUCCESS)].
Proof.
  assert (Hpre : pausable 2 0%nat rotating).
  { unfold pausable. repeat split; try (vm_compute; reflexivity);
      vm_compute; discriminate. }
  split; [exact Hpre |]. split; [vm_compute; reflexivity |].
  destruct (successful_pause_sequence (ok_bus 0) 2 0%nat rotating Hpre)
    as (s' & Hr & Ht & _).
  { vm_compute. reflexivity. }
  exists s'. split; [exact Hr |]. rewrite Ht. vm_compute. reflexivity.
Defined.

(** C5 as stated fails: the events of a successful pause are not the
    stated sequence, which has no wait between the torque write and the
    clearing of [emergency_stop].  Here the sweep of servo 1 is paused on
    a bus where everything succeeds and the servo stands at 1500. *)
Lemma pause_sequence_counterexample :
  fst (pause_continuous_movement (ok_bus 1500) [VInt 1] sweeping)
  = Ret (inr (mk_pause_result true [(VInt 1, Success)] 1 1))
  /\ new_events (pause_continuous_movement (ok_bus 1500) [VInt 1]) sweeping
     <> stated_pause_events 0%nat
          (hold_events false 1 1500 (Reply 1500 COMM_SUCCESS)
             (Reply 1 COMM_SUCCESS) (Reply 1 COMM_SUCCESS))
  /\ new_events (pause_continuous_movement (ok_bus 1500) [VInt 1]) sweeping
     = pause_flag_events 0%nat
       ++ [EvCall (ReadPos 1) (Reply 1500 COMM_SUCCESS);
           EvCall (WritePosEx 1 1500 0 0) (Reply 1 COMM_SUCCESS);
           EvCall (torque_on 1) (Reply 1 COMM_SUCCESS);
           EvSleep 50;
           EvSet 0%nat "emergency_stop" (VBool false)].
Proof.
  split; [vm_compute; reflexivity |].
  split; [vm_compute; discriminate | vm_compute; reflexivity].
Qed.

(** * The group sync position writer *)

Section GroupSync.

Variable bus : world.

Lemma ask_eq c s :
  ask bus c s =
  (match bus (trace s) c with Raised => Exn | Reply v cr => Ret (v, cr) end,
   logged (EvCall c (bus (trace s) c)) s).
Proof. unfold ask. destruct (bus (trace s) c); reflexivity. Qed.

Lemma added_ids_app t1 t2 : added_ids (t1 ++ t2) = added_ids t1 ++ added_ids t2.
Proof. unfold added_ids. apply omap_app. Qed.

Lemma reported_ids_app t1 t2 :
  reported_ids (t1 ++ t2) = reported_ids t1 ++ reported_ids t2.
Proof. unfold reported_ids. apply omap_app. Qed.

Lemma tx_replies_app t1 t2 : tx_replies (t1 ++ t2) = tx_replies t1 ++ tx_replies t2.
Proof. unfold tx_replies. apply omap_app. Qed.

Lemma transmission_app t1 t2 :
  transmission (t1 ++ t2) = transmission t1 ++ transmission t2.
Proof. unfold transmission. apply List.filter_app. Qed.

Lemma raised_app t1 t2 : raised (t1 ++ t2) = raised t1 || raised t2.
Proof. unfold raised. apply existsb_app. Qed.

Lemma raised_transmission t :
  In (EvCall TxPacket Raised) (transmission t) -> raised t = true.
Proof.
  unfold transmission, raised. intros H. apply List.filter_In in H.
  apply existsb_exists. exists (EvCall TxPacket Raised). tauto.
Qed.

Lemma offered_app t1 t2 : offered (t1 ++ t2) = offered t1 ++ offered t2.
Proof. unfold offered. apply omap_app. Qed.

(** The loop that fills the batch: it only calls [SyncWritePosEx] and
    prints; it offers the entries in order and ends with the lists of the
    ids accepted and refused, or with the exception of a call that
    raised. *)
Lemma add_each_spec servo_data : forall added failed s,
  packet_handler s = true ->
  exists r t,
    add_each bus servo_data added failed s = (r, with_trace (trace s ++ t) s)
    /\ transmission t = []
    /\ tx_replies t = []
    /\ reported_ids t = added_ids t
    /\ (exists n, offered t = take n servo_data)
    /\ match r with
       | Ret (a, f) =>
           a = added ++ added_ids t /\ raised t = false
           /\ offered t = servo_data
       | Exn =>
           raised t = true
           /\ (length (offered t) < length servo_data)%nat
       | Hang => False
       end.
Proof.
  induction servo_data as [|[[[servo_id position] speed] acceleration] rest IH];
    intros added failed s Hp.
  - exists (Ret (added, failed)), []. cbn [add_each]. rewrite !app_nil_r.
    destruct s. repeat split. by exists 0%nat.
  - cbn [add_each]. rewrite (run_sdk bus _ _ _ Hp).
    set (c := SyncWritePosEx servo_id position speed acceleration).
    destruct (bus (trace s) c) as [|v cr] eqn:Hr.
    + exists Exn, [EvCall c Raised]. rewrite logged_as_with_trace.
      repeat split; [by exists 0%nat | cbn; lia].
    + cbn [fst]. destruct (v =? 0) eqn:Hv; cbn [negb]; rewrite run_print.
      * match goal with |- context [add_each bus rest ?a ?f ?s0] =>
          destruct (IH a f s0) as (r & t & He & Htx & Htr & Hrep & Hoff & Hres);
          [exact Hp |]
        end.
        exists r, (EvCall c (Reply v cr) :: EvPrint (MsgAddFailed servo_id) :: t).
        split.
        { rewrite He, !with_trace_logged, !trace_logged, <- !app_assoc.
          reflexivity. }
        unfold transmission, tx_replies, reported_ids, added_ids, raised,
          offered in *.
        subst c. cbn [List.filter omap list_omap existsb]. rewrite Hv. cbn [orb].
        split; [exact Htx |]. split; [exact Htr |]. split; [exact Hrep |].
        split.
        { destruct Hoff as [n Hn]. exists (S n). cbn [take]. by rewrite Hn. }
        destruct r as [[a f]| |]; [| | exact Hres].
        -- destruct Hres as (Ha & Hra & Ho). repeat split; try assumption.
           by rewrite Ho.
        -- destruct Hres as (Hra & Hlen). split; [exact Hra |]. cbn [length].
           lia.
      * match goal with |- context [add_each bus rest ?a ?f ?s0] =>
          destruct (IH a f s0) as (r & t & He & Htx & Htr & Hrep & Hoff & Hres);
          [exact Hp |]
        end.
        exists r, (EvCall c (Reply v cr) :: EvPrint (MsgAdded servo_id) :: t).
        split.
        { rewrite He, !with_trace_logged, !trace_logged, <- !app_assoc.
          reflexivity. }
        unfold transmission, tx_replies, reported_ids, added_ids, raised,
          offered in *.
        subst c. cbn [List.filter omap list_omap existsb]. rewrite Hv. cbn [orb].
        split; [exact Htx |]. split; [exact Htr |].
        split; [by rewrite Hrep |].
        split.
        { destruct Hoff as [n Hn]. exists (S n). cbn [take]. by rewrite Hn. }
        destruct r as [[a f]| |]; [| | exact Hres].
        -- destruct Hres as (-> & Hra & Ho).
           split; [by rewrite <- app_assoc |]. split; [exact Hra |].
           by rewrite Ho.
        -- destruct Hres as (Hra & Hlen). split; [exact Hra |]. cbn [length].
           lia.
Qed.


Lemma comm_ok_success c : comm_ok c = true <-> c = COMM_SUCCESS.
Proof. destruct c; cbn; split; congruence. Qed.

(** The transmission of the batch: one attempt when it succeeds or
    raises, otherwise a second attempt after 50 ms. *)
Lemma transmit_spec added failed d s :
  exists r t,
    transmit bus 2 0 added failed d s = (r, with_trace (trace s ++ t) s)
    /\ added_ids t = []
    /\ reported_ids t = []
    /\ offered t = []
    /\ (exists r1,
          (transmission t = [EvCall TxPacket r1]
           /\ tx_replies t = [r1]
           /\ (reply_ok r1 = true \/ r1 = Raised))
          \/ (exists r2,
                transmission t = [EvCall TxPacket r1; EvSleep 50; EvCall TxPacket r2]
                /\ tx_replies t = [r1; r2]
                /\ reply_ok r1 = false /\ r1 <> Raised))
    /\ match r with
       | Ret c =>
           (c = COMM_SUCCESS <-> existsb reply_ok (tx_replies t) = true)
           /\ (c = COMM_SUCCESS -> In (EvPrint (MsgExecuted added)) t)
           /\ raised t = false
       | Exn => raised t = true /\ existsb reply_ok (tx_replies t) = false
       | Hang => False
       end.
Proof.
  assert (Hprints : forall s0,
    exists t,
      (print (MsgExecuted added) ;;
       (match failed with [] => ret tt | _ => print (MsgNotAdded failed) end) ;;
       ret COMM_SUCCESS) s0 = (Ret COMM_SUCCESS, with_trace (trace s0 ++ t) s0)
      /\ added_ids t = [] /\ reported_ids t = [] /\ transmission t = []
      /\ tx_replies t = [] /\ raised t = false
      /\ In (EvPrint (MsgExecuted added)) t
      /\ offered t = []).
  { intros s0. rewrite run_print. destruct failed.
    - exists [EvPrint (MsgExecuted added)]. rewrite run_ret.
      rewrite logged_as_with_trace. repeat split. by left.
    - exists [EvPrint (MsgExecuted added); EvPrint (MsgNotAdded (z :: failed))].
      rewrite run_print. unfold ret.
      rewrite !logged_as_with_trace. cbn [trace with_trace].
      rewrite <- app_assoc. repeat split. by left. }
  cbn [transmit]. unfold bind at 1. rewrite ask_eq.
  destruct (bus (trace s) TxPacket) as [|v1 c1] eqn:H1.
  { exists Exn, [EvCall TxPacket Raised]. rewrite logged_as_with_trace.
    repeat split. exists Raised. left. repeat split. by right. }
  cbn [snd]. destruct (comm_ok c1) eqn:Hc1.
  { apply comm_ok_success in Hc1. subst c1.
    destruct (Hprints (logged (EvCall TxPacket (Reply v1 COMM_SUCCESS)) s))
      as (t & He & Ha & Hr & Htm & Htx & Hra & Hin & Ho).
    exists (Ret COMM_SUCCESS), (EvCall TxPacket (Reply v1 COMM_SUCCESS) :: t).
    split.
    { rewrite He, with_trace_logged, trace_logged, <- app_assoc. reflexivity. }
    unfold added_ids, reported_ids, transmission, tx_replies, raised,
      offered in *.
    cbn [omap list_omap List.filter existsb orb]. rewrite Htm, Htx.
    split; [exact Ha |]. split; [exact Hr |]. split; [exact Ho |].
    split; [exists (Reply v1 COMM_SUCCESS); left; repeat split; by left |].
    split; [split; reflexivity |]. split; [intros _; by right | exact Hra]. }
  change (0 <? max_retries - 1) with true. cbv iota.
  rewrite run_sleep. unfold bind at 1. rewrite ask_eq.
  set (s1 := logged (EvSleep 50) (logged (EvCall TxPacket (Reply v1 c1)) s)).
  assert (Hs1 : forall t, with_trace (trace s1 ++ t) s1
                  = with_trace (trace s ++ EvCall TxPacket (Reply v1 c1)
                                          :: EvSleep 50 :: t) s).
  { intros t. unfold s1.
    rewrite !with_trace_logged, !trace_logged, <- !app_assoc. reflexivity. }
  destruct (bus (trace s1) TxPacket) as [|v2 c2] eqn:H2.
  { exists Exn, [EvCall TxPacket (Reply v1 c1); EvSleep 50; EvCall TxPacket Raised].
    rewrite logged_as_with_trace, Hs1.
    unfold added_ids, reported_ids, transmission, tx_replies, raised.
    cbn [omap list_omap List.filter existsb orb reply_ok]. rewrite Hc1.
    repeat split.
    exists (Reply v1 c1). right. exists Raised. cbn [reply_ok].
    repeat split; [exact Hc1 | discriminate]. }
  cbn [snd]. destruct (comm_ok c2) eqn:Hc2.
  { apply comm_ok_success in Hc2. subst c2.
    destruct (Hprints (logged (EvCall TxPacket (Reply v2 COMM_SUCCESS)) s1))
      as (t & He & Ha & Hr & Htm & Htx & Hra & Hin & Ho).
    exists (Ret COMM_SUCCESS),
      (EvCall TxPacket (Reply v1 c1) :: EvSleep 50
       :: EvCall TxPacket (Reply v2 COMM_SUCCESS) :: t).
    split.
    { rewrite He, with_trace_logged, trace_logged, <- app_assoc. cbn [app].
      by rewrite Hs1. }
    unfold added_ids, reported_ids, transmission, tx_replies, raised,
      offered in *.
    cbn [omap list_omap List.filter existsb orb reply_ok comm_ok].
    rewrite Htm, Htx, Hc1. cbn [existsb orb reply_ok comm_ok].
    split; [exact Ha |]. split; [exact Hr |]. split; [exact Ho |].
    split.
    { exists (Reply v1 c1). right. exists (Reply v2 COMM_SUCCESS).
      cbn [reply_ok]. repeat split; [exact Hc1 | discriminate]. }
    split; [split; reflexivity |].
    split; [intros _; right; right; by right | exact Hra]. }
  change (0 + 1 <? max_retries - 1) with false. cbv iota.
  rewrite run_ret. cbn [transmit]. unfold ret.
  exists (Ret c2),
    [EvCall TxPacket (Reply v1 c1); EvSleep 50; EvCall TxPacket (Reply v2 c2)].
  rewrite logged_as_with_trace, Hs1.
  unfold added_ids, reported_ids, transmission, tx_replies, raised.
  cbn [omap list_omap List.filter existsb orb reply_ok]. rewrite Hc1, Hc2.
  split; [reflexivity |]. split; [reflexivity |]. split; [reflexivity |].
  split; [reflexivity |].
  split.
  { exists (Reply v1 c1). right. exists (Reply v2 c2). cbn [reply_ok].
    repeat split; [exact Hc1 | discriminate]. }
  cbn [orb]. split; [| split; [| reflexivity]].
  - split; [| discriminate]. intros ->. discriminate.
  - intros ->. discriminate.
Qed.

End GroupSync.

(** C7. The group sync position writer, on a controller whose position
    writer is initialised.  [syncWrite] takes and releases the writer
    lock, clears the batch and offers the entries of [servo_data] to the
    SDK in their order, every one of them unless a call raises; it
    reports each id as it is added, and the ids refused do not stop it.
    Its result is success exactly when at least one id was added and a
    transmission of the frame succeeded; with no id added it is
    [COMM_TX_ERROR] and nothing is transmitted.  When every entry was
    offered and an id was added, the frame is transmitted: once if that
    succeeds or raises, and otherwise once more, 50 ms later.  On success
    the list of the ids included is printed. *)
Theorem group_sync_write_contract
    (bus : world) (servo_data : list (Z * Z * Z * Z)) (s : cstate) :
  packet_handler s = true ->
  group_sync_position_writer s = true ->
  is_held group_sync_write_lock s = false ->
  exists result s' t,
    syncWrite bus servo_data s = (Ret result, s')
    /\ trace s' = trace s ++ t
    /\ (exists r0 t',
          t = EvAcquire group_sync_write_lock
              :: EvRelease group_sync_write_lock
              :: EvCall ClearParam r0 :: t')
    /\ (exists n, offered t = take n servo_data)
    /\ (raised t = false -> offered t = servo_data)
    /\ (result = COMM_SUCCESS <->
        added_ids t <> [] /\ existsb reply_ok (tx_replies t) = true)
    /\ (added_ids t = [] -> result = COMM_TX_ERROR /\ tx_replies t = [])
    /\ (added_ids t <> [] -> offered t = servo_data ->
        exists r1,
          (transmission t = [EvCall TxPacket r1]
           /\ (reply_ok r1 = true \/ r1 = Raised))
          \/ (exists r2,
                transmission t
                = [EvCall TxPacket r1; EvSleep 50; EvCall TxPacket r2]
                /\ reply_ok r1 = false /\ r1 <> Raised))
    /\ reported_ids t = added_ids t
    /\ (result = COMM_SUCCESS -> In (EvPrint (MsgExecuted (added_ids t))) t).
Proof.
  intros Hp Hw Hfree. unfold syncWrite, try_except.
  assert (Hget : _get_group_sync_position_writer s
                 = (Ret true, unlocked group_sync_write_lock
                                (locked group_sync_write_lock s))).
  { unfold _get_group_sync_position_writer.
    apply (run_with_lock group_sync_write_lock _ s true _ Hfree).
    rewrite !run_gets. autorewrite with reached.
    rewrite position_writer_locked, Hw. cbn [negb andb]. rewrite run_ret.
    unfold gets. by rewrite position_writer_locked, Hw. }
  unfold bind at 1. rewrite Hget. cbn [negb].
  set (s1 := unlocked group_sync_write_lock (locked group_sync_write_lock s)).
  assert (Hp1 : packet_handler s1 = true)
    by (unfold s1; autorewrite with reached; exact Hp).
  unfold bind at 1. rewrite ask_eq.
  set (s2 := logged (EvCall ClearParam (bus (trace s1) ClearParam)) s1).
  assert (Hs2 : forall t, trace (with_trace (trace s2 ++ t) s2)
                  = trace s ++ EvAcquire group_sync_write_lock
                    :: EvRelease group_sync_write_lock
                    :: EvCall ClearParam (bus (trace s1) ClearParam) :: t).
  { intros t. unfold s2, s1. cbn [trace with_trace]. autorewrite with reached.
    by rewrite <- !app_assoc. }
  assert (Hp2 : packet_handler s2 = true)
    by (unfold s2; autorewrite with reached; exact Hp1).
  destruct (bus (trace s1) ClearParam) as [|vc cc] eqn:Hclear;
    try rewrite Hclear in Hs2.
  { exists COMM_TX_ERROR, s2, [EvAcquire group_sync_write_lock;
                              EvRelease group_sync_write_lock;
                              EvCall ClearParam Raised].
    split; [reflexivity |].
    split; [unfold s2, s1; autorewrite with reached; by rewrite <- !app_assoc |].
    split; [by exists Raised, [] |].
    split; [by exists 0%nat |].
    split; [discriminate |].
    split; [split; [discriminate | intros [H _]; by destruct H] |].
    split; [by split |].
    split; [intros H; by destruct H |].
    split; [reflexivity | discriminate]. }
  destruct (add_each_spec bus servo_data [] [] s2 Hp2)
    as (ra & ta & Ea & Htma & Htxa & Hrepa & Hoffa & Hresa).
  unfold bind at 1. rewrite Ea.
  set (t0 := [EvAcquire group_sync_write_lock; EvRelease group_sync_write_lock;
              EvCall ClearParam (Reply vc cc)]).
  assert (Ht0 : added_ids t0 = [] /\ reported_ids t0 = [] /\ transmission t0 = []
                /\ tx_replies t0 = [] /\ raised t0 = false /\ offered t0 = [])
    by (repeat split).
  destruct Ht0 as (A0 & R0 & M0 & X0 & Z0 & O0).
  destruct ra as [[added failed]| |]; [| | contradiction].
  - destruct Hresa as (Hadded & Hra & Hoa). cbn [app] in Hadded. cbn [fst snd].
    destruct added as [|a added'] eqn:Hadd.
    + rewrite run_print. unfold ret.
      exists COMM_TX_ERROR,
        (logged (EvPrint MsgNoneAdded) (with_trace (trace s2 ++ ta) s2)),
        (t0 ++ ta ++ [EvPrint MsgNoneAdded]).
      split; [reflexivity |].
      split; [rewrite trace_logged, Hs2; unfold t0; cbn [app];
              by rewrite <- !app_assoc |].
      split; [by exists (Reply vc cc), (ta ++ [EvPrint MsgNoneAdded]) |].
      rewrite !added_ids_app, !tx_replies_app, !reported_ids_app, !raised_app,
        !transmission_app, !offered_app, A0, R0, M0, X0, Z0, O0, Htma, Htxa,
        Hrepa, Hoa, <- Hadded.
      cbn [app]. rewrite app_nil_r.
      split; [by exists (length servo_data); rewrite firstn_all |].
      split; [reflexivity |].
      split; [split; [discriminate | intros [H _]; by destruct H] |].
      split; [by split |].
      split; [intros H; by destruct H |].
      split; [reflexivity | discriminate].
    + destruct (transmit_spec bus (a :: added') failed COMM_TX_ERROR
                  (with_trace (trace s2 ++ ta) s2))
        as (rt & tt & Et & Hat & Hrt & Hot & Htr & Hrest).
      rewrite Et.
      assert (Htrace : trace (with_trace
                 (trace (with_trace (trace s2 ++ ta) s2) ++ tt)
                 (with_trace (trace s2 ++ ta) s2))
               = trace s ++ t0 ++ ta ++ tt).
      { cbn [trace with_trace]. rewrite <- app_assoc.
        exact (Hs2 (ta ++ tt)). }
      assert (Hids : added_ids (t0 ++ ta ++ tt) = a :: added').
      { rewrite !added_ids_app, A0, Hat, <- Hadded. by rewrite app_nil_r. }
      assert (Hreps : reported_ids (t0 ++ ta ++ tt) = a :: added').
      { rewrite !reported_ids_app, R0, Hrt, Hrepa, <- Hadded. by rewrite app_nil_r. }
      assert (Htxs : tx_replies (t0 ++ ta ++ tt) = tx_replies tt).
      { by rewrite !tx_replies_app, X0, Htxa. }
      assert (Htms : transmission (t0 ++ ta ++ tt) = transmission tt).
      { by rewrite !transmission_app, M0, Htma. }
      assert (Hrs : raised (t0 ++ ta ++ tt) = raised tt).
      { by rewrite !raised_app, Z0, Hra. }
      assert (Hos : offered (t0 ++ ta ++ tt) = servo_data).
      { by rewrite !offered_app, O0, Hot, Hoa, app_nil_r. }
      assert (Hshape : exists r1,
                (transmission tt = [EvCall TxPacket r1]
                 /\ (reply_ok r1 = true \/ r1 = Raised))
                \/ (exists r2,
                      transmission tt
                      = [EvCall TxPacket r1; EvSleep 50; EvCall TxPacket r2]
                      /\ reply_ok r1 = false /\ r1 <> Raised)).
      { destruct Htr as [r1 [(Hm & _ & Hor) | (r2 & Hm & _ & Hno & Hnr)]];
          exists r1; [left; by split | right; by exists r2]. }
      destruct rt as [c| |]; [| | contradiction].
      * destruct Hrest as (Hiff & Hin & Hrat).
        exists c; eexists; exists (t0 ++ ta ++ tt). split; [reflexivity |].
        split; [exact Htrace |].
        split; [by exists (Reply vc cc), (ta ++ tt) |].
        rewrite Hids, Hreps, Htxs, Htms, Hrs, Hos.
        split; [by exists (length servo_data); rewrite firstn_all |].
        split; [reflexivity |].
        split; [rewrite Hiff; split; [intros H; split; [discriminate | exact H]
                                     | intros [_ H]; exact H] |].
        split; [discriminate |].
        split; [intros _ _; exact Hshape |].
        split; [reflexivity |].
        intros Hc. apply in_or_app. right. apply in_or_app. right. by apply Hin.
      * destruct Hrest as (Hrat & Hno).
        exists COMM_TX_ERROR; eexists; exists (t0 ++ ta ++ tt).
        split; [reflexivity |].
        split; [exact Htrace |].
        split; [by exists (Reply vc cc), (ta ++ tt) |].
        rewrite Hids, Hreps, Htxs, Htms, Hrs, Hos.
        split; [by exists (length servo_data); rewrite firstn_all |].
        split; [reflexivity |].
        split; [split; [discriminate | intros [_ H]; congruence] |].
        split; [discriminate |].
        split; [intros _ _; exact Hshape |].
        split; [reflexivity | discriminate].
  - destruct Hresa as (Hra & Hlen).
    exists COMM_TX_ERROR; eexists; exists (t0 ++ ta). split; [reflexivity |].
    split; [rewrite Hs2; unfold t0; reflexivity |].
    split; [by exists (Reply vc cc), ta |].
    rewrite !added_ids_app, !tx_replies_app, !reported_ids_app, !raised_app,
      !transmission_app, !offered_app, A0, R0, M0, X0, Z0, O0, Htma, Htxa,
      Hrepa, Hra.
    cbn [app orb].
    split; [exact Hoffa |].
    split; [discriminate |].
    split; [split; [discriminate | intros [_ H]; discriminate] |].
    split; [intros _; split; reflexivity |].
    split; [intros _ Ho; rewrite Ho in Hlen; lia |].
    split; [reflexivity | discriminate].
Qed.

(** A batch of three on a bus that refuses servo 99 and fails the first
    transmission. *)
Lemma group_sync_write_contract_witness :
  packet_handler connected0 = true
  /\ group_sync_position_writer connected0 = true
  /\ is_held group_sync_write_lock connected0 = false
  /\ exists s',
       syncWrite flaky_bus mixed_batch connected0 = (Ret COMM_SUCCESS, s')
       /\ offered (trace s') = mixed_batch
       /\ added_ids (trace s') = [1; 2]
       /\ reported_ids (trace s') = [1; 2]
       /\ transmission (trace s')
          = [EvCall TxPacket (Reply 0 COMM_TX_FAIL); EvSleep 50;
             EvCall TxPacket (Reply 0 COMM_SUCCESS)].
Proof.
  split; [reflexivity |]. split; [reflexivity |]. split; [reflexivity |].
  destruct (group_sync_write_contract flaky_bus mixed_batch connected0
              eq_refl eq_refl eq_refl)
    as (result & s' & t & Hrun & Htr & _).
  exists s'. vm_compute in Hrun. injection Hrun as <- <-.
  repeat split; vm_compute; reflexivity.
Defined.

(** * Sweeps: cycles, bounds and boundary touches *)

(** The worker of scenario 2 enters its loop without a call to the bus. *)
Lemma worker_init_started (bus : world) :
  worker_init bus 1 0%nat started = (Ret true, ready).
Proof. vm_compute. reflexivity. Qed.

(** C1. The per-servo worker never looks at the number of cycles asked
    for.  Scenario 2 asks for two cycles; the pattern object built by
    [start_continuous_movement] has no field for them; and whatever the
    bus answers, after any number of turns the worker is still in its
    loop with [running] set, having sent at least one motion command per
    turn.  On a servo that follows its commands the count is 4 after 50
    turns and the worker goes on. *)
Theorem sweep_worker_ignores_cycle_target :
  sweep_request !! "cycles" = Some (VInt 2)
  /\ pattern_at 0%nat started !! "cycles" = None
  /\ (forall (bus : world) (fuel : nat),
        exists w',
          run_worker bus fuel 1 0%nat started = (Ret StillLooping, w')
          /\ running_flag 0%nat (wc w') = true
          /\ (fuel <= motions (trace (wc w')))%nat)
  /\ fst (sweep_run 50) = Ret StillLooping
  /\ field_after (sweep_run 50) 0%nat "cycle_count" = Some (VInt 4)
  /\ field_after (sweep_run 50) 0%nat "running" = Some (VBool true)
  /\ length (setpoints (trace (wc (snd (sweep_run 50))))) = 50%nat.
Proof.
  split; [vm_compute; reflexivity |]. split; [vm_compute; reflexivity |].
  split; [| repeat split; vm_compute; reflexivity].
  intros bus fuel. unfold run_worker, _continuous_movement_worker.
  unfold bind at 1. rewrite lift_eq, worker_init_started. cbn [fst snd negb].
  set (w0 := mk_wstate ready _ _ _).
  assert (Hrun0 : running_flag 0%nat ready = true) by (vm_compute; reflexivity).
  assert (Hfree : is_held pause_lock ready = false) by (vm_compute; reflexivity).
  assert (Hd : drivable 0%nat ready = true) by (vm_compute; reflexivity).
  assert (Hstop : stop_flag 0%nat ready = false) by (vm_compute; reflexivity).
  assert (Hpaused : paused_flag 0%nat ready = false) by (vm_compute; reflexivity).
  assert (Hquiet : motions (trace ready) = 0%nat) by (vm_compute; reflexivity).
  destruct (worker_loop_emits bus 0%nat fuel 1 w0 Hrun0 Hfree Hd Hstop Hpaused)
    as (w' & Hr & Hs & Hm).
  unfold bind, try_except. rewrite Hr. exists w'. split; [reflexivity |].
  destruct (steady_flags 0%nat _ _ Hs) as (Hrun & _).
  split; [rewrite Hrun; exact Hrun0 |].
  change (wc w0) with ready in Hm. rewrite Hquiet in Hm. lia.
Qed.

(** C3. The bounds of the request do not bound the sweep.  The request
    of scenario 2 asks for 1000..3000 with angle limits disabled;
    [start_continuous_movement] stores these as [min_position] and
    [max_position], the worker sweeps between [start_position] and
    [end_position], which it sets to 0 and 4095.  The first setpoint is
    200, the sixteenth 3200, and the sweep turns at 4095. *)
Theorem sweep_ignores_requested_bounds :
  sweep_request !! "min_position" = Some (VInt 1000)
  /\ sweep_request !! "max_position" = Some (VInt 3000)
  /\ constraints_off (pattern_at 0%nat started !! "angle_constraints") = true
  /\ pattern_at 0%nat started !! "min_position" = Some (VInt 1000)
  /\ pattern_at 0%nat started !! "max_position" = Some (VInt 3000)
  /\ pattern_at 0%nat started !! "start_position" = None
  /\ pattern_at 0%nat started !! "end_position" = None
  /\ pattern_at 0%nat ready !! "start_position" = Some (VInt 0)
  /\ pattern_at 0%nat ready !! "end_position" = Some (VInt 4095)
  /\ setpoints (trace (wc (snd (sweep_run 23))))
     = [200; 400; 600; 800; 1000; 1200; 1400; 1600; 1800; 2000; 2200; 2400;
        2600; 2800; 3000; 3200; 3400; 3600; 3800; 4000; 4095; 4095; 3895]
  /\ field_after (sweep_run 1) 0%nat "current_position" = Some (VInt 200)
  /\ field_after (sweep_run 16) 0%nat "current_position" = Some (VInt 3200)
  /\ field_after (sweep_run 21) 0%nat "current_position" = Some (VInt 4095).
Proof. repeat split; vm_compute; reflexivity. Qed.

(** C4. One touch of a boundary is counted twice.  In the sweep over
    0..4095 at speed 1000 the fifth turn reaches the end: the setpoint is
    snapped to 4095 and the worker adds 1 to [cycle_count], the direction
    still being 1.  The sixth turn finds the position at the end: the
    calculator flips the direction, adds 1 again and sends 4095 once
    more.  The seventh turn moves away, to 3095. *)
Theorem boundary_touch_counted_twice :
  setpoints (trace (wc (snd (fast_run 7))))
  = [1000; 2000; 3000; 4000; 4095; 4095; 3095]
  /\ map (fun n => field_after (fast_run n) 0%nat "cycle_count") [4; 5; 6; 7]%nat
     = [Some (VInt 0); Some (VInt 1); Some (VInt 2); Some (VInt 2)]
  /\ map (fun n => field_after (fast_run n) 0%nat "direction") [4; 5; 6; 7]%nat
     = [Some (VInt 1); Some (VInt 1); Some (VInt (-1)); Some (VInt (-1))]
  /\ map (fun n => field_after (fast_run n) 0%nat "current_position")
       [4; 5; 6; 7]%nat
     = [Some (VInt 4000); Some (VInt 4095); Some (VInt 4095); Some (VInt 3095)].
Proof. repeat split; vm_compute; reflexivity. Qed.

(** * Properties of the setpoint rules *)

Section SweepRule.

Variable l : loc.

Lemma sweep_bounds_ordered s :
  0 <= fst (sweep_bounds l s) <= snd (sweep_bounds l s)
  /\ snd (sweep_bounds l s) <= 4095.
Proof.
  unfold sweep_bounds.
  pose proof (valid_position_range
                (dict_get (pattern_at l s) "start_position" (VInt 0)) 0).
  pose proof (valid_position_range
                (dict_get (pattern_at l s) "end_position" (VInt 4095)) 4095).
  destruct (Z.ltb_spec
              (valid_position (dict_get (pattern_at l s) "end_position" (VInt 4095)) 4095)
              (valid_position (dict_get (pattern_at l s) "start_position" (VInt 0)) 0));
    cbn [fst snd]; lia.
Qed.

Lemma sweep_speed_nonneg s : 0 <= sweep_speed l s.
Proof.
  unfold sweep_speed. destruct (num _) as [n|]; [| lia].
  destruct (Z.ltb_spec n 0); lia.
Qed.

(** The counting of a cycle adds no call and either returns or raises. *)
Lemma count_cycle_quiet s :
  exists r s' t,
    count_cycle l s = (r, s')
    /\ r <> Hang
    /\ trace s' = trace s ++ t
    /\ forallb quiet t = true.
Proof.
  unfold count_cycle. rewrite run_pget.
  destruct (py_incr (dict_get (pattern_at l s) "cycle_count" (VInt 0))) as [c|].
  - cbn [of_option]. rewrite run_ret, pset_eq.
    exists (Ret tt), (after_set l "cycle_count" c s), [EvSet l "cycle_count" c].
    split; [reflexivity |]. split; [discriminate |].
    split; [by rewrite trace_after_set | reflexivity].
  - exists Exn, s, []. split; [reflexivity |]. split; [discriminate |].
    split; [by rewrite app_nil_r | reflexivity].
Qed.

(** One step of the sweep rule, as an equation on the validated bounds,
    speed and direction. *)
Lemma calculate_sweep_position_cases servo_id current_pos s :
  let lo := fst (sweep_bounds l s) in
  let hi := snd (sweep_bounds l s) in
  let forward :=
    negb (eq_int (dict_get (pattern_at l s) "direction" (VInt 1)) (-1)) in
  exists z s' t,
    _calculate_sweep_position servo_id l current_pos s = (Ret z, s')
    /\ trace s' = trace s ++ t
    /\ forallb quiet t = true
    /\ (z = current_pos
        \/ z = Z.max 0 (Z.min 4095
                 (if forward then
                    if hi <=? current_pos then hi
                    else Z.min hi (current_pos + sweep_speed l s)
                  else
                    if current_pos <=? lo then lo
                    else Z.max lo (current_pos - sweep_speed l s)))).
Proof.
  cbv zeta. unfold _calculate_sweep_position, try_except.
  rewrite !run_pget. unfold sweep_bounds, sweep_speed.
  set (start1 := valid_position _ 0). set (end1 := valid_position _ 4095).
  set (speed := match num _ with Some n => _ | None => 100 end).
  destruct (eq_int (dict_get (pattern_at l s) "direction" (VInt 1)) (-1));
    [change (-1 =? 1) with false | change (1 =? 1) with true];
    cbv iota; cbn [negb]; destruct (end1 <? start1); cbn [fst snd].
  all: match goal with
       | |- context [if ?c then _ else ret _] => destruct c
       end.
  all: try (rewrite run_ret; eexists _, s, []; split; [reflexivity |];
            split; [by rewrite app_nil_r |]; split; [reflexivity |];
            right; reflexivity).
  all: unfold bind at 1; rewrite run_pset; unfold bind at 1;
    match goal with
    | |- context [count_cycle l ?st] =>
        destruct (count_cycle_quiet st) as (r & s1 & t1 & E & Hh & T & Q)
    end;
    rewrite E; destruct r as [[]| |]; [| | congruence];
    cbn [ret]; eexists _, s1, (_ :: t1);
    (split; [reflexivity |]);
    (split; [rewrite T, trace_after_set, <- app_assoc; reflexivity |]);
    (split; [cbn; exact Q |]); auto.
Qed.

End SweepRule.

(** The sweep rule keeps a valid position valid, and a position within
    the bounds within the bounds. *)
Lemma sweep_step_spec (servo_id : Z) (l : loc) (current_pos : Z) (s : cstate) :
  0 <= current_pos <= 4095 ->
  exists z s' t,
    _calculate_sweep_position servo_id l current_pos s = (Ret z, s')
    /\ trace s' = trace s ++ t
    /\ forallb quiet t = true
    /\ 0 <= z <= 4095
    /\ (fst (sweep_bounds l s) <= current_pos <= snd (sweep_bounds l s) ->
        fst (sweep_bounds l s) <= z <= snd (sweep_bounds l s)
        /\ Z.abs (z - current_pos) <= sweep_speed l s).
Proof.
  intros Hcur.
  destruct (calculate_sweep_position_cases l servo_id current_pos s)
    as (z & s' & t & E & T & Q & Hz).
  exists z, s', t. split; [exact E |]. split; [exact T |]. split; [exact Q |].
  pose proof (sweep_bounds_ordered l s) as Hb.
  pose proof (sweep_speed_nonneg l s) as Hs.
  destruct Hz as [-> | ->]; [split; [lia | intros; lia] |].
  destruct (negb _);
    repeat match goal with
           | |- context [?a <=? ?b] => destruct (Z.leb_spec a b)
           end; split; try lia; intros; lia.
Qed.

(** X1. One step of the sweep rule.  For a position within 0..4095
    [_calculate_sweep_position] returns a position within 0..4095 and
    calls nothing; from a position within the bounds the sweep turns at,
    the result is again within these bounds and at most one [speed] away. *)
Theorem sweep_step_stays_in_bounds
    (servo_id : Z) (l : loc) (current_pos : Z) (s : cstate) :
  0 <= current_pos <= 4095 ->
  exists z s' t,
    _calculate_sweep_position servo_id l current_pos s = (Ret z, s')
    /\ trace s' = trace s ++ t
    /\ forallb quiet t = true
    /\ 0 <= z <= 4095
    /\ (fst (sweep_bounds l s) <= current_pos <= snd (sweep_bounds l s) ->
        fst (sweep_bounds l s) <= z <= snd (sweep_bounds l s)
        /\ Z.abs (z - current_pos) <= sweep_speed l s).
Proof. apply sweep_step_spec. Qed.

(** The sweep of scenario 2 after three turns, at position 600. *)
Lemma sweep_step_stays_in_bounds_witness :
  0 <= 600 <= 4095
  /\ sweep_bounds 0%nat sweeping = (0, 4095)
  /\ sweep_speed 0%nat sweeping = 200
  /\ exists s', _calculate_sweep_position 1 0%nat 600 sweeping = (Ret 800, s').
Proof.
  split; [lia |]. split; [vm_compute; reflexivity |].
  split; [vm_compute; reflexivity |].
  destruct (sweep_step_stays_in_bounds 1 0%nat 600 sweeping)
    as (z & s' & t & E & _); [lia |].
  exists s'. rewrite E. f_equal. f_equal.
  vm_compute in E. by injection E as <- _.
Defined.

(** X2. The next setpoint of a pattern that is not a wave.  Whatever a
    pattern dictionary without floating-point numbers holds (keys missing,
    values of the wrong type), [_calculate_next_position] returns an
    integer within 0..4095 and calls nothing. *)
Theorem next_position_always_valid
    (bus : world) (servo_id : Z) (l : loc) (s : cstate) :
  eq_str (dict_get (pattern_at l s) "type" (VStr "sweep")) "wave" = false ->
  exists z s' t,
    _calculate_next_position bus servo_id l s = (Ret (VInt z), s')
    /\ trace s' = trace s ++ t
    /\ forallb quiet t = true
    /\ 0 <= z <= 4095.
Proof.
  intros Hwave. unfold _calculate_next_position, try_except.
  rewrite !run_pget. rewrite Hwave.
  set (cur := valid_position _ 2048).
  assert (Hcur : 0 <= cur <= 4095) by (apply valid_position_range; lia).
  destruct (eq_str _ "sweep").
  - destruct (sweep_step_spec servo_id l cur s Hcur)
      as (z & s' & t & E & T & Q & Hz & _).
    unfold bind. rewrite E. exists z, s', t. repeat split; auto; lia.
  - exists cur, s, []. rewrite app_nil_r.
    destruct (eq_str _ "rotation"); repeat split; auto; lia.
Qed.

(** A rotation whose stored position is not a number: the setpoint is
    2048. *)
Lemma next_position_always_valid_witness :
  eq_str (dict_get (pattern_at 0%nat odd_rotation) "type" (VStr "sweep")) "wave"
  = false
  /\ exists s',
       _calculate_next_position dead_bus 7 0%nat odd_rotation
       = (Ret (VInt 2048), s').
Proof.
  split; [reflexivity |].
  destruct (next_position_always_valid dead_bus 7 0%nat odd_rotation eq_refl)
    as (z & s' & t & E & _).
  exists s'. rewrite E. f_equal. f_equal.
  vm_compute in E. by injection E as <- _.
Defined.

(** X3. The clamp of the angle constraints.  With constraints enabled
    and integer limits [lo <= hi], [apply_angle_constraints] returns the
    setpoint clamped into [lo, hi]; a setpoint within the limits changes
    nothing, and a setpoint outside them reverses the direction of a
    sweep. *)
Theorem angle_constraints_clamp
    (l : loc) (z lo hi : Z) (d : pydict) (ty : string) (s : cstate) :
  pattern_at l s !! "angle_constraints" = Some (VDict d) ->
  truthy (dict_get d "enabled" (VBool false)) = true ->
  d !! "min_angle" = Some (VInt lo) ->
  d !! "max_angle" = Some (VInt hi) ->
  lo <= hi ->
  pattern_at l s !! "type" = Some (VStr ty) ->
  (ty = "sweep" -> exists dir, pattern_at l s !! "direction" = Some (VInt dir)) ->
  exists s',
    apply_angle_constraints l (VInt z) s
    = (Ret (VInt (Z.max lo (Z.min hi z))), s')
    /\ (lo <= z <= hi -> s' = s)
    /\ (forall dir,
          ty = "sweep" ->
          pattern_at l s !! "direction" = Some (VInt dir) ->
          z < lo \/ hi < z ->
          pattern_at l s' !! "direction" = Some (VInt (- dir)))
    /\ (ty <> "sweep" -> s' = s).
Proof.
  intros Hac Hen Hlo Hhi Hle Hty Hdir.
  assert (Hrev : exists s1,
    reverse_sweep l s = (Ret tt, s1)
    /\ (forall dir, ty = "sweep" ->
          pattern_at l s !! "direction" = Some (VInt dir) ->
          pattern_at l s1 !! "direction" = Some (VInt (- dir)))
    /\ (ty <> "sweep" -> s1 = s)).
  { unfold reverse_sweep. rewrite run_pidx, Hty. cbn [eq_str].
    destruct (String.eqb_spec ty "sweep") as [-> | Hne].
    - destruct (Hdir eq_refl) as [dir Hd].
      rewrite run_pidx, Hd. cbn [py_negate num of_option].
      rewrite run_ret, pset_eq.
      eexists. split; [reflexivity |]. split; [| congruence].
      intros dir' _ Hd'. rewrite pattern_at_after_set.
      rewrite lookup_insert_eq. congruence.
    - exists s. split; [reflexivity |]. split; [congruence | reflexivity]. }
  destruct Hrev as (s1 & Er & Hflip & Hsame).
  assert (Hget : dict_get (pattern_at l s) "angle_constraints" (VDict ∅) = VDict d)
    by (unfold dict_get; rewrite Hac; reflexivity).
  assert (Hmin : dict_get d "min_angle" VNone = VInt lo)
    by (unfold dict_get; rewrite Hlo; reflexivity).
  assert (Hmax : dict_get d "max_angle" VNone = VInt hi)
    by (unfold dict_get; rewrite Hhi; reflexivity).
  unfold apply_angle_constraints. rewrite run_pget, Hget. cbn [val_get].
  rewrite run_ret, Hen, !run_ret, Hmin, Hmax. cbn [is_none negb andb].
  cbn [py_lt py_gt num of_option]. rewrite run_ret.
  destruct (Z.ltb_spec z lo) as [Hb | Hb].
  - unfold bind. rewrite Er. cbn [ret]. exists s1.
    replace (Z.max lo (Z.min hi z)) with lo by lia.
    split; [reflexivity |]. split; [intros; exfalso; lia |].
    split; [| exact Hsame]. intros dir Hs Hd _. by apply Hflip.
  - rewrite run_ret. destruct (Z.ltb_spec hi z) as [Ha | Ha].
    + unfold bind. rewrite Er. cbn [ret]. exists s1.
      replace (Z.max lo (Z.min hi z)) with hi by lia.
      split; [reflexivity |]. split; [intros; exfalso; lia |].
      split; [| exact Hsame]. intros dir Hs Hd _. by apply Hflip.
    + exists s. replace (Z.max lo (Z.min hi z)) with z by lia.
      split; [reflexivity |]. split; [reflexivity |].
      split; [intros; exfalso; lia | reflexivity].
Qed.

(** Scenario 2 with limits 1000..3000: the setpoint 200 becomes 1000 and
    the sweep is reversed. *)
Lemma angle_constraints_clamp_witness :
  1000 <= 3000
  /\ exists s',
       apply_angle_constraints 0%nat (VInt 200) limited = (Ret (VInt 1000), s')
       /\ pattern_at 0%nat s' !! "direction" = Some (VInt (-1)).
Proof.
  split; [lia |].
  destruct (angle_constraints_clamp 0%nat 200 1000 3000
              (<["max_angle" := VInt 3000]>
               (<["min_angle" := VInt 1000]>
                (<["enabled" := VBool true]> ∅))) "sweep" limited)
    as (s' & E & _ & Hflip & _);
    try (vm_compute; reflexivity); [lia | |].
  - intros _. exists 1. vm_compute. reflexivity.
  - exists s'. split; [exact E |].
    apply (Hflip 1 eq_refl); [vm_compute; reflexivity | lia].
Defined.

(** * The worker at rest *)

Section WorkerAtRest.

Variable bus : world.
Variable l : loc.

Lemma waits_app t1 t2 : waits (t1 ++ t2) = waits t1 ++ waits t2.
Proof. unfold waits. apply omap_app. Qed.

Lemma later_later t1 t2 w : later t2 (later t1 w) = later (t1 ++ t2) w.
Proof. unfold later. cbn [wc trace with_trace]. by rewrite <- app_assoc. Qed.

(** The check of [paused] under the pause lock, with its events. *)
Lemma paused_check_events s :
  is_held pause_lock s = false ->
  with_lock pause_lock
    (p <- pget l "paused" (VBool false) ;;
     if truthy p then sleep 100 ;; ret true else ret false) s
  = (Ret (paused_flag l s),
     with_trace
       (trace s ++ EvAcquire pause_lock
          :: (if paused_flag l s then [EvSleep 100] else [])
          ++ [EvRelease pause_lock]) s).
Proof.
  intros Hfree. pose proof (filter_not_held pause_lock (held s) Hfree) as Hflt.
  unfold paused_flag, with_lock, acquire, bind at 1. rewrite Hfree.
  unfold try_finally, bind, pget, gets. cbn [fst snd].
  unfold pattern_at at 1. cbn [heap with_held with_trace].
  fold (pattern_at l s).
  destruct s as [ph pk ic ds th mp hp nl nt sw pw ma mt hd tr].
  cbn [held] in Hflt.
  destruct (truthy (dict_get _ "paused" (VBool false)));
    cbn -[filter lock_eqb]; rewrite filter_cons;
    rewrite decide_False by (cbn; auto); rewrite Hflt;
    rewrite <- ?app_assoc; reflexivity.
Qed.

(** A turn of the loop while a stop flag or [paused] is set: the worker
    waits 100 ms and does nothing else. *)
Lemma worker_iteration_at_rest servo_id w :
  is_held pause_lock (wc w) = false ->
  stop_flag l (wc w) || paused_flag l (wc w) = true ->
  exists t,
    worker_iteration bus servo_id l w = (Ret Continue, later t w)
    /\ forallb quiet t = true
    /\ waits t = [100].
Proof.
  intros Hfree Hrest. unfold worker_iteration. rewrite bind_stop_requested.
  destruct (stop_flag l (wc w)) eqn:Hstop.
  { exists [EvSleep 100]. destruct w. repeat split. }
  cbn [orb] in Hrest. unfold bind at 1. rewrite lift_eq.
  rewrite (paused_check_events (wc w) Hfree), Hrest. cbn [fst snd].
  eexists. split; [reflexivity |]. repeat split.
Qed.

Lemma worker_loop_at_rest servo_id fuel : forall w,
  running_flag l (wc w) = true ->
  is_held pause_lock (wc w) = false ->
  stop_flag l (wc w) || paused_flag l (wc w) = true ->
  exists t,
    worker_loop bus fuel servo_id l w = (Ret StillLooping, later t w)
    /\ forallb quiet t = true
    /\ waits t = replicate fuel 100.
Proof.
  induction fuel as [|fuel IH]; intros w Hrun Hfree Hrest.
  - exists []. cbn [worker_loop]. unfold bind. rewrite lift_eq.
    unfold pget, gets. cbn [fst snd]. fold (running_flag l (wc w)).
    rewrite Hrun. destruct w as [c f p n]. unfold later.
    cbn [wc trace consecutive_failures last_successful_position step_count negb ret].
    rewrite app_nil_r. destruct c. repeat split.
  - cbn [worker_loop]. unfold bind at 1. rewrite lift_eq.
    unfold pget, gets. cbn [fst snd]. fold (running_flag l (wc w)).
    rewrite Hrun. cbn [negb].
    assert (Hw : mk_wstate (wc w) (consecutive_failures w)
                   (last_successful_position w) (step_count w) = w)
      by (destruct w; reflexivity).
    rewrite Hw. unfold bind.
    destruct (worker_iteration_at_rest servo_id w Hfree Hrest) as (t1 & E1 & Q1 & W1).
    rewrite E1.
    destruct (IH (later t1 w)) as (t2 & E2 & Q2 & W2); try assumption.
    rewrite E2, later_later. exists (t1 ++ t2). split; [reflexivity |].
    split; [by rewrite forallb_app, Q1, Q2 |].
    by rewrite waits_app, W1, W2.
Qed.

End WorkerAtRest.

(** X4. A paused or stopped worker is silent.  While [running] is set
    and a stop flag or [paused] is set, every turn of the worker's loop
    waits 100 ms, calls nothing and writes nothing: after any number of
    turns the worker is still in its loop and only the trace has grown,
    by events that are no calls. *)
Theorem paused_worker_is_silent
    (bus : world) (servo_id : Z) (l : loc) (fuel : nat) (w : wstate) :
  running_flag l (wc w) = true ->
  is_held pause_lock (wc w) = false ->
  stop_flag l (wc w) || paused_flag l (wc w) = true ->
  exists t,
    worker_loop bus fuel servo_id l w = (Ret StillLooping, later t w)
    /\ forallb quiet t = true
    /\ waits t = replicate fuel 100.
Proof. apply worker_loop_at_rest. Qed.

(** The paused sweep of servo 1 on a bus where nothing answers, for ten
    turns. *)
Lemma paused_worker_is_silent_witness :
  running_flag 0%nat paused_sweep = true
  /\ is_held pause_lock paused_sweep = false
  /\ stop_flag 0%nat paused_sweep || paused_flag 0%nat paused_sweep = true
  /\ exists t,
       worker_loop dead_bus 10 1 0%nat (new_worker paused_sweep)
       = (Ret StillLooping, later t (new_worker paused_sweep))
       /\ forallb quiet t = true.
Proof.
  split; [vm_compute; reflexivity |]. split; [vm_compute; reflexivity |].
  split; [vm_compute; reflexivity |].
  destruct (paused_worker_is_silent dead_bus 1 0%nat 10 (new_worker paused_sweep)
              eq_refl eq_refl eq_refl) as (t & E & Q & _).
  exists t. split; [exact E | exact Q].
Defined.

Section WorkerEnd.

Variable bus : world.
Variable l : loc.

Lemma set_default_eq k v s :
  set_default l k v s
  = (Ret tt, match pattern_at l s !! k with
             | Some _ => s
             | None => after_set l k v s
             end).
Proof.
  unfold set_default, has_key. rewrite run_gets.
  destruct (pattern_at l s !! k); reflexivity.
Qed.

(** What [set_default] leaves alone. *)
Lemma set_default_frame k v s :
  exists s' t,
    set_default l k v s = (Ret tt, s')
    /\ trace s' = trace s ++ t
    /\ forallb quiet t = true
    /\ held s' = held s
    /\ (forall k', k' <> k -> pattern_at l s' !! k' = pattern_at l s !! k').
Proof.
  rewrite set_default_eq. destruct (pattern_at l s !! k).
  - exists s, []. rewrite app_nil_r. repeat split.
  - exists (after_set l k v s), [EvSet l k v]. split; [reflexivity |].
    split; [by rewrite trace_after_set |]. split; [reflexivity |].
    split; [by rewrite held_after_set |].
    intros k' Hk. rewrite pattern_at_after_set. by rewrite lookup_insert_ne.
Qed.

(** The worker's preparation on a pattern that has a position: no call,
    and no field touched but the five defaults. *)
Lemma worker_init_frame servo_id s v :
  pattern_at l s !! "current_position" = Some v ->
  exists s' t,
    worker_init bus servo_id l s = (Ret true, s')
    /\ trace s' = trace s ++ t
    /\ forallb quiet t = true
    /\ held s' = held s
    /\ (forall k,
          k <> "direction" -> k <> "cycle_count" -> k <> "start_position" ->
          k <> "end_position" -> k <> "center_position" ->
          pattern_at l s' !! k = pattern_at l s !! k).
Proof.
  intros Hv. unfold worker_init, try_except.
  unfold bind at 1, has_key, gets. cbn [fst snd]. rewrite Hv.
  unfold bind at 1, ret at 1.
  destruct (set_default_frame "direction" (VInt 1) s)
    as (s1 & t1 & E1 & T1 & Q1 & H1 & P1).
  destruct (set_default_frame "cycle_count" (VInt 0) s1)
    as (s2 & t2 & E2 & T2 & Q2 & H2 & P2).
  destruct (set_default_frame "start_position" (VInt 0) s2)
    as (s3 & t3 & E3 & T3 & Q3 & H3 & P3).
  destruct (set_default_frame "end_position" (VInt 4095) s3)
    as (s4 & t4 & E4 & T4 & Q4 & H4 & P4).
  destruct (set_default_frame "center_position" (VInt 2048) s4)
    as (s5 & t5 & E5 & T5 & Q5 & H5 & P5).
  unfold bind. rewrite E1, E2, E3, E4, E5.
  exists s5, (t1 ++ t2 ++ t3 ++ t4 ++ t5). split; [reflexivity |].
  split; [rewrite T5, T4, T3, T2, T1; by rewrite <- !app_assoc |].
  split; [by rewrite !forallb_app, Q1, Q2, Q3, Q4, Q5 |].
  split; [congruence |].
  intros k K1 K2 K3 K4 K5. rewrite P5, P4, P3, P2, P1 by done. reflexivity.
Qed.

(** A worker whose pattern is not running leaves before its first turn. *)
Lemma worker_leaves_stopped_pattern fuel servo_id s v :
  running_flag l s = false ->
  pattern_at l s !! "current_position" = Some v ->
  exists s' t,
    _continuous_movement_worker bus fuel servo_id l (new_worker s)
    = (Ret Exited, mk_wstate s' 0 None 0)
    /\ trace s' = trace s ++ t
    /\ forallb quiet t = true
    /\ running_flag l s' = false
    /\ pattern_at l s' !! "current_position" = Some v.
Proof.
  intros Hrun Hv.
  destruct (worker_init_frame servo_id s v Hv) as (s1 & t1 & E1 & T1 & Q1 & _ & P1).
  unfold _continuous_movement_worker. unfold bind at 1. rewrite lift_eq.
  cbn [new_worker wc consecutive_failures last_successful_position step_count].
  rewrite E1. cbn [fst snd negb].
  assert (Hrun1 : running_flag l s1 = false).
  { unfold running_flag, dict_get in *. rewrite P1 by done. exact Hrun. }
  assert (Hloop : worker_loop bus fuel servo_id l (mk_wstate s1 0 None 0)
                  = (Ret Exited, mk_wstate s1 0 None 0)).
  { destruct fuel; cbn [worker_loop]; unfold bind; rewrite lift_eq;
      unfold pget, gets; cbn [fst snd wc]; fold (running_flag l s1);
      rewrite Hrun1; reflexivity. }
  unfold bind at 1, try_except. rewrite Hloop.
  unfold bind. rewrite lift_eq. cbn [wc fst snd]. rewrite pset_eq.
  cbn [fst snd ret].
  exists (after_set l "running" (VBool false) s1), (t1 ++ [EvSet l "running" (VBool false)]).
  split; [reflexivity |].
  split; [rewrite trace_after_set, T1; by rewrite <- app_assoc |].
  split; [by rewrite forallb_app, Q1 |].
  split.
  - unfold running_flag, dict_get. rewrite pattern_at_after_set.
    by rewrite lookup_insert_eq.
  - rewrite pattern_at_after_set, lookup_insert_ne by done.
    rewrite P1 by done. exact Hv.
Qed.

End WorkerEnd.

(** X5. A worker whose pattern is not running ends at once.  On a
    pattern object that has a position and whose [running] flag is not
    set, [_continuous_movement_worker] leaves before the first turn of its
    loop, whatever the bus would answer: it calls nothing, and [running]
    is still not set when it ends. *)
Theorem stopped_pattern_ends_worker
    (bus : world) (fuel : nat) (servo_id : Z) (l : loc) (s : cstate) (v : val) :
  running_flag l s = false ->
  pattern_at l s !! "current_position" = Some v ->
  exists s' t,
    _continuous_movement_worker bus fuel servo_id l (new_worker s)
    = (Ret Exited, mk_wstate s' 0 None 0)
    /\ trace s' = trace s ++ t
    /\ forallb quiet t = true
    /\ running_flag l s' = false
    /\ pattern_at l s' !! "current_position" = Some v.
Proof. apply worker_leaves_stopped_pattern. Qed.

(** * Stopping and resuming *)

Lemma pattern_at_after_set_other l l' k v s :
  l' <> l -> pattern_at l' (after_set l k v s) = pattern_at l' s.
Proof.
  intros Hne. change (after_set l k v s) with (snd (pset l k v s)).
  rewrite pattern_at_pset. by rewrite decide_False.
Qed.

Lemma with_trace_id s : with_trace (trace s) s = s.
Proof. by destruct s. Qed.

#[local] Instance grown_preorder : PreOrder grown.
Proof.
  split.
  - intros s. exists []. by rewrite app_nil_r, with_trace_id.
  - intros s1 s2 s3 [t1 ->] [t2 ->]. exists (t1 ++ t2).
    cbn [trace with_trace]. by rewrite <- app_assoc.
Qed.

Section OnlyTalk.

Variable bus : world.

Lemma grown_log e s : grown s (with_trace (trace s ++ [e]) s).
Proof. by exists [e]. Qed.

Lemma talk_log e : calm grown (log e).
Proof. apply calm_modify. intros s. apply grown_log. Qed.

Lemma talk_ask c : calm grown (ask bus c).
Proof.
  intros s. unfold ask. destruct (bus (trace s) c); cbn [fst snd]; split;
    first [discriminate | apply grown_log].
Qed.

Lemma talk_sdk c : calm grown (sdk bus c).
Proof.
  unfold sdk. apply (calm_bind grown); [apply (calm_gets grown) |].
  intros [|]; [apply talk_ask | apply (calm_raise grown)].
Qed.

End OnlyTalk.

(** One syntax-directed step of a proof that code only talks. *)
Ltac talk_step :=
  match goal with
  | |- calm grown (bind _ _) => apply (calm_bind grown); [| intros ?]
  | |- calm grown (ret _) => apply (calm_ret grown)
  | |- calm grown raise => apply (calm_raise grown)
  | |- calm grown (gets _) => apply (calm_gets grown)
  | |- calm grown (pget _ _ _) => apply (calm_gets grown)
  | |- calm grown (of_option _) => apply (calm_of_option grown)
  | |- calm grown (try_except _ _) => apply (calm_try_except grown)
  | |- calm grown (sleep _) => apply talk_log
  | |- calm grown (ask _ _) => apply talk_ask
  | |- calm grown (sdk _ _) => apply talk_sdk
  | |- calm grown (match ?x with _ => _ end) => destruct x
  end.

Ltac talk_tac := cbv zeta; repeat talk_step.

Section Stop.

Variable bus : world.

Lemma talk_join_worker servo_id : calm grown (join_worker bus servo_id).
Proof. unfold join_worker. talk_tac. Qed.

Lemma talk_stop_rotation servo_id : calm grown (stop_rotation bus servo_id).
Proof. unfold stop_rotation. talk_tac. Qed.

Lemma talk_stop_positional servo_id : calm grown (stop_positional bus servo_id).
Proof. unfold stop_positional. talk_tac. Qed.

Lemma bus_calls_app t1 t2 : bus_calls (t1 ++ t2) = bus_calls t1 ++ bus_calls t2.
Proof. unfold bus_calls. apply omap_app. Qed.

(** Waiting for the worker thread calls nothing on the servo bus. *)
Lemma join_worker_returns servo_id s :
  threads_behave bus ->
  exists t,
    join_worker bus servo_id s = (Ret tt, with_trace (trace s ++ t) s)
    /\ bus_calls t = [].
Proof.
  intros Hth. unfold join_worker. rewrite run_gets.
  destruct (continuous_movement_threads s !! servo_id) as [t|].
  2: { exists []. by rewrite app_nil_r, with_trace_id. }
  unfold bind at 1, ask at 1.
  pose proof (Hth (trace s) (ThreadIsAlive t) eq_refl) as H1.
  destruct (bus (trace s) (ThreadIsAlive t)) as [|v1 c1] eqn:E1; [done |].
  cbn [fst]. destruct (v1 =? 0); cbn [negb].
  { eexists [_]. split; reflexivity. }
  unfold bind at 1, ask at 1. cbn [trace with_trace].
  set (t1 := trace s ++ [EvCall (ThreadIsAlive t) (Reply v1 c1)]).
  pose proof (Hth t1 (ThreadJoin t 2000) eq_refl) as H2.
  destruct (bus t1 (ThreadJoin t 2000)) as [|v2 c2] eqn:E2; [done |].
  unfold bind at 1, ask at 1. cbn [trace with_trace].
  set (t2 := t1 ++ [EvCall (ThreadJoin t 2000) (Reply v2 c2)]).
  pose proof (Hth t2 (ThreadIsAlive t) eq_refl) as H3.
  destruct (bus t2 (ThreadIsAlive t)) as [|v3 c3] eqn:E3; [done |].
  cbn [ret]. eexists [_; _; _].
  split; [subst t2 t1; rewrite <- !app_assoc; reflexivity | reflexivity].
Qed.

(** The hold of a rotation returns, whatever the bus does. *)
Lemma stop_rotation_returns servo_id s :
  exists t, stop_rotation bus servo_id s = (Ret tt, with_trace (trace s ++ t) s).
Proof.
  destruct (talk_stop_rotation servo_id s) as [Hh [t Ht]].
  destruct (try_except_returns grown _ tt
              (ltac:(talk_tac) : calm grown
                 (_ <- sdk bus (WriteSpec servo_id 0 50) ;;
                  sleep 50 ;;
                  _ <- sdk bus (Write1ByteTxRx servo_id STS_MODE 0) ;;
                  _ <- sdk bus (Write1ByteTxRx servo_id STS_TORQUE_ENABLE 1) ;;
                  ret tt)) s) as [[] Hr].
  fold (stop_rotation bus servo_id) in Hr.
  exists t. destruct (stop_rotation bus servo_id s) as [r s']. cbn [fst snd] in *.
  by subst.
Qed.

(** The hold of a positional pattern: the position is read and written
    back with speed and acceleration zero (2048 when the read fails),
    then torque is enabled. *)
Lemma stop_positional_events servo_id s :
  packet_handler s = true ->
  let r_read := bus (trace s) (ReadPos servo_id) in
  let hold := WritePosEx servo_id (hold_position r_read) 0 0 in
  let t1 := trace s ++ [EvCall (ReadPos servo_id) r_read] in
  let r_hold := bus t1 hold in
  let t2 := t1 ++ [EvCall hold r_hold] in
  stop_positional bus servo_id s
  = (Ret tt,
     with_trace
       (trace s ++ [EvCall (ReadPos servo_id) r_read; EvCall hold r_hold;
                    EvCall (torque_on servo_id) (bus t2 (torque_on servo_id))]) s).
Proof.
  intros Hp. cbv zeta. unfold stop_positional.
  unfold bind at 1, try_except at 1. rewrite (run_sdk bus _ _ _ Hp).
  assert (Hcases :
    (match bus (trace s) (ReadPos servo_id) with
     | Raised => None
     | Reply v c => Some (v, c)
     end = None /\ hold_position (bus (trace s) (ReadPos servo_id)) = 2048)
    \/ exists v c, bus (trace s) (ReadPos servo_id) = Reply v c).
  { destruct (bus (trace s) (ReadPos servo_id)); eauto. }
  set (r_read := bus (trace s) (ReadPos servo_id)) in *.
  assert (Hstep : forall (rd : option (Z * comm_result)),
    rd = match r_read with Raised => None | Reply v c => Some (v, c) end ->
    match rd with
    | Some (pos, c) => if comm_ok c then pos else 2048
    | None => 2048
    end = hold_position r_read).
  { intros rd ->. destruct r_read; reflexivity. }
  set (s1 := logged (EvCall (ReadPos servo_id) r_read) s).
  assert (Hp1 : packet_handler s1 = true)
    by (unfold s1; autorewrite with reached; exact Hp).
  transitivity
    ((try_except
        (_ <- sdk bus (WritePosEx servo_id (hold_position r_read) 0 0) ;; ret tt)
        (ret tt) ;;
      try_except
        (_ <- sdk bus (Write1ByteTxRx servo_id STS_TORQUE_ENABLE 1) ;; ret tt)
        (ret tt)) s1).
  { subst s1. destruct r_read; reflexivity. }
  unfold bind at 1. rewrite (run_ignored_call bus _ _ Hp1).
  set (s2 := logged _ s1).
  assert (Hp2 : packet_handler s2 = true)
    by (unfold s2; autorewrite with reached; exact Hp1).
  rewrite (run_ignored_call bus _ _ Hp2).
  unfold s2, s1. rewrite !logged_as_with_trace. autorewrite with reached.
  cbn [trace with_trace]. rewrite <- !app_assoc. reflexivity.
Qed.

Lemma bus_events_app t1 t2 : bus_events (t1 ++ t2) = bus_events t1 ++ bus_events t2.
Proof. unfold bus_events. apply List.filter_app. Qed.

Lemma bus_events_no_calls t : bus_calls t = [] -> bus_events t = [].
Proof.
  induction t as [|e t IH]; [reflexivity |].
  unfold bus_calls, bus_events in *. cbn [omap list_omap List.filter].
  destruct e as [c r| | | | |]; try exact IH.
  destruct (thread_call c); cbn [negb]; [exact IH | discriminate].
Qed.

(** Without a packet handler every SDK call is an [AttributeError]. *)
Lemma sdk_without_handler c s :
  packet_handler s = false -> sdk bus c s = (Exn, s).
Proof. intros Hp. unfold sdk, bind, gets. by rewrite Hp. Qed.

(** Lines 843-849 on a non-empty pattern that is not running. *)
Lemma forget_movement_eq servo_id l s :
  movement_patterns s !! servo_id = Some l ->
  running_flag l s = false ->
  pattern_at l s <> ∅ ->
  forget_movement servo_id s = (Ret tt, forgotten servo_id s).
Proof.
  intros Hl Hrun Hne. unfold forget_movement.
  unfold bind at 1, modify at 1. rewrite run_gets.
  cbn [movement_patterns with_threads]. rewrite Hl, run_gets.
  change (pattern_at l (with_threads _ _)) with (pattern_at l s).
  assert (Htruthy : truthy (VDict (pattern_at l s)) = true).
  { cbn [truthy]. destruct (Nat.eqb_spec (size (pattern_at l s)) 0) as [H0|]; [| done].
    apply map_size_empty_iff in H0. contradiction. }
  rewrite Htruthy. fold (running_flag l s). rewrite Hrun. reflexivity.
Qed.

(** Lines 776-851, from a pattern that is not running any more. *)
Lemma stop_one_tail servo_id l s :
  threads_behave bus ->
  movement_patterns s !! servo_id = Some l ->
  running_flag l s = false ->
  pattern_at l s <> ∅ ->
  exists t,
    (join_worker bus servo_id ;;
     pattern_type <- pget l "type" (VStr "unknown") ;;
     (if eq_str pattern_type "rotation" then stop_rotation bus servo_id
      else stop_positional bus servo_id) ;;
     forget_movement servo_id ;;
     ret Done) s
    = (Ret Done, forgotten servo_id (with_trace (trace s ++ t) s))
    /\ (packet_handler s = true ->
        is_rotation l s = false ->
        exists r_read r_hold r_torque,
          bus_events t
          = [EvCall (ReadPos servo_id) r_read;
             EvCall (WritePosEx servo_id (hold_position r_read) 0 0) r_hold;
             EvCall (torque_on servo_id) r_torque]).
Proof.
  intros Hth Hl Hrun Hne.
  destruct (join_worker_returns servo_id s Hth) as (tj & Ej & Hj).
  unfold bind at 1. rewrite Ej. rewrite run_pget.
  change (pattern_at l (with_trace (trace s ++ tj) s)) with (pattern_at l s).
  fold (is_rotation l s).
  set (s1 := with_trace (trace s ++ tj) s).
  assert (Hhold : exists th,
    (if is_rotation l s then stop_rotation bus servo_id
     else stop_positional bus servo_id) s1
    = (Ret tt, with_trace (trace s1 ++ th) s1)
    /\ (packet_handler s = true ->
        is_rotation l s = false ->
        exists r_read r_hold r_torque,
          th = [EvCall (ReadPos servo_id) r_read;
                EvCall (WritePosEx servo_id (hold_position r_read) 0 0) r_hold;
                EvCall (torque_on servo_id) r_torque])).
  { destruct (is_rotation l s).
    - destruct (stop_rotation_returns servo_id s1) as [th Eh].
      exists th. split; [exact Eh | discriminate].
    - destruct (packet_handler s) eqn:Hp.
      + eexists. split; [apply (stop_positional_events servo_id s1 Hp) |].
        intros _ _. eauto.
      + exists []. split; [| discriminate].
        rewrite app_nil_r, with_trace_id.
        unfold stop_positional, bind, try_except.
        do 3 (rewrite (sdk_without_handler _ s1 Hp); unfold ret; cbv beta iota).
        reflexivity. }
  destruct Hhold as (th & Eh & Hev).
  unfold bind at 1. rewrite Eh. unfold bind at 1.
  rewrite (forget_movement_eq servo_id l) by assumption.
  exists (tj ++ th). split.
  - unfold ret, forgotten, s1. cbn [trace with_trace movement_patterns
      continuous_movement_threads]. rewrite <- app_assoc. reflexivity.
  - intros Hp Hrot. destruct (Hev Hp Hrot) as (r1 & r2 & r3 & ->).
    rewrite bus_events_app, (bus_events_no_calls tj Hj). eauto.
Qed.

End Stop.

(** X6. Stopping a movement.  On a connected controller, for a servo
    that has a (non-empty) pattern object, one turn of
    [stop_continuous_movement] succeeds whatever the servo bus answers:
    the pattern is no longer running, the servo's entries in
    [movement_patterns] and [continuous_movement_threads] are gone, no
    other entry and no other field of the pattern is touched; and for a
    positional pattern the servo is held where it is: its position is
    read and written back with speed and acceleration zero (2048 when the
    read fails), then torque is enabled. *)
Theorem stop_removes_movement
    (bus : world) (servo_id : Z) (l : loc) (s : cstate) :
  is_connected s = true ->
  movement_patterns s !! servo_id = Some l ->
  pattern_at l s <> ∅ ->
  threads_behave bus ->
  exists s' t,
    stop_one bus servo_id s = (Ret Done, s')
    /\ trace s' = trace s ++ t
    /\ movement_patterns s' = delete servo_id (movement_patterns s)
    /\ continuous_movement_threads s'
       = delete servo_id (continuous_movement_threads s)
    /\ running_flag l s' = false
    /\ (forall k, k <> "running" -> pattern_at l s' !! k = pattern_at l s !! k)
    /\ (forall l', l' <> l -> pattern_at l' s' = pattern_at l' s)
    /\ (packet_handler s = true ->
        is_rotation l s = false ->
        exists r_read r_hold r_torque,
          bus_events t
          = [EvCall (ReadPos servo_id) r_read;
             EvCall (WritePosEx servo_id (hold_position r_read) 0 0) r_hold;
             EvCall (torque_on servo_id) r_torque]).
Proof.
  intros Hc Hl Hne Hth. unfold stop_one.
  rewrite run_gets, Hc. cbn [negb]. rewrite run_gets, Hl, run_pget.
  fold (running_flag l s).
  destruct (running_flag l s) eqn:Hrun.
  - unfold bind at 1. rewrite pset_eq.
    set (s1 := after_set l "running" (VBool false) s).
    assert (Hpat : pattern_at l s1 = <["running" := VBool false]> (pattern_at l s))
      by apply pattern_at_after_set.
    destruct (stop_one_tail bus servo_id l s1 Hth) as (t & E & Hev).
    { unfold s1. by rewrite movement_patterns_after_set. }
    { unfold running_flag, dict_get. rewrite Hpat. by rewrite lookup_insert_eq. }
    { rewrite Hpat. apply insert_non_empty. }
    rewrite E. eexists _, (EvSet l "running" (VBool false) :: t).
    split; [reflexivity |].
    split; [cbn [forgotten trace with_patterns with_threads with_trace];
            unfold s1; rewrite trace_after_set, <- app_assoc; reflexivity |].
    split; [reflexivity |]. split; [reflexivity |].
    split; [unfold running_flag, dict_get;
            change (pattern_at l (forgotten _ _)) with (pattern_at l s1);
            rewrite Hpat; by rewrite lookup_insert_eq |].
    split; [intros k Hk;
            change (pattern_at l (forgotten _ _)) with (pattern_at l s1);
            rewrite Hpat; by rewrite lookup_insert_ne |].
    split; [intros l' Hl';
            change (pattern_at l' (forgotten _ _)) with (pattern_at l' s1);
            unfold s1; by apply pattern_at_after_set_other |].
    intros Hp Hrot.
    destruct Hev as (r1 & r2 & r3 & Hb).
    { unfold s1. by rewrite packet_handler_after_set. }
    { unfold is_rotation, dict_get in *. rewrite Hpat.
      by rewrite lookup_insert_ne. }
    exists r1, r2, r3. exact Hb.
  - rewrite run_ret.
    destruct (stop_one_tail bus servo_id l s Hth Hl Hrun Hne) as (t & E & Hev).
    rewrite E. eexists _, t. split; [reflexivity |].
    repeat (split; [reflexivity |]).
    split; [exact Hrun |]. split; [reflexivity |]. split; [reflexivity |].
    exact Hev.
Qed.

(** Stopping the sweep of servo 1, the servo standing at 1500. *)
Lemma stop_removes_movement_witness :
  is_connected sweeping = true
  /\ movement_patterns sweeping !! 1 = Some 0%nat
  /\ pattern_at 0%nat sweeping <> ∅
  /\ threads_behave (ok_bus 1500)
  /\ exists s',
       stop_one (ok_bus 1500) 1 sweeping = (Ret Done, s')
       /\ movement_patterns s' !! 1 = None
       /\ running_flag 0%nat s' = false
       /\ bus_events (new_events (stop_one (ok_bus 1500) 1) sweeping)
          = [EvCall (ReadPos 1) (Reply 1500 COMM_SUCCESS);
             EvCall (WritePosEx 1 1500 0 0) (Reply 1 COMM_SUCCESS);
             EvCall (torque_on 1) (Reply 1 COMM_SUCCESS)].
Proof.
  assert (Hne : pattern_at 0%nat sweeping <> ∅).
  { intros H. apply (f_equal (fun d => d !! "type")) in H.
    vm_compute in H. discriminate. }
  assert (Hth : threads_behave (ok_bus 1500)) by (intros t c _; by destruct c).
  split; [reflexivity |]. split; [vm_compute; reflexivity |].
  split; [exact Hne |]. split; [exact Hth |].
  destruct (stop_removes_movement (ok_bus 1500) 1 0%nat sweeping eq_refl
              ltac:(vm_compute; reflexivity) Hne Hth)
    as (s' & t & E & T & Hm & _ & Hr & _).
  exists s'. split; [exact E |].
  split; [rewrite Hm; apply lookup_delete_eq |]. split; [exact Hr |].
  vm_compute. reflexivity.
Defined.

(** The stopped sweep of servo 1: a worker started on its pattern object
    ends at once. *)
Lemma stopped_pattern_ends_worker_witness :
  running_flag 0%nat stopped_sweep = false
  /\ pattern_at 0%nat stopped_sweep !! "current_position" = Some (VInt 600)
  /\ exists s',
       _continuous_movement_worker dead_bus 5 1 0%nat (new_worker stopped_sweep)
       = (Ret Exited, mk_wstate s' 0 None 0)
       /\ running_flag 0%nat s' = false.
Proof.
  split; [vm_compute; reflexivity |]. split; [vm_compute; reflexivity |].
  destruct (stopped_pattern_ends_worker dead_bus 5 1 0%nat stopped_sweep (VInt 600)
              ltac:(vm_compute; reflexivity) ltac:(vm_compute; reflexivity))
    as (s' & t & E & _ & _ & Hr & _).
  exists s'. split; [exact E | exact Hr].
Defined.

Section Resume.

Variable bus : world.

(** Lines 1009-1023 as an equation. *)
Lemma resume_one_eq servo_id l s :
  is_connected s = true ->
  packet_handler s = true ->
  movement_patterns s !! servo_id = Some l ->
  running_flag l s = true ->
  paused_flag l s = true ->
  is_held pause_lock s = false ->
  let s1 :=
    unlocked pause_lock
      (after_set l "immediate_stop" (VBool false)
         (after_set l "paused" (VBool false) (locked pause_lock s))) in
  resume_one bus servo_id s
  = (Ret Done,
     logged (EvCall (torque_on servo_id) (bus (trace s1) (torque_on servo_id))) s1).
Proof.
  intros Hc Hp Hl Hrun Hpaused Hfree. cbv zeta. unfold resume_one.
  rewrite run_gets, Hc. cbn [negb]. rewrite run_gets, Hl, !run_pget.
  fold (running_flag l s). fold (paused_flag l s). rewrite Hrun, Hpaused.
  cbn [andb]. unfold bind at 1.
  rewrite (run_with_lock pause_lock _ s tt
             (after_set l "immediate_stop" (VBool false)
                (after_set l "paused" (VBool false) (locked pause_lock s))) Hfree).
  2: { rewrite run_pset. apply pset_eq. }
  unfold bind at 1. rewrite (run_ignored_call bus).
  2: { autorewrite with reached. exact Hp. }
  reflexivity.
Qed.

End Resume.

(** X7. Resuming a paused movement.  On a connected controller, for a
    servo whose pattern is running and paused, one turn of
    [resume_continuous_movement] succeeds whatever the bus answers: under
    the pause lock it clears [paused] and [immediate_stop], then it writes
    torque-enable; [emergency_stop] is left as it was.  After a pause
    that had cleared [emergency_stop], the worker's next turn sends a
    motion command again. *)
Theorem resume_clears_pause
    (bus : world) (servo_id : Z) (l : loc) (s : cstate) :
  is_connected s = true ->
  packet_handler s = true ->
  movement_patterns s !! servo_id = Some l ->
  running_flag l s = true ->
  paused_flag l s = true ->
  is_held pause_lock s = false ->
  exists s' r,
    resume_one bus servo_id s = (Ret Done, s')
    /\ trace s'
       = trace s ++ [EvAcquire pause_lock;
                     EvSet l "paused" (VBool false);
                     EvSet l "immediate_stop" (VBool false);
                     EvRelease pause_lock;
                     EvCall (torque_on servo_id) r]
    /\ pattern_at l s'
       = <["immediate_stop" := VBool false]>
           (<["paused" := VBool false]> (pattern_at l s))
    /\ paused_flag l s' = false
    /\ running_flag l s' = true
    /\ is_held pause_lock s' = false
    /\ stop_flag l s'
       = truthy (dict_get (pattern_at l s) "emergency_stop" (VBool false))
    /\ (drivable l s = true ->
        truthy (dict_get (pattern_at l s) "emergency_stop" (VBool false)) = false ->
        forall w, wc w = s' ->
          (motions (trace s') + 1
           <= motions (trace (wc (snd (worker_iteration bus servo_id l w)))))%nat).
Proof.
  intros Hc Hp Hl Hrun Hpaused Hfree.
  pose proof (resume_one_eq bus servo_id l s Hc Hp Hl Hrun Hpaused Hfree) as E.
  cbv zeta in E. eexists _, _. split; [exact E |].
  set (s' := logged _ _).
  assert (Hpat : pattern_at l s'
    = <["immediate_stop" := VBool false]>
        (<["paused" := VBool false]> (pattern_at l s))).
  { unfold s'. autorewrite with reached. reflexivity. }
  assert (Hheld : is_held pause_lock s' = false).
  { unfold is_held, s'. autorewrite with reached.
    rewrite held_after_lock by exact Hfree. exact Hfree. }
  assert (Hpf : paused_flag l s' = false).
  { unfold paused_flag, dict_get. rewrite Hpat. by simplify_map_eq. }
  assert (Hsf : stop_flag l s'
    = truthy (dict_get (pattern_at l s) "emergency_stop" (VBool false))).
  { unfold stop_flag, dict_get. rewrite Hpat. by simplify_map_eq. }
  split; [unfold s'; autorewrite with reached; by rewrite <- !app_assoc |].
  split; [exact Hpat |]. split; [exact Hpf |].
  split; [unfold running_flag, dict_get in *; rewrite Hpat; by simplify_map_eq |].
  split; [exact Hheld |]. split; [exact Hsf |].
  intros Hd Hes w Hw.
  rewrite <- Hw. apply worker_iteration_emits; rewrite Hw.
  - rewrite <- Hd. apply drivable_by_fields.
    + unfold s'. autorewrite with reached. reflexivity.
    + intros k _ K1 K2 _. rewrite Hpat. by rewrite !lookup_insert_ne.
  - by rewrite Hsf.
  - exact Hpf.
  - exact Hheld.
Qed.

(** Resuming the sweep of servo 1 after its pause: the three flags are
    what they were before the pause. *)
Lemma resume_clears_pause_witness :
  is_connected paused_sweep = true
  /\ packet_handler paused_sweep = true
  /\ movement_patterns paused_sweep !! 1 = Some 0%nat
  /\ running_flag 0%nat paused_sweep = true
  /\ paused_flag 0%nat paused_sweep = true
  /\ is_held pause_lock paused_sweep = false
  /\ exists s',
       resume_one (ok_bus 1500) 1 paused_sweep = (Ret Done, s')
       /\ pause_flags 0%nat s' = pause_flags 0%nat sweeping.
Proof.
  repeat (split; [vm_compute; reflexivity |]).
  destruct (resume_clears_pause (ok_bus 1500) 1 0%nat paused_sweep
              ltac:(vm_compute; reflexivity) ltac:(vm_compute; reflexivity)
              ltac:(vm_compute; reflexivity) ltac:(vm_compute; reflexivity)
              ltac:(vm_compute; reflexivity) ltac:(vm_compute; reflexivity))
    as (s' & r & E & _ & Hpat & _).
  exists s'. split; [exact E |].
  unfold pause_flags. cbn [map]. rewrite Hpat. vm_compute. reflexivity.
Defined.

Section Idle.

Variable bus : world.

Lemma stop_each_without_movement ids : forall s,
  is_connected s = true ->
  (forall id, In id ids -> movement_patterns s !! id = None) ->
  stop_each bus ids s
  = (Ret (map (fun id => (id, Refused NoRunningMovement)) ids), s).
Proof.
  induction ids as [|id ids IH]; intros s Hc Hnone; [reflexivity |].
  cbn [stop_each map]. unfold bind at 1, stop_one.
  rewrite run_gets, Hc. cbn [negb]. rewrite run_gets.
  rewrite (Hnone id) by (by left). cbn [ret].
  unfold bind. rewrite IH; [reflexivity | exact Hc |].
  intros id' Hin. apply Hnone. by right.
Qed.

Lemma resume_each_without_movement ids : forall s,
  is_connected s = true ->
  (forall id, In id ids -> movement_patterns s !! id = None) ->
  resume_each bus ids s
  = (Ret (map (fun id => (id, NothingToResume)) ids), s).
Proof.
  induction ids as [|id ids IH]; intros s Hc Hnone; [reflexivity |].
  cbn [resume_each map]. unfold bind at 1, resume_one.
  rewrite run_gets, Hc. cbn [negb]. rewrite run_gets.
  rewrite (Hnone id) by (by left). cbn [ret].
  unfold bind. rewrite IH; [reflexivity | exact Hc |].
  intros id' Hin. apply Hnone. by right.
Qed.

Lemma pause_each_without_movement ids : forall acc s,
  (forall id, In id ids -> 0 <= id <= 253 /\ movement_patterns s !! id = None) ->
  pause_each bus (map VInt ids) acc s
  = (Ret (mk_pause_result (pr_success acc)
            (pr_results acc
             ++ map (fun id => (VInt id, Failure NoRunningMovement)) ids)
            (paused_count acc) (total_servos acc)), s).
Proof.
  induction ids as [|id ids IH]; intros acc s Hnone.
  - cbn [map pause_each ret]. rewrite app_nil_r. by destruct acc.
  - destruct (Hnone id) as [Hid Hl]; [by left |].
    cbn [map pause_each]. unfold bind at 1, pause_one.
    cbn [is_int is_number num].
    replace ((id <? 0) || (253 <? id)) with false by lia.
    rewrite run_gets, Hl. cbn [ret].
    rewrite IH by (intros id' Hin; apply Hnone; by right).
    cbn [pr_success pr_results paused_count total_servos fst snd map].
    rewrite andb_true_r, <- app_assoc. reflexivity.
Qed.

End Idle.

(** X8. Requests for servos that have no movement.  On a connected
    controller, for servo ids none of which has an entry in
    [movement_patterns], [stop_continuous_movement],
    [resume_continuous_movement] and [pause_continuous_movement] call
    nothing and change nothing; every id gets a failure entry, and the
    overall answer is nevertheless a success. *)
Theorem requests_without_movement_change_nothing
    (bus : world) (ids : list Z) (s : cstate) :
  is_connected s = true ->
  (forall id, In id ids -> 0 <= id <= 253 /\ movement_patterns s !! id = None) ->
  ids <> [] ->
  stop_continuous_movement bus ids s
  = (Ret (Done, map (fun id => (id, Refused NoRunningMovement)) ids), s)
  /\ resume_continuous_movement bus ids s
     = (Ret (Done, map (fun id => (id, NothingToResume)) ids), s)
  /\ pause_continuous_movement bus (map VInt ids) s
     = (Ret (inr (mk_pause_result true
                    (map (fun id => (VInt id, Failure NoRunningMovement)) ids)
                    0 (Z.of_nat (length ids)))), s).
Proof.
  intros Hc Hnone Hne.
  assert (Hnone' : forall id, In id ids -> movement_patterns s !! id = None)
    by (intros id Hin; by apply Hnone).
  split; [| split].
  - unfold stop_continuous_movement, bind.
    by rewrite stop_each_without_movement.
  - unfold resume_continuous_movement, bind.
    by rewrite resume_each_without_movement.
  - unfold pause_continuous_movement.
    destruct ids as [|id ids]; [done |].
    change (map VInt (id :: ids)) with (VInt id :: map VInt ids) at 1.
    cbv iota. rewrite run_gets, Hc. cbn [negb]. unfold bind.
    change (VInt id :: map VInt ids) with (map VInt (id :: ids)).
    rewrite pause_each_without_movement by exact Hnone.
    cbn [ret pr_success pr_results paused_count total_servos app].
    by rewrite length_map.
Qed.

(** Servos 3 and 4 while only servo 1 sweeps. *)
Lemma requests_without_movement_change_nothing_witness :
  is_connected sweeping = true
  /\ (forall id, In id [3; 4] ->
        0 <= id <= 253 /\ movement_patterns sweeping !! id = None)
  /\ stop_continuous_movement dead_bus [3; 4] sweeping
     = (Ret (Done, [(3, Refused NoRunningMovement); (4, Refused NoRunningMovement)]),
        sweeping).
Proof.
  assert (H : forall id, In id [3; 4] ->
                0 <= id <= 253 /\ movement_patterns sweeping !! id = None).
  { intros id [<- | [<- | []]]; (split; [lia | vm_compute; reflexivity]). }
  split; [reflexivity |]. split; [exact H |].
  apply (requests_without_movement_change_nothing dead_bus [3; 4] sweeping
           eq_refl H ltac:(discriminate)).
Defined.

(** * Starting a movement *)

Section Start.

Variable bus : world.

Lemma dict_get_some (d : pydict) k v dflt : d !! k = Some v -> dict_get d k dflt = v.
Proof. intros H. unfold dict_get. by rewrite H. Qed.

Lemma dict_get_none (d : pydict) k dflt : d !! k = None -> dict_get d k dflt = dflt.
Proof. intros H. unfold dict_get. by rewrite H. Qed.

(** Lines 673-732 for a request that names a servo and gives no angle
    constraints: the pattern object is allocated and registered. *)
Lemma start_one_registers (config : pydict) (id : Z) s :
  config !! "servo_id" = Some (VInt id) ->
  id <> 0 ->
  config !! "angle_constraints" = None ->
    (start_one bus config) s
    = (let l := next_loc s in
       let s2 :=
         with_patterns (<[id := l]> (movement_patterns s))
           (with_next_loc (S l)
              (with_heap (<[l := requested_pattern config]> (heap s)) s)) in
       (old <- gets (fun s => continuous_movement_threads s !! id) ;;
        match old with
        | Some t =>
            cur <- gets (fun s => movement_patterns s !! id) ;;
            match cur with
            | Some l' => pset l' "running" (VBool false)
            | None => raise
            end ;;
            a <- ask bus (ThreadIsAlive t) ;;
            if negb (fst a =? 0) then (_ <- ask bus (ThreadJoin t 1000) ;; ret tt)
            else ret tt
        | None => ret tt
        end ;;
        t <- gets next_tid ;;
        modify (with_next_tid (S t)) ;;
        modify (fun s => with_threads (<[id := t]> (continuous_movement_threads s)) s) ;;
        _ <- ask bus (ThreadStart t id l) ;;
        ret (VInt id, Success)) s2).
Proof.
  intros Hid Hne Hac. unfold start_one. cbv zeta.
  rewrite (dict_get_some config "servo_id" (VInt id) VNone Hid).
  rewrite (dict_get_none config "angle_constraints" (VDict ∅) Hac).
  cbn [val_get]. rewrite !run_ret.
  change (dict_get ∅ "min_angle" VNone) with VNone.
  change (dict_get ∅ "max_angle" VNone) with VNone.
  change (dict_get ∅ "enabled" (VBool false)) with (VBool false).
  cbn [truthy negb andb is_none num of_option].
  replace (id =? 0) with false by lia. cbn [negb].
  rewrite !run_ret. cbn [is_success negb].
  unfold bind at 1, alloc at 1. unfold bind at 1, modify at 1.
  reflexivity.
Qed.

(** The fields every new pattern object has, and those it never has,
    whatever the request says. *)
Lemma new_pattern_fields config ty sp ac en mn mx :
  let p := new_pattern config ty sp ac en mn mx in
  p !! "running" = Some (VBool true)
  /\ p !! "paused" = Some (VBool false)
  /\ p !! "immediate_stop" = Some (VBool false)
  /\ p !! "emergency_stop" = Some (VBool false)
  /\ p !! "current_position" = Some (VInt 0)
  /\ p !! "type" = Some ty
  /\ p !! "speed" = Some sp
  /\ p !! "acceleration" = Some ac
  /\ p !! "cycles" = None
  /\ p !! "cycle_count" = None
  /\ p !! "start_position" = None
  /\ p !! "end_position" = None.
Proof.
  cbv zeta. unfold new_pattern.
  destruct (eq_str ty "sweep"); [| destruct (eq_str ty "wave");
                                   [| destruct (eq_str ty "rotation")]];
    repeat split; by simplify_map_eq.
Qed.

(** A first request for a servo. *)
Lemma start_one_fresh (config : pydict) (id : Z) s :
  config !! "servo_id" = Some (VInt id) ->
  id <> 0 ->
  config !! "angle_constraints" = None ->
  continuous_movement_threads s !! id = None ->
  threads_behave bus ->
  exists r,
    start_one bus config s
    = (Ret (VInt id, Success),
       with_trace (trace s ++ [EvCall (ThreadStart (next_tid s) id (next_loc s)) r])
         (registered id config s)).
Proof.
  intros Hid Hne Hac Hth Hbus.
  rewrite (start_one_registers config id s Hid Hne Hac). cbv zeta.
  rewrite run_gets. cbn [continuous_movement_threads with_patterns with_next_loc
                         with_heap]. rewrite Hth.
  rewrite run_ret, run_gets. unfold bind at 1, modify at 1.
  unfold bind at 1, modify at 1. unfold bind at 1, ask at 1.
  cbn [trace with_threads with_next_tid with_patterns with_next_loc with_heap
       next_tid continuous_movement_threads].
  pose proof (Hbus (trace s) (ThreadStart (next_tid s) id (next_loc s)) eq_refl) as Hr.
  destruct (bus (trace s) (ThreadStart (next_tid s) id (next_loc s))) as [|v c];
    [done |].
  exists (Reply v c). reflexivity.
Qed.

(** A request for a servo that already has a worker thread. *)
Lemma start_one_again (config : pydict) (id : Z) (t0 : tid) s :
  config !! "servo_id" = Some (VInt id) ->
  id <> 0 ->
  config !! "angle_constraints" = None ->
  continuous_movement_threads s !! id = Some t0 ->
  threads_behave bus ->
  exists tr,
    start_one bus config s
    = (Ret (VInt id, Success),
       with_trace (trace s ++ EvSet (next_loc s) "running" (VBool false) :: tr)
         (with_heap (<[next_loc s := <["running" := VBool false]>
                                       (requested_pattern config)]> (heap s))
            (registered id config s)))
    /\ bus_calls tr = [].
Proof.
  intros Hid Hne Hac Hth Hbus.
  rewrite (start_one_registers config id s Hid Hne Hac). cbv zeta.
  rewrite run_gets. cbn [continuous_movement_threads with_patterns with_next_loc
                         with_heap]. rewrite Hth. cbv iota.
  unfold bind at 1. rewrite run_gets.
  cbn [movement_patterns with_patterns]. rewrite lookup_insert_eq. cbv iota.
  unfold bind at 1, pset at 1, modify at 1.
  unfold pattern_at at 1. cbn [heap with_patterns with_next_loc with_heap trace].
  rewrite lookup_insert_eq. cbn [default]. rewrite insert_insert_eq.
  unfold bind at 1, ask at 1. cbn [trace with_heap with_trace].
  set (t1 := trace s ++ [EvSet (next_loc s) "running" (VBool false)]).
  pose proof (Hbus t1 (ThreadIsAlive t0) eq_refl) as H1.
  destruct (bus t1 (ThreadIsAlive t0)) as [|v1 c1]; [done |].
  cbn [fst].
  assert (Htail : forall tj,
    bus_calls tj = [] ->
    exists tr,
      (t <- gets next_tid ;;
       modify (with_next_tid (S t)) ;;
       modify (fun s => with_threads (<[id := t]> (continuous_movement_threads s)) s) ;;
       _ <- ask bus (ThreadStart t id (next_loc s)) ;;
       ret (VInt id, Success))
        (with_trace (t1 ++ tj)
           (with_heap (<[next_loc s := <["running" := VBool false]>
                                         (requested_pattern config)]> (heap s))
              (with_patterns (<[id := next_loc s]> (movement_patterns s))
                 (with_next_loc (S (next_loc s)) s))))
      = (Ret (VInt id, Success),
         with_trace (trace s ++ EvSet (next_loc s) "running" (VBool false) :: tr)
           (with_heap (<[next_loc s := <["running" := VBool false]>
                                         (requested_pattern config)]> (heap s))
              (registered id config s)))
      /\ bus_calls tr = []).
  { intros tj Hj. rewrite run_gets. unfold bind at 1, modify at 1.
    unfold bind at 1, modify at 1. unfold bind at 1, ask at 1.
    cbn [trace with_threads with_next_tid with_patterns with_next_loc with_heap
         with_trace next_tid continuous_movement_threads].
    pose proof (Hbus (t1 ++ tj) (ThreadStart (next_tid s) id (next_loc s)) eq_refl)
      as Hr.
    destruct (bus (t1 ++ tj) (ThreadStart (next_tid s) id (next_loc s)))
      as [|v c]; [done |].
    exists (tj ++ [EvCall (ThreadStart (next_tid s) id (next_loc s)) (Reply v c)]).
    split; [| by rewrite bus_calls_app, Hj].
    unfold t1. rewrite <- !app_assoc. reflexivity. }
  destruct (v1 =? 0); cbn [negb].
  - unfold bind at 1, ret at 1.
    destruct (Htail [EvCall (ThreadIsAlive t0) (Reply v1 c1)] eq_refl)
      as (tr & E & Hb).
    exists tr. split; [| exact Hb]. rewrite <- E. reflexivity.
  - unfold bind at 1. unfold bind at 1, ask at 1. cbn [trace with_trace].
    set (t2 := t1 ++ [EvCall (ThreadIsAlive t0) (Reply v1 c1)]).
    pose proof (Hbus t2 (ThreadJoin t0 1000) eq_refl) as H2.
    destruct (bus t2 (ThreadJoin t0 1000)) as [|v2 c2]; [done |].
    unfold ret at 1.
    destruct (Htail [EvCall (ThreadIsAlive t0) (Reply v1 c1);
                     EvCall (ThreadJoin t0 1000) (Reply v2 c2)] eq_refl)
      as (tr & E & Hb).
    exists tr. split; [| exact Hb]. rewrite <- E. unfold t2.
    rewrite <- !app_assoc. reflexivity.
Qed.

End Start.

(** X9. A first request for a servo.  On a request that names a servo
    (an integer other than 0) and gives no angle constraints, for a servo
    without a worker thread, one turn of [start_continuous_movement]
    allocates a pattern object, registers it and a new thread for the
    servo and starts the thread on that object; the object is running,
    neither paused nor stopped, and starts at position 0; no other
    pattern object is touched and nothing is sent to the servo bus. *)
Theorem start_registers_running_pattern
    (bus : world) (config : pydict) (id : Z) (s : cstate) :
  config !! "servo_id" = Some (VInt id) ->
  id <> 0 ->
  config !! "angle_constraints" = None ->
  continuous_movement_threads s !! id = None ->
  threads_behave bus ->
  exists s' r,
    start_one bus config s = (Ret (VInt id, Success), s')
    /\ trace s' = trace s ++ [EvCall (ThreadStart (next_tid s) id (next_loc s)) r]
    /\ movement_patterns s' = <[id := next_loc s]> (movement_patterns s)
    /\ continuous_movement_threads s'
       = <[id := next_tid s]> (continuous_movement_threads s)
    /\ pattern_at (next_loc s) s' = requested_pattern config
    /\ running_flag (next_loc s) s' = true
    /\ paused_flag (next_loc s) s' = false
    /\ stop_flag (next_loc s) s' = false
    /\ pattern_at (next_loc s) s' !! "current_position" = Some (VInt 0)
    /\ (forall l', l' <> next_loc s -> pattern_at l' s' = pattern_at l' s).
Proof.
  intros Hid Hne Hac Hth Hbus.
  destruct (start_one_fresh bus config id s Hid Hne Hac Hth Hbus) as [r E].
  eexists _, r. split; [exact E |].
  assert (Hpat : pattern_at (next_loc s)
                   (with_trace
                      (trace s ++ [EvCall (ThreadStart (next_tid s) id (next_loc s)) r])
                      (registered id config s))
                 = requested_pattern config).
  { unfold pattern_at, registered. cbn [heap with_trace with_threads with_next_tid
      with_patterns with_next_loc with_heap]. by rewrite lookup_insert_eq. }
  destruct (new_pattern_fields config
              (dict_get config "type" (VStr "sweep"))
              (dict_get config "speed" (VInt 100))
              (dict_get config "acceleration" (VInt 50))
              (VBool false) VNone VNone)
    as (F1 & F2 & F3 & F4 & F5 & _).
  fold (requested_pattern config) in F1, F2, F3, F4, F5.
  split; [reflexivity |]. split; [reflexivity |]. split; [reflexivity |].
  split; [exact Hpat |].
  unfold running_flag, paused_flag, stop_flag, dict_get. rewrite Hpat.
  rewrite F1, F2, F3, F4, F5. repeat (split; [reflexivity |]).
  intros l' Hl'. unfold pattern_at, registered.
  cbn [heap with_trace with_threads with_next_tid with_patterns with_next_loc
       with_heap]. by rewrite lookup_insert_ne.
Qed.

(** The request of scenario 2 on a controller where nothing moves. *)
Lemma start_registers_running_pattern_witness :
  sweep_request !! "servo_id" = Some (VInt 1)
  /\ 1 <> 0
  /\ sweep_request !! "angle_constraints" = None
  /\ continuous_movement_threads connected0 !! 1 = None
  /\ threads_behave (ok_bus 0)
  /\ exists s',
       start_one (ok_bus 0) sweep_request connected0 = (Ret (VInt 1, Success), s')
       /\ movement_patterns s' !! 1 = Some 0%nat
       /\ running_flag 0%nat s' = true.
Proof.
  assert (Hth : threads_behave (ok_bus 0)) by (intros t c _; by destruct c).
  split; [vm_compute; reflexivity |]. split; [lia |].
  split; [vm_compute; reflexivity |]. split; [reflexivity |].
  split; [exact Hth |].
  destruct (start_registers_running_pattern (ok_bus 0) sweep_request 1 connected0
              ltac:(vm_compute; reflexivity) ltac:(lia)
              ltac:(vm_compute; reflexivity) eq_refl Hth)
    as (s' & r & E & _ & Hm & _ & _ & Hrun & _).
  exists s'. split; [exact E |]. split; [| exact Hrun].
  rewrite Hm. reflexivity.
Defined.

(** X10. A second request for a servo does not restart it.  When the
    servo already has a worker thread, one turn of
    [start_continuous_movement] still answers success, but the pattern
    object it registers has [running] cleared; no other pattern object
    (the one the old worker holds among them) is touched; and the worker
    started on the new object leaves before its first turn, without a
    call, whatever the bus would answer. *)
Theorem restart_leaves_new_pattern_stopped
    (bus bus' : world) (config : pydict) (id : Z) (t0 : tid) (s : cstate)
    (fuel : nat) :
  config !! "servo_id" = Some (VInt id) ->
  id <> 0 ->
  config !! "angle_constraints" = None ->
  continuous_movement_threads s !! id = Some t0 ->
  threads_behave bus ->
  exists s',
    start_one bus config s = (Ret (VInt id, Success), s')
    /\ movement_patterns s' !! id = Some (next_loc s)
    /\ running_flag (next_loc s) s' = false
    /\ (forall l', l' <> next_loc s -> pattern_at l' s' = pattern_at l' s)
    /\ bus_calls (drop (length (trace s)) (trace s')) = []
    /\ exists s'' t,
         _continuous_movement_worker bus' fuel id (next_loc s) (new_worker s')
         = (Ret Exited, mk_wstate s'' 0 None 0)
         /\ trace s'' = trace s' ++ t
         /\ forallb quiet t = true.
Proof.
  intros Hid Hne Hac Hth Hbus.
  destruct (start_one_again bus config id t0 s Hid Hne Hac Hth Hbus)
    as (tr & E & Hb).
  eexists. split; [exact E |].
  set (s' := with_trace _ _).
  assert (Hpat : pattern_at (next_loc s) s'
                 = <["running" := VBool false]> (requested_pattern config)).
  { unfold pattern_at, s'. cbn [heap with_trace with_heap].
    by rewrite lookup_insert_eq. }
  assert (Hrun : running_flag (next_loc s) s' = false).
  { unfold running_flag, dict_get. rewrite Hpat. by rewrite lookup_insert_eq. }
  split; [unfold s', registered;
          cbn [movement_patterns with_trace with_heap with_threads with_next_tid
               with_patterns]; by rewrite lookup_insert_eq |].
  split; [exact Hrun |].
  split.
  { intros l' Hl'. unfold pattern_at, s', registered.
    cbn [heap with_trace with_threads with_next_tid with_patterns with_next_loc
         with_heap]. by rewrite !lookup_insert_ne. }
  split.
  { unfold s'. cbn [trace with_trace]. rewrite drop_app_length.
    unfold bus_calls in *. exact Hb. }
  destruct (new_pattern_fields config
              (dict_get config "type" (VStr "sweep"))
              (dict_get config "speed" (VInt 100))
              (dict_get config "acceleration" (VInt 50))
              (VBool false) VNone VNone)
    as (_ & _ & _ & _ & F5 & _).
  fold (requested_pattern config) in F5.
  destruct (worker_leaves_stopped_pattern bus' (next_loc s) fuel id s' (VInt 0) Hrun)
    as (s'' & t & Ew & T & Q & _).
  { rewrite Hpat. by rewrite lookup_insert_ne. }
  exists s'', t. split; [exact Ew |]. split; [exact T | exact Q].
Qed.

(** The request of scenario 2 a second time, while the sweep is running:
    the old pattern object is still running, the new one is not. *)
Lemma restart_leaves_new_pattern_stopped_witness :
  sweep_request !! "servo_id" = Some (VInt 1)
  /\ continuous_movement_threads sweeping !! 1 = Some 0%nat
  /\ threads_behave (ok_bus 0)
  /\ exists s',
       start_one (ok_bus 0) sweep_request sweeping = (Ret (VInt 1, Success), s')
       /\ movement_patterns s' !! 1 = Some 1%nat
       /\ running_flag 1%nat s' = false
       /\ running_flag 0%nat s' = true.
Proof.
  assert (Hth : threads_behave (ok_bus 0)) by (intros t c _; by destruct c).
  split; [vm_compute; reflexivity |]. split; [vm_compute; reflexivity |].
  split; [exact Hth |].
  destruct (restart_leaves_new_pattern_stopped (ok_bus 0) dead_bus sweep_request 1
              0%nat sweeping 0%nat
              ltac:(vm_compute; reflexivity) ltac:(lia)
              ltac:(vm_compute; reflexivity) ltac:(vm_compute; reflexivity) Hth)
    as (s' & E & Hm & Hrun & Hother & _).
  exists s'. split; [exact E |]. split; [exact Hm |]. split; [exact Hrun |].
  unfold running_flag. rewrite (Hother 0%nat) by (vm_compute; lia).
  vm_compute. reflexivity.
Defined.

(** X11. A request without a usable servo id.  For a request whose
    [servo_id] is falsy (0, [None], [False], an empty string, or missing):
    when its [angle_constraints] is absent or a dictionary, the request is
    answered with "Missing servo_id" and nothing is allocated, registered
    or sent, so servo 0 cannot be started; when [angle_constraints] is
    present and not a dictionary ([null]), the constraints are read before
    the id is tested (line 680), the read raises, and a call of
    [start_continuous_movement] that begins with this request fails as a
    whole, with no entry for any request and nothing done. *)
Theorem start_rejects_servo_zero (bus : world) (config : pydict) (s : cstate) :
  truthy (dict_get config "servo_id" VNone) = false ->
  match dict_get config "angle_constraints" (VDict ∅) with
  | VDict _ =>
      start_one bus config s = (Ret (VNone, Failure MissingServoId), s)
  | _ =>
      start_one bus config s = (Exn, s)
      /\ forall rest,
           is_connected s = true ->
           start_continuous_movement bus (config :: rest) s
           = (Ret (Failure Unexpected, []), s)
  end.
Proof.
  intros Hid.
  assert (Hraise : forall v,
            dict_get config "angle_constraints" (VDict ∅) = v ->
            (forall d, v <> VDict d) ->
            start_one bus config s = (Exn, s)
            /\ forall rest,
                 is_connected s = true ->
                 start_continuous_movement bus (config :: rest) s
                 = (Ret (Failure Unexpected, []), s)).
  { intros v Hv Hd.
    assert (E : start_one bus config s = (Exn, s)).
    { unfold start_one. cbv zeta. rewrite Hv.
      destruct v; try reflexivity. by destruct (Hd d). }
    split; [exact E |]. intros rest Hc.
    unfold start_continuous_movement. rewrite run_gets, Hc. cbn [negb].
    unfold try_except, bind at 1. cbn [start_each]. unfold bind at 1.
    by rewrite E. }
  destruct (dict_get config "angle_constraints" (VDict ∅)) as [| | | |d] eqn:Hac;
    try (apply (Hraise _ eq_refl); discriminate).
  unfold start_one. cbv zeta. rewrite Hac.
  cbn [val_get]. rewrite !run_ret, Hid. reflexivity.
Qed.

(** A request for servo 0, and the same request with null constraints
    followed by a good one. *)
Lemma start_rejects_servo_zero_witness :
  truthy (dict_get servo_zero_request "servo_id" VNone) = false
  /\ start_continuous_movement (ok_bus 0) [servo_zero_request]
       (with_monitoring true true connected0)
     = (Ret (Success, [(VNone, Failure MissingServoId)]),
        with_monitoring true true connected0)
  /\ start_continuous_movement (ok_bus 0)
       [null_constraints_request; sweep_request]
       connected0
     = (Ret (Failure Unexpected, []), connected0).
Proof.
  split; [vm_compute; reflexivity |]. split.
  - unfold start_continuous_movement. rewrite run_gets. cbn [is_connected
      with_monitoring connected0 negb]. unfold try_except, bind at 1.
    cbn [start_each]. unfold bind at 1.
    pose proof (start_rejects_servo_zero (ok_bus 0) servo_zero_request
                  (with_monitoring true true connected0)
                  ltac:(vm_compute; reflexivity)) as H.
    vm_compute (dict_get servo_zero_request _ _) in H. rewrite H.
    reflexivity.
  - pose proof (start_rejects_servo_zero (ok_bus 0) null_constraints_request
                  connected0 ltac:(vm_compute; reflexivity)) as H.
    vm_compute (dict_get _ "angle_constraints" _) in H.
    apply (proj2 H). reflexivity.
Defined.

Section Defaults.

Variable bus : world.
Variable l : loc.

Lemma set_default_union k v s :
  exists s' t,
    set_default l k v s = (Ret tt, s')
    /\ trace s' = trace s ++ t
    /\ forallb quiet t = true
    /\ pattern_at l s' = pattern_at l s ∪ {[k := v]}.
Proof.
  rewrite set_default_eq. destruct (pattern_at l s !! k) as [x|] eqn:Hk.
  - exists s, []. rewrite app_nil_r. repeat split.
    apply map_eq. intros i. rewrite lookup_union.
    destruct (decide (i = k)) as [-> | Hne].
    + by rewrite Hk, lookup_singleton_eq.
    + rewrite lookup_singleton_ne by done. by destruct (pattern_at l s !! i).
  - exists (after_set l k v s), [EvSet l k v]. split; [reflexivity |].
    split; [by rewrite trace_after_set |]. split; [reflexivity |].
    rewrite pattern_at_after_set. by apply insert_union_singleton_r.
Qed.

(** The worker's preparation on a pattern that has a position: the
    missing defaults are filled in, nothing else changes and nothing is
    called. *)
Lemma worker_init_defaults servo_id s v :
  pattern_at l s !! "current_position" = Some v ->
  exists s' t,
    worker_init bus servo_id l s = (Ret true, s')
    /\ trace s' = trace s ++ t
    /\ forallb quiet t = true
    /\ pattern_at l s' = pattern_at l s ∪ worker_defaults.
Proof.
  intros Hv. unfold worker_init, try_except.
  unfold bind at 1, has_key, gets. cbn [fst snd]. rewrite Hv.
  unfold bind at 1, ret at 1.
  destruct (set_default_union "direction" (VInt 1) s)
    as (s1 & t1 & E1 & T1 & Q1 & P1).
  destruct (set_default_union "cycle_count" (VInt 0) s1)
    as (s2 & t2 & E2 & T2 & Q2 & P2).
  destruct (set_default_union "start_position" (VInt 0) s2)
    as (s3 & t3 & E3 & T3 & Q3 & P3).
  destruct (set_default_union "end_position" (VInt 4095) s3)
    as (s4 & t4 & E4 & T4 & Q4 & P4).
  destruct (set_default_union "center_position" (VInt 2048) s4)
    as (s5 & t5 & E5 & T5 & Q5 & P5).
  unfold bind. rewrite E1, E2, E3, E4, E5.
  exists s5, (t1 ++ t2 ++ t3 ++ t4 ++ t5). split; [reflexivity |].
  split; [rewrite T5, T4, T3, T2, T1; by rewrite <- !app_assoc |].
  split; [by rewrite !forallb_app, Q1, Q2, Q3, Q4, Q5 |].
  rewrite P5, P4, P3, P2, P1. rewrite <- !(assoc_L (∪)). reflexivity.
Qed.

End Defaults.

(** X12. No request sets the bounds or the cycle target of a sweep.  For
    every request that starts a servo, the pattern object the worker
    receives has no [cycles], [start_position] or [end_position]; the
    worker's preparation fills in its defaults, so that the sweep turns at
    0 and 4095 and counts cycles from 0 without a target, whatever
    [min_position], [max_position] and [cycles] the request gave. *)
Theorem request_cannot_bound_sweep
    (bus bus' : world) (config : pydict) (id : Z) (s : cstate) :
  config !! "servo_id" = Some (VInt id) ->
  id <> 0 ->
  config !! "angle_constraints" = None ->
  continuous_movement_threads s !! id = None ->
  threads_behave bus ->
  exists s' s'' t,
    start_one bus config s = (Ret (VInt id, Success), s')
    /\ worker_init bus' id (next_loc s) s' = (Ret true, s'')
    /\ trace s'' = trace s' ++ t
    /\ forallb quiet t = true
    /\ pattern_at (next_loc s) s'' = requested_pattern config ∪ worker_defaults
    /\ sweep_bounds (next_loc s) s'' = (0, 4095)
    /\ pattern_at (next_loc s) s'' !! "cycles" = None
    /\ pattern_at (next_loc s) s'' !! "cycle_count" = Some (VInt 0)
    /\ pattern_at (next_loc s) s'' !! "current_position" = Some (VInt 0).
Proof.
  intros Hid Hne Hac Hth Hbus.
  destruct (start_one_fresh bus config id s Hid Hne Hac Hth Hbus) as [r E].
  set (s' := with_trace _ _) in E.
  assert (Hpat : pattern_at (next_loc s) s' = requested_pattern config).
  { unfold pattern_at, s', registered. cbn [heap with_trace with_threads
      with_next_tid with_patterns with_next_loc with_heap].
    by rewrite lookup_insert_eq. }
  destruct (new_pattern_fields config
              (dict_get config "type" (VStr "sweep"))
              (dict_get config "speed" (VInt 100))
              (dict_get config "acceleration" (VInt 50))
              (VBool false) VNone VNone)
    as (_ & _ & _ & _ & F5 & _ & _ & _ & F9 & F10 & F11 & F12).
  fold (requested_pattern config) in F5, F9, F10, F11, F12.
  destruct (worker_init_defaults bus' (next_loc s) id s' (VInt 0))
    as (s'' & t & Ew & T & Q & P).
  { by rewrite Hpat. }
  rewrite Hpat in P.
  exists s', s'', t. split; [exact E |]. split; [exact Ew |].
  split; [exact T |]. split; [exact Q |]. split; [exact P |].
  assert (Hs : pattern_at (next_loc s) s'' !! "start_position" = Some (VInt 0)).
  { rewrite P, lookup_union, F11. reflexivity. }
  assert (He : pattern_at (next_loc s) s'' !! "end_position" = Some (VInt 4095)).
  { rewrite P, lookup_union, F12. reflexivity. }
  split; [unfold sweep_bounds, dict_get; rewrite Hs, He; reflexivity |].
  split; [rewrite P, lookup_union, F9; reflexivity |].
  split; [rewrite P, lookup_union, F10; reflexivity |].
  rewrite P, lookup_union, F5. reflexivity.
Qed.

(** Scenario 2 asks for 1000..3000 and two cycles. *)
Lemma request_cannot_bound_sweep_witness :
  sweep_request !! "min_position" = Some (VInt 1000)
  /\ sweep_request !! "max_position" = Some (VInt 3000)
  /\ sweep_request !! "cycles" = Some (VInt 2)
  /\ threads_behave (ok_bus 0)
  /\ exists s' s'',
       start_one (ok_bus 0) sweep_request connected0 = (Ret (VInt 1, Success), s')
       /\ worker_init dead_bus 1 0%nat s' = (Ret true, s'')
       /\ sweep_bounds 0%nat s'' = (0, 4095)
       /\ pattern_at 0%nat s'' !! "cycles" = None.
Proof.
  assert (Hth : threads_behave (ok_bus 0)) by (intros t c _; by destruct c).
  repeat (split; [vm_compute; reflexivity |]). split; [exact Hth |].
  destruct (request_cannot_bound_sweep (ok_bus 0) dead_bus sweep_request 1 connected0
              ltac:(vm_compute; reflexivity) ltac:(lia)
              ltac:(vm_compute; reflexivity) eq_refl Hth)
    as (s' & s'' & t & E & Ew & _ & _ & _ & Hb & Hc & _).
  exists s', s''. repeat split; assumption.
Defined.

(** * Configuration, group writes and single commands *)

(** X13. A failed limit write leaves the EEPROM unlocked.  When
    [set_angle_limits] has unlocked the EEPROM and the write of the lower
    or of the upper limit then fails or raises, it answers with an error
    and returns without a call to [LockEprom]. *)
Theorem failed_limit_write_leaves_eeprom_unlocked
    (bus : world) (servo_id lo hi : Z) (s : cstate) :
  is_connected s = true ->
  packet_handler s = true ->
  let unlock := EvCall (UnLockEprom servo_id) (bus (trace s) (UnLockEprom servo_id)) in
  let t1 := trace s ++ [unlock; EvSleep 100] in
  let write_min := Write2ByteTxRx servo_id STS_MIN_ANGLE_LIMIT_L lo in
  let r_min := bus t1 write_min in
  let t2 := t1 ++ [EvCall write_min r_min; EvSleep 50] in
  let write_max := Write2ByteTxRx servo_id STS_MAX_ANGLE_LIMIT_L hi in
  let r_max := bus t2 write_max in
  reply_ok (bus (trace s) (UnLockEprom servo_id)) = true ->
  reply_ok r_min && reply_ok r_max = false ->
  exists e s' t,
    set_angle_limits bus servo_id (VInt lo) (VInt hi) s = (Ret (Failure e), s')
    /\ (e = WriteFailed \/ e = Unexpected)
    /\ trace s' = trace s ++ unlock :: t
    /\ existsb is_lock t = false.
Proof.
  intros Hc Hp unlock t1 write_min r_min t2 write_max r_max Hun Hfail.
  unfold set_angle_limits. rewrite run_gets, Hc. cbn [negb].
  unfold try_except. rewrite (run_sdk bus _ _ _ Hp).
  subst unlock. destruct (bus (trace s) (UnLockEprom servo_id)) as [|vu cu] eqn:Eu;
    [discriminate |].
  cbn [reply_ok] in Hun. cbn [snd]. rewrite Hun. cbn [negb].
  rewrite run_sleep. cbn [num of_option]. rewrite run_ret.
  rewrite (run_sdk bus).
  2: { autorewrite with reached. exact Hp. }
  autorewrite with reached. rewrite <- !app_assoc. cbn [app].
  fold t1. fold write_min. fold r_min.
  destruct r_min as [|vm cm] eqn:Em.
  { eexists Unexpected, _, _. split; [reflexivity |]. split; [by right |].
    split; [autorewrite with reached; rewrite <- !app_assoc; reflexivity |].
    reflexivity. }
  cbn [snd]. destruct (comm_ok cm) eqn:Hm; cbn [negb].
  2: { eexists WriteFailed, _, _. split; [reflexivity |]. split; [by left |].
       split; [autorewrite with reached; rewrite <- !app_assoc; reflexivity |].
       reflexivity. }
  rewrite run_sleep, run_ret. rewrite (run_sdk bus).
  2: { autorewrite with reached. exact Hp. }
  autorewrite with reached. rewrite <- !app_assoc. cbn [app].
  change (trace s ++ EvCall (UnLockEprom servo_id) (Reply vu cu) :: EvSleep 100
            :: EvCall write_min (Reply vm cm) :: [EvSleep 50])
    with (trace s ++ [EvCall (UnLockEprom servo_id) (Reply vu cu); EvSleep 100]
          ++ [EvCall write_min (Reply vm cm); EvSleep 50]).
  rewrite app_assoc. fold t1. fold t2. fold write_max. fold r_max.
  cbn [reply_ok] in Hfail. rewrite Hm in Hfail. cbn [andb] in Hfail.
  destruct r_max as [|vx cx] eqn:Ex.
  { eexists Unexpected, _, _. split; [reflexivity |]. split; [by right |].
    split; [autorewrite with reached; rewrite <- !app_assoc; reflexivity |].
    reflexivity. }
  cbn [reply_ok] in Hfail. cbn [snd]. rewrite Hfail. cbn [negb].
  eexists WriteFailed, _, _. split; [reflexivity |]. split; [by left |].
  split; [autorewrite with reached; rewrite <- !app_assoc; reflexivity |].
  reflexivity.
Qed.

(** Limits 1000..3000 for servo 1 on a bus that refuses the first write. *)
Lemma failed_limit_write_leaves_eeprom_unlocked_witness :
  is_connected connected0 = true
  /\ packet_handler connected0 = true
  /\ exists s',
       set_angle_limits stubborn_bus 1 (VInt 1000) (VInt 3000) connected0
       = (Ret (Failure WriteFailed), s')
       /\ existsb is_lock (trace s') = false.
Proof.
  split; [reflexivity |]. split; [reflexivity |].
  destruct (failed_limit_write_leaves_eeprom_unlocked stubborn_bus 1 1000 3000
              connected0 eq_refl eq_refl eq_refl eq_refl)
    as (e & s' & t & E & _ & T & Q).
  exists s'. split; [| rewrite T; exact Q].
  rewrite E. vm_compute in E. by injection E as <- _.
Defined.

(** X14. Without a position writer the group sync write blocks.  On a
    controller that has a packet handler but no position writer (as after
    [disconnect]), [_get_group_sync_position_writer] takes the group sync
    lock and calls [_initialize_group_sync_writers], which waits for the
    same lock: neither it nor [syncWrite] returns, and nothing is sent. *)
Theorem sync_write_blocks_without_writer
    (bus : world) (servo_data : list (Z * Z * Z * Z)) (s : cstate) :
  packet_handler s = true ->
  group_sync_position_writer s = false ->
  is_held group_sync_write_lock s = false ->
  fst (_get_group_sync_position_writer s) = Hang
  /\ fst (syncWrite bus servo_data s) = Hang
  /\ bus_calls (new_events (syncWrite bus servo_data) s) = [].
Proof.
  intros Hp Hw Hfree.
  assert (Hget : _get_group_sync_position_writer s
                 = (Hang, locked group_sync_write_lock s)).
  { unfold _get_group_sync_position_writer, with_lock.
    unfold bind at 1, acquire at 1. rewrite Hfree.
    change (with_held _ _) with (locked group_sync_write_lock s).
    unfold try_finally. rewrite !run_gets. rewrite position_writer_locked, Hw.
    autorewrite with reached. rewrite Hp. cbn [negb andb].
    unfold bind at 1, _initialize_group_sync_writers, try_except, with_lock.
    unfold bind at 1, acquire at 1. unfold is_held.
    autorewrite with reached. cbn [existsb lock_eqb orb]. reflexivity. }
  split; [by rewrite Hget |].
  unfold new_events, syncWrite, try_except, bind. rewrite Hget.
  split; [reflexivity |]. cbn [snd]. autorewrite with reached.
  by rewrite drop_app_length.
Qed.

(** After [disconnect] the packet handler is still there and the writers
    are gone. *)
Lemma sync_write_blocks_without_writer_witness :
  packet_handler disconnected = true
  /\ group_sync_position_writer disconnected = false
  /\ is_held group_sync_write_lock disconnected = false
  /\ fst (syncWrite (ok_bus 0) mixed_batch disconnected) = Hang.
Proof.
  repeat (split; [reflexivity |]).
  apply (sync_write_blocks_without_writer (ok_bus 0) mixed_batch disconnected
           eq_refl eq_refl eq_refl).
Defined.

Section Discovery.

Variable bus : world.

Lemma pinged_app t1 t2 : pinged (t1 ++ t2) = pinged t1 ++ pinged t2.
Proof. unfold pinged. apply omap_app. Qed.

Lemma found_app t1 t2 d : found (t1 ++ t2) d = found t2 (found t1 d).
Proof. unfold found. apply fold_left_app. Qed.

(** The scan: every id from [servo_id] on is pinged once, in order, and
    the ids that answered are collected. *)
Lemma discover_each_spec n : forall servo_id d s,
  packet_handler s = true ->
  exists t,
    discover_each bus n servo_id d s
    = (Ret (found t d), with_trace (trace s ++ t) s)
    /\ pinged t = seqZ servo_id (Z.of_nat n)
    /\ bus_calls t = map Ping (pinged t).
Proof.
  induction n as [|n IH]; intros servo_id d s Hp.
  - exists []. cbn [discover_each ret]. rewrite app_nil_r, with_trace_id.
    repeat split.
  - cbn [discover_each]. unfold bind at 1, try_except at 1.
    rewrite (run_sdk bus _ _ _ Hp).
    set (r := bus (trace s) (Ping servo_id)).
    assert (Hstep : exists t1,
      (let (r0, s') :=
         match r with
         | Raised => (Exn, logged (EvCall (Ping servo_id) Raised) s)
         | Reply v cr =>
             (if comm_ok (snd (v, cr)) then
                sleep 50 ;; ret (<[servo_id := fst (v, cr)]> d)
              else ret d) (logged (EvCall (Ping servo_id) (Reply v cr)) s)
         end in
       match r0 with
       | Ret a => (Ret a, s')
       | Exn => ret d s'
       | Hang => (Hang, s')
       end)
      = (Ret (found t1 d), with_trace (trace s ++ t1) s)
      /\ pinged t1 = [servo_id]
      /\ bus_calls t1 = [Ping servo_id]).
    { destruct r as [|v cr].
      - exists [EvCall (Ping servo_id) Raised]. repeat split.
      - cbn [fst snd]. destruct cr; cbn [comm_ok].
        1: { exists [EvCall (Ping servo_id) (Reply v COMM_SUCCESS); EvSleep 50].
             rewrite run_sleep. cbn [ret]. rewrite !logged_as_with_trace.
             cbn [trace with_trace]. rewrite <- app_assoc. repeat split. }
        all: match goal with
             | |- context [EvCall (Ping ?i) (Reply ?m ?c)] =>
                 exists [EvCall (Ping i) (Reply m c)]
             end; repeat split. }
    destruct Hstep as (t1 & E1 & P1 & B1). rewrite E1.
    rewrite run_sleep.
    set (s0 := logged (EvSleep 10) (with_trace (trace s ++ t1) s)).
    destruct (IH (servo_id + 1) (found t1 d) s0 Hp) as (t2 & E2 & P2 & B2).
    rewrite E2. exists (t1 ++ [EvSleep 10] ++ t2).
    split.
    { rewrite !found_app. f_equal. unfold s0. rewrite logged_as_with_trace.
      destruct s. cbn. rewrite <- !app_assoc. reflexivity. }
    rewrite !pinged_app, !bus_calls_app, P1, P2, B1, B2.
    cbn [pinged bus_calls omap list_omap app].
    rewrite P2. split; [| reflexivity].
    rewrite Nat2Z.inj_succ, (seqZ_cons servo_id) by lia. by rewrite Z.pred_succ.
Qed.

End Discovery.

(** X15. The discovery scan.  On a connected controller
    [discover_servos(start_id, end_id)] pings every id from [start_id] to
    [end_id] once, in ascending order, and nothing else; it ends
    normally whatever the bus answers, a ping that raises included; and
    the servos it reports and stores in [discovered_servos] are those that
    answered their ping with success, each with the model number it
    gave. *)
Theorem discovery_scans_the_range
    (bus : world) (start_id end_id : Z) (s : cstate) :
  is_connected s = true ->
  packet_handler s = true ->
  exists t,
    discover_servos bus start_id end_id s
    = (Ret (Done, found t ∅),
       with_discovered (found t ∅) (with_trace (trace s ++ t) s))
    /\ pinged t = seqZ start_id (end_id + 1 - start_id)
    /\ bus_calls t = map Ping (pinged t).
Proof.
  intros Hc Hp. unfold discover_servos. rewrite run_gets, Hc. cbn [negb].
  destruct (discover_each_spec bus (Z.to_nat (end_id + 1 - start_id)) start_id ∅ s Hp)
    as (t & E & P & B).
  unfold bind at 1. rewrite E. exists t. split; [reflexivity |].
  split; [| exact B]. rewrite P.
  destruct (Z.le_gt_cases 0 (end_id + 1 - start_id)).
  - by rewrite Z2Nat.id.
  - rewrite Z2Nat.nonpos by lia. by rewrite (seqZ_nil _ (end_id + 1 - start_id)) by lia.
Qed.

(** A scan of the ids 0..4 when only the servos 1 and 2 answer. *)
Lemma discovery_scans_the_range_witness :
  is_connected connected0 = true
  /\ packet_handler connected0 = true
  /\ fst (discover_servos two_servo_bus 0 4 connected0)
     = Ret (Done, <[2 := 777]> (<[1 := 777]> ∅))
  /\ exists t,
       trace (snd (discover_servos two_servo_bus 0 4 connected0)) = t
       /\ pinged t = [0; 1; 2; 3; 4]
       /\ bus_calls t = [Ping 0; Ping 1; Ping 2; Ping 3; Ping 4].
Proof.
  split; [reflexivity |]. split; [reflexivity |].
  split; [vm_compute; reflexivity |].
  destruct (discovery_scans_the_range two_servo_bus 0 4 connected0 eq_refl eq_refl)
    as (t & E & P & B).
  exists t. rewrite E. split; [reflexivity |]. rewrite B, P. split; reflexivity.
Defined.

(** X16. Changing speed and acceleration keeps the position.  On a
    connected controller [set_servo_speed_and_acceleration] reads the
    servo's position and, only when that read succeeds, sends one
    [WritePosEx] with the position just read and the new speed and
    acceleration; its answer is a success exactly when that write is
    answered with success.  When the read fails nothing is written. *)
Theorem speed_change_keeps_position
    (bus : world) (servo_id speed acceleration : Z) (s : cstate) :
  is_connected s = true ->
  packet_handler s = true ->
  exists a t,
    set_servo_speed_and_acceleration bus servo_id speed acceleration s
    = (Ret a, with_trace (trace s ++ t) s)
    /\ match bus (trace s) (ReadPos servo_id) with
       | Reply pos COMM_SUCCESS =>
           exists r,
             t = [EvCall (ReadPos servo_id) (Reply pos COMM_SUCCESS);
                  EvCall (WritePosEx servo_id pos speed acceleration) r]
             /\ a = match r with
                    | Reply _ COMM_SUCCESS => Done
                    | Reply _ c => CommError c
                    | Raised => Refused Unexpected
                    end
       | Reply pos c =>
           t = [EvCall (ReadPos servo_id) (Reply pos c)] /\ a = ReadPositionFailed
       | Raised =>
           t = [EvCall (ReadPos servo_id) Raised] /\ a = Refused Unexpected
       end.
Proof.
  intros Hc Hp. unfold set_servo_speed_and_acceleration.
  rewrite run_gets, Hc. cbn [negb]. unfold try_except.
  rewrite (run_sdk bus _ _ _ Hp).
  destruct (bus (trace s) (ReadPos servo_id)) as [|pos c] eqn:Er.
  { rewrite logged_as_with_trace. eexists _, [_].
    split; [reflexivity |]. split; reflexivity. }
  cbn [fst snd].
  destruct c; cbn [comm_ok negb];
    try (rewrite logged_as_with_trace; eexists _, [_];
         split; [reflexivity |]; split; reflexivity).
  rewrite (run_sdk bus).
  2: { autorewrite with reached. exact Hp. }
  autorewrite with reached.
  destruct (bus (trace s ++ [EvCall (ReadPos servo_id) (Reply pos COMM_SUCCESS)])
              (WritePosEx servo_id pos speed acceleration)) as [|v c] eqn:Ew.
  { rewrite !logged_as_with_trace. eexists _, [_; _]. split.
    - cbn [trace with_trace]. rewrite <- app_assoc. reflexivity.
    - eexists. split; reflexivity. }
  cbn [snd]. rewrite !logged_as_with_trace.
  destruct c; cbn [comm_ok ret trace with_trace]; rewrite <- app_assoc;
    (eexists _, [_; _]; split; [reflexivity |]);
    eexists; split; reflexivity.
Qed.

(** Servo 1 standing at 1500 is given speed 300 and acceleration 20. *)
Lemma speed_change_keeps_position_witness :
  is_connected connected0 = true
  /\ packet_handler connected0 = true
  /\ set_servo_speed_and_acceleration (ok_bus 1500) 1 300 20 connected0
     = (Ret Done,
        with_trace [EvCall (ReadPos 1) (Reply 1500 COMM_SUCCESS);
                    EvCall (WritePosEx 1 1500 300 20) (Reply 1 COMM_SUCCESS)]
          connected0).
Proof.
  split; [reflexivity |]. split; [reflexivity |].
  destruct (speed_change_keeps_position (ok_bus 1500) 1 300 20 connected0
              eq_refl eq_refl) as (a & t & E & H).
  cbn in H. destruct H as (r & -> & ->). rewrite E.
  vm_compute in E. injection E as E1 E2. subst r. reflexivity.
Defined.

Section Offline.

Variable bus : world.

Lemma stop_each_offline ids : forall s,
  is_connected s = false ->
  stop_each bus ids s
  = (Ret (map (fun id => (id, Refused NotConnected)) ids), s).
Proof.
  induction ids as [|id ids IH]; intros s Hc; [reflexivity |].
  cbn [stop_each map]. unfold bind at 1, stop_one.
  rewrite run_gets, Hc. cbn [negb ret]. unfold bind. by rewrite IH.
Qed.

Lemma resume_each_offline ids : forall s,
  is_connected s = false ->
  resume_each bus ids s
  = (Ret (map (fun id => (id, Refused NotConnected)) ids), s).
Proof.
  induction ids as [|id ids IH]; intros s Hc; [reflexivity |].
  cbn [resume_each map]. unfold bind at 1, resume_one.
  rewrite run_gets, Hc. cbn [negb ret]. unfold bind. by rewrite IH.
Qed.

End Offline.

(** X17. A disconnected controller moves nothing.  When [is_connected]
    is not set, the four movement operations send nothing and change
    nothing: a start and a pause request are refused as a whole with "Not
    connected", while stop and resume answer with an overall success and
    refuse each servo with "Not connected". *)
Theorem disconnected_controller_sends_nothing (bus : world) (s : cstate) :
  is_connected s = false ->
  (forall configs,
     start_continuous_movement bus configs s
     = (Ret (Failure NotConnected, []), s))
  /\ (forall ids,
        ids <> [] ->
        pause_continuous_movement bus ids s
        = (Ret (inl (Failure NotConnected)), s))
  /\ (forall ids,
        stop_continuous_movement bus ids s
        = (Ret (Done, map (fun id => (id, Refused NotConnected)) ids), s))
  /\ (forall ids,
        resume_continuous_movement bus ids s
        = (Ret (Done, map (fun id => (id, Refused NotConnected)) ids), s)).
Proof.
  intros Hc.
  repeat match goal with |- _ /\ _ => split end; intros.
  - unfold start_continuous_movement. by rewrite run_gets, Hc.
  - unfold pause_continuous_movement. destruct ids; [done |].
    by rewrite run_gets, Hc.
  - unfold stop_continuous_movement, bind. by rewrite stop_each_offline.
  - unfold resume_continuous_movement, bind. by rewrite resume_each_offline.
Qed.

(** After [disconnect], a stop and a resume request for the sweeping
    servo. *)
Lemma disconnected_controller_sends_nothing_witness :
  let s := snd (disconnect (ok_bus 0) sweeping) in
  is_connected s = false
  /\ stop_continuous_movement (ok_bus 0) [1; 2] s
     = (Ret (Done, [(1, Refused NotConnected); (2, Refused NotConnected)]), s)
  /\ resume_continuous_movement (ok_bus 0) [1] s
     = (Ret (Done, [(1, Refused NotConnected)]), s).
Proof.
  cbv zeta. split; [reflexivity |].
  destruct (disconnected_controller_sends_nothing (ok_bus 0)
              (snd (disconnect (ok_bus 0) sweeping)) eq_refl)
    as (_ & _ & Hstop & Hresume).
  split; [apply Hstop | apply Hresume].
Defined.

Section SingleCommands.

Variable bus : world.

(** The shape the four single commands share. *)
Lemma one_call_shape (c : call) (on_success : Z -> answer) (s : cstate) :
  (forall v, succeeded (on_success v) = true) ->
  one_call bus c
    (connected <- gets is_connected ;;
     if negb connected then ret (Refused NotConnected) else
     try_except
       (r <- sdk bus c ;;
        if comm_ok (snd r) then ret (on_success (fst r))
        else ret (CommError (snd r)))
       (ret (Refused Unexpected))) s.
Proof.
  intros Hok. unfold one_call. rewrite run_gets.
  destruct (is_connected s) eqn:Hc; cbn [negb].
  - unfold try_except, sdk. unfold bind at 1. rewrite run_gets.
    destruct (packet_handler s) eqn:Hh.
    + unfold ask. destruct (bus (trace s) c) as [|v cr] eqn:Er.
      * exists (Refused Unexpected), [EvCall c Raised].
        split; [reflexivity |]. split; [by right |].
        cbn. split; [| done]. split; [done | by intros [_ ?]].
      * cbn [snd fst]. destruct (comm_ok cr) eqn:Ecr.
        -- exists (on_success v), [EvCall c (Reply v cr)].
           split; [reflexivity |]. split; [by right |].
           cbn [reply_ok]. rewrite Hok, Ecr. split; [| done].
           split; [done | by intros _].
        -- exists (CommError cr), [EvCall c (Reply v cr)].
           split; [reflexivity |]. split; [by right |].
           cbn [reply_ok succeeded]. rewrite Ecr. split; [| done].
           split; [done | by intros [_ ?]].
    + exists (Refused Unexpected), [].
      rewrite app_nil_r, with_trace_id. split; [reflexivity |].
      split; [by left |]. cbn. split; [| done]. split; [done |].
      by intros [? _].
  - exists (Refused NotConnected), [].
    rewrite app_nil_r, with_trace_id. split; [reflexivity |].
    split; [by left |]. cbn. split; [| done]. split; [done |].
    by intros [? _].
Qed.

End SingleCommands.

(** X22. The single commands.  From every state of the controller,
    connected or not, with or without a packet handler, [ping_servo],
    [set_servo_position], [enable_torque] and [disable_torque] return an
    answer and raise nothing; each sends at most its one call ([ping],
    [WritePosEx] with the arguments given, a write of 1 or 0 to the
    torque register) and changes nothing else; the answer is a success
    exactly when that call was sent and answered with success; and
    nothing is sent while the controller is disconnected. *)
Theorem single_commands_send_one_call (bus : world) (s : cstate) :
  (forall id, one_call bus (Ping id) (ping_servo bus id) s)
  /\ (forall id p v a,
        one_call bus (WritePosEx id p v a) (set_servo_position bus id p v a) s)
  /\ (forall id,
        one_call bus (Write1ByteTxRx id STS_TORQUE_ENABLE 1)
          (enable_torque bus id) s)
  /\ (forall id,
        one_call bus (Write1ByteTxRx id STS_TORQUE_ENABLE 0)
          (disable_torque bus id) s).
Proof.
  repeat split; intros.
  - apply (one_call_shape bus (Ping id) Online). done.
  - apply (one_call_shape bus (WritePosEx id p v a) (fun _ => Done)). done.
  - apply (one_call_shape bus (Write1ByteTxRx id STS_TORQUE_ENABLE 1)
             (fun _ => Done)). done.
  - apply (one_call_shape bus (Write1ByteTxRx id STS_TORQUE_ENABLE 0)
             (fun _ => Done)). done.
Qed.

(** * Recovery and the retry loop *)

(** X18. What a recovery does.  With a packet handler,
    [_attempt_servo_recovery] pings the servo, enables its torque and
    reads its position, stopping at the first of these that fails or
    raises; it always returns, and its answer is [True] exactly when all
    three succeeded, in which case [current_position] has become the
    position read.  Otherwise the pattern object is left as it was. *)
Theorem recovery_resynchronises_position
    (bus : world) (servo_id : Z) (l : loc) (s : cstate) :
  packet_handler s = true ->
  let r_ping := bus (trace s) (Ping servo_id) in
  let t1 := trace s ++ [EvCall (Ping servo_id) r_ping] in
  let r_torque := bus t1 (torque_on servo_id) in
  let t2 := t1 ++ [EvCall (torque_on servo_id) r_torque] in
  let r_read := bus t2 (ReadPos servo_id) in
  let recovered := reply_ok r_ping && reply_ok r_torque && reply_ok r_read in
  exists s',
    _attempt_servo_recovery bus servo_id l s = (Ret recovered, s')
    /\ pattern_at l s'
       = (if recovered
          then <["current_position" := VInt (hold_position r_read)]> (pattern_at l s)
          else pattern_at l s)
    /\ bus_calls (drop (length (trace s)) (trace s'))
       = Ping servo_id
         :: (if reply_ok r_ping
             then torque_on servo_id
                  :: (if reply_ok r_torque then [ReadPos servo_id] else [])
             else []).
Proof.
  intros Hp. cbv zeta. unfold _attempt_servo_recovery.
  unfold try_except at 1. unfold bind at 1.
  rewrite (run_guarded_call bus _ _ Hp).
  set (r_ping := bus (trace s) (Ping servo_id)).
  set (s1 := logged (EvCall (Ping servo_id) r_ping) s).
  assert (Hp1 : packet_handler s1 = true)
    by (unfold s1; autorewrite with reached; exact Hp).
  assert (T1 : trace s1 = trace s ++ [EvCall (Ping servo_id) r_ping])
    by (unfold s1; by autorewrite with reached).
  destruct (reply_ok r_ping); cbn [negb andb ret].
  2: { exists s1. split; [reflexivity |].
       split; [unfold s1; by autorewrite with reached |].
       rewrite T1, drop_app_length. reflexivity. }
  unfold bind at 1. rewrite (run_guarded_call bus _ _ Hp1). rewrite T1.
  fold (torque_on servo_id).
  set (r_torque := bus _ (torque_on servo_id)).
  set (s2 := logged (EvCall (torque_on servo_id) r_torque) s1).
  assert (Hp2 : packet_handler s2 = true)
    by (unfold s2; autorewrite with reached; exact Hp1).
  assert (T2 : trace s2 = (trace s ++ [EvCall (Ping servo_id) r_ping])
                          ++ [EvCall (torque_on servo_id) r_torque])
    by (unfold s2; autorewrite with reached; by rewrite T1).
  destruct (reply_ok r_torque); cbn [negb andb ret].
  2: { exists s2. split; [reflexivity |].
       split; [unfold s2, s1; by autorewrite with reached |].
       rewrite T2, <- app_assoc, drop_app_length. reflexivity. }
  unfold try_except. rewrite (run_sdk bus _ _ _ Hp2). rewrite T2.
  set (r_read := bus _ (ReadPos servo_id)).
  destruct r_read as [|pos c] eqn:Er.
  { eexists. split; [reflexivity |].
    split; [unfold s2, s1; by autorewrite with reached |].
    autorewrite with reached. rewrite T2, <- !app_assoc, drop_app_length.
    reflexivity. }
  cbn [fst snd reply_ok hold_position]. destruct (comm_ok c).
  - rewrite run_pset. cbn [ret]. eexists. split; [reflexivity |].
    split; [unfold s2, s1; by autorewrite with reached |].
    autorewrite with reached. rewrite T2, <- !app_assoc, drop_app_length.
    reflexivity.
  - eexists. split; [reflexivity |].
    split; [unfold s2, s1; by autorewrite with reached |].
    autorewrite with reached. rewrite T2, <- !app_assoc, drop_app_length.
    reflexivity.
Qed.

(** The sweeping servo 1 is found standing at 1500. *)
Lemma recovery_resynchronises_position_witness :
  packet_handler sweeping = true
  /\ exists s',
       _attempt_servo_recovery (ok_bus 1500) 1 0%nat sweeping = (Ret true, s')
       /\ pattern_at 0%nat s' !! "current_position" = Some (VInt 1500).
Proof.
  split; [reflexivity |].
  destruct (recovery_resynchronises_position (ok_bus 1500) 1 0%nat sweeping eq_refl)
    as (s' & E & Hpat & _).
  exists s'. split; [exact E |]. rewrite Hpat. vm_compute. reflexivity.
Defined.

(** * What the worker leaves alone *)

#[local] Instance own_preorder servo_id l : PreOrder (own servo_id l).
Proof.
  split.
  - intros s. split; [exists []; by rewrite app_nil_r |]. by split.
  - intros s1 s2 s3 [[t1 [T1 Q1]] [H1 E1]] [[t2 [T2 Q2]] [H2 E2]].
    split; [| split].
    + exists (t1 ++ t2). rewrite T2, T1, <- app_assoc.
      split; [reflexivity |]. by rewrite forallb_app, Q1, Q2.
    + intros l' Hl'. by rewrite H2, H1.
    + congruence.
Qed.

#[local] Instance own_w_preorder servo_id l : PreOrder (own_w servo_id l).
Proof.
  split.
  - intros w. unfold own_w. reflexivity.
  - intros w1 w2 w3. unfold own_w. apply transitivity.
Qed.

Lemma clamp_bounds lo hi v z : clamp lo hi v = Some z -> lo <= hi -> lo <= z <= hi.
Proof.
  unfold clamp. destruct (num v); [| discriminate]. intros [= <-] H. lia.
Qed.

Section WorkerKeeps.

Variable bus : world.
Variable servo_id : Z.
Variable l : loc.

Lemma own_log e s :
  own_event servo_id l e = true -> (own servo_id l) s (with_trace (trace s ++ [e]) s).
Proof.
  intros He. split; [| by split].
  exists [e]. split; [reflexivity |]. cbn [forallb]. by rewrite He.
Qed.

Lemma keeps_log e : own_event servo_id l e = true -> keeps (own servo_id l) (log e).
Proof. intros He. apply keeps_modify. intros s. by apply own_log. Qed.

Lemma keeps_sleep ms : keeps (own servo_id l) (sleep ms).
Proof. by apply keeps_log. Qed.

Lemma keeps_ask c : own_call servo_id c = true -> keeps (own servo_id l) (ask bus c).
Proof.
  intros Hc s. unfold ask. destruct (bus (trace s) c); cbn [snd];
    by apply own_log.
Qed.

Lemma keeps_sdk c : own_call servo_id c = true -> keeps (own servo_id l) (sdk bus c).
Proof.
  intros Hc. unfold sdk.
  apply (keeps_bind (own servo_id l)); [apply (keeps_gets (own servo_id l)) |].
  intros [|]; [by apply keeps_ask | apply (keeps_raise (own servo_id l))].
Qed.

Lemma keeps_pget k d : keeps (own servo_id l) (pget l k d).
Proof. apply (keeps_gets (own servo_id l)). Qed.

Lemma keeps_has_key k : keeps (own servo_id l) (has_key l k).
Proof. apply (keeps_gets (own servo_id l)). Qed.

Lemma keeps_pidx k : keeps (own servo_id l) (pidx l k).
Proof.
  unfold pidx.
  apply (keeps_bind (own servo_id l)); [apply (keeps_gets (own servo_id l)) |].
  intros; apply (keeps_of_option (own servo_id l)).
Qed.

Lemma keeps_pset k v : keeps (own servo_id l) (pset l k v).
Proof.
  intros s. split; [| split].
  - exists [EvSet l k v]. rewrite trace_pset. split; [reflexivity |].
    cbn [forallb own_event]. by rewrite Nat.eqb_refl.
  - intros l' Hl'. cbn [pset modify snd heap with_heap].
    by rewrite lookup_insert_ne.
  - reflexivity.
Qed.

Lemma keeps_with_pause_lock {A} (m : M cstate A) :
  keeps (own servo_id l) m -> keeps (own servo_id l) (with_lock pause_lock m).
Proof.
  intros Hm. unfold with_lock. apply (keeps_bind (own servo_id l)); [| intros _].
  - intros s. unfold acquire. destruct (is_held pause_lock s); cbn [snd];
      [reflexivity |].
    split; [| by split]. exists [EvAcquire pause_lock]. by split.
  - apply (keeps_try_finally (own servo_id l)); [exact Hm |].
    apply keeps_modify. intros s. split; [| by split].
    exists [EvRelease pause_lock]. by split.
Qed.

Lemma keeps_lift {A} (m : M cstate A) : keeps (own servo_id l) m -> keeps (own_w servo_id l) (lift m).
Proof.
  intros Hm w. unfold lift, own_w. specialize (Hm (wc w)).
  destruct (m (wc w)) as [r c]. exact Hm.
Qed.

Lemma keeps_set_failures n : keeps (own_w servo_id l) (set_failures n).
Proof. apply keeps_modify. intros w. unfold own_w. reflexivity. Qed.

Lemma keeps_set_last v : keeps (own_w servo_id l) (set_last v).
Proof. apply keeps_modify. intros w. unfold own_w. reflexivity. Qed.

Lemma keeps_set_steps n : keeps (own_w servo_id l) (set_steps n).
Proof. apply keeps_modify. intros w. unfold own_w. reflexivity. Qed.

End WorkerKeeps.

Create HintDb keeps.

(** A call is the worker's own: the address is the servo's, and the
    ranges follow from the clamps passed on the way. *)
Ltac own_call_tac :=
  cbn [own_call]; rewrite ?Z.eqb_refl; cbn [andb];
  repeat match goal with
         | H : clamp ?lo ?hi _ = Some _ |- _ =>
             apply clamp_bounds in H; [| lia]
         end;
  repeat (apply andb_true_intro; split);
  first [reflexivity | apply Z.leb_le; lia].

(** One syntax-directed step of a proof that code keeps to its own. *)
Ltac keeps_step :=
  match goal with
  | |- keeps ?R (bind (of_option _) _) =>
      apply (keeps_bind_of_option R); intros ? ?
  | |- keeps ?R (bind _ _) => apply (keeps_bind R); [| intros ?]
  | |- keeps ?R (ret _) => apply (keeps_ret R)
  | |- keeps ?R raise => apply (keeps_raise R)
  | |- keeps ?R (gets _) => apply (keeps_gets R)
  | |- keeps ?R (of_option _) => apply (keeps_of_option R)
  | |- keeps ?R (try_except _ _) => apply (keeps_try_except R)
  | |- keeps ?R (val_get _ _ _) => apply (keeps_val_get R)
  | |- keeps _ (sleep _) => apply keeps_sleep
  | |- keeps _ (ask _ _) => apply keeps_ask; own_call_tac
  | |- keeps _ (sdk _ _) => apply keeps_sdk; own_call_tac
  | |- keeps _ (pget _ _ _) => apply keeps_pget
  | |- keeps _ (pidx _ _) => apply keeps_pidx
  | |- keeps _ (has_key _ _) => apply keeps_has_key
  | |- keeps _ (pset _ _ _) => apply keeps_pset
  | |- keeps _ (with_lock pause_lock _) => apply keeps_with_pause_lock
  | |- keeps _ (lift _) => apply keeps_lift
  | |- keeps _ (set_failures _) => apply keeps_set_failures
  | |- keeps _ (set_last _) => apply keeps_set_last
  | |- keeps _ (set_steps _) => apply keeps_set_steps
  | |- keeps _ _ => solve [eauto with keeps]
  | |- keeps _ (match ?x with _ => _ end) => destruct x
  end.

Ltac keeps_tac := cbv zeta; repeat keeps_step.

Section WorkerOwn.

Variable bus : world.
Variable servo_id : Z.
Variable l : loc.

Lemma keeps_attempt_servo_recovery :
  keeps (own servo_id l) (_attempt_servo_recovery bus servo_id l).
Proof. unfold _attempt_servo_recovery. keeps_tac. Qed.
#[local] Hint Resolve keeps_attempt_servo_recovery : keeps.

Lemma keeps_health_recovery n : keeps (own servo_id l) (health_recovery bus n servo_id l).
Proof. induction n as [|n IH]; cbn [health_recovery]; keeps_tac. Qed.
#[local] Hint Resolve keeps_health_recovery : keeps.

Lemma keeps_check_health :
  keeps (own servo_id l) (_check_communication_health_during_movement bus servo_id l).
Proof. unfold _check_communication_health_during_movement. keeps_tac. Qed.
#[local] Hint Resolve keeps_check_health : keeps.

Lemma keeps_count_cycle : keeps (own servo_id l) (count_cycle l).
Proof. unfold count_cycle. keeps_tac. Qed.
#[local] Hint Resolve keeps_count_cycle : keeps.

Lemma keeps_calculate_sweep_position current_pos :
  keeps (own servo_id l) (_calculate_sweep_position servo_id l current_pos).
Proof. unfold _calculate_sweep_position. keeps_tac. Qed.
#[local] Hint Resolve keeps_calculate_sweep_position : keeps.

Lemma keeps_calculate_wave_position current_pos :
  keeps (own servo_id l) (_calculate_wave_position bus servo_id l current_pos).
Proof. unfold _calculate_wave_position. keeps_tac. Qed.
#[local] Hint Resolve keeps_calculate_wave_position : keeps.

Lemma keeps_calculate_next_position :
  keeps (own servo_id l) (_calculate_next_position bus servo_id l).
Proof. unfold _calculate_next_position. keeps_tac. Qed.
#[local] Hint Resolve keeps_calculate_next_position : keeps.

Lemma keeps_checked_setpoint next_position :
  keeps (own servo_id l) (checked_setpoint l next_position).
Proof. unfold checked_setpoint. keeps_tac. Qed.
#[local] Hint Resolve keeps_checked_setpoint : keeps.

Lemma keeps_execute_sweep_step next_position :
  keeps (own servo_id l) (_execute_sweep_step bus servo_id l next_position).
Proof. unfold _execute_sweep_step. keeps_tac. Qed.

Lemma keeps_execute_wave_step next_position :
  keeps (own servo_id l) (_execute_wave_step bus servo_id l next_position).
Proof. unfold _execute_wave_step. keeps_tac. Qed.

Lemma keeps_execute_rotation_step :
  keeps (own servo_id l) (_execute_rotation_step bus servo_id l).
Proof. unfold _execute_rotation_step. keeps_tac. Qed.
#[local] Hint Resolve keeps_execute_sweep_step keeps_execute_wave_step
  keeps_execute_rotation_step : keeps.

Lemma keeps_stop_requested : keeps (own servo_id l) (stop_requested l).
Proof. unfold stop_requested. keeps_tac. Qed.
#[local] Hint Resolve keeps_stop_requested : keeps.

Lemma keeps_reverse_sweep : keeps (own servo_id l) (reverse_sweep l).
Proof. unfold reverse_sweep. keeps_tac. Qed.
#[local] Hint Resolve keeps_reverse_sweep : keeps.

Lemma keeps_apply_angle_constraints next_position :
  keeps (own servo_id l) (apply_angle_constraints l next_position).
Proof. unfold apply_angle_constraints. keeps_tac. Qed.
#[local] Hint Resolve keeps_apply_angle_constraints : keeps.

Lemma keeps_execute_step next_position :
  keeps (own servo_id l) (execute_step bus servo_id l next_position).
Proof. unfold execute_step. keeps_tac. Qed.
#[local] Hint Resolve keeps_execute_step : keeps.

Lemma keeps_movement_attempts n attempt next_position :
  keeps (own servo_id l) (movement_attempts bus n attempt servo_id l next_position).
Proof.
  revert attempt. induction n as [|n IH]; intros attempt;
    cbn [movement_attempts]; keeps_tac.
Qed.
#[local] Hint Resolve keeps_movement_attempts : keeps.

Lemma keeps_count_boundary next_position :
  keeps (own servo_id l) (count_boundary l next_position).
Proof. unfold count_boundary. keeps_tac. Qed.
#[local] Hint Resolve keeps_count_boundary : keeps.

Lemma keeps_on_movement_success next_position :
  keeps (own_w servo_id l) (on_movement_success l next_position).
Proof. unfold on_movement_success. keeps_tac. Qed.

Lemma keeps_recovery_attempts n :
  keeps (own_w servo_id l) (recovery_attempts bus n servo_id l).
Proof. induction n as [|n IH]; cbn [recovery_attempts]; keeps_tac. Qed.
#[local] Hint Resolve keeps_on_movement_success keeps_recovery_attempts : keeps.

Lemma keeps_on_movement_failure :
  keeps (own_w servo_id l) (on_movement_failure bus servo_id l).
Proof. unfold on_movement_failure. keeps_tac. Qed.

Lemma keeps_on_iteration_error : keeps (own_w servo_id l) on_iteration_error.
Proof. unfold on_iteration_error. keeps_tac. Qed.
#[local] Hint Resolve keeps_on_movement_failure keeps_on_iteration_error : keeps.

Lemma keeps_iteration_body : keeps (own_w servo_id l) (iteration_body bus servo_id l).
Proof. unfold iteration_body. keeps_tac. Qed.
#[local] Hint Resolve keeps_iteration_body : keeps.

Lemma keeps_worker_iteration : keeps (own_w servo_id l) (worker_iteration bus servo_id l).
Proof. unfold worker_iteration. keeps_tac. Qed.
#[local] Hint Resolve keeps_worker_iteration : keeps.

Lemma keeps_worker_loop fuel : keeps (own_w servo_id l) (worker_loop bus fuel servo_id l).
Proof. induction fuel as [|fuel IH]; cbn [worker_loop]; keeps_tac. Qed.
#[local] Hint Resolve keeps_worker_loop : keeps.

Lemma keeps_set_default k v : keeps (own servo_id l) (set_default l k v).
Proof. unfold set_default. keeps_tac. Qed.
#[local] Hint Resolve keeps_set_default : keeps.

Lemma keeps_worker_init : keeps (own servo_id l) (worker_init bus servo_id l).
Proof. unfold worker_init. keeps_tac. Qed.
#[local] Hint Resolve keeps_worker_init : keeps.

Lemma keeps_worker fuel :
  keeps (own_w servo_id l) (_continuous_movement_worker bus fuel servo_id l).
Proof. unfold _continuous_movement_worker. keeps_tac. Qed.

End WorkerOwn.

(** X19. A worker minds its own servo.  Whatever the bus answers and
    however long it runs, the worker of a servo only pings, reads,
    enables the torque of and sends motion commands to that servo, every
    motion command with a speed within 0..1023 ([WritePosEx]) or 0..2047
    ([WriteSpec]) and an acceleration within 0..254; it takes no lock but
    the pause lock, writes to no pattern object but its own, and leaves
    the controller's tables as they are. *)
Theorem worker_minds_its_own_servo
    (bus : world) (fuel : nat) (servo_id : Z) (l : loc) (w : wstate) :
  let s' := wc (snd (_continuous_movement_worker bus fuel servo_id l w)) in
  (exists t,
     trace s' = trace (wc w) ++ t
     /\ forallb (own_event servo_id l) t = true)
  /\ (forall l', l' <> l -> pattern_at l' s' = pattern_at l' (wc w))
  /\ movement_patterns s' = movement_patterns (wc w)
  /\ continuous_movement_threads s' = continuous_movement_threads (wc w)
  /\ is_connected s' = is_connected (wc w)
  /\ packet_handler s' = packet_handler (wc w).
Proof.
  cbv zeta. destruct (keeps_worker bus servo_id l fuel w) as (Ht & Hh & Htab).
  split; [exact Ht |].
  split; [intros l' Hl'; unfold pattern_at; by rewrite Hh |].
  unfold tables in Htab. injection Htab as _ Hp Hc _ Hth Hm _ _ _ _ _ _.
  auto.
Qed.

(** * The retry loop *)

(** A [try] whose handler only logs either ends normally or blocks. *)
Lemma guarded_returns {S} (m : M S unit) s :
  fst (try_except m (ret tt) s) <> Hang ->
  fst (try_except m (ret tt) s) = Ret tt.
Proof.
  unfold try_except. destruct (m s) as [[[]| |] s1]; cbn; congruence.
Qed.

Section Retry.

Variable bus : world.
Variable l : loc.

(** The step of a pattern ends normally whatever the bus does; only a
    missing [type] and, for a rotation, an [acceleration] that is not a
    number make it raise. *)
Lemma execute_step_returns servo_id next_position ty s :
  pattern_at l s !! "type" = Some (VStr ty) ->
  (ty = "rotation" ->
   numeric_or_absent (pattern_at l s !! "acceleration") = true) ->
  fst (execute_step bus servo_id l next_position s) = Ret tt.
Proof.
  intros Hty Hacc. unfold execute_step. rewrite run_pidx, Hty. cbn [eq_str].
  destruct (String.eqb ty "sweep").
  { apply guarded_returns.
    apply (calm_execute_sweep_step bus l servo_id next_position s). }
  destruct (String.eqb_spec ty "rotation") as [-> | _].
  { pose proof (calm_execute_rotation_step bus l servo_id s) as [Hh _].
    revert Hh. unfold _execute_rotation_step. rewrite !run_pget. cbv zeta.
    destruct (clamp_numeric (pattern_at l s !! "acceleration") (VInt 50) 0 254
                (Hacc eq_refl) eq_refl) as [z Hz].
    unfold dict_get. rewrite Hz. cbn [of_option]. rewrite run_ret.
    apply guarded_returns. }
  destruct (String.eqb ty "wave"); [| reflexivity].
  apply guarded_returns.
  apply (calm_execute_wave_step bus l servo_id next_position s).
Qed.

(** The events of a step whose outcome is settled. *)
Ltac settle_events :=
  cbn [snd ret];
  first
    [ exists []; split; [by rewrite app_nil_r |]; split; [reflexivity | cbn; lia]
    | eexists [_]; split; [by autorewrite with reached |];
      split; [reflexivity | cbn; lia]
    | eexists [_; _];
      split; [autorewrite with reached; by rewrite <- app_assoc |];
      split; [reflexivity | cbn; lia] ].

(** A guarded [WritePosEx] followed by the update of the stored position:
    at most one call, and no wait. *)
Lemma positional_step_events servo_id next_position s :
  exists t,
    trace (snd (_execute_sweep_step bus servo_id l next_position s)) = trace s ++ t
    /\ waits t = []
    /\ (length (bus_calls t) <= 1)%nat.
Proof.
  unfold _execute_sweep_step, try_except.
  assert (Hnp : exists np, checked_setpoint l next_position s = (Ret np, s)).
  { unfold checked_setpoint. destruct (num next_position) as [n|];
      [destruct ((n <? 0) || (4095 <? n)) |]; eexists; reflexivity. }
  destruct Hnp as [np Enp]. unfold bind at 1. rewrite Enp. rewrite !run_pget.
  destruct (clamp 0 1023 _) as [speed|]; cbn [of_option];
    [rewrite run_ret | rewrite run_raise; settle_events].
  destruct (clamp 0 254 _) as [acc|]; cbn [of_option];
    [rewrite run_ret | rewrite run_raise; settle_events].
  destruct (py_int np) as [pos|]; cbn [of_option];
    [rewrite run_ret | rewrite run_raise; settle_events].
  destruct (packet_handler s) eqn:Hp.
  2: { unfold bind. rewrite (sdk_without_handler bus _ s Hp). settle_events. }
  rewrite (run_sdk bus _ _ _ Hp).
  destruct (bus (trace s) (WritePosEx servo_id pos speed acc)) as [|v c];
    [settle_events |].
  cbn [snd]. destruct (comm_ok c); cbn [negb]; [| settle_events].
  rewrite pset_eq. settle_events.
Qed.

Lemma wave_step_eq servo_id next_position :
  _execute_wave_step bus servo_id l next_position
  = _execute_sweep_step bus servo_id l next_position.
Proof. reflexivity. Qed.

Lemma rotation_step_events servo_id s :
  exists t,
    trace (snd (_execute_rotation_step bus servo_id l s)) = trace s ++ t
    /\ waits t = []
    /\ (length (bus_calls t) <= 1)%nat.
Proof.
  unfold _execute_rotation_step. rewrite !run_pget. cbv zeta.
  destruct (clamp 0 254 _) as [acc|]; cbn [of_option];
    [rewrite run_ret | rewrite run_raise; settle_events].
  unfold try_except. destruct (packet_handler s) eqn:Hp.
  2: { unfold bind. rewrite (sdk_without_handler bus _ s Hp). settle_events. }
  rewrite (run_sdk bus _ _ _ Hp).
  match goal with |- context [bus (trace s) ?c] => destruct (bus (trace s) c) end;
    settle_events.
Qed.

Lemma execute_step_events servo_id next_position s :
  exists t,
    trace (snd (execute_step bus servo_id l next_position s)) = trace s ++ t
    /\ waits t = []
    /\ (length (bus_calls t) <= 1)%nat.
Proof.
  unfold execute_step. rewrite run_pidx.
  destruct (pattern_at l s !! "type") as [ty|]; [| settle_events].
  destruct (eq_str ty "sweep"); [apply positional_step_events |].
  destruct (eq_str ty "rotation"); [apply rotation_step_events |].
  destruct (eq_str ty "wave"); [| settle_events].
  rewrite wave_step_eq. apply positional_step_events.
Qed.

(** The retry loop ends with its first attempt. *)
Lemma movement_attempts_eq servo_id next_position ty s :
  pattern_at l s !! "type" = Some (VStr ty) ->
  stop_flag l s = false ->
  (ty = "rotation" ->
   numeric_or_absent (pattern_at l s !! "acceleration") = true) ->
  movement_attempts bus 3 0 servo_id l next_position s
  = (Ret true, snd (execute_step bus servo_id l next_position s)).
Proof.
  intros Hty Hstop Hacc. cbn [movement_attempts].
  unfold bind at 1. rewrite stop_requested_eq, Hstop.
  unfold bind at 1, try_except at 1, bind at 1.
  pose proof (execute_step_returns servo_id next_position ty s Hty Hacc) as Hr.
  destruct (execute_step bus servo_id l next_position s) as [r s1].
  cbn [fst snd] in *. subst r. reflexivity.
Qed.

End Retry.

(** X20. The retry loop never retries.  For a pattern that has a type
    (and, for a rotation, an acceleration that is a number or absent) and
    no stop flag set, the loop of up to three movement attempts ends with
    its first attempt and reports success, whatever the bus answers to the
    motion command: a transport failure or an exception of the SDK is
    swallowed by the step function.  No wait is made and at most one
    call. *)
Theorem first_attempt_always_counts
    (bus : world) (servo_id : Z) (l : loc) (next_position : val) (ty : string)
    (s : cstate) :
  pattern_at l s !! "type" = Some (VStr ty) ->
  stop_flag l s = false ->
  (ty = "rotation" ->
   numeric_or_absent (pattern_at l s !! "acceleration") = true) ->
  movement_attempts bus 3 0 servo_id l next_position s
  = (Ret true, snd (execute_step bus servo_id l next_position s))
  /\ waits (new_events (movement_attempts bus 3 0 servo_id l next_position) s) = []
  /\ (length (bus_calls
               (new_events (movement_attempts bus 3 0 servo_id l next_position) s))
      <= 1)%nat.
Proof.
  intros Hty Hstop Hacc.
  pose proof (movement_attempts_eq bus l servo_id next_position ty s Hty Hstop Hacc)
    as E.
  split; [exact E |]. unfold new_events. rewrite E. cbn [snd].
  destruct (execute_step_events bus l servo_id next_position s) as (t & T & W & B).
  rewrite T, drop_app_length. split; assumption.
Qed.

(** The sweep of servo 1 on a bus where nothing answers: the attempt
    counts, one command was sent, the stored position is unchanged. *)
Lemma first_attempt_always_counts_witness :
  pattern_at 0%nat sweeping !! "type" = Some (VStr "sweep")
  /\ stop_flag 0%nat sweeping = false
  /\ exists s',
       movement_attempts dead_bus 3 0 1 0%nat (VInt 800) sweeping = (Ret true, s')
       /\ bus_calls (drop (length (trace sweeping)) (trace s'))
          = [WritePosEx 1 800 200 50]
       /\ pattern_at 0%nat s' !! "current_position" = Some (VInt 600).
Proof.
  split; [vm_compute; reflexivity |]. split; [vm_compute; reflexivity |].
  destruct (first_attempt_always_counts dead_bus 1 0%nat (VInt 800) "sweep" sweeping
              ltac:(vm_compute; reflexivity) ltac:(vm_compute; reflexivity)
              ltac:(discriminate)) as (E & _).
  eexists. split; [exact E |]. split; vm_compute; reflexivity.
Defined.

(** * Angle limits *)

#[local] Instance bounded_preorder l d lo hi : PreOrder (bounded l d lo hi).
Proof.
  split.
  - intros s HI. split; [exact HI |]. exists []. by rewrite app_nil_r.
  - intros s1 s2 s3 H12 H23 HI.
    destruct (H12 HI) as (HI2 & t1 & T1 & Q1).
    destruct (H23 HI2) as (HI3 & t2 & T2 & Q2).
    split; [exact HI3 |]. exists (t1 ++ t2).
    rewrite T2, T1, <- app_assoc. split; [reflexivity |].
    by rewrite forallb_app, Q1, Q2.
Qed.

#[local] Instance bounded_w_preorder l d lo hi : PreOrder (bounded_w l d lo hi).
Proof.
  split.
  - intros w. unfold bounded_w. reflexivity.
  - intros w1 w2 w3. unfold bounded_w. apply transitivity.
Qed.

Section Limited.

Variable bus : world.
Variable servo_id : Z.
Variable l : loc.
Variable d : pydict.
Variables lo hi : Z.

Hypothesis enabled : truthy (dict_get d "enabled" (VBool false)) = true.
Hypothesis lower : d !! "min_angle" = Some (VInt lo).
Hypothesis upper : d !! "max_angle" = Some (VInt hi).
Hypothesis in_range : 0 <= lo <= hi /\ hi <= 4095.

Lemma bounded_log e s :
  within lo hi e = true ->
  bounded l d lo hi s (with_trace (trace s ++ [e]) s).
Proof.
  intros He HI. split; [exact HI |]. exists [e]. split; [reflexivity |].
  cbn [forallb]. by rewrite He.
Qed.

Lemma lim_log e : within lo hi e = true -> keeps (bounded l d lo hi) (log e).
Proof. intros He. apply keeps_modify. intros s. by apply bounded_log. Qed.

Lemma lim_sleep ms : keeps (bounded l d lo hi) (sleep ms).
Proof. by apply lim_log. Qed.

Lemma lim_ask c :
  (forall r, within lo hi (EvCall c r) = true) ->
  keeps (bounded l d lo hi) (ask bus c).
Proof.
  intros Hc s. unfold ask. destruct (bus (trace s) c); cbn [snd];
    by apply bounded_log.
Qed.

Lemma lim_sdk c :
  (forall r, within lo hi (EvCall c r) = true) ->
  keeps (bounded l d lo hi) (sdk bus c).
Proof.
  intros Hc. unfold sdk.
  apply (keeps_bind (bounded l d lo hi)); [apply (keeps_gets (bounded l d lo hi)) |].
  intros [|]; [by apply lim_ask | apply (keeps_raise (bounded l d lo hi))].
Qed.

Lemma lim_pget k v : keeps (bounded l d lo hi) (pget l k v).
Proof. apply (keeps_gets (bounded l d lo hi)). Qed.

Lemma lim_has_key k : keeps (bounded l d lo hi) (has_key l k).
Proof. apply (keeps_gets (bounded l d lo hi)). Qed.

Lemma lim_pidx k : keeps (bounded l d lo hi) (pidx l k).
Proof.
  unfold pidx.
  apply (keeps_bind (bounded l d lo hi)); [apply (keeps_gets (bounded l d lo hi)) |].
  intros; apply (keeps_of_option (bounded l d lo hi)).
Qed.

Lemma lim_pset k v :
  k <> "angle_constraints" -> keeps (bounded l d lo hi) (pset l k v).
Proof.
  intros Hk s HI. split.
  - unfold limited_to in *. rewrite pattern_at_pset, decide_True by done.
    by rewrite lookup_insert_ne.
  - exists [EvSet l k v]. by rewrite trace_pset.
Qed.

Lemma lim_with_pause_lock {A} (m : M cstate A) :
  keeps (bounded l d lo hi) m -> keeps (bounded l d lo hi) (with_lock pause_lock m).
Proof.
  intros Hm. unfold with_lock.
  apply (keeps_bind (bounded l d lo hi)); [| intros _].
  - intros s. unfold acquire. destruct (is_held pause_lock s); cbn [snd];
      [reflexivity |].
    intros HI. split; [exact HI |]. exists [EvAcquire pause_lock]. by split.
  - apply (keeps_try_finally (bounded l d lo hi)); [exact Hm |].
    apply keeps_modify. intros s HI. split; [exact HI |].
    exists [EvRelease pause_lock]. by split.
Qed.

Lemma lim_lift {A} (m : M cstate A) :
  keeps (bounded l d lo hi) m -> keeps (bounded_w l d lo hi) (lift m).
Proof.
  intros Hm w. unfold lift, bounded_w. specialize (Hm (wc w)).
  destruct (m (wc w)) as [r c]. exact Hm.
Qed.

Lemma lim_modify_w (f : wstate -> wstate) :
  (forall w, wc (f w) = wc w) -> keeps (bounded_w l d lo hi) (modify f).
Proof.
  intros Hf. apply keeps_modify. intros w. unfold bounded_w. rewrite Hf.
  reflexivity.
Qed.

(** A continuation that is only run on what [m] returns from a state
    with the constraints. *)
Lemma lim_bind_when {A B} (P : A -> Prop) (m : M wstate A) (f : A -> M wstate B) :
  keeps (bounded_w l d lo hi) m ->
  (forall w a w1, limited_to l d (wc w) -> m w = (Ret a, w1) -> P a) ->
  (forall a, P a -> keeps (bounded_w l d lo hi) (f a)) ->
  keeps (bounded_w l d lo hi) (bind m f).
Proof.
  intros Hm HP Hf w. unfold bind. pose proof (Hm w) as Hw.
  destruct (m w) as [[a| |] w1] eqn:E; cbn [snd] in *; try assumption.
  intros HI. destruct (Hw HI) as (HI1 & t1 & T1 & Q1).
  destruct (Hf a (HP w a w1 HI E) w1 HI1) as (HI2 & t2 & T2 & Q2).
  split; [exact HI2 |]. exists (t1 ++ t2).
  rewrite T2, T1, <- app_assoc. split; [reflexivity |].
  by rewrite forallb_app, Q1, Q2.
Qed.

Lemma lim_bind_eq {A B} (m : M cstate A) (a : A) (f : A -> M cstate B) :
  (forall s, m s = (Ret a, s)) ->
  keeps (bounded l d lo hi) (f a) -> keeps (bounded l d lo hi) (bind m f).
Proof. intros Hm Hf s. unfold bind. rewrite Hm. apply Hf. Qed.

End Limited.

Create HintDb limits.

(** A call that is no position command, or a position command whose
    position is the checked setpoint. *)
Ltac within_tac :=
  intros ?; first
    [ reflexivity
    | cbn [within];
      repeat match goal with
             | H : setpoint_within _ _ ?v |- _ =>
                 destruct H as (? & ? & ?); destruct v; try discriminate
             | H : py_int _ = Some _ |- _ => cbn [py_int] in H
             end;
      simplify_eq; apply andb_true_intro; split; apply Z.leb_le; lia ].

Ltac lim_step :=
  match goal with
  | |- keeps ?R (bind (of_option _) _) =>
      apply (keeps_bind_of_option R); intros ? ?
  | |- keeps ?R (bind _ _) => apply (keeps_bind R); [| intros ?]
  | |- keeps ?R (ret _) => apply (keeps_ret R)
  | |- keeps ?R raise => apply (keeps_raise R)
  | |- keeps ?R (gets _) => apply (keeps_gets R)
  | |- keeps ?R (of_option _) => apply (keeps_of_option R)
  | |- keeps ?R (try_except _ _) => apply (keeps_try_except R)
  | |- keeps ?R (val_get _ _ _) => apply (keeps_val_get R)
  | |- keeps _ (sleep _) => apply lim_sleep
  | |- keeps _ (ask _ _) => apply lim_ask; within_tac
  | |- keeps _ (sdk _ _) => apply lim_sdk; within_tac
  | |- keeps _ (pget _ _ _) => apply lim_pget
  | |- keeps _ (pidx _ _) => apply lim_pidx
  | |- keeps _ (has_key _ _) => apply lim_has_key
  | |- keeps _ (pset _ _ _) => apply lim_pset; discriminate
  | |- keeps _ (with_lock pause_lock _) => apply lim_with_pause_lock
  | |- keeps _ (lift _) => apply lim_lift
  | |- keeps _ (set_failures _) => apply lim_modify_w; reflexivity
  | |- keeps _ (set_last _) => apply lim_modify_w; reflexivity
  | |- keeps _ (set_steps _) => apply lim_modify_w; reflexivity
  | |- keeps _ _ => solve [eauto with limits]
  | |- keeps _ (match ?x with _ => _ end) => destruct x
  end.

Ltac lim_tac := cbv zeta; repeat lim_step.

Section WorkerLimited.

Variable bus : world.
Variable servo_id : Z.
Variable l : loc.
Variable d : pydict.
Variables lo hi : Z.

Hypothesis enabled : truthy (dict_get d "enabled" (VBool false)) = true.
Hypothesis lower : d !! "min_angle" = Some (VInt lo).
Hypothesis upper : d !! "max_angle" = Some (VInt hi).
Hypothesis in_range : 0 <= lo <= hi /\ hi <= 4095.

Lemma lim_attempt_servo_recovery :
  keeps (bounded l d lo hi) (_attempt_servo_recovery bus servo_id l).
Proof. unfold _attempt_servo_recovery. lim_tac. Qed.
#[local] Hint Resolve lim_attempt_servo_recovery : limits.

Lemma lim_health_recovery n :
  keeps (bounded l d lo hi) (health_recovery bus n servo_id l).
Proof. induction n as [|n IH]; cbn [health_recovery]; lim_tac. Qed.
#[local] Hint Resolve lim_health_recovery : limits.

Lemma lim_check_health :
  keeps (bounded l d lo hi)
    (_check_communication_health_during_movement bus servo_id l).
Proof. unfold _check_communication_health_during_movement. lim_tac. Qed.
#[local] Hint Resolve lim_check_health : limits.

Lemma lim_count_cycle : keeps (bounded l d lo hi) (count_cycle l).
Proof. unfold count_cycle. lim_tac. Qed.
#[local] Hint Resolve lim_count_cycle : limits.

Lemma lim_calculate_sweep_position current_pos :
  keeps (bounded l d lo hi) (_calculate_sweep_position servo_id l current_pos).
Proof. unfold _calculate_sweep_position. lim_tac. Qed.
#[local] Hint Resolve lim_calculate_sweep_position : limits.

Lemma lim_calculate_wave_position current_pos :
  keeps (bounded l d lo hi) (_calculate_wave_position bus servo_id l current_pos).
Proof. unfold _calculate_wave_position. lim_tac. Qed.
#[local] Hint Resolve lim_calculate_wave_position : limits.

Lemma lim_calculate_next_position :
  keeps (bounded l d lo hi) (_calculate_next_position bus servo_id l).
Proof. unfold _calculate_next_position. lim_tac. Qed.
#[local] Hint Resolve lim_calculate_next_position : limits.

Lemma lim_stop_requested : keeps (bounded l d lo hi) (stop_requested l).
Proof. unfold stop_requested. lim_tac. Qed.
#[local] Hint Resolve lim_stop_requested : limits.

Lemma lim_reverse_sweep : keeps (bounded l d lo hi) (reverse_sweep l).
Proof. unfold reverse_sweep. lim_tac. Qed.
#[local] Hint Resolve lim_reverse_sweep : limits.

Lemma lim_apply_angle_constraints next_position :
  keeps (bounded l d lo hi) (apply_angle_constraints l next_position).
Proof. unfold apply_angle_constraints. lim_tac. Qed.
#[local] Hint Resolve lim_apply_angle_constraints : limits.

(** With the constraints in place the constrained setpoint is a number
    within the limits, whenever one is returned. *)
Lemma constrained_setpoint_within next_position s a s1 :
  limited_to l d s ->
  apply_angle_constraints l next_position s = (Ret a, s1) ->
  setpoint_within lo hi a.
Proof.
  intros HI. unfold apply_angle_constraints.
  rewrite run_pget. unfold limited_to in HI.
  assert (dict_get (pattern_at l s) "angle_constraints" (VDict ∅) = VDict d)
    as -> by (unfold dict_get; by rewrite HI).
  assert (dict_get d "min_angle" VNone = VInt lo)
    as Emin by (unfold dict_get; by rewrite lower).
  assert (dict_get d "max_angle" VNone = VInt hi)
    as Emax by (unfold dict_get; by rewrite upper).
  cbn [val_get]. rewrite run_ret, enabled, run_ret, run_ret, Emin, Emax.
  cbn [is_none negb andb].
  unfold py_gt, py_lt. cbn [num].
  destruct (num next_position) as [n|] eqn:En.
  - cbn [of_option]. rewrite run_ret.
    destruct (n <? lo) eqn:Elo.
    + unfold bind. destruct (reverse_sweep l s) as [[[]| |] s2];
        unfold ret; intros [= <- _]. exists lo. cbn [num]. split; [done | lia].
    + cbn [of_option]. rewrite run_ret.
      destruct (hi <? n) eqn:Ehi.
      * unfold bind. destruct (reverse_sweep l s) as [[[]| |] s2];
          unfold ret; intros [= <- _]. exists hi. cbn [num]. split; [done | lia].
      * unfold ret. intros [= <- _]. exists n. split; [exact En | lia].
  - destruct next_position; cbn [of_option]; try discriminate En;
      rewrite run_raise; discriminate.
Qed.

Lemma checked_setpoint_within next_position s :
  setpoint_within lo hi next_position ->
  checked_setpoint l next_position s = (Ret next_position, s).
Proof.
  intros (z & Hz & Hr). unfold checked_setpoint. rewrite Hz.
  replace (z <? 0) with false by lia. replace (4095 <? z) with false by lia.
  reflexivity.
Qed.

Lemma lim_execute_sweep_step next_position :
  setpoint_within lo hi next_position ->
  keeps (bounded l d lo hi) (_execute_sweep_step bus servo_id l next_position).
Proof.
  intros HP. unfold _execute_sweep_step.
  apply (keeps_try_except (bounded l d lo hi)); [| lim_tac].
  apply (lim_bind_eq l d lo hi _ next_position);
    [intros s; by apply checked_setpoint_within |].
  lim_tac.
Qed.

Lemma lim_execute_wave_step next_position :
  setpoint_within lo hi next_position ->
  keeps (bounded l d lo hi) (_execute_wave_step bus servo_id l next_position).
Proof.
  intros HP. unfold _execute_wave_step.
  apply (keeps_try_except (bounded l d lo hi)); [| lim_tac].
  apply (lim_bind_eq l d lo hi _ next_position);
    [intros s; by apply checked_setpoint_within |].
  lim_tac.
Qed.

Lemma lim_execute_rotation_step :
  keeps (bounded l d lo hi) (_execute_rotation_step bus servo_id l).
Proof. unfold _execute_rotation_step. lim_tac. Qed.
#[local] Hint Resolve lim_execute_sweep_step lim_execute_wave_step
  lim_execute_rotation_step : limits.

Lemma lim_execute_step next_position :
  setpoint_within lo hi next_position ->
  keeps (bounded l d lo hi) (execute_step bus servo_id l next_position).
Proof. intros HP. unfold execute_step. lim_tac. Qed.
#[local] Hint Resolve lim_execute_step : limits.

Lemma lim_movement_attempts n attempt next_position :
  setpoint_within lo hi next_position ->
  keeps (bounded l d lo hi)
    (movement_attempts bus n attempt servo_id l next_position).
Proof.
  intros HP. revert attempt. induction n as [|n IH]; intros attempt;
    cbn [movement_attempts]; lim_tac.
Qed.
#[local] Hint Resolve lim_movement_attempts : limits.

Lemma lim_count_boundary next_position :
  keeps (bounded l d lo hi) (count_boundary l next_position).
Proof. unfold count_boundary. lim_tac. Qed.
#[local] Hint Resolve lim_count_boundary : limits.

Lemma lim_on_movement_success next_position :
  keeps (bounded_w l d lo hi) (on_movement_success l next_position).
Proof. unfold on_movement_success. lim_tac. Qed.

Lemma lim_recovery_attempts n :
  keeps (bounded_w l d lo hi) (recovery_attempts bus n servo_id l).
Proof. induction n as [|n IH]; cbn [recovery_attempts]; lim_tac. Qed.
#[local] Hint Resolve lim_on_movement_success lim_recovery_attempts : limits.

Lemma lim_on_movement_failure :
  keeps (bounded_w l d lo hi) (on_movement_failure bus servo_id l).
Proof. unfold on_movement_failure. lim_tac. Qed.

Lemma lim_on_iteration_error : keeps (bounded_w l d lo hi) on_iteration_error.
Proof. unfold on_iteration_error. lim_tac. Qed.
#[local] Hint Resolve lim_on_movement_failure lim_on_iteration_error : limits.

Lemma lim_iteration_body :
  keeps (bounded_w l d lo hi) (iteration_body bus servo_id l).
Proof.
  unfold iteration_body.
  apply (keeps_bind (bounded_w l d lo hi)); [lim_tac | intros stop1].
  destruct stop1; [lim_tac |].
  apply (keeps_bind (bounded_w l d lo hi)); [lim_tac | intros next0].
  apply (keeps_bind (bounded_w l d lo hi)); [lim_tac | intros stop2].
  destruct stop2; [lim_tac |].
  apply (lim_bind_when l d lo hi (setpoint_within lo hi)); [lim_tac | |].
  - intros w a w1 HI. unfold lift.
    destruct (apply_angle_constraints l next0 (wc w)) as [r c] eqn:E.
    intros [= -> _]. by eapply constrained_setpoint_within.
  - intros next_position HP. lim_tac.
Qed.
#[local] Hint Resolve lim_iteration_body : limits.

Lemma lim_worker_iteration :
  keeps (bounded_w l d lo hi) (worker_iteration bus servo_id l).
Proof. unfold worker_iteration. lim_tac. Qed.
#[local] Hint Resolve lim_worker_iteration : limits.

Lemma lim_worker_loop fuel :
  keeps (bounded_w l d lo hi) (worker_loop bus fuel servo_id l).
Proof. induction fuel as [|fuel IH]; cbn [worker_loop]; lim_tac. Qed.
#[local] Hint Resolve lim_worker_loop : limits.

Lemma lim_set_default k v :
  k <> "angle_constraints" -> keeps (bounded l d lo hi) (set_default l k v).
Proof. intros Hk. unfold set_default. lim_tac. by apply lim_pset. Qed.

Lemma lim_worker_init : keeps (bounded l d lo hi) (worker_init bus servo_id l).
Proof.
  unfold worker_init. lim_tac; apply lim_set_default; discriminate.
Qed.
#[local] Hint Resolve lim_worker_init : limits.

Lemma lim_worker fuel :
  keeps (bounded_w l d lo hi) (_continuous_movement_worker bus fuel servo_id l).
Proof. unfold _continuous_movement_worker. lim_tac. Qed.

End WorkerLimited.

Lemma within_setpoints lo hi t :
  forallb (within lo hi) t = true ->
  Forall (fun p => lo <= p <= hi) (setpoints t).
Proof.
  induction t as [|e t IH]; cbn [forallb]; intros H; [constructor |].
  apply andb_prop in H as [He Ht]. unfold setpoints. cbn [omap].
  destruct e as [c r| | | | |]; try (by apply IH).
  destruct c; cbn [option_bind mbind]; try (by apply IH).
  constructor; [| by apply IH]. cbn [within] in He. lia.
Qed.

(** X21. Enabled angle limits bound every position command of the
    worker.  When the pattern of a servo carries enabled angle
    constraints with limits 0 <= min <= max <= 4095, every [WritePosEx]
    the worker of that servo sends, whatever the pattern type, the bus
    and the number of turns, has a position within [min, max], and the
    worker leaves the constraints as they are. *)
Theorem limits_bound_every_setpoint
    (bus : world) (fuel : nat) (servo_id : Z) (l : loc) (d : pydict)
    (lo hi : Z) (w : wstate) :
  pattern_at l (wc w) !! "angle_constraints" = Some (VDict d) ->
  truthy (dict_get d "enabled" (VBool false)) = true ->
  d !! "min_angle" = Some (VInt lo) ->
  d !! "max_angle" = Some (VInt hi) ->
  0 <= lo -> lo <= hi -> hi <= 4095 ->
  let s' := wc (snd (_continuous_movement_worker bus fuel servo_id l w)) in
  pattern_at l s' !! "angle_constraints" = Some (VDict d)
  /\ Forall (fun p => lo <= p <= hi)
       (setpoints (drop (length (trace (wc w))) (trace s'))).
Proof.
  intros HI Hen Hlo Hhi H0 Hle H4095. cbv zeta.
  destruct (lim_worker bus servo_id l d lo hi Hen Hlo Hhi
              ltac:(lia) fuel w HI) as (HI' & t & Ht & Hw).
  split; [exact HI' |].
  rewrite Ht, drop_app_length. by apply within_setpoints.
Qed.

Lemma limits_bound_every_setpoint_witness :
  let t := drop (length (trace limited))
             (trace (wc (snd (_continuous_movement_worker (ok_bus 500) 6 1 0%nat
                                (new_worker limited))))) in
  setpoints t = [1000; 1000; 1200; 1400; 1600; 1800]
  /\ Forall (fun p => 1000 <= p <= 3000) (setpoints t).
Proof.
  cbv zeta. split; [vm_compute; reflexivity |].
  apply (limits_bound_every_setpoint (ok_bus 500) 6 1 0%nat
           (<["max_angle" := VInt 3000]>
              (<["min_angle" := VInt 1000]>
                 (<["enabled" := VBool true]> ∅)))
           1000 3000 (new_worker limited));
    first [lia | vm_compute; reflexivity].
Defined.
